(** * Layered calorimeter geometries and their material ledger

    A shallow embedding of [helpers/G4Calo.py], [helpers/Trackers.py] and
    [Design.py]: the ordered layer list, the cost / X0 / lambda_I ledger with its
    global, overridable material catalog, and the three design builders;
    and of what [viz_event.py] and [helpers/Simulations.py] compute before
    they draw or simulate: the layer edges and the legend of the event
    display, and the call plan of a parametric sample.

    - Numbers.  Python's [float] is IEEE 754 binary64; it is embedded as Rocq's
      primitive [float], whose operations are the same binary64 operations
      with round-to-nearest-even, and whose literals denote the nearest
      binary64 number as Python's do.  The program text is written once, over
      the interface of the arithmetic it uses ([Arith]), and read at two
      instances: [binary64] (what the interpreter computes) and [rational]
      (exact, what the formulas mean before rounding).  A Python [int] is a
      [Z]; [float(n)] rounds it to the nearest float (an int beyond the float
      range, for which Python raises [OverflowError], is outside the model).
      The quotient [n / d] of two ints is the exact quotient rounded once; it
      is embedded on [spec_float], the specification that the primitive floats
      implement.
    - State.  The module-level tables of [Trackers], a tracker and the
      geometry under construction are mutated in place; a computation is a
      function from the state to an outcome and the state it leaves, so that
      what was mutated before an exception stays mutated.
    - Exceptions.  [KeyError] (a missing dictionary key) and
      [ZeroDivisionError] (a float division by zero) are the only ones the
      modelled code of the ledger and of the builders raises on arguments of
      its annotated types; the call plan has its own, among them the
      [ZeroDivisionError] of an int division.
    - Dictionaries keep insertion order, as Python's do; the order matters
      wherever floats are summed. *)

From Stdlib Require Import ZArith List String Ascii Bool Lia.
From Stdlib Require Import Floats QArith Qcanon Field.
From Stdlib Require Import Sorted.
From Stdlib Require OrderedTypeEx.
Import ListNotations.

Set Implicit Arguments.
Set Warnings "-inexact-float".

(** ** The arithmetic of the program *)

Class Arith (F : Type) := {
  fzero : F;                 (* the literal 0.0 *)
  ftol : F;                  (* the literal 1e-6 *)
  fadd : F -> F -> F;        (* x + y *)
  fsub : F -> F -> F;        (* x - y *)
  fmul : F -> F -> F;        (* x * y *)
  fquot : F -> F -> F;       (* x / y, for a divisor that is not zero *)
  of_int : Z -> F;           (* float(n), and the coercion of n in x * n *)
  feqb : F -> F -> bool;     (* x == y *)
  fltb : F -> F -> bool      (* x < y *)
}.

(** [float(n)] of a Python int: the nearest binary64 number, ties to even. *)
Definition Z2float (n : Z) : float :=
  SF2Prim (binary_normalize prec emax n 0 false).

#[export] Instance binary64 : Arith float := {|
  fzero := 0%float;
  ftol := 1e-6%float;
  fadd := PrimFloat.add;
  fsub := PrimFloat.sub;
  fmul := PrimFloat.mul;
  fquot := PrimFloat.div;
  of_int := Z2float;
  feqb := PrimFloat.eqb;
  fltb := PrimFloat.ltb
|}.

#[export] Instance rational : Arith Qc := {|
  fzero := Q2Qc 0;
  ftol := Q2Qc (1 # 1000000);
  fadd := Qcplus;
  fsub := Qcminus;
  fmul := Qcmult;
  fquot := Qcdiv;
  of_int := fun n => Q2Qc (inject_Z n);
  feqb := Qc_eq_bool;
  fltb := fun x y => match Qccompare x y with Lt => true | _ => false end
|}.

(** The literals of the helpers that [Arith] does not have.  [math.pi] is the
    float 0x1.921fb54442d18p+1, a rational number. *)
Class Literals (F : Type) := {
  f_1e_4 : F;                (* 1e-4 *)
  f_1e_2 : F;                (* 1e-2 *)
  f_pi : F;                  (* math.pi *)
  f_10 : F;                  (* 10.0 *)
  f_half : F                 (* 0.5 *)
}.

#[export] Instance binary64_literals : Literals float := {|
  f_1e_4 := 1e-4%float;
  f_1e_2 := 1e-2%float;
  f_pi := 3.141592653589793%float;
  f_10 := 10%float;
  f_half := 0.5%float
|}.

#[export] Instance rational_literals : Literals Qc := {|
  f_1e_4 := Q2Qc (1 # 10000);
  f_1e_2 := Q2Qc (1 # 100);
  f_pi := Q2Qc (7074237752028440 # 2251799813685248);
  f_10 := Q2Qc 10;
  f_half := Q2Qc (1 # 2)
|}.

(** ** Exceptions and the state-and-exception monad

    A call mutates objects in place and may raise; what was mutated before the
    raise stays mutated.  A computation therefore returns the final state
    together with either the exception or the value. *)

Inductive exn : Type :=
| KeyError (msg : string)
| ZeroDivisionError.

Definition M (S A : Type) : Type := S -> (exn + A) * S.

Definition ret {S A} (a : A) : M S A := fun s => (inr a, s).

Definition raise {S A} (e : exn) : M S A := fun s => (inl e, s).

Definition bind {S A B} (c : M S A) (k : A -> M S B) : M S B :=
  fun s =>
    match c s with
    | (inl e, s') => (inl e, s')
    | (inr a, s') => k a s'
    end.

Definition get {S} : M S S := fun s => (inr s, s).

Definition put {S} (s : S) : M S unit := fun _ => (inr tt, s).

Declare Scope monad_scope.
Delimit Scope monad_scope with monad.
Notation "x <- c ;; k" := (bind c (fun x => k))
  (at level 61, c at next level, right associativity) : monad_scope.
Notation "c ;; k" := (bind c (fun _ => k))
  (at level 61, right associativity) : monad_scope.
Local Open Scope monad_scope.

(** [for _ in range(n): body] *)
Fixpoint repeatM {S} (n : nat) (body : M S unit) : M S unit :=
  match n with
  | O => ret tt
  | Datatypes.S k => body ;; repeatM k body
  end.

Definition for_range {S} (n : Z) (body : M S unit) : M S unit :=
  repeatM (Z.to_nat n) body.

(** [for x in xs: body x] *)
Fixpoint for_each {S A} (xs : list A) (body : A -> M S unit) : M S unit :=
  match xs with
  | [] => ret tt
  | x :: xs' => body x ;; for_each xs' body
  end.

(** ** Python dictionaries with string keys

    A [dict] keeps its keys in insertion order; assigning to a key that is
    present replaces the value where it stands. *)

Definition dict (V : Type) : Type := list (string * V).

Fixpoint dict_get {V} (d : dict V) (k : string) : option V :=
  match d with
  | [] => None
  | (k', v) :: d' => if String.eqb k' k then Some v else dict_get d' k
  end.

Fixpoint dict_set {V} (d : dict V) (k : string) (v : V) : dict V :=
  match d with
  | [] => [(k, v)]
  | (k', v') :: d' =>
      if String.eqb k' k then (k', v) :: d' else (k', v') :: dict_set d' k v
  end.

(** [k in d] *)
Definition dict_mem {V} (d : dict V) (k : string) : bool :=
  match dict_get d k with Some _ => true | None => false end.

(** [d.get(k, dflt)] *)
Definition dict_get_default {V} (d : dict V) (k : string) (dflt : V) : V :=
  match dict_get d k with Some v => v | None => dflt end.

Definition dict_keys {V} (d : dict V) : list string := map fst d.

Definition dict_values {V} (d : dict V) : list V := map snd d.

(** [d[k]], raising [KeyError(k)] *)
Definition dict_lookup {S V} (d : dict V) (k : string) : M S V :=
  match dict_get d k with
  | Some v => ret v
  | None => raise (KeyError k)
  end.

Section Numbers.
Context {F : Type} `{Arith F}.

(** [x / y]: Python raises on a zero divisor, of either sign. *)
Definition fdiv {S} (x y : F) : M S F :=
  if feqb y fzero then raise ZeroDivisionError else ret (fquot x y).

(** The builtin [sum], which starts from the int 0. *)
Definition py_sum (xs : list F) : F := fold_left fadd xs (of_int 0).

End Numbers.

(** ** helpers/G4Calo.py *)

Module G4Calo.

Record Layer (F : Type) : Type := {
  thickness_cm : F;
  material : string;
  sensitive : bool
}.

Record GeometryDescriptor (F : Type) : Type := {
  area_m2 : F;
  layers : list (Layer F)
}.

Section G4Calo.
Context {F : Type} `{Arith F}.

(** [GeometryDescriptor()]: area 1.0, no layer. *)
Definition new : GeometryDescriptor F :=
  {| area_m2 := of_int 1; layers := [] |}.

Definition addLayer (self : GeometryDescriptor F)
    (thickness_cm : F) (material : string) (sensitive : bool)
  : GeometryDescriptor F :=
  {| area_m2 := area_m2 self;
     layers := layers self ++
       [ {| thickness_cm := thickness_cm; material := material;
            sensitive := sensitive |} ] |}.

(** [as_specs()["total_len_cm"]]: [sum(L.thickness_cm for L in self.layers)] *)
Definition total_len_cm (self : GeometryDescriptor F) : F :=
  py_sum (map (@thickness_cm F) (layers self)).

End G4Calo.

(** An entry of [as_specs()["layers"]]: a dictionary with the keys [material],
    [thickness_cm] and [sensitive]. *)
Record LayerSpec (F : Type) : Type := {
  ls_material : string;
  ls_thickness_cm : F;
  ls_sensitive : bool
}.

(** What [as_specs()] returns: a dictionary with the keys [total_len_cm],
    [total_lambda] (always [None]) and [layers]. *)
Record Specs (F : Type) : Type := {
  as_total_len_cm : F;
  as_total_lambda : option F;
  as_layers : list (LayerSpec F)
}.

Section AsSpecs.
Context {F : Type} `{Arith F}.

Definition as_specs (self : GeometryDescriptor F) : Specs F :=
  {| as_total_len_cm := py_sum (map (@thickness_cm F) (layers self));
     as_total_lambda := None;
     as_layers :=
       map (fun L => {| ls_material := material L;
                        ls_thickness_cm := thickness_cm L;
                        ls_sensitive := sensitive L |})
           (layers self) |}.

End AsSpecs.
End G4Calo.

(** ** helpers/Trackers.py *)

Module Trackers.

Record MaterialProps (F : Type) : Type := {
  X0_cm : F;
  lambdaI_cm : F
}.

(** The module's tables.  [X0_CM] and [LAMBDA_INT_CM] are dictionaries of their
    own, filled from [MATERIAL_PROP] once, when the module is imported. *)
Record Globals (F : Type) : Type := {
  COST_CHF_PER_CM_M2 : dict F;
  MATERIAL_PROP : dict (MaterialProps F);
  X0_CM : dict F;
  LAMBDA_INT_CM : dict F
}.

Record CostTracker (F : Type) : Type := {
  area_m2 : F;
  by_material_cm : dict F;
  by_material_chf : dict F;
  by_material_X0 : dict F;
  by_material_lambdaI : dict F;
  total_length_cm : F;
  total_cost_chf : F;
  total_X0 : F;
  total_lambdaI : F
}.

(** What [summary()] returns; a row of ["by_material"] is a dictionary with the
    keys [total_cm], [total_X0], [total_lambdaI], [total_cost_chf],
    [price_chf_per_cm_m2], [X0_cm] and [lambdaI_cm]. *)
Record Summary (F : Type) : Type := {
  s_area_m2 : F;
  s_by_material : dict (dict F);
  s_total_length_cm : F;
  s_total_X0 : F;
  s_total_lambdaI : F;
  s_total_cost_chf : F
}.

(** [sorted(set(ks))] *)
Fixpoint insert_key (k : string) (l : list string) : list string :=
  match l with
  | [] => [k]
  | k' :: l' =>
      match String.compare k k' with
      | Lt => k :: l
      | Eq => l
      | Gt => k' :: insert_key k l'
      end
  end.

Definition sorted_set (ks : list string) : list string :=
  fold_right insert_key [] ks.

Section Trackers.
Context {F : Type} `{Arith F}.

(** The state a method of a tracker runs in: the module's tables and [self]. *)
Definition state : Type := (Globals F * CostTracker F)%type.

(** The tables as the import leaves them. *)
Definition import (cost : dict F) (prop : dict (MaterialProps F)) : Globals F :=
  {| COST_CHF_PER_CM_M2 := cost;
     MATERIAL_PROP := prop;
     X0_CM := map (fun kv => (fst kv, X0_cm (snd kv))) prop;
     LAMBDA_INT_CM := map (fun kv => (fst kv, lambdaI_cm (snd kv))) prop |}.

(** [CostTracker(area_m2)] *)
Definition new (area : F) : CostTracker F :=
  {| area_m2 := area;
     by_material_cm := []; by_material_chf := [];
     by_material_X0 := []; by_material_lambdaI := [];
     total_length_cm := fzero; total_cost_chf := fzero;
     total_X0 := fzero; total_lambdaI := fzero |}.

Definition cost_of_layer (thickness_cm : F) (material : string) (area : F)
  : M state F :=
  s <- get ;;
  match dict_get (COST_CHF_PER_CM_M2 (fst s)) material with
  | Some rate => ret (fmul (fmul thickness_cm area) rate)
  | None => raise (KeyError ("Unknown material for cost model: " ++ material))
  end.

Definition set_price (material : string) (chf_per_cm_m2 : F) : M state unit :=
  s <- get ;;
  let g := fst s in
  put ({| COST_CHF_PER_CM_M2 :=
            dict_set (COST_CHF_PER_CM_M2 g) material chf_per_cm_m2;
          MATERIAL_PROP := MATERIAL_PROP g;
          X0_CM := X0_CM g;
          LAMBDA_INT_CM := LAMBDA_INT_CM g |}, snd s).

Definition set_material_props (material : string) (X0 lambdaI : F)
  : M state unit :=
  s <- get ;;
  let g := fst s in
  put ({| COST_CHF_PER_CM_M2 := COST_CHF_PER_CM_M2 g;
          MATERIAL_PROP :=
            dict_set (MATERIAL_PROP g) material
              {| X0_cm := X0; lambdaI_cm := lambdaI |};
          X0_CM := X0_CM g;
          LAMBDA_INT_CM := LAMBDA_INT_CM g |}, snd s).

Definition _check_material (material : string) : M state unit :=
  s <- get ;;
  if negb (dict_mem (COST_CHF_PER_CM_M2 (fst s)) material) then
    raise (KeyError ("Unknown material for cost model: " ++ material))
  else if negb (dict_mem (MATERIAL_PROP (fst s)) material) then
    raise (KeyError ("Missing MATERIAL_PROP entry for: " ++ material))
  else ret tt.

(** The assignments that end [add]: the four per-material accumulators of
    [material], then the four totals. *)
Definition accumulate (self : CostTracker F) (material : string)
    (tcm chf x0_units li_units : F) : CostTracker F :=
  {| area_m2 := area_m2 self;
     by_material_cm :=
       dict_set (by_material_cm self) material
         (fadd (dict_get_default (by_material_cm self) material fzero) tcm);
     by_material_chf :=
       dict_set (by_material_chf self) material
         (fadd (dict_get_default (by_material_chf self) material fzero) chf);
     by_material_X0 :=
       dict_set (by_material_X0 self) material
         (fadd (dict_get_default (by_material_X0 self) material fzero)
               x0_units);
     by_material_lambdaI :=
       dict_set (by_material_lambdaI self) material
         (fadd (dict_get_default (by_material_lambdaI self) material fzero)
               li_units);
     total_length_cm := fadd (total_length_cm self) tcm;
     total_cost_chf := fadd (total_cost_chf self) chf;
     total_X0 := fadd (total_X0 self) x0_units;
     total_lambdaI := fadd (total_lambdaI self) li_units |}.

Definition add (material : string) (thickness_cm : F) (count : Z)
  : M state unit :=
  _check_material material ;;
  s <- get ;;
  let g := fst s in
  let self := snd s in
  let tcm := fmul thickness_cm (of_int count) in
  chf <- cost_of_layer tcm material (area_m2 self) ;;
  props <- dict_lookup (MATERIAL_PROP g) material ;;
  x0_units <- fdiv tcm (X0_cm props) ;;
  li_units <- fdiv tcm (lambdaI_cm props) ;;
  put (g, accumulate self material tcm chf x0_units li_units).

Definition add_pair (layers : string * F * string * F) (count : Z)
  : M state unit :=
  let '(m1, t1, m2, t2) := layers in
  add m1 t1 count ;;
  add m2 t2 count.

Definition add_period (spec : list (string * F)) (count : Z) : M state unit :=
  for_range count
    (for_each spec (fun mt => add (fst mt) (snd mt) 1)).

(** The row of one material in [summary()["by_material"]]. *)
Definition summary_row (m : string) : M state (dict F) :=
  s <- get ;;
  let g := fst s in
  let self := snd s in
  price <- dict_lookup (COST_CHF_PER_CM_M2 g) m ;;
  props <- dict_lookup (MATERIAL_PROP g) m ;;
  ret [ ("total_cm", dict_get_default (by_material_cm self) m fzero);
        ("total_X0", dict_get_default (by_material_X0 self) m fzero);
        ("total_lambdaI", dict_get_default (by_material_lambdaI self) m fzero);
        ("total_cost_chf", dict_get_default (by_material_chf self) m fzero);
        ("price_chf_per_cm_m2", price);
        ("X0_cm", X0_cm props);
        ("lambdaI_cm", lambdaI_cm props) ]%string.

Fixpoint summary_rows (mats : list string) : M state (dict (dict F)) :=
  match mats with
  | [] => ret []
  | m :: mats' =>
      row <- summary_row m ;;
      rows <- summary_rows mats' ;;
      ret ((m, row) :: rows)
  end.

Definition summary : M state (Summary F) :=
  s <- get ;;
  let self := snd s in
  let mats :=
    sorted_set (dict_keys (by_material_cm self) ++
                dict_keys (by_material_chf self) ++
                dict_keys (by_material_X0 self) ++
                dict_keys (by_material_lambdaI self)) in
  by_mat <- summary_rows mats ;;
  ret {| s_area_m2 := area_m2 self;
         s_by_material := by_mat;
         s_total_length_cm := total_length_cm self;
         s_total_X0 := total_X0 self;
         s_total_lambdaI := total_lambdaI self;
         s_total_cost_chf := total_cost_chf self |}.

End Trackers.

Section Areas.
Context {F : Type} `{Arith F} `{Literals F}.

(** m^2 of a [width_cm] x [height_cm] slab. *)
Definition area_rect_m2 (width_cm height_cm : F) : F :=
  fmul (fmul width_cm height_cm) f_1e_4.

(** m^2 of a disc of radius [radius_cm]. *)
Definition area_cyl_m2 (radius_cm : F) : F :=
  let r_m := fmul radius_cm f_1e_2 in
  fmul (fmul f_pi r_m) r_m.

End Areas.

(** The price list and the material properties of the source. *)
Definition COST_CHF_PER_CM_M2_0 : dict float :=
  [ ("G4_POLYSTYRENE", 0.0); ("G4_Pb", 300.0); ("G4_Fe", 50.0);
    ("G4_W", 6000.0); ("G4_Cu", 800.0); ("G4_BRASS", 200.0);
    ("G4_PbWO4", 30000.0) ]%float%string.

Definition MATERIAL_PROP_0 : dict (MaterialProps float) :=
  [ ("G4_POLYSTYRENE", {| X0_cm := 42.4; lambdaI_cm := 77.0 |});
    ("G4_Pb", {| X0_cm := 0.56; lambdaI_cm := 17.1 |});
    ("G4_Fe", {| X0_cm := 1.76; lambdaI_cm := 16.8 |});
    ("G4_W", {| X0_cm := 0.35; lambdaI_cm := 9.6 |});
    ("G4_Cu", {| X0_cm := 1.43; lambdaI_cm := 15.3 |});
    ("G4_BRASS", {| X0_cm := 1.50; lambdaI_cm := 15.0 |});
    ("G4_PbWO4", {| X0_cm := 0.89; lambdaI_cm := 20.7 |}) ]%float%string.

Definition globals0 : Globals float :=
  import COST_CHF_PER_CM_M2_0 MATERIAL_PROP_0.

End Trackers.

(** ** Design.py *)

Module Design.

(** The values of a [specs] dictionary. *)
Inductive pyval (F : Type) : Type :=
| PyFloat (x : F)
| PyStr (s : string)
| PyBool (b : bool).
Arguments PyStr {F} s.
Arguments PyBool {F} b.

(** What a builder runs in: the tables of [Trackers], the caller's
    [cost_tracker] (shared, or [None]) and the builder's own [gd]. *)
Record env (F : Type) : Type := {
  globals : Trackers.Globals F;
  cost_tracker : option (Trackers.CostTracker F);
  gd : G4Calo.GeometryDescriptor F
}.

Section Design.
Context {F : Type} `{Arith F}.

(** [gd = GeometryDescriptor()] *)
Definition gd_new : M (env F) unit :=
  e <- get ;;
  put {| globals := globals e; cost_tracker := cost_tracker e;
         gd := G4Calo.new |}.

(** [gd.addLayer(thickness, material, sensitive)] *)
Definition gd_addLayer (thickness : F) (material : string) (sensitive : bool)
  : M (env F) unit :=
  e <- get ;;
  put {| globals := globals e; cost_tracker := cost_tracker e;
         gd := G4Calo.addLayer (gd e) thickness material sensitive |}.

(** [if cost_tracker is not None: cost_tracker.add(material, thickness)] *)
Definition tracker_add (material : string) (thickness : F) : M (env F) unit :=
  fun e =>
    match cost_tracker e with
    | None => (inr tt, e)
    | Some ct =>
        let '(r, (g', ct')) :=
          Trackers.add material thickness 1 (globals e, ct) in
        (r, {| globals := g'; cost_tracker := Some ct'; gd := gd e |})
    end.

(** [LAMBDA_INT_CM[material]] *)
Definition lambda_int_cm (material : string) : M (env F) F :=
  e <- get ;;
  dict_lookup (Trackers.LAMBDA_INT_CM (globals e)) material.

(** The nested [add_section] of the three builders, with the builder's
    [absorber], [active] and [sensitive_active_only] as arguments. *)
Definition add_section (absorber active : string) (sensitive_active_only : bool)
    (n_pairs : Z) (t_abs_cm t_act_cm : F) : M (env F) unit :=
  for_range n_pairs
    (gd_addLayer t_abs_cm absorber false ;;
     gd_addLayer t_act_cm active sensitive_active_only ;;
     tracker_add absorber t_abs_cm ;;
     tracker_add active t_act_cm).

Section V1.
Variables (total_X0 X0_cm : F) (ecal_slices : Z) (ecal_material : string).
Variables (front_pairs : Z) (fe_front sc_front : F).
Variables (mid_pairs : Z) (fe_mid sc_mid : F).
Variables (back_pairs : Z) (fe_back sc_back : F).
Variables (absorber active : string) (sensitive_active_only : bool).

Definition lam_pair (t_abs_cm t_act_cm : F) : M (env F) F :=
  la <- lambda_int_cm absorber ;;
  qa <- fdiv t_abs_cm la ;;
  lb <- lambda_int_cm active ;;
  qb <- fdiv t_act_cm lb ;;
  ret (fadd qa qb).

Definition build_ecal_pbwo4_26X0_then_graded_fe_scint_hcal_200cm_v1
  : M (env F) (G4Calo.GeometryDescriptor F * dict (pyval F)) :=
  gd_new ;;
  let ecal_len_cm := fmul total_X0 X0_cm in
  ecal_slice <- fdiv ecal_len_cm (of_int ecal_slices) ;;
  for_range ecal_slices
    (gd_addLayer ecal_slice ecal_material true ;;
     tracker_add ecal_material ecal_slice) ;;
  add_section absorber active sensitive_active_only
    front_pairs fe_front sc_front ;;
  add_section absorber active sensitive_active_only mid_pairs fe_mid sc_mid ;;
  add_section absorber active sensitive_active_only
    back_pairs fe_back sc_back ;;
  let hcal_len_cm :=
    fadd (fadd (fmul (of_int front_pairs) (fadd fe_front sc_front))
               (fmul (of_int mid_pairs) (fadd fe_mid sc_mid)))
         (fmul (of_int back_pairs) (fadd fe_back sc_back)) in
  let total_len_cm := fadd ecal_len_cm hcal_len_cm in
  lam_ecal <- lambda_int_cm ecal_material ;;
  ecal_lambda <- fdiv ecal_len_cm lam_ecal ;;
  pf <- lam_pair fe_front sc_front ;;
  let lam_front := fmul (of_int front_pairs) pf in
  pm <- lam_pair fe_mid sc_mid ;;
  let lam_mid := fmul (of_int mid_pairs) pm in
  pb <- lam_pair fe_back sc_back ;;
  let lam_back := fmul (of_int back_pairs) pb in
  let hcal_lambda := fadd (fadd lam_front lam_mid) lam_back in
  let total_lambda := fadd ecal_lambda hcal_lambda in
  e <- get ;;
  ret (gd e,
       [ ("ecal_len_cm", PyFloat ecal_len_cm);
         ("ecal_slice_cm", PyFloat ecal_slice);
         ("ecal_lambda", PyFloat ecal_lambda);
         ("front_pairs", PyFloat (of_int front_pairs));
         ("fe_front", PyFloat fe_front); ("sc_front", PyFloat sc_front);
         ("mid_pairs", PyFloat (of_int mid_pairs));
         ("fe_mid", PyFloat fe_mid); ("sc_mid", PyFloat sc_mid);
         ("back_pairs", PyFloat (of_int back_pairs));
         ("fe_back", PyFloat fe_back); ("sc_back", PyFloat sc_back);
         ("hcal_len_cm", PyFloat hcal_len_cm);
         ("hcal_lambda", PyFloat hcal_lambda);
         ("total_len_cm", PyFloat total_len_cm);
         ("total_lambda", PyFloat total_lambda) ]%string).

End V1.

Section V2.
Variables (ecal_pairs : Z) (pb_per_pair_cm sc_per_pair_cm : F).
Variables (ecal_absorber ecal_active : string).
Variables (front_pairs : Z) (fe_front sc_front : F).
Variables (mid_pairs : Z) (fe_mid sc_mid : F).
Variables (back_pairs : Z) (fe_back sc_back : F).
Variables (absorber active : string) (sensitive_active_only : bool).

Definition build_pb_scint_ecal_then_graded_fe_scint_hcal_200cm_v2
  : M (env F) (G4Calo.GeometryDescriptor F * dict (pyval F)) :=
  gd_new ;;
  for_range ecal_pairs
    (gd_addLayer pb_per_pair_cm ecal_absorber false ;;
     gd_addLayer sc_per_pair_cm ecal_active true ;;
     tracker_add ecal_absorber pb_per_pair_cm ;;
     tracker_add ecal_active sc_per_pair_cm) ;;
  let ecal_len_cm :=
    fmul (of_int ecal_pairs) (fadd pb_per_pair_cm sc_per_pair_cm) in
  add_section absorber active sensitive_active_only
    front_pairs fe_front sc_front ;;
  add_section absorber active sensitive_active_only mid_pairs fe_mid sc_mid ;;
  add_section absorber active sensitive_active_only
    back_pairs fe_back sc_back ;;
  let hcal_len_cm :=
    fadd (fadd (fmul (of_int front_pairs) (fadd fe_front sc_front))
               (fmul (of_int mid_pairs) (fadd fe_mid sc_mid)))
         (fmul (of_int back_pairs) (fadd fe_back sc_back)) in
  e <- get ;;
  ret (gd e,
       [ ("ecal_pairs", PyFloat (of_int ecal_pairs));
         ("pb_per_pair_cm", PyFloat pb_per_pair_cm);
         ("sc_per_pair_cm", PyFloat sc_per_pair_cm);
         ("ecal_absorber", PyStr ecal_absorber);
         ("ecal_active", PyStr ecal_active);
         ("ecal_len_cm", PyFloat ecal_len_cm);
         ("front_pairs", PyFloat (of_int front_pairs));
         ("fe_front", PyFloat fe_front); ("sc_front", PyFloat sc_front);
         ("mid_pairs", PyFloat (of_int mid_pairs));
         ("fe_mid", PyFloat fe_mid); ("sc_mid", PyFloat sc_mid);
         ("back_pairs", PyFloat (of_int back_pairs));
         ("fe_back", PyFloat fe_back); ("sc_back", PyFloat sc_back);
         ("hcal_len_cm", PyFloat hcal_len_cm);
         ("total_len_cm", PyFloat (fadd ecal_len_cm hcal_len_cm));
         ("ecal_slice_cm", PyFloat sc_per_pair_cm) ]%string).

End V2.

Section V4_2.
Variables (ecal_pairs : Z) (pb_cm sc_cm pbwo4_cm : F) (add_scint_endcap : bool).
Variables (ecal_pb ecal_scint ecal_pbwo4 : string).
Variables (trans_pairs : Z) (fe_trans sc_trans : F).
Variables (mid_pairs : Z) (fe_mid sc_mid : F).
Variables (back_pairs : Z) (fe_back sc_back : F).
Variables (hcal_absorber hcal_active : string) (sensitive_active_only : bool).
Variable (target_total_len_cm : F).

(** The builder up to its shim: the ECAL triplets, the end-cap, the three HCAL
    sections and the length of what was built.  Returns [(ecal_len, total_len)]
    as they stand before [leftover] is computed. *)
Definition v4_2_stack : M (env F) (F * F) :=
  gd_new ;;
  for_range ecal_pairs
    (gd_addLayer pb_cm ecal_pb false ;;
     gd_addLayer sc_cm ecal_scint true ;;
     gd_addLayer pbwo4_cm ecal_pbwo4 false ;;
     tracker_add ecal_pb pb_cm ;;
     tracker_add ecal_scint sc_cm ;;
     tracker_add ecal_pbwo4 pbwo4_cm) ;;
  let ecal_len0 :=
    fmul (of_int ecal_pairs) (fadd (fadd pb_cm sc_cm) pbwo4_cm) in
  ecal_len <-
    (if add_scint_endcap then
       gd_addLayer sc_cm ecal_scint true ;;
       tracker_add ecal_scint sc_cm ;;
       ret (fadd ecal_len0 sc_cm)
     else ret ecal_len0) ;;
  add_section hcal_absorber hcal_active sensitive_active_only
    trans_pairs fe_trans sc_trans ;;
  add_section hcal_absorber hcal_active sensitive_active_only
    mid_pairs fe_mid sc_mid ;;
  add_section hcal_absorber hcal_active sensitive_active_only
    back_pairs fe_back sc_back ;;
  let total_len :=
    fadd (fadd (fadd ecal_len
                     (fmul (of_int trans_pairs) (fadd fe_trans sc_trans)))
               (fmul (of_int mid_pairs) (fadd fe_mid sc_mid)))
         (fmul (of_int back_pairs) (fadd fe_back sc_back)) in
  ret (ecal_len, total_len).

Definition build_triple_ecal_then_fe_scint_hcal_2m_v4_2
  : M (env F) (G4Calo.GeometryDescriptor F * dict (pyval F)) :=
  built <- v4_2_stack ;;
  let ecal_len := fst built in
  let total_len0 := snd built in
  let leftover := fsub target_total_len_cm total_len0 in
  total_len <-
    (if fltb ftol leftover then
       gd_addLayer leftover hcal_absorber false ;;
       tracker_add hcal_absorber leftover ;;
       ret (fadd total_len0 leftover)
     else ret total_len0) ;;
  e <- get ;;
  ret (gd e,
       [ ("ecal_pairs", PyFloat (of_int ecal_pairs));
         ("pb_cm", PyFloat pb_cm); ("sc_cm", PyFloat sc_cm);
         ("pbwo4_cm", PyFloat pbwo4_cm);
         ("scint_endcap", PyBool add_scint_endcap);
         ("ecal_len_cm", PyFloat ecal_len);
         ("trans_pairs", PyFloat (of_int trans_pairs));
         ("fe_trans", PyFloat fe_trans); ("sc_trans", PyFloat sc_trans);
         ("mid_pairs", PyFloat (of_int mid_pairs));
         ("fe_mid", PyFloat fe_mid); ("sc_mid", PyFloat sc_mid);
         ("back_pairs", PyFloat (of_int back_pairs));
         ("fe_back", PyFloat fe_back); ("sc_back", PyFloat sc_back);
         ("total_len_cm", PyFloat total_len);
         ("ecal_slice_cm", PyFloat sc_cm) ]%string).

End V4_2.

(** A call of a builder: the tables, the caller's tracker, a field for [gd]. *)
Definition call {A} (c : M (env F) A) (g : Trackers.Globals F)
    (ct : option (Trackers.CostTracker F))
  : (exn + A) * env F :=
  c {| globals := g; cost_tracker := ct; gd := G4Calo.new |}.

End Design.

(** The three builders with the defaults of their signatures. *)
Definition v1_defaults :=
  build_ecal_pbwo4_26X0_then_graded_fe_scint_hcal_200cm_v1
    26.0%float 0.89%float 30 "G4_PbWO4"
    16 0.8%float 0.8%float 32 1.2%float 0.6%float 47 1.5%float 0.5%float
    "G4_Fe" "G4_POLYSTYRENE" true.

Definition v2_defaults :=
  build_pb_scint_ecal_then_graded_fe_scint_hcal_200cm_v2
    60 0.20%float 0.20%float "G4_Pb" "G4_POLYSTYRENE"
    18 0.5%float 1.0%float 28 1.0%float 0.7%float 50 1.5%float 0.5%float
    "G4_Fe" "G4_POLYSTYRENE" true.

Definition v4_2_defaults :=
  build_triple_ecal_then_fe_scint_hcal_2m_v4_2
    60 0.15%float 0.20%float 0.10%float true
    "G4_Pb" "G4_POLYSTYRENE" "G4_PbWO4"
    8 0.30%float 1.20%float 24 1.00%float 0.70%float 50 1.50%float 0.50%float
    "G4_Fe" "G4_POLYSTYRENE" true 200.0%float.

End Design.

(** ** viz_event.py *)

Module viz_event.

Local Open Scope string_scope.

Definition MAT_COLOR : dict string :=
  [ ("G4_POLYSTYRENE", "#66c2a5"); ("G4_Pb", "#b2182b"); ("G4_Fe", "#2166ac");
    ("G4_W", "#542788"); ("G4_Cu", "#a6611a"); ("G4_BRASS", "#d95f02");
    ("G4_PbWO4", "#ffd92f") ].

(** An entry of [layer_info]: [(thickness_mm, material, sensitive)]. *)
Definition layer_info (F : Type) : Type := (F * string * bool)%type.

(** A key of [seen] in [display_event]: [(mat, sens)]. *)
Definition seen_key : Type := (string * bool)%type.

Definition seen_key_eqb (k1 k2 : seen_key) : bool :=
  String.eqb (fst k1) (fst k2) && Bool.eqb (snd k1) (snd k2).

(** [key in seen] *)
Definition seen_mem {V} (seen : list (seen_key * V)) (key : seen_key) : bool :=
  existsb (fun kv => seen_key_eqb (fst kv) key) seen.

(** A legend handle: the face colour and the hatch of its patch. *)
Record handle : Type := {
  facecolor : string;
  hatch : option string
}.

Section viz_event.
Context {F : Type} `{Arith F} `{Literals F}.

(** One pass of the loop of [_layer_edges_mm], on [(z, edges, info)]. *)
Definition edges_step (st : F * list F * list (layer_info F))
    (L : G4Calo.Layer F) : F * list F * list (layer_info F) :=
  let '(z, edges, info) := st in
  let t_mm := fmul (G4Calo.thickness_cm L) f_10 in
  let info :=
    (info ++ [(t_mm, G4Calo.material L, G4Calo.sensitive L)])%list in
  let z := fadd z t_mm in
  (z, (edges ++ [z])%list, info).

(** Returns [(z_edges_mm, z_centers_mm, layer_info)]. *)
Definition _layer_edges_mm (gd : G4Calo.GeometryDescriptor F)
  : list F * list F * list (layer_info F) :=
  let '(_, edges, info) :=
    fold_left edges_step (G4Calo.layers gd) (fzero, [fzero], []) in
  let centers :=
    map (fun i => fmul (fadd (nth i edges fzero) (nth (S i) edges fzero))
                       f_half)
        (seq 0 (List.length edges - 1)) in
  (edges, centers, info).

(** [total_z] of [display_event]: [z_edges[-1] if z_edges else 0.0]. *)
Definition total_z (gd : G4Calo.GeometryDescriptor F) : F :=
  let '(z_edges, _, _) := _layer_edges_mm gd in
  match z_edges with
  | [] => fzero
  | _ :: _ => last z_edges fzero
  end.

(** The dictionary [seen] of [display_event] after its loop over
    [layer_info]: the first occurrence of each [(mat, sens)], with its colour
    and [sens]. *)
Definition display_event_seen (info : list (layer_info F))
  : list (seen_key * (string * bool)) :=
  fold_left
    (fun seen (i : layer_info F) =>
       let '(_, mat, sens) := i in
       if seen_mem seen (mat, sens) then seen
       else (seen ++ [((mat, sens),
                       (dict_get_default MAT_COLOR mat "#cccccc", sens))])%list)
    info [].

(** The [handles] and [labels] of the legend of [display_event]. *)
Definition display_event_legend (info : list (layer_info F))
  : list handle * list string :=
  let seen := display_event_seen info in
  (map (fun kv =>
          let '((mat, sens), (c, sflag)) := kv in
          {| facecolor := c;
             hatch := if (sflag : bool) then Some "////" else None |}) seen,
   map (fun kv =>
          let '((mat, sens), (c, sflag)) := kv in
          (mat ++ (if (sflag : bool) then " (sensitive)" else ""))%string)
       seen).

End viz_event.
End viz_event.

(** ** helpers/Simulations.py *)

Module Simulations.

(** The exceptions of the call plan. *)
Inductive error : Type :=
| ZeroDivisionError
| OverflowError
| ValueError.

(** A Python int as an unrounded binary fraction: itself, times [2 ^ 0]. *)
Definition of_int (a : Z) : spec_float :=
  match a with
  | Z0 => S754_zero false
  | Zpos p => S754_finite false p 0
  | Zneg p => S754_finite true p 0
  end.

(** [a / b] of two ints: the float nearest to the quotient (ties to even),
    [OverflowError] beyond the floats. *)
Definition truediv (a b : Z) : error + spec_float :=
  if (b =? 0)%Z then inl ZeroDivisionError
  else
    match SFdiv prec emax (of_int a) (of_int b) with
    | S754_infinity _ => inl OverflowError
    | q => inr q
    end.

(** [math.ceil(x)] of a float: an int. *)
Definition ceil (x : spec_float) : error + Z :=
  match x with
  | S754_nan => inl ValueError
  | S754_infinity _ => inl OverflowError
  | S754_zero _ => inr 0%Z
  | S754_finite s m e =>
      let n := if s then Z.neg m else Z.pos m in
      inr (if (0 <=? e)%Z then n * 2 ^ e else - ((- n) / 2 ^ (- e)))%Z
  end.

(** [range(n)] *)
Definition range (n : Z) : list Z := map Z.of_nat (seq 0 (Z.to_nat n)).

(** [# decide the call plan]: the list [plan] of
    [run_parametric_sample_from_gd], for an [n_events] that passed the test
    [n_events <= 0]. *)
Definition call_plan (n_events max_chunks events_per_call : Z)
  : error + list Z :=
  let events_per_call := Z.max 1 events_per_call in
  match truediv n_events events_per_call with
  | inl x => inl x
  | inr q =>
      match ceil q with
      | inl x => inl x
      | inr n_calls =>
          let n_calls := Z.min n_calls max_chunks in
          if (n_calls =? 0)%Z then inl ZeroDivisionError
          else
            let base := (n_events / n_calls)%Z in
            let rem := (n_events mod n_calls)%Z in
            inr (map (fun i => (base + (if (i <? rem)%Z then 1 else 0))%Z)
                     (range n_calls))
      end
  end.

(** The calls of [_simulate_once_direct] that
    [run_parametric_sample_from_gd] makes: the [n_events] of each, in
    order. *)
Definition run_parametric_sample_from_gd
    (n_events max_chunks events_per_call : Z) : error + list Z :=
  if (n_events <=? 0)%Z then inr []
  else
    match call_plan n_events max_chunks events_per_call with
    | inl x => inl x
    | inr plan => inr (filter (fun nev => negb (nev <=? 0)%Z) plan)
    end.

End Simulations.

(** * The vocabulary of the properties *)

Section Outcomes.
Context {F : Type} `{Arith F}.
Import Trackers.

(** The outcome of [add], by cases on the two tables and the two divisors. *)
Definition add_outcome (g : Globals F) (self : CostTracker F)
    (material : string) (thickness_cm : F) (count : Z)
  : (exn + unit) * state :=
  let tcm := fmul thickness_cm (of_int count) in
  match dict_get (COST_CHF_PER_CM_M2 g) material,
        dict_get (MATERIAL_PROP g) material with
  | None, _ =>
      (inl (KeyError ("Unknown material for cost model: " ++ material)),
       (g, self))
  | Some _, None =>
      (inl (KeyError ("Missing MATERIAL_PROP entry for: " ++ material)),
       (g, self))
  | Some rate, Some props =>
      if feqb (X0_cm props) fzero then (inl ZeroDivisionError, (g, self))
      else if feqb (lambdaI_cm props) fzero then
        (inl ZeroDivisionError, (g, self))
      else
        (inr tt,
         (g, accumulate self material tcm
               (fmul (fmul tcm (area_m2 self)) rate)
               (fquot tcm (X0_cm props))
               (fquot tcm (lambdaI_cm props))))
  end.

(** The tracker a returning [add] leaves. *)
Definition add_result (g : Globals F) (self : CostTracker F)
    (material : string) (thickness_cm : F) (count : Z) : CostTracker F :=
  snd (snd (add_outcome g self material thickness_cm count)).

End Outcomes.

(** The [specs] of a call that returned. *)
Definition returned_specs {F} (r : (exn + G4Calo.GeometryDescriptor F
                                          * dict (Design.pyval F))
                                  * Design.env F)
  : option (dict (Design.pyval F)) :=
  match r with
  | (inr (_, specs), _) => Some specs
  | (inl _, _) => None
  end.

(** The geometry of a call that returned. *)
Definition returned_gd {F} (r : (exn + G4Calo.GeometryDescriptor F
                                       * dict (Design.pyval F))
                               * Design.env F)
  : option (G4Calo.GeometryDescriptor F) :=
  match r with
  | (inr (gd, _), _) => Some gd
  | (inl _, _) => None
  end.

(** The keys of the three [specs] dictionaries, in the order of the source. *)
Definition v1_keys : list string :=
  [ "ecal_len_cm"; "ecal_slice_cm"; "ecal_lambda";
    "front_pairs"; "fe_front"; "sc_front";
    "mid_pairs"; "fe_mid"; "sc_mid";
    "back_pairs"; "fe_back"; "sc_back";
    "hcal_len_cm"; "hcal_lambda"; "total_len_cm"; "total_lambda" ]%string.

Definition v2_keys : list string :=
  [ "ecal_pairs"; "pb_per_pair_cm"; "sc_per_pair_cm";
    "ecal_absorber"; "ecal_active"; "ecal_len_cm";
    "front_pairs"; "fe_front"; "sc_front";
    "mid_pairs"; "fe_mid"; "sc_mid";
    "back_pairs"; "fe_back"; "sc_back";
    "hcal_len_cm"; "total_len_cm"; "ecal_slice_cm" ]%string.

Definition v4_2_keys : list string :=
  [ "ecal_pairs"; "pb_cm"; "sc_cm"; "pbwo4_cm"; "scint_endcap";
    "ecal_len_cm";
    "trans_pairs"; "fe_trans"; "sc_trans";
    "mid_pairs"; "fe_mid"; "sc_mid";
    "back_pairs"; "fe_back"; "sc_back";
    "total_len_cm"; "ecal_slice_cm" ]%string.

(** No key of the second and third builders names a lambda_I quantity. *)
Definition lambda_keys : list string :=
  [ "ecal_lambda"; "hcal_lambda"; "total_lambda" ]%string.

Definition has_lambda_key (keys : list string) : bool :=
  existsb (fun k => existsb (String.eqb k) lambda_keys) keys.

(** ** Sequences of ledger calls *)

Section Calls.
Context {F : Type} `{Arith F}.
Import Trackers.

Inductive ledger_call : Type :=
| Add (material : string) (thickness_cm : F) (count : Z)
| AddPair (layers : string * F * string * F) (count : Z)
| AddPeriod (spec : list (string * F)) (count : Z)
| SetPrice (material : string) (chf_per_cm_m2 : F)
| SetMaterialProps (material : string) (X0 lambdaI : F).

Definition run_call (c : ledger_call) : M state unit :=
  match c with
  | Add material thickness_cm count => add material thickness_cm count
  | AddPair layers count => add_pair layers count
  | AddPeriod spec count => add_period spec count
  | SetPrice material chf_per_cm_m2 => set_price material chf_per_cm_m2
  | SetMaterialProps material X0 lambdaI =>
      set_material_props material X0 lambdaI
  end.

(** The calls one after the other; a call that raises ends the sequence, and
    the tracker stays as that call left it. *)
Definition run_calls (calls : list ledger_call) : M state unit :=
  for_each calls run_call.

(** The tracker [CostTracker(area)] after [calls]. *)
Definition ledger_after (g : Globals F) (area : F) (calls : list ledger_call)
  : CostTracker F :=
  snd (snd (run_calls calls (g, new area))).

(** [total == sum(by_material.values())], for the four quantities. *)
Definition totals_are_sums (self : CostTracker F) : bool :=
  feqb (total_length_cm self) (py_sum (dict_values (by_material_cm self)))
  && feqb (total_cost_chf self) (py_sum (dict_values (by_material_chf self)))
  && feqb (total_X0 self) (py_sum (dict_values (by_material_X0 self)))
  && feqb (total_lambdaI self)
       (py_sum (dict_values (by_material_lambdaI self))).

(** A material [add] accepts: priced, with properties, and neither length zero. *)
Definition valid_material (g : Globals F) (material : string) : bool :=
  match dict_get (COST_CHF_PER_CM_M2 g) material,
        dict_get (MATERIAL_PROP g) material with
  | Some _, Some props =>
      negb (feqb (X0_cm props) fzero) && negb (feqb (lambdaI_cm props) fzero)
  | _, _ => false
  end.

End Calls.

(** ** The ledger in exact arithmetic *)

Section RationalLedger.
Import Trackers.

(** Each total is the sum of the accumulators of its quantity. *)
Definition sums_inv (self : CostTracker Qc) : Prop :=
  total_length_cm self = py_sum (dict_values (by_material_cm self))
  /\ total_cost_chf self = py_sum (dict_values (by_material_chf self))
  /\ total_X0 self = py_sum (dict_values (by_material_X0 self))
  /\ total_lambdaI self = py_sum (dict_values (by_material_lambdaI self)).

(** A computation that keeps the invariant, whatever its outcome. *)
Definition keeps_inv {A} (c : M (@state Qc) A) : Prop :=
  forall s, sums_inv (snd s) -> sums_inv (snd (snd (c s))).

(** One accumulator entry raised by [x]. *)
Definition bump (d : dict Qc) (k : string) (x : Qc) : dict Qc :=
  dict_set d k (Qcplus (dict_get_default d k (Q2Qc 0)) x).

End RationalLedger.

(** The tables of the source with their decimals read as exact fractions. *)
Definition dec (n : Z) (d : positive) : Qc := Q2Qc (n # d).

Definition COST_CHF_PER_CM_M2_Q : dict Qc :=
  [ ("G4_POLYSTYRENE", dec 0 1); ("G4_Pb", dec 300 1); ("G4_Fe", dec 50 1);
    ("G4_W", dec 6000 1); ("G4_Cu", dec 800 1); ("G4_BRASS", dec 200 1);
    ("G4_PbWO4", dec 30000 1) ]%string.

Definition MATERIAL_PROP_Q : dict (Trackers.MaterialProps Qc) :=
  [ ("G4_POLYSTYRENE",
     {| Trackers.X0_cm := dec 424 10; Trackers.lambdaI_cm := dec 77 1 |});
    ("G4_Pb",
     {| Trackers.X0_cm := dec 56 100; Trackers.lambdaI_cm := dec 171 10 |});
    ("G4_Fe",
     {| Trackers.X0_cm := dec 176 100; Trackers.lambdaI_cm := dec 168 10 |});
    ("G4_W",
     {| Trackers.X0_cm := dec 35 100; Trackers.lambdaI_cm := dec 96 10 |});
    ("G4_Cu",
     {| Trackers.X0_cm := dec 143 100; Trackers.lambdaI_cm := dec 153 10 |});
    ("G4_BRASS",
     {| Trackers.X0_cm := dec 150 100; Trackers.lambdaI_cm := dec 15 1 |});
    ("G4_PbWO4",
     {| Trackers.X0_cm := dec 89 100; Trackers.lambdaI_cm := dec 207 10 |})
  ]%string.

Definition globalsQ : Trackers.Globals Qc :=
  Trackers.import COST_CHF_PER_CM_M2_Q MATERIAL_PROP_Q.

(** ** The layers a builder appends *)

Section Stacks.
Context {F : Type} `{Arith F}.

Definition mk_layer (t : F) (m : string) (s : bool) : G4Calo.Layer F :=
  {| G4Calo.thickness_cm := t; G4Calo.material := m; G4Calo.sensitive := s |}.

(** What [for _ in range(n)] appends when each pass appends [period]. *)
Definition periods (n : Z) (period : list (G4Calo.Layer F))
  : list (G4Calo.Layer F) :=
  List.concat (repeat period (Z.to_nat n)).

Definition section_layers (absorber active : string)
    (sensitive_active_only : bool) (n_pairs : Z) (t_abs_cm t_act_cm : F)
  : list (G4Calo.Layer F) :=
  periods n_pairs
    [ mk_layer t_abs_cm absorber false;
      mk_layer t_act_cm active sensitive_active_only ].

(** [sum(L.thickness_cm for L in layers)] *)
Definition layers_sum (ls : list (G4Calo.Layer F)) : F :=
  py_sum (map (@G4Calo.thickness_cm F) ls).

(** A computation that, when it returns, has appended [ls] to [gd.layers] and
    done nothing else to [gd]. *)
Definition appends {A} (c : M (Design.env F) A) (ls : list (G4Calo.Layer F))
  : Prop :=
  forall e a e',
    c e = (inr a, e') ->
    G4Calo.layers (Design.gd e') = G4Calo.layers (Design.gd e) ++ ls.

(** A computation that returns whenever the builder was given no tracker. *)
Definition returns_untracked {A} (c : M (Design.env F) A) : Prop :=
  forall e,
    Design.cost_tracker e = None ->
    exists a e', c e = (inr a, e') /\ Design.cost_tracker e' = None.

(** The layers of the three HCAL sections of a builder. *)
Definition hcal_layers (absorber active : string)
    (sensitive_active_only : bool)
    (n1 : Z) (a1 b1 : F) (n2 : Z) (a2 b2 : F) (n3 : Z) (a3 b3 : F)
  : list (G4Calo.Layer F) :=
  section_layers absorber active sensitive_active_only n1 a1 b1
  ++ section_layers absorber active sensitive_active_only n2 a2 b2
  ++ section_layers absorber active sensitive_active_only n3 a3 b3.

(** The layers of the third builder before its shim. *)
Definition v4_2_stack_layers (ecal_pairs : Z) (pb_cm sc_cm pbwo4_cm : F)
    (add_scint_endcap : bool) (ecal_pb ecal_scint ecal_pbwo4 : string)
    (trans_pairs : Z) (fe_trans sc_trans : F)
    (mid_pairs : Z) (fe_mid sc_mid : F)
    (back_pairs : Z) (fe_back sc_back : F)
    (hcal_absorber hcal_active : string) (sensitive_active_only : bool)
  : list (G4Calo.Layer F) :=
  periods ecal_pairs
    [ mk_layer pb_cm ecal_pb false; mk_layer sc_cm ecal_scint true;
      mk_layer pbwo4_cm ecal_pbwo4 false ]
  ++ (if add_scint_endcap then [mk_layer sc_cm ecal_scint true] else [])
  ++ hcal_layers hcal_absorber hcal_active sensitive_active_only
       trans_pairs fe_trans sc_trans mid_pairs fe_mid sc_mid
       back_pairs fe_back sc_back.

(** The length the third builder computes before its shim. *)
Definition v4_2_built_len (ecal_pairs : Z) (pb_cm sc_cm pbwo4_cm : F)
    (add_scint_endcap : bool)
    (trans_pairs : Z) (fe_trans sc_trans : F)
    (mid_pairs : Z) (fe_mid sc_mid : F)
    (back_pairs : Z) (fe_back sc_back : F) : F * F :=
  let ecal_len0 :=
    fmul (of_int ecal_pairs) (fadd (fadd pb_cm sc_cm) pbwo4_cm) in
  let ecal_len :=
    if add_scint_endcap then fadd ecal_len0 sc_cm else ecal_len0 in
  (ecal_len,
   fadd (fadd (fadd ecal_len
                    (fmul (of_int trans_pairs) (fadd fe_trans sc_trans)))
              (fmul (of_int mid_pairs) (fadd fe_mid sc_mid)))
        (fmul (of_int back_pairs) (fadd fe_back sc_back))).

End Stacks.

(** ** Binary64 *)

(** Results of an operation that are not positive numbers. *)
Definition not_positive (z : spec_float) : Prop :=
  match z with
  | S754_zero _ | S754_nan => True
  | S754_infinity s | S754_finite s _ _ => s = true
  end.

(** [x == y], or both are not-a-number: the float was not changed. *)
Definition unchanged (x y : float) : bool :=
  (x =? y)%float || (is_nan x && is_nan y).

(** [abs(specs["total_len_cm"] - sum(L.thickness_cm for L in gd.layers))] of a
    call that returned. *)
Definition len_gap (r : (exn + G4Calo.GeometryDescriptor float
                               * dict (Design.pyval float))
                        * Design.env float) : option float :=
  match r with
  | (inr (gd, specs), _) =>
      match dict_get specs "total_len_cm"%string with
      | Some (Design.PyFloat t) =>
          Some (PrimFloat.abs (t - G4Calo.total_len_cm gd)%float)
      | _ => None
      end
  | (inl _, _) => None
  end.

(** ** The ledger and its summary *)

Section LedgerKeys.
Context {F : Type} `{Arith F}.
Import Trackers.

(** The keys [summary] collects, before sorting. *)
Definition ledger_keys (self : CostTracker F) : list string :=
  dict_keys (by_material_cm self) ++ dict_keys (by_material_chf self) ++
  dict_keys (by_material_X0 self) ++ dict_keys (by_material_lambdaI self).

(** Every material of the ledger is in both tables. *)
Definition ledger_known (g : Globals F) (self : CostTracker F) : bool :=
  forallb
    (fun k => dict_mem (COST_CHF_PER_CM_M2 g) k
              && dict_mem (MATERIAL_PROP g) k)
    (ledger_keys self).

(** The material has no accumulator yet. *)
Definition no_entry (self : CostTracker F) (material : string) : bool :=
  negb (dict_mem (by_material_cm self) material)
  && negb (dict_mem (by_material_chf self) material)
  && negb (dict_mem (by_material_X0 self) material)
  && negb (dict_mem (by_material_lambdaI self) material).

(** The four per-material accumulators of a tracker. *)
Definition accumulators (self : CostTracker F) : list (dict F) :=
  [ by_material_cm self; by_material_chf self;
    by_material_X0 self; by_material_lambdaI self ].

(** The four accumulated quantities of a row of [summary()["by_material"]]. *)
Definition accumulated (row : dict F) : list (option F) :=
  map (dict_get row)
    [ "total_cm"; "total_X0"; "total_lambdaI"; "total_cost_chf" ]%string.

End LedgerKeys.

(** ** What the ledger holds, in any arithmetic *)

Section Log.
Context {F : Type} `{Arith F}.
Import Trackers.

(** What one returning [add] accumulates: its material and its increments of
    length, cost, X0 units and lambda_I units. *)
Record increment : Type := {
  inc_material : string;
  inc_cm : F;
  inc_chf : F;
  inc_X0 : F;
  inc_lambdaI : F
}.

(** [((0.0 + x1) + x2) + ...], as the accumulators are computed. *)
Definition sum_from_zero (xs : list F) : F := fold_left fadd xs fzero.

(** The increments of one material, in the order of the calls. *)
Definition of_material (m : string) (log : list increment) : list increment :=
  filter (fun i => String.eqb (inc_material i) m) log.

(** The entry of a material with increments [xs]: none before its first. *)
Definition entry (xs : list F) : option F :=
  match xs with
  | [] => None
  | _ :: _ => Some (sum_from_zero xs)
  end.

(** The tracker holds exactly the increments of [log]: each total is their
    sum in the order of the calls, each accumulator the sum of those of its
    material. *)
Definition holds (self : CostTracker F) (log : list increment) : Prop :=
  total_length_cm self = sum_from_zero (map inc_cm log)
  /\ total_cost_chf self = sum_from_zero (map inc_chf log)
  /\ total_X0 self = sum_from_zero (map inc_X0 log)
  /\ total_lambdaI self = sum_from_zero (map inc_lambdaI log)
  /\ forall m,
       dict_get (by_material_cm self) m
       = entry (map inc_cm (of_material m log))
       /\ dict_get (by_material_chf self) m
          = entry (map inc_chf (of_material m log))
       /\ dict_get (by_material_X0 self) m
          = entry (map inc_X0 (of_material m log))
       /\ dict_get (by_material_lambdaI self) m
          = entry (map inc_lambdaI (of_material m log)).

(** A computation after which the tracker still holds a log. *)
Definition keeps_log {A} (c : M state A) : Prop :=
  forall s log,
    holds (snd s) log -> exists log', holds (snd (snd (c s))) log'.

End Log.


(** * The vocabulary of the further properties *)

(** A computation that keeps an invariant of the state, whatever its
    outcome. *)
Definition preserves {S A} (P : S -> Prop) (c : M S A) : Prop :=
  forall s, P s -> P (snd (c s)).

(** Strictly ascending in the order of [sorted], which compares strings code
    point by code point. *)
Definition ascending (ks : list string) : Prop :=
  StronglySorted (fun a b => String.compare a b = Lt) ks.

(** ** The shape of a ledger *)

Section LedgerShape.
Context {F : Type} `{Arith F}.
Import Trackers.

(** The four accumulators have the same materials, in the same order. *)
Definition same_keys (self : CostTracker F) : Prop :=
  dict_keys (by_material_chf self) = dict_keys (by_material_cm self)
  /\ dict_keys (by_material_X0 self) = dict_keys (by_material_cm self)
  /\ dict_keys (by_material_lambdaI self) = dict_keys (by_material_cm self).

(** ... and each of them is in both tables. *)
Definition catalogued (s : @state F) : Prop :=
  same_keys (snd s)
  /\ forall k, In k (dict_keys (by_material_cm (snd s))) ->
       dict_mem (COST_CHF_PER_CM_M2 (fst s)) k = true
       /\ dict_mem (MATERIAL_PROP (fst s)) k = true.

(** The lookups [Design.py] imports are [x0] and [lam]. *)
Definition lookups_are (x0 lam : dict F) (s : @state F) : Prop :=
  X0_CM (fst s) = x0 /\ LAMBDA_INT_CM (fst s) = lam.

End LedgerShape.

(** ** Builders without tracker *)

Section Untracked.
Context {F : Type} `{Arith F}.
Import Design.

(** The state a builder without tracker leaves after appending [ls]. *)
Definition with_layers (e : env F) (ls : list (G4Calo.Layer F)) : env F :=
  {| globals := globals e; cost_tracker := None;
     gd := {| G4Calo.area_m2 := G4Calo.area_m2 (gd e);
              G4Calo.layers := G4Calo.layers (gd e) ++ ls |} |}.

(** A computation that, given no tracker, returns having appended [ls] and
    changed nothing else. *)
Definition builds {A} (c : M (env F) A) (ls : list (G4Calo.Layer F)) : Prop :=
  forall e, cost_tracker e = None -> exists a, c e = (inr a, with_layers e ls).

(** The layers of the first builder. *)
Definition v1_stack_layers (total_X0 X0_cm : F) (ecal_slices : Z)
    (ecal_material : string)
    (front_pairs : Z) (fe_front sc_front : F)
    (mid_pairs : Z) (fe_mid sc_mid : F)
    (back_pairs : Z) (fe_back sc_back : F)
    (absorber active : string) (sensitive_active_only : bool)
  : list (G4Calo.Layer F) :=
  periods ecal_slices
    [ mk_layer (fquot (fmul total_X0 X0_cm) (of_int ecal_slices))
        ecal_material true ]
  ++ hcal_layers absorber active sensitive_active_only
       front_pairs fe_front sc_front mid_pairs fe_mid sc_mid
       back_pairs fe_back sc_back.

(** The layers of the second builder. *)
Definition v2_stack_layers (ecal_pairs : Z) (pb_per_pair_cm sc_per_pair_cm : F)
    (ecal_absorber ecal_active : string)
    (front_pairs : Z) (fe_front sc_front : F)
    (mid_pairs : Z) (fe_mid sc_mid : F)
    (back_pairs : Z) (fe_back sc_back : F)
    (absorber active : string) (sensitive_active_only : bool)
  : list (G4Calo.Layer F) :=
  section_layers ecal_absorber ecal_active true
    ecal_pairs pb_per_pair_cm sc_per_pair_cm
  ++ hcal_layers absorber active sensitive_active_only
       front_pairs fe_front sc_front mid_pairs fe_mid sc_mid
       back_pairs fe_back sc_back.

(** The layers of the third builder, with its shim. *)
Definition v4_2_layers_of (ecal_pairs : Z) (pb_cm sc_cm pbwo4_cm : F)
    (add_scint_endcap : bool) (ecal_pb ecal_scint ecal_pbwo4 : string)
    (trans_pairs : Z) (fe_trans sc_trans : F)
    (mid_pairs : Z) (fe_mid sc_mid : F)
    (back_pairs : Z) (fe_back sc_back : F)
    (hcal_absorber hcal_active : string) (sensitive_active_only : bool)
    (target_total_len_cm : F)
  : list (G4Calo.Layer F) :=
  let leftover :=
    fsub target_total_len_cm
      (snd (v4_2_built_len ecal_pairs pb_cm sc_cm pbwo4_cm add_scint_endcap
              trans_pairs fe_trans sc_trans mid_pairs fe_mid sc_mid
              back_pairs fe_back sc_back)) in
  v4_2_stack_layers ecal_pairs pb_cm sc_cm pbwo4_cm add_scint_endcap
    ecal_pb ecal_scint ecal_pbwo4
    trans_pairs fe_trans sc_trans mid_pairs fe_mid sc_mid
    back_pairs fe_back sc_back hcal_absorber hcal_active
    sensitive_active_only
  ++ (if fltb ftol leftover
      then [mk_layer leftover hcal_absorber false] else []).

(** [x / float(LAMBDA_INT_CM[material])]: what it raises, or the length. *)
Definition lambda_lookup (g : Trackers.Globals F) (material : string)
  : exn + F :=
  match dict_get (Trackers.LAMBDA_INT_CM g) material with
  | None => inl (KeyError material)
  | Some l => if feqb l fzero then inl ZeroDivisionError else inr l
  end.

(** The first of the lookups of the first builder that raises. *)
Definition first_failure (g : Trackers.Globals F)
    (ecal_material absorber active : string) : option exn :=
  match lambda_lookup g ecal_material with
  | inl x => Some x
  | inr _ =>
      match lambda_lookup g absorber with
      | inl x => Some x
      | inr _ =>
          match lambda_lookup g active with
          | inl x => Some x
          | inr _ => None
          end
      end
  end.

(** Two states of a builder without tracker that differ in the tables only,
    and not in [LAMBDA_INT_CM]. *)
Definition same_lambda (e1 e2 : env F) : Prop :=
  gd e1 = gd e2
  /\ cost_tracker e1 = None /\ cost_tracker e2 = None
  /\ Trackers.LAMBDA_INT_CM (globals e1) = Trackers.LAMBDA_INT_CM (globals e2).

(** A computation whose outcome reads nothing else of the tables. *)
Definition reads_lambda_only {A} (c : M (env F) A) : Prop :=
  forall e1 e2,
    same_lambda e1 e2 ->
    fst (c e1) = fst (c e2) /\ same_lambda (snd (c e1)) (snd (c e2)).

End Untracked.

(** ** Builders with a tracker *)

Section Tracked.
Context {F : Type} `{Arith F}.
Import Design.

(** The tracker after [cost_tracker.add(L.material, L.thickness_cm)] has
    returned. *)
Definition charge (g : Trackers.Globals F) (ct : Trackers.CostTracker F)
    (L : G4Calo.Layer F) : Trackers.CostTracker F :=
  add_result g ct (G4Calo.material L) (G4Calo.thickness_cm L) 1.

(** ... for the layers [ls], first to last. *)
Definition charged (g : Trackers.Globals F) (ct : Trackers.CostTracker F)
    (ls : list (G4Calo.Layer F)) : Trackers.CostTracker F :=
  fold_left (charge g) ls ct.

(** Every material of the layers is one [add] accepts. *)
Definition all_valid (g : Trackers.Globals F) (ls : list (G4Calo.Layer F))
  : bool :=
  forallb (fun L => valid_material g (G4Calo.material L)) ls.

(** A computation that, when it returns, has added the layers [ls] to the
    caller's tracker, in this order, and left the tables alone. *)
Definition tracks {A} (c : M (env F) A) (ls : list (G4Calo.Layer F)) : Prop :=
  forall e ct a e',
    cost_tracker e = Some ct ->
    c e = (inr a, e') ->
    globals e' = globals e
    /\ cost_tracker e' = Some (charged (globals e) ct ls)
    /\ all_valid (globals e) ls = true.

(** The state of a builder with tracker [ct] after it has appended [la] to
    [gd] and added [lc] to the tracker. *)
Definition with_tracked (e : env F) (ct : Trackers.CostTracker F)
    (la lc : list (G4Calo.Layer F)) : env F :=
  {| globals := globals e;
     cost_tracker := Some (charged (globals e) ct lc);
     gd := {| G4Calo.area_m2 := G4Calo.area_m2 (gd e);
              G4Calo.layers := G4Calo.layers (gd e) ++ la |} |}.

(** A computation that, given a tracker that accepts the materials of [lc],
    returns having appended [la] and added [lc]. *)
Definition runs {A} (c : M (env F) A) (la lc : list (G4Calo.Layer F)) : Prop :=
  forall e ct,
    cost_tracker e = Some ct -> all_valid (globals e) lc = true ->
    exists a, c e = (inr a, with_tracked e ct la lc).

(** The area of [gd] is the 1.0 of [GeometryDescriptor()]. *)
Definition unit_area (e : env F) : Prop :=
  G4Calo.area_m2 (gd e) = of_int 1.

(** A computation that returns the geometry it leaves in [gd]. *)
Definition returns_its_gd {A}
    (c : M (env F) (G4Calo.GeometryDescriptor F * A)) : Prop :=
  forall e gd a e', c e = (inr (gd, a), e') -> gd = Design.gd e'.

(** The lengths a tracker accumulates for [ls]: [total += t * 1], layer by
    layer. *)
Definition length_after (total : F) (ls : list (G4Calo.Layer F)) : F :=
  fold_left (fun acc L => fadd acc (fmul (G4Calo.thickness_cm L) (of_int 1)))
    ls total.

(** The number of sensitive layers. *)
Definition sensitive_count (ls : list (G4Calo.Layer F)) : nat :=
  List.length (filter (@G4Calo.sensitive F) ls).

End Tracked.

(** ** The first builder, in two parts *)

Section V1Parts.
Context {F : Type} `{Arith F}.
Import Design.
Variables (total_X0 X0_cm : F) (ecal_slices : Z) (ecal_material : string).
Variables (front_pairs : Z) (fe_front sc_front : F).
Variables (mid_pairs : Z) (fe_mid sc_mid : F).
Variables (back_pairs : Z) (fe_back sc_back : F).
Variables (absorber active : string) (sensitive_active_only : bool).

(** The first builder from its ECAL loop on, given [ecal_slice], up to the
    end of its HCAL sections. *)
Definition v1_loops_then {A} (ecal_slice : F) (k : M (env F) A) : M (env F) A :=
  for_range ecal_slices
    (gd_addLayer ecal_slice ecal_material true ;;
     tracker_add ecal_material ecal_slice) ;;
  add_section absorber active sensitive_active_only
    front_pairs fe_front sc_front ;;
  add_section absorber active sensitive_active_only mid_pairs fe_mid sc_mid ;;
  add_section absorber active sensitive_active_only
    back_pairs fe_back sc_back ;;
  k.

(** The first builder after its loops: the lambda_I accounting and [specs]. *)
Definition v1_accounting (ecal_slice : F)
  : M (env F) (G4Calo.GeometryDescriptor F * dict (pyval F)) :=
  let ecal_len_cm := fmul total_X0 X0_cm in
  let hcal_len_cm :=
    fadd (fadd (fmul (of_int front_pairs) (fadd fe_front sc_front))
               (fmul (of_int mid_pairs) (fadd fe_mid sc_mid)))
         (fmul (of_int back_pairs) (fadd fe_back sc_back)) in
  let total_len_cm := fadd ecal_len_cm hcal_len_cm in
  lam_ecal <- lambda_int_cm ecal_material ;;
  ecal_lambda <- fdiv ecal_len_cm lam_ecal ;;
  pf <- lam_pair absorber active fe_front sc_front ;;
  let lam_front := fmul (of_int front_pairs) pf in
  pm <- lam_pair absorber active fe_mid sc_mid ;;
  let lam_mid := fmul (of_int mid_pairs) pm in
  pb <- lam_pair absorber active fe_back sc_back ;;
  let lam_back := fmul (of_int back_pairs) pb in
  let hcal_lambda := fadd (fadd lam_front lam_mid) lam_back in
  let total_lambda := fadd ecal_lambda hcal_lambda in
  e <- get ;;
  ret (gd e,
       [ ("ecal_len_cm", PyFloat ecal_len_cm);
         ("ecal_slice_cm", PyFloat ecal_slice);
         ("ecal_lambda", PyFloat ecal_lambda);
         ("front_pairs", PyFloat (of_int front_pairs));
         ("fe_front", PyFloat fe_front); ("sc_front", PyFloat sc_front);
         ("mid_pairs", PyFloat (of_int mid_pairs));
         ("fe_mid", PyFloat fe_mid); ("sc_mid", PyFloat sc_mid);
         ("back_pairs", PyFloat (of_int back_pairs));
         ("fe_back", PyFloat fe_back); ("sc_back", PyFloat sc_back);
         ("hcal_len_cm", PyFloat hcal_len_cm);
         ("hcal_lambda", PyFloat hcal_lambda);
         ("total_len_cm", PyFloat total_len_cm);
         ("total_lambda", PyFloat total_lambda) ]%string).

End V1Parts.

(** ** The sign of a float *)

(** A float whose sign bit is clear, or a NaN: not below zero, and not
    [-0.0]. *)
Definition sign_clear (z : spec_float) : Prop :=
  match z with
  | S754_nan => True
  | S754_zero s | S754_infinity s | S754_finite s _ _ => s = false
  end.

(** ** Trackers of two areas *)

(** The tracker [s2] holds what [s1] holds, with the area and every cost
    multiplied by [c]. *)
Definition scaled_costs (c : Qc) (s1 s2 : Trackers.CostTracker Qc) : Prop :=
  Trackers.area_m2 s2 = Qcmult c (Trackers.area_m2 s1)
  /\ Trackers.by_material_cm s2 = Trackers.by_material_cm s1
  /\ Trackers.by_material_chf s2
     = map (fun kv => (fst kv, Qcmult c (snd kv)))
           (Trackers.by_material_chf s1)
  /\ Trackers.by_material_X0 s2 = Trackers.by_material_X0 s1
  /\ Trackers.by_material_lambdaI s2 = Trackers.by_material_lambdaI s1
  /\ Trackers.total_length_cm s2 = Trackers.total_length_cm s1
  /\ Trackers.total_cost_chf s2 = Qcmult c (Trackers.total_cost_chf s1)
  /\ Trackers.total_X0 s2 = Trackers.total_X0 s1
  /\ Trackers.total_lambdaI s2 = Trackers.total_lambdaI s1.

(** A computation that does the same to the tables, and raises or returns the
    same, on two trackers that differ by the factor [c] of their costs, and
    keeps them so. *)
Definition keeps_scaled (c : Qc) (m : M (@Trackers.state Qc) unit) : Prop :=
  forall g s1 s2,
    scaled_costs c s1 s2 ->
    fst (m (g, s1)) = fst (m (g, s2))
    /\ fst (snd (m (g, s1))) = fst (snd (m (g, s2)))
    /\ scaled_costs c (snd (snd (m (g, s1)))) (snd (snd (m (g, s2)))).
(** * Properties *)

(** Reading the operations at the rationals. *)
Ltac rational_ops :=
  cbn [fzero ftol fadd fsub fmul fquot of_int feqb fltb rational] in *.

(** ** The monad *)

Lemma bind_inr {S A B} (c : M S A) (k : A -> M S B) s b s' :
  bind c k s = (inr b, s') ->
  exists a s1, c s = (inr a, s1) /\ k a s1 = (inr b, s').
Proof.
  unfold bind. destruct (c s) as [[e | a] s1]; [discriminate |].
  intros Hk. exists a, s1. split; [reflexivity | exact Hk].
Qed.

Lemma bind_ok {S A B} (c : M S A) (k : A -> M S B) s a s1 :
  c s = (inr a, s1) -> bind c k s = k a s1.
Proof. unfold bind. intros ->. reflexivity. Qed.

(** ** Dictionaries *)

Lemma dict_get_set_same {V} (d : dict V) k v :
  dict_get (dict_set d k v) k = Some v.
Proof.
  induction d as [| [k' v'] d IH]; simpl.
  - now rewrite String.eqb_refl.
  - destruct (String.eqb k' k) eqn:E; simpl; rewrite E; auto.
Qed.

Lemma dict_get_set_other {V} (d : dict V) k k' v :
  k <> k' -> dict_get (dict_set d k v) k' = dict_get d k'.
Proof.
  intros Hk. induction d as [| [k0 v0] d IH]; simpl.
  - destruct (String.eqb k k') eqn:E; [| reflexivity].
    apply String.eqb_eq in E. contradiction.
  - destruct (String.eqb k0 k) eqn:E; simpl.
    + apply String.eqb_eq in E. subst k0.
      destruct (String.eqb k k') eqn:E'; [| reflexivity].
      apply String.eqb_eq in E'. contradiction.
    + now rewrite IH.
Qed.

Lemma dict_set_absent {V} (d : dict V) k v :
  dict_get d k = None -> dict_set d k v = d ++ [(k, v)].
Proof.
  induction d as [| [k' v'] d IH]; simpl; [reflexivity |].
  destruct (String.eqb k' k); [discriminate |].
  intros Hd. now rewrite IH.
Qed.

(** ** What one [add] does *)

Section AddFacts.
Context {F : Type} `{Arith F}.
Import Trackers.

Lemma add_eq g self material thickness_cm count :
  add material thickness_cm count (g, self)
  = add_outcome g self material thickness_cm count.
Proof.
  unfold add, add_outcome, _check_material, cost_of_layer, dict_lookup, fdiv,
    dict_mem, bind, get, put, ret, raise.
  simpl.
  destruct (dict_get (COST_CHF_PER_CM_M2 g) material) as [rate |] eqn:Hc;
    simpl; [| reflexivity].
  destruct (dict_get (MATERIAL_PROP g) material) as [props |] eqn:Hp;
    simpl; [| reflexivity].
  rewrite ?Hc, ?Hp; simpl.
  destruct (feqb (X0_cm props) fzero); simpl; [reflexivity |].
  destruct (feqb (lambdaI_cm props) fzero); reflexivity.
Qed.

End AddFacts.

(** ** C3: an unknown material *)

Section UnknownMaterial.
Context {F : Type} `{Arith F}.
Import Trackers.

(** C3.  [add] raises a [KeyError] exactly when the material is missing from
    the price list or from the property table, and whatever [add] raises (the
    [KeyError], or the [ZeroDivisionError] of a zero X0 or lambda_I), the tables
    and every accumulator of the tracker are as they were before the call. *)
Theorem add_raises_iff_unknown_material
    (g : Globals F) (self : CostTracker F) (material : string)
    (thickness_cm : F) (count : Z) :
  ((exists msg,
      fst (add material thickness_cm count (g, self)) = inl (KeyError msg))
   <-> (dict_mem (COST_CHF_PER_CM_M2 g) material = false
        \/ dict_mem (MATERIAL_PROP g) material = false))
  /\ (forall e,
        fst (add material thickness_cm count (g, self)) = inl e ->
        snd (add material thickness_cm count (g, self)) = (g, self)).
Proof.
  rewrite add_eq. unfold add_outcome, dict_mem.
  destruct (dict_get (COST_CHF_PER_CM_M2 g) material) as [rate |].
  - destruct (dict_get (MATERIAL_PROP g) material) as [props |].
    + destruct (feqb (X0_cm props) fzero);
        [| destruct (feqb (lambdaI_cm props) fzero)]; cbn [fst snd];
        (split;
         [ split; [intros [msg Hm]; discriminate
                  | intros [Hf | Hf]; discriminate]
         | first [reflexivity | intros e He; discriminate] ]).
    + cbn [fst snd]. split; [| reflexivity].
      split; [intros _; right; reflexivity | intros _; eexists; reflexivity].
  - cbn [fst snd]. split; [| reflexivity].
    split; [intros _; left; reflexivity | intros _; eexists; reflexivity].
Qed.

End UnknownMaterial.

(** ** What [summary] reads *)

Section SummaryReads.
Context {F : Type} `{Arith F}.
Import Trackers.

Lemma summary_row_inv (g : Globals F) self m row st :
  summary_row m (g, self) = (inr row, st) ->
  st = (g, self)
  /\ accumulated row
     = [ Some (dict_get_default (by_material_cm self) m fzero);
         Some (dict_get_default (by_material_X0 self) m fzero);
         Some (dict_get_default (by_material_lambdaI self) m fzero);
         Some (dict_get_default (by_material_chf self) m fzero) ].
Proof.
  unfold summary_row, dict_lookup, bind, get, ret, raise. cbn [fst snd].
  destruct (dict_get (COST_CHF_PER_CM_M2 g) m) as [rate |]; [| discriminate].
  destruct (dict_get (MATERIAL_PROP g) m) as [props |]; [| discriminate].
  intros [= <- <-]. split; reflexivity.
Qed.

Lemma summary_rows_inv (g : Globals F) self mats : forall rows st,
  summary_rows mats (g, self) = (inr rows, st) ->
  st = (g, self)
  /\ forall m row,
       dict_get rows m = Some row ->
       accumulated row
       = [ Some (dict_get_default (by_material_cm self) m fzero);
           Some (dict_get_default (by_material_X0 self) m fzero);
           Some (dict_get_default (by_material_lambdaI self) m fzero);
           Some (dict_get_default (by_material_chf self) m fzero) ].
Proof.
  induction mats as [| m0 mats IH]; intros rows st; cbn [summary_rows].
  - intros [= <- <-]. split; [reflexivity | intros m row; discriminate].
  - intros Hr.
    apply bind_inr in Hr as (row0 & s1 & H1 & Hr).
    apply summary_row_inv in H1 as [-> Hrow0].
    apply bind_inr in Hr as (rows' & s2 & H2 & Hr).
    apply IH in H2 as [-> Hrows'].
    injection Hr as <- <-. split; [reflexivity |].
    intros m row. cbn [dict_get].
    destruct (String.eqb m0 m) eqn:E.
    + apply String.eqb_eq in E. subst m0. now intros [= <-].
    + apply Hrows'.
Qed.

(** Whatever the tables hold when [summary] runs, the accumulated quantities
    it reports are the tracker's own. *)
Lemma summary_reads_the_tracker (g : Globals F) self s st :
  summary (g, self) = (inr s, st) ->
  s_total_length_cm s = total_length_cm self
  /\ s_total_cost_chf s = total_cost_chf self
  /\ s_total_X0 s = total_X0 self
  /\ s_total_lambdaI s = total_lambdaI self
  /\ forall m row,
       dict_get (s_by_material s) m = Some row ->
       accumulated row
       = [ Some (dict_get_default (by_material_cm self) m fzero);
           Some (dict_get_default (by_material_X0 self) m fzero);
           Some (dict_get_default (by_material_lambdaI self) m fzero);
           Some (dict_get_default (by_material_chf self) m fzero) ].
Proof.
  unfold summary. intros Hs.
  apply bind_inr in Hs as (s0 & s1 & H0 & Hs).
  injection H0 as <- <-. cbn [snd] in Hs.
  apply bind_inr in Hs as (rows & s2 & H2 & Hs).
  apply summary_rows_inv in H2 as [-> Hrows].
  injection Hs as <- _. cbn. repeat split. exact Hrows.
Qed.

End SummaryReads.

(** ** C5: overriding the catalog *)

Section Overrides.
Context {F : Type} `{Arith F}.
Import Trackers.
Local Open Scope monad_scope.

(** C5.  [set_price] and [set_material_props] return normally, write only the
    table they name and leave the tracker, with every accumulator, as it was;
    what an earlier [add] accumulated is therefore what it computed from the
    old values, and an [add] made after an override computes its cost, X0
    units and lambda_I units from the new ones.  [summary], under whatever
    tables, reports the accumulated quantities as the tracker holds them: it
    converts nothing. *)
Theorem overrides_leave_accumulated_values
    (g : Globals F) (self : CostTracker F) (material : string)
    (price X0 lambdaI : F) (m : string) (t : F) (n : Z) :
  let priced := fst (snd (set_price material price (g, self))) in
  let propped :=
    fst (snd (set_material_props material X0 lambdaI (g, self))) in
  let tcm := fmul t (of_int n) in
  set_price material price (g, self) = (inr tt, (priced, self))
  /\ set_material_props material X0 lambdaI (g, self)
     = (inr tt, (propped, self))
  /\ dict_get (COST_CHF_PER_CM_M2 priced) material = Some price
  /\ MATERIAL_PROP priced = MATERIAL_PROP g
  /\ dict_get (MATERIAL_PROP propped) material
     = Some {| X0_cm := X0; lambdaI_cm := lambdaI |}
  /\ COST_CHF_PER_CM_M2 propped = COST_CHF_PER_CM_M2 g
  /\ snd (snd ((add m t n ;; set_price material price) (g, self)))
     = snd (snd (add m t n (g, self)))
  /\ snd (snd ((add m t n ;; set_material_props material X0 lambdaI)
                 (g, self)))
     = snd (snd (add m t n (g, self)))
  /\ (forall props,
        dict_get (MATERIAL_PROP g) material = Some props ->
        feqb (X0_cm props) fzero = false ->
        feqb (lambdaI_cm props) fzero = false ->
        (set_price material price ;; add material t n) (g, self)
        = (inr tt,
           (priced,
            accumulate self material tcm
              (fmul (fmul tcm (area_m2 self)) price)
              (fquot tcm (X0_cm props))
              (fquot tcm (lambdaI_cm props)))))
  /\ (forall rate,
        dict_get (COST_CHF_PER_CM_M2 g) material = Some rate ->
        feqb X0 fzero = false ->
        feqb lambdaI fzero = false ->
        (set_material_props material X0 lambdaI ;; add material t n) (g, self)
        = (inr tt,
           (propped,
            accumulate self material tcm
              (fmul (fmul tcm (area_m2 self)) rate)
              (fquot tcm X0)
              (fquot tcm lambdaI))))
  /\ (forall g' s st,
        summary (g', self) = (inr s, st) ->
        s_total_length_cm s = total_length_cm self
        /\ s_total_cost_chf s = total_cost_chf self
        /\ s_total_X0 s = total_X0 self
        /\ s_total_lambdaI s = total_lambdaI self
        /\ forall m' row,
             dict_get (s_by_material s) m' = Some row ->
             accumulated row
             = [ Some (dict_get_default (by_material_cm self) m' fzero);
                 Some (dict_get_default (by_material_X0 self) m' fzero);
                 Some (dict_get_default (by_material_lambdaI self) m' fzero);
                 Some (dict_get_default (by_material_chf self) m' fzero) ]).
Proof.
  cbv zeta.
  assert (Hafter : forall (c : M state unit),
             (forall s, c s = (inr tt, (fst (snd (c s)), snd s))) ->
             snd (snd ((add m t n ;; c) (g, self)))
             = snd (snd (add m t n (g, self)))).
  { intros c Hc. unfold bind.
    destruct (add m t n (g, self)) as [[e | []] s1]; [reflexivity |].
    rewrite Hc. reflexivity. }
  do 2 (split; [reflexivity |]).
  split; [simpl; apply dict_get_set_same |].
  split; [reflexivity |].
  split; [simpl; apply dict_get_set_same |].
  split; [reflexivity |].
  split; [apply Hafter; intros s; reflexivity |].
  split; [apply Hafter; intros s; reflexivity |].
  split; [| split].
  - intros props Hp Hx Hl.
    unfold bind; simpl. rewrite add_eq. unfold add_outcome; simpl.
    rewrite dict_get_set_same, Hp, Hx, Hl. reflexivity.
  - intros rate Hr Hx Hl.
    unfold bind; simpl. rewrite add_eq. unfold add_outcome; simpl.
    rewrite dict_get_set_same, Hr; simpl. rewrite Hx, Hl. reflexivity.
  - intros g' s st. apply summary_reads_the_tracker.
Qed.

End Overrides.

(** Ten layers of 0.5 cm of lead at 300 CHF, the price raised to 400 CHF, ten
    layers more: 1500 CHF stay 1500 CHF, and the second ten cost 2000 CHF. *)
Lemma overrides_witness :
  let g := Trackers.globals0 in
  let self :=
    snd (snd (Trackers.add "G4_Pb" 0.5%float 10 (g, Trackers.new 1%float))) in
  let priced := fst (snd (Trackers.set_price "G4_Pb" 400%float (g, self))) in
  Trackers.total_cost_chf self = 1500%float
  /\ Trackers.set_price "G4_Pb" 400%float (g, self) = (inr tt, (priced, self))
  /\ bind (Trackers.set_price "G4_Pb" 400%float)
          (fun _ => Trackers.add "G4_Pb" 0.5%float 10) (g, self)
     = (inr tt,
        (priced,
         Trackers.accumulate self "G4_Pb" (0.5 * 10)%float
           (0.5 * 10 * 1 * 400)%float (0.5 * 10 / 0.56)%float
           (0.5 * 10 / 17.1)%float))
  /\ (1500 + 0.5 * 10 * 1 * 400)%float = 3500%float.
Proof.
  cbv zeta.
  pose proof (@overrides_leave_accumulated_values float binary64
                Trackers.globals0
                (snd (snd (Trackers.add "G4_Pb" 0.5%float 10
                             (Trackers.globals0, Trackers.new 1%float))))
                "G4_Pb"%string 400%float 1%float 1%float
                "G4_Pb"%string 0.5%float 10%Z) as Ho.
  cbv zeta in Ho.
  destruct Ho as (H1 & _ & _ & _ & _ & _ & _ & _ & H9 & _).
  split; [vm_compute; reflexivity |].
  split; [exact H1 |].
  split; [| vm_compute; reflexivity].
  exact (H9 {| Trackers.X0_cm := 0.56%float;
               Trackers.lambdaI_cm := 17.1%float |}
            eq_refl eq_refl eq_refl).
Defined.

(** ** C6 and C7: the specification record of a builder *)

Ltac bind_inv H :=
  let a := fresh "a" in
  let s := fresh "s" in
  let Ha := fresh "Ha" in
  apply bind_inr in H; destruct H as (a & s & Ha & H).

Section SpecsKeys.
Context {F : Type} `{Arith F}.
Import Design.
Local Open Scope string_scope.

Lemma v1_specs total_X0 X0_cm ecal_slices ecal_material
    front_pairs fe_front sc_front mid_pairs fe_mid sc_mid
    back_pairs fe_back sc_back absorber active sensitive_active_only
    g ct gd specs e' :
  call (build_ecal_pbwo4_26X0_then_graded_fe_scint_hcal_200cm_v1
          total_X0 X0_cm ecal_slices ecal_material
          front_pairs fe_front sc_front mid_pairs fe_mid sc_mid
          back_pairs fe_back sc_back absorber active sensitive_active_only)
       g ct = (inr (gd, specs), e') ->
  dict_keys specs = v1_keys
  /\ exists ecal_lambda hcal_lambda,
       dict_get specs "ecal_lambda" = Some (PyFloat ecal_lambda)
       /\ dict_get specs "hcal_lambda" = Some (PyFloat hcal_lambda)
       /\ dict_get specs "total_lambda"
          = Some (PyFloat (fadd ecal_lambda hcal_lambda)).
Proof.
  unfold call, build_ecal_pbwo4_26X0_then_graded_fe_scint_hcal_200cm_v1.
  intros Hb.
  repeat bind_inv Hb.
  unfold ret in Hb. injection Hb as _ Hs _. subst specs.
  split; [reflexivity |].
  eexists; eexists. repeat split.
Qed.

Lemma v2_specs ecal_pairs pb_per_pair_cm sc_per_pair_cm
    ecal_absorber ecal_active
    front_pairs fe_front sc_front mid_pairs fe_mid sc_mid
    back_pairs fe_back sc_back absorber active sensitive_active_only
    g ct gd specs e' :
  call (build_pb_scint_ecal_then_graded_fe_scint_hcal_200cm_v2
          ecal_pairs pb_per_pair_cm sc_per_pair_cm ecal_absorber ecal_active
          front_pairs fe_front sc_front mid_pairs fe_mid sc_mid
          back_pairs fe_back sc_back absorber active sensitive_active_only)
       g ct = (inr (gd, specs), e') ->
  dict_keys specs = v2_keys.
Proof.
  unfold call, build_pb_scint_ecal_then_graded_fe_scint_hcal_200cm_v2.
  intros Hb.
  repeat bind_inv Hb.
  unfold ret in Hb. injection Hb as _ Hs _. subst specs.
  reflexivity.
Qed.

Lemma v4_2_specs ecal_pairs pb_cm sc_cm pbwo4_cm add_scint_endcap
    ecal_pb ecal_scint ecal_pbwo4
    trans_pairs fe_trans sc_trans mid_pairs fe_mid sc_mid
    back_pairs fe_back sc_back hcal_absorber hcal_active
    sensitive_active_only target_total_len_cm
    g ct gd specs e' :
  call (build_triple_ecal_then_fe_scint_hcal_2m_v4_2
          ecal_pairs pb_cm sc_cm pbwo4_cm add_scint_endcap
          ecal_pb ecal_scint ecal_pbwo4
          trans_pairs fe_trans sc_trans mid_pairs fe_mid sc_mid
          back_pairs fe_back sc_back hcal_absorber hcal_active
          sensitive_active_only target_total_len_cm)
       g ct = (inr (gd, specs), e') ->
  dict_keys specs = v4_2_keys.
Proof.
  unfold call, build_triple_ecal_then_fe_scint_hcal_2m_v4_2.
  intros Hb.
  repeat bind_inv Hb.
  unfold ret in Hb. injection Hb as _ Hs _. subst specs.
  reflexivity.
Qed.

End SpecsKeys.

(** C6, as stated, fails: called with its defaults, the second builder returns
    a [specs] without [ecal_lambda], [hcal_lambda] or [total_lambda]; its keys
    are lengths, counts and material names only. *)
Lemma v2_defaults_specs_without_lambda :
  option_map dict_keys
    (returned_specs (Design.call Design.v2_defaults Trackers.globals0 None))
  = Some v2_keys
  /\ has_lambda_key v2_keys = false
  /\ option_map (fun specs => dict_get specs "total_lambda"%string)
       (returned_specs (Design.call Design.v2_defaults Trackers.globals0 None))
     = Some None.
Proof. vm_compute. repeat split. Qed.

(** C6, amended.  Of the three builders only the first returns lambda_I
    budgets: its [specs] has exactly the keys [v1_keys], with [ecal_lambda],
    [hcal_lambda] and [total_lambda = ecal_lambda + hcal_lambda].  The [specs]
    of the second and of the third builder have exactly the keys [v2_keys] and
    [v4_2_keys], none of which is a lambda_I quantity (and the third has no
    [hcal_len_cm] either). *)
Theorem specs_keys_of_the_builders (F : Type) (A : Arith F) :
  (forall total_X0 X0_cm ecal_slices ecal_material
      front_pairs fe_front sc_front mid_pairs fe_mid sc_mid
      back_pairs fe_back sc_back absorber active sensitive_active_only
      g ct gd specs e',
      Design.call
        (Design.build_ecal_pbwo4_26X0_then_graded_fe_scint_hcal_200cm_v1
           total_X0 X0_cm ecal_slices ecal_material
           front_pairs fe_front sc_front mid_pairs fe_mid sc_mid
           back_pairs fe_back sc_back absorber active sensitive_active_only)
        g ct = (inr (gd, specs), e') ->
      dict_keys specs = v1_keys
      /\ exists ecal_lambda hcal_lambda : F,
           dict_get specs "ecal_lambda"%string
           = Some (Design.PyFloat ecal_lambda)
           /\ dict_get specs "hcal_lambda"%string
              = Some (Design.PyFloat hcal_lambda)
           /\ dict_get specs "total_lambda"%string
              = Some (Design.PyFloat (fadd ecal_lambda hcal_lambda)))
  /\ (forall ecal_pairs pb_per_pair_cm sc_per_pair_cm
        ecal_absorber ecal_active
        front_pairs fe_front sc_front mid_pairs fe_mid sc_mid
        back_pairs fe_back sc_back absorber active sensitive_active_only
        g ct gd (specs : dict (Design.pyval F)) e',
        Design.call
          (Design.build_pb_scint_ecal_then_graded_fe_scint_hcal_200cm_v2
             ecal_pairs pb_per_pair_cm sc_per_pair_cm
             ecal_absorber ecal_active
             front_pairs fe_front sc_front mid_pairs fe_mid sc_mid
             back_pairs fe_back sc_back absorber active sensitive_active_only)
          g ct = (inr (gd, specs), e') ->
        dict_keys specs = v2_keys)
  /\ (forall ecal_pairs pb_cm sc_cm pbwo4_cm add_scint_endcap
        ecal_pb ecal_scint ecal_pbwo4
        trans_pairs fe_trans sc_trans mid_pairs fe_mid sc_mid
        back_pairs fe_back sc_back hcal_absorber hcal_active
        sensitive_active_only target_total_len_cm
        g ct gd (specs : dict (Design.pyval F)) e',
        Design.call
          (Design.build_triple_ecal_then_fe_scint_hcal_2m_v4_2
             ecal_pairs pb_cm sc_cm pbwo4_cm add_scint_endcap
             ecal_pb ecal_scint ecal_pbwo4
             trans_pairs fe_trans sc_trans mid_pairs fe_mid sc_mid
             back_pairs fe_back sc_back hcal_absorber hcal_active
             sensitive_active_only target_total_len_cm)
          g ct = (inr (gd, specs), e') ->
        dict_keys specs = v4_2_keys)
  /\ has_lambda_key v1_keys = true
  /\ has_lambda_key v2_keys = false
  /\ has_lambda_key v4_2_keys = false.
Proof.
  split; [intros; eapply v1_specs; eassumption |].
  split; [intros; eapply v2_specs; eassumption |].
  split; [intros; eapply v4_2_specs; eassumption |].
  repeat split.
Qed.

(** The three builders, called with their defaults and no tracker, return,
    each with its list of keys. *)
Lemma specs_keys_of_the_defaults :
  option_map dict_keys
    (returned_specs (Design.call Design.v1_defaults Trackers.globals0 None))
  = Some v1_keys
  /\ option_map dict_keys
       (returned_specs (Design.call Design.v2_defaults Trackers.globals0 None))
     = Some v2_keys
  /\ option_map dict_keys
       (returned_specs
          (Design.call Design.v4_2_defaults Trackers.globals0 None))
     = Some v4_2_keys.
Proof.
  destruct (Design.call Design.v1_defaults Trackers.globals0 None)
    as [[e1 | [gd1 specs1]] env1] eqn:H1; [vm_compute in H1; discriminate |].
  destruct (Design.call Design.v2_defaults Trackers.globals0 None)
    as [[e2 | [gd2 specs2]] env2] eqn:H2; [vm_compute in H2; discriminate |].
  destruct (Design.call Design.v4_2_defaults Trackers.globals0 None)
    as [[e3 | [gd3 specs3]] env3] eqn:H3; [vm_compute in H3; discriminate |].
  destruct (specs_keys_of_the_builders binary64) as (K1 & K2 & K3 & _).
  apply K1 in H1. apply K2 in H2. apply K3 in H3.
  simpl. rewrite (proj1 H1), H2, H3. repeat split.
Defined.

(** ** C7: the second builder with its defaults *)

(** C7.  With the defaults (60 pairs of 0.20 cm of lead and 0.20 cm of
    scintillator; 18, 28 and 50 pairs in the HCAL) the call returns, with
    [ecal_len_cm] the float 24.0 and [total_len_cm] the float that the literal
    198.6 denotes (the interpreter prints it as 198.6); the tables do not
    matter, and a fresh tracker over the tables of the source changes
    nothing. *)
Theorem v2_defaults_lengths (g : Trackers.Globals float) :
  let specs_are (specs : dict (Design.pyval float)) :=
    dict_get specs "ecal_len_cm"%string = Some (Design.PyFloat 24.0%float)
    /\ dict_get specs "total_len_cm"%string
       = Some (Design.PyFloat 198.6%float)
    /\ dict_get specs "front_pairs"%string = Some (Design.PyFloat 18%float)
    /\ dict_get specs "mid_pairs"%string = Some (Design.PyFloat 28%float)
    /\ dict_get specs "back_pairs"%string = Some (Design.PyFloat 50%float) in
  (exists specs,
      returned_specs (Design.call Design.v2_defaults g None) = Some specs
      /\ specs_are specs)
  /\ (exists specs,
        returned_specs
          (Design.call Design.v2_defaults Trackers.globals0
             (Some (Trackers.new 1%float))) = Some specs
        /\ specs_are specs).
Proof.
  cbv zeta. split.
  - eexists. split; [vm_compute; reflexivity |]. vm_compute. repeat split.
  - eexists. split; [vm_compute; reflexivity |]. vm_compute. repeat split.
Qed.

(** ** C1: the totals and the per-material accumulators *)

(** C1, as stated, fails in binary64.  After [add("G4_Pb", 0.1)],
    [add("G4_Fe", 0.1)], [add("G4_Pb", 0.4)] on a fresh tracker the total length
    is (0.1 + 0.1) + 0.4 = 0.6000000000000001 while the accumulators hold
    0.1 + 0.4 = 0.5 and 0.1, whose sum is 0.6. *)
Lemma totals_differ_from_sums_in_binary64 :
  let calls := [ Add "G4_Pb" 0.1%float 1; Add "G4_Fe" 0.1%float 1;
                 Add "G4_Pb" 0.4%float 1 ] in
  let self := ledger_after Trackers.globals0 1%float calls in
  fst (run_calls calls (Trackers.globals0, Trackers.new 1%float)) = inr tt
  /\ Trackers.total_length_cm self = 0.6000000000000001%float
  /\ Trackers.by_material_cm self
     = [ ("G4_Pb"%string, 0.5%float); ("G4_Fe"%string, 0.1%float) ]
  /\ py_sum (dict_values (Trackers.by_material_cm self)) = 0.6%float
  /\ PrimFloat.eqb (Trackers.total_length_cm self)
       (py_sum (dict_values (Trackers.by_material_cm self))) = false
  /\ totals_are_sums self = false.
Proof. vm_compute. repeat split. Qed.

(** *** The increments a tracker holds *)

Section LogFacts.
Context {F : Type} `{Arith F}.
Import Trackers.

Lemma sum_from_zero_snoc (xs : list F) (x : F) :
  sum_from_zero (xs ++ [x]) = fadd (sum_from_zero xs) x.
Proof. unfold sum_from_zero. now rewrite fold_left_app. Qed.

(** The entry of a material after one more increment of that material. *)
Lemma entry_snoc (xs : list F) (x : F) :
  entry (xs ++ [x])
  = Some (fadd (match entry xs with Some v => v | None => fzero end) x).
Proof.
  destruct xs as [| y ys]; [reflexivity |].
  change ((y :: ys) ++ [x]) with (y :: (ys ++ [x])).
  cbn [entry]. change (y :: ys ++ [x]) with ((y :: ys) ++ [x]).
  now rewrite sum_from_zero_snoc.
Qed.

Lemma bump_entry (d : dict F) (m m' : string) (x : F) (xs : list F) :
  dict_get d m' = entry xs ->
  dict_get (dict_set d m' (fadd (dict_get_default d m' fzero) x)) m'
  = entry (xs ++ [x]).
Proof.
  intros Hd. rewrite dict_get_set_same, entry_snoc.
  unfold dict_get_default. now rewrite Hd.
Qed.

Lemma accumulate_holds self material tcm chf x0_units li_units log :
  holds self log ->
  holds (accumulate self material tcm chf x0_units li_units)
    (log ++ [ {| inc_material := material; inc_cm := tcm; inc_chf := chf;
                 inc_X0 := x0_units; inc_lambdaI := li_units |} ]).
Proof.
  intros (T1 & T2 & T3 & T4 & Hm).
  unfold holds, accumulate;
    cbn [total_length_cm total_cost_chf total_X0 total_lambdaI
         by_material_cm by_material_chf by_material_X0 by_material_lambdaI].
  rewrite !map_app; cbn [map inc_cm inc_chf inc_X0 inc_lambdaI].
  rewrite !sum_from_zero_snoc, <- T1, <- T2, <- T3, <- T4.
  do 4 (split; [reflexivity |]).
  intros m. destruct (Hm m) as (M1 & M2 & M3 & M4).
  unfold of_material. rewrite filter_app; cbn [filter inc_material].
  destruct (String.eqb material m) eqn:E.
  - apply String.eqb_eq in E. subst m.
    rewrite !map_app; cbn [map inc_cm inc_chf inc_X0 inc_lambdaI].
    repeat split; apply bump_entry; assumption.
  - rewrite app_nil_r.
    assert (material <> m) by (intros ->; now rewrite String.eqb_refl in E).
    rewrite !dict_get_set_other by assumption.
    repeat split; assumption.
Qed.

Lemma keeps_log_add material thickness_cm count :
  keeps_log (add material thickness_cm count).
Proof.
  intros [g self] log Hs. rewrite add_eq. unfold add_outcome.
  destruct (dict_get (COST_CHF_PER_CM_M2 g) material); [| now exists log].
  destruct (dict_get (MATERIAL_PROP g) material) as [props |];
    [| now exists log].
  destruct (feqb (X0_cm props) fzero); [now exists log |].
  destruct (feqb (lambdaI_cm props) fzero); [now exists log |].
  eexists. apply accumulate_holds, Hs.
Qed.

Lemma keeps_log_bind {A B} (c : M state A) (k : A -> M state B) :
  keeps_log c -> (forall a, keeps_log (k a)) -> keeps_log (bind c k).
Proof.
  intros Hc Hk s log Hs. unfold bind.
  destruct (Hc s log Hs) as (log1 & H1).
  destruct (c s) as [[e | a] s1]; [now exists log1 |].
  exact (Hk a s1 log1 H1).
Qed.

Lemma keeps_log_ret {A} (a : A) : keeps_log (ret a : M state A).
Proof. intros s log Hs. now exists log. Qed.

Lemma keeps_log_repeatM n (body : M state unit) :
  keeps_log body -> keeps_log (repeatM n body).
Proof.
  intros Hb. induction n as [| n IH]; simpl.
  - apply keeps_log_ret.
  - apply keeps_log_bind; auto.
Qed.

Lemma keeps_log_for_each {A} (xs : list A) (body : A -> M state unit) :
  (forall x, keeps_log (body x)) -> keeps_log (for_each xs body).
Proof.
  intros Hb. induction xs as [| x xs IH]; simpl.
  - apply keeps_log_ret.
  - apply keeps_log_bind; auto.
Qed.

Lemma keeps_log_run_call (c : ledger_call) : keeps_log (run_call c).
Proof.
  destruct c as [m t n | [[[m1 t1] m2] t2] n | spec n | m v | m x l]; simpl.
  - apply keeps_log_add.
  - apply keeps_log_bind; [apply keeps_log_add |].
    intros _. apply keeps_log_add.
  - apply keeps_log_repeatM, keeps_log_for_each.
    intros mt. apply keeps_log_add.
  - intros s log Hs. now exists log.
  - intros s log Hs. now exists log.
Qed.

End LogFacts.

(** *** Exact arithmetic *)

Section Rational.
Import Trackers.
Local Open Scope Qc_scope.

Lemma of_int_0 : @of_int Qc rational 0 = 0.
Proof. reflexivity. Qed.

Lemma of_int_1 : @of_int Qc rational 1 = 1.
Proof. reflexivity. Qed.

Lemma of_int_succ (k : nat) :
  @of_int Qc rational (Z.of_nat (S k)) = @of_int Qc rational (Z.of_nat k) + 1.
Proof.
  rational_ops. rewrite Nat2Z.inj_succ. unfold Z.succ, Qcplus.
  apply Q2Qc_eq_iff. cbn [this Q2Qc].
  rewrite Qred_correct, inject_Z_plus. reflexivity.
Qed.

Lemma feqb_rational (x y : Qc) : feqb x y = true <-> x = y.
Proof.
  rational_ops. split; [apply Qc_eq_bool_correct |].
  intros ->. unfold Qc_eq_bool. destruct (Qc_eq_dec y y); congruence.
Qed.

Lemma fold_left_Qcplus (xs : list Qc) (a : Qc) :
  fold_left Qcplus xs a = a + fold_left Qcplus xs 0.
Proof.
  revert a. induction xs as [| x xs IH]; intros a; simpl.
  - ring.
  - rewrite IH, (IH (0 + x)). ring.
Qed.

Lemma py_sum_nil : @py_sum Qc rational [] = 0.
Proof. reflexivity. Qed.

Lemma py_sum_cons (x : Qc) xs : py_sum (x :: xs) = x + py_sum xs.
Proof.
  unfold py_sum; rational_ops; simpl.
  change (Q2Qc (inject_Z 0)) with 0.
  rewrite fold_left_Qcplus. ring.
Qed.

Lemma py_sum_app (xs ys : list Qc) :
  py_sum (xs ++ ys) = py_sum xs + py_sum ys.
Proof.
  induction xs as [| x xs IH]; simpl.
  - rewrite py_sum_nil. ring.
  - rewrite !py_sum_cons, IH. ring.
Qed.

(** Adding [x] to the entry of [k], as [add] does for each accumulator. *)
Lemma py_sum_bump (d : dict Qc) (k : string) (x : Qc) :
  py_sum (dict_values (dict_set d k (fadd (dict_get_default d k fzero) x)))
  = py_sum (dict_values d) + x.
Proof.
  rational_ops. unfold dict_values, dict_get_default.
  induction d as [| [k' v'] d IH]; simpl.
  - rewrite py_sum_cons, py_sum_nil. ring.
  - destruct (String.eqb k' k); simpl.
    + rewrite !py_sum_cons. ring.
    + rewrite !py_sum_cons, IH. ring.
Qed.

Lemma totals_are_sums_inv (self : CostTracker Qc) :
  totals_are_sums self = true <-> sums_inv self.
Proof.
  unfold totals_are_sums, sums_inv.
  rewrite !andb_true_iff, !feqb_rational. tauto.
Qed.

Lemma accumulate_inv self material tcm chf x0_units li_units :
  sums_inv self ->
  sums_inv (accumulate self material tcm chf x0_units li_units).
Proof.
  intros (H1 & H2 & H3 & H4). unfold sums_inv, accumulate; simpl.
  rewrite !py_sum_bump, <- H1, <- H2, <- H3, <- H4. repeat split.
Qed.

Lemma keeps_inv_add material thickness_cm count :
  keeps_inv (add material thickness_cm count).
Proof.
  intros [g self] Hs. rewrite add_eq. unfold add_outcome.
  destruct (dict_get (COST_CHF_PER_CM_M2 g) material); [| exact Hs].
  destruct (dict_get (MATERIAL_PROP g) material) as [props |]; [| exact Hs].
  destruct (feqb (X0_cm props) fzero); [exact Hs |].
  destruct (feqb (lambdaI_cm props) fzero); [exact Hs |].
  apply accumulate_inv, Hs.
Qed.

Lemma keeps_inv_bind {A B} (c : M state A) (k : A -> M state B) :
  keeps_inv c -> (forall a, keeps_inv (k a)) -> keeps_inv (bind c k).
Proof.
  intros Hc Hk s Hs. unfold bind.
  specialize (Hc s Hs). destruct (c s) as [[e | a] s1]; [exact Hc |].
  apply Hk, Hc.
Qed.

Lemma keeps_inv_ret {A} (a : A) : keeps_inv (ret a).
Proof. intros s Hs. exact Hs. Qed.

Lemma keeps_inv_repeatM n (body : M state unit) :
  keeps_inv body -> keeps_inv (repeatM n body).
Proof.
  intros Hb. induction n as [| n IH]; simpl.
  - apply keeps_inv_ret.
  - apply keeps_inv_bind; auto.
Qed.

Lemma keeps_inv_for_each {A} (xs : list A) (body : A -> M state unit) :
  (forall x, keeps_inv (body x)) -> keeps_inv (for_each xs body).
Proof.
  intros Hb. induction xs as [| x xs IH]; simpl.
  - apply keeps_inv_ret.
  - apply keeps_inv_bind; auto.
Qed.

Lemma keeps_inv_run_call (c : ledger_call) : keeps_inv (run_call c).
Proof.
  destruct c as [m t n | [[[m1 t1] m2] t2] n | spec n | m v | m x l]; simpl.
  - apply keeps_inv_add.
  - apply keeps_inv_bind; [apply keeps_inv_add |].
    intros _. apply keeps_inv_add.
  - apply keeps_inv_repeatM, keeps_inv_for_each.
    intros mt. apply keeps_inv_add.
  - intros s Hs. exact Hs.
  - intros s Hs. exact Hs.
Qed.

(** C1, amended.  In any arithmetic, after every sequence of [add],
    [add_pair] and [add_period] calls (and of catalog overrides) on a fresh
    tracker, whether a call raised or not, each of the four totals is the sum,
    in the order of the calls, of the increments of the calls that returned,
    and each per-material accumulator the sum of the increments of its
    material: no increment reaches one bookkeeping and not the other.  In
    exact arithmetic each total therefore equals the sum of the per-material
    accumulators of its quantity; in binary64 the two sums round differently
    and need not be equal. *)
Theorem totals_are_sums_in_exact_arithmetic :
  (forall (F : Type) (A : Arith F) (g : Globals F) (area : F)
      (calls : list (@ledger_call F)),
      exists log, holds (ledger_after g area calls) log)
  /\ (forall (g : Globals Qc) (area : Qc) (calls : list (@ledger_call Qc)),
        totals_are_sums (ledger_after g area calls) = true).
Proof.
  split.
  - intros F A g area calls. unfold ledger_after, run_calls.
    pose proof (keeps_log_for_each calls run_call keeps_log_run_call) as Hk.
    unfold keeps_log in Hk. apply (Hk (g, new area) []).
    unfold holds; cbn. repeat split.
  - intros g area calls.
    apply totals_are_sums_inv. unfold ledger_after, run_calls.
    apply (keeps_inv_for_each calls run_call keeps_inv_run_call (g, new area)).
    simpl. repeat split.
Qed.

End Rational.

(** ** C9: [add_pair] and [add_period] *)

(** C9, as stated, fails in binary64: [add_pair] accumulates [t * count] once,
    [add_period] adds [t] [count] times.  With a thickness of 0.1 and a count
    of 10 the first holds 0.1 * 10 = 1.0 for each material, the second
    0.1 + ... + 0.1 = 0.9999999999999999. *)
Lemma add_pair_differs_from_add_period_in_binary64 :
  let s0 := (Trackers.globals0, Trackers.new 1%float) in
  let paired :=
    Trackers.add_pair ("G4_Pb"%string, 0.1%float, "G4_Fe"%string, 0.1%float)
      10 s0 in
  let repeated :=
    Trackers.add_period [("G4_Pb"%string, 0.1%float);
                         ("G4_Fe"%string, 0.1%float)] 10 s0 in
  valid_material Trackers.globals0 "G4_Pb" = true
  /\ valid_material Trackers.globals0 "G4_Fe" = true
  /\ fst paired = inr tt
  /\ fst repeated = inr tt
  /\ Trackers.by_material_cm (snd (snd paired))
     = [ ("G4_Pb"%string, 1%float); ("G4_Fe"%string, 1%float) ]
  /\ Trackers.by_material_cm (snd (snd repeated))
     = [ ("G4_Pb"%string, 0.9999999999999999%float);
         ("G4_Fe"%string, 0.9999999999999999%float) ]
  /\ PrimFloat.eqb (Trackers.total_length_cm (snd (snd paired)))
       (Trackers.total_length_cm (snd (snd repeated))) = false.
Proof. vm_compute. repeat split. Qed.

Section AddValid.
Context {F : Type} `{Arith F}.
Import Trackers.

Lemma add_valid g self material thickness_cm count :
  valid_material g material = true ->
  add material thickness_cm count (g, self)
  = (inr tt, (g, add_result g self material thickness_cm count)).
Proof.
  unfold valid_material, add_result. rewrite add_eq. unfold add_outcome.
  destruct (dict_get (COST_CHF_PER_CM_M2 g) material); [| discriminate].
  destruct (dict_get (MATERIAL_PROP g) material) as [props |];
    [| discriminate].
  destruct (feqb (X0_cm props) fzero); [discriminate |].
  destruct (feqb (lambdaI_cm props) fzero); [discriminate |].
  reflexivity.
Qed.

End AddValid.

Section RationalPaths.
Import Trackers.
Local Open Scope Qc_scope.

Lemma dict_set_set {V} (d : dict V) k v v' :
  dict_set (dict_set d k v) k v' = dict_set d k v'.
Proof.
  induction d as [| [k0 v0] d IH]; simpl.
  - now rewrite String.eqb_refl.
  - destruct (String.eqb k0 k) eqn:E; simpl; rewrite E; [reflexivity |].
    now rewrite IH.
Qed.

Lemma dict_set_swap {V} (d : dict V) k1 k2 v1 v2 :
  dict_mem d k1 = true -> k1 <> k2 ->
  dict_set (dict_set d k2 v2) k1 v1 = dict_set (dict_set d k1 v1) k2 v2.
Proof.
  intros Hm Hk. unfold dict_mem in Hm.
  induction d as [| [k0 v0] d IH]; simpl in *; [discriminate |].
  destruct (String.eqb k0 k1) eqn:E1.
  - apply String.eqb_eq in E1. subst k0.
    destruct (String.eqb k1 k2) eqn:E2.
    + apply String.eqb_eq in E2. contradiction.
    + simpl. rewrite String.eqb_refl, E2. reflexivity.
  - destruct (String.eqb k0 k2) eqn:E2; simpl; rewrite E1, E2.
    + reflexivity.
    + now rewrite IH.
Qed.

Lemma bump_same d k x y : bump (bump d k x) k y = bump d k (x + y).
Proof.
  unfold bump, dict_get_default.
  rewrite dict_get_set_same, dict_set_set. f_equal. ring.
Qed.

Lemma bump_mem d k x : dict_mem (bump d k x) k = true.
Proof. unfold bump, dict_mem. now rewrite dict_get_set_same. Qed.

Lemma bump_swap d k1 k2 x y :
  dict_mem d k1 = true -> k1 <> k2 ->
  bump (bump d k2 y) k1 x = bump (bump d k1 x) k2 y.
Proof.
  intros Hm Hk. unfold bump, dict_get_default.
  rewrite !dict_get_set_other by congruence.
  now apply dict_set_swap.
Qed.

Lemma four_bumps d k1 k2 x1 x2 y1 y2 :
  bump (bump (bump (bump d k1 x1) k2 x2) k1 y1) k2 y2
  = bump (bump d k1 (x1 + y1)) k2 (x2 + y2).
Proof.
  destruct (string_dec k1 k2) as [-> | Hk].
  - rewrite !bump_same. f_equal. ring.
  - rewrite (bump_swap (bump d k1 x1)) by (apply bump_mem || exact Hk).
    now rewrite !bump_same.
Qed.

Lemma accumulate_bumps (self : CostTracker Qc) m a b c e :
  accumulate self m a b c e
  = {| area_m2 := area_m2 self;
       by_material_cm := bump (by_material_cm self) m a;
       by_material_chf := bump (by_material_chf self) m b;
       by_material_X0 := bump (by_material_X0 self) m c;
       by_material_lambdaI := bump (by_material_lambdaI self) m e;
       total_length_cm := total_length_cm self + a;
       total_cost_chf := total_cost_chf self + b;
       total_X0 := total_X0 self + c;
       total_lambdaI := total_lambdaI self + e |}.
Proof. reflexivity. Qed.

(** Two periods of two materials accumulate as one period of the sums. *)
Lemma accumulate_two_periods (self : CostTracker Qc) m1 m2
    a1 b1 c1 e1 a2 b2 c2 e2 a1' b1' c1' e1' a2' b2' c2' e2' :
  accumulate
    (accumulate
       (accumulate (accumulate self m1 a1 b1 c1 e1) m2 a2 b2 c2 e2)
       m1 a1' b1' c1' e1')
    m2 a2' b2' c2' e2'
  = accumulate
      (accumulate self m1 (a1 + a1') (b1 + b1') (c1 + c1') (e1 + e1'))
      m2 (a2 + a2') (b2 + b2') (c2 + c2') (e2 + e2').
Proof.
  rewrite !accumulate_bumps; cbn [area_m2 by_material_cm by_material_chf
    by_material_X0 by_material_lambdaI total_length_cm total_cost_chf
    total_X0 total_lambdaI].
  rewrite !four_bumps. f_equal; ring.
Qed.

(** The tracker after a pair of valid materials, each with its count. *)
Lemma add_pair_valid g self m1 t1 m2 t2 n :
  valid_material g m1 = true -> valid_material g m2 = true ->
  add_pair (m1, t1, m2, t2) n (g, self)
  = (inr tt, (g, add_result g (add_result g self m1 t1 n) m2 t2 n)).
Proof.
  intros H1 H2. unfold add_pair.
  erewrite bind_ok by (apply add_valid; assumption).
  apply add_valid, H2.
Qed.

Lemma add_period_valid g m1 t1 m2 t2 (k : nat) : forall self,
  valid_material g m1 = true -> valid_material g m2 = true ->
  repeatM (S k)
    (for_each [(m1, t1); (m2, t2)] (fun mt => add (fst mt) (snd mt) 1))
    (g, self)
  = (inr tt,
     (g, add_result g (add_result g self m1 t1 (Z.of_nat (S k)))
           m2 t2 (Z.of_nat (S k)))).
Proof.
  intros self H1 H2. revert self.
  assert (Hbody : forall self,
             for_each [(m1, t1); (m2, t2)]
               (fun mt => add (fst mt) (snd mt) 1) (g, self)
             = (inr tt,
                (g, add_result g (add_result g self m1 t1 1) m2 t2 1))).
  { intros self. cbn [for_each fst snd].
    erewrite bind_ok by (apply add_valid; assumption).
    erewrite bind_ok by (apply add_valid; assumption). reflexivity. }
  induction k as [| k IH]; intros self.
  - cbn [repeatM]. erewrite bind_ok by apply Hbody. reflexivity.
  - change (repeatM (S (S k)) ?b) with (bind b (fun _ => repeatM (S k) b)).
    erewrite bind_ok by apply Hbody. rewrite IH.
    do 2 f_equal.
    unfold add_result, add_outcome, valid_material in *.
    destruct (dict_get (COST_CHF_PER_CM_M2 g) m1) as [r1 |];
      [| discriminate].
    destruct (dict_get (MATERIAL_PROP g) m1) as [p1 |]; [| discriminate].
    destruct (dict_get (COST_CHF_PER_CM_M2 g) m2) as [r2 |];
      [| discriminate].
    destruct (dict_get (MATERIAL_PROP g) m2) as [p2 |]; [| discriminate].
    destruct (feqb (X0_cm p1) fzero); [discriminate |].
    destruct (feqb (lambdaI_cm p1) fzero); [discriminate |].
    destruct (feqb (X0_cm p2) fzero); [discriminate |].
    destruct (feqb (lambdaI_cm p2) fzero); [discriminate |].
    cbn [fst snd]. rewrite accumulate_two_periods.
    rewrite (of_int_succ (S k)), of_int_1.
    cbn [area_m2 accumulate]. rational_ops. unfold Qcdiv.
    f_equal; [f_equal | ..]; ring.
Qed.

(** C9, amended.  In exact arithmetic, for a pair of valid materials and a
    count [n >= 1], [add_pair((m1, t1, m2, t2), n)] and
    [add_period([(m1, t1), (m2, t2)], n)] return and leave the tables and the
    tracker in the same state.  (In binary64 the first accumulates the rounded
    product [t * n] and the second [n] rounded additions of [t]: the states
    need not be equal.) *)
Theorem add_pair_is_add_period_in_exact_arithmetic
    (g : Globals Qc) (self : CostTracker Qc)
    (m1 : string) (t1 : Qc) (m2 : string) (t2 : Qc) (n : Z) :
  (1 <= n)%Z ->
  valid_material g m1 = true ->
  valid_material g m2 = true ->
  add_pair (m1, t1, m2, t2) n (g, self)
  = add_period [(m1, t1); (m2, t2)] n (g, self)
  /\ fst (add_pair (m1, t1, m2, t2) n (g, self)) = inr tt.
Proof.
  intros Hn H1 H2. rewrite add_pair_valid by assumption.
  split; [| reflexivity].
  unfold add_period, for_range.
  destruct (Z.to_nat n) as [| k] eqn:Hk; [lia |].
  rewrite add_period_valid by assumption.
  rewrite <- Hk, Z2Nat.id by lia. reflexivity.
Qed.

End RationalPaths.

Lemma add_pair_is_add_period_witness :
  Trackers.add_pair
    ("G4_Pb"%string, dec 15 100, "G4_POLYSTYRENE"%string, dec 10 100) 96
    (globalsQ, Trackers.new (dec 1 1))
  = Trackers.add_period
      [("G4_Pb"%string, dec 15 100); ("G4_POLYSTYRENE"%string, dec 10 100)] 96
      (globalsQ, Trackers.new (dec 1 1))
  /\ fst (Trackers.add_pair
            ("G4_Pb"%string, dec 15 100, "G4_POLYSTYRENE"%string, dec 10 100)
            96 (globalsQ, Trackers.new (dec 1 1))) = inr tt.
Proof.
  apply add_pair_is_add_period_in_exact_arithmetic;
    [lia | vm_compute; reflexivity | vm_compute; reflexivity].
Defined.

(** ** The layers of a build *)

Section Layers.
Context {F : Type} `{Arith F}.
Import Design.

Lemma appends_ret {A} (a : A) : appends (ret a : M (env F) A) [].
Proof. intros e a' e' [= _ <-]. now rewrite app_nil_r. Qed.

Lemma appends_bind {A B} (c : M (env F) A) (k : A -> M (env F) B) l1 l2 :
  appends c l1 -> (forall a, appends (k a) l2) -> appends (bind c k) (l1 ++ l2).
Proof.
  intros Hc Hk e b e' Hb. bind_inv Hb.
  rewrite (Hk _ _ _ _ Hb), (Hc _ _ _ Ha). now rewrite app_assoc.
Qed.

Lemma appends_gd_addLayer (t : F) m s : appends (gd_addLayer t m s) [mk_layer t m s].
Proof. intros e a e' [= _ <-]. reflexivity. Qed.

Lemma appends_tracker_add m (t : F) : appends (tracker_add m t) [].
Proof.
  intros e a e'. unfold tracker_add. rewrite app_nil_r.
  destruct (cost_tracker e) as [ct |].
  - destruct (Trackers.add m t 1 (globals e, ct)) as [r [g' ct']].
    intros [= _ <-]. reflexivity.
  - intros [= _ <-]. reflexivity.
Qed.

Lemma appends_repeatM (n : nat) (body : M (env F) unit) l :
  appends body l -> appends (repeatM n body) (List.concat (repeat l n)).
Proof.
  intros Hb. induction n as [| n IH]; simpl.
  - apply appends_ret.
  - apply appends_bind; [exact Hb | intros _; exact IH].
Qed.

Lemma appends_for_range n (body : M (env F) unit) l :
  appends body l -> appends (for_range n body) (periods n l).
Proof. apply appends_repeatM. Qed.

Lemma appends_add_section absorber active sens n (ta tb : F) :
  appends (add_section absorber active sens n ta tb)
    (section_layers absorber active sens n ta tb).
Proof.
  apply appends_for_range.
  change [mk_layer ta absorber false; mk_layer tb active sens]
    with ([mk_layer ta absorber false]
            ++ [mk_layer tb active sens] ++ [] ++ []).
  repeat (apply appends_bind; [| intros _]);
    auto using appends_gd_addLayer, appends_tracker_add.
Qed.

Lemma gd_new_layers (e : env F) a e' :
  gd_new e = (inr a, e') -> G4Calo.layers (gd e') = [].
Proof. intros [= _ <-]. reflexivity. Qed.

End Layers.

Section BuilderLayers.
Context {F : Type} `{Arith F}.
Import Design.

Lemma get_inr {S} (s : S) a s' : get s = (inr a, s') -> a = s /\ s' = s.
Proof. intros [= <- <-]. split; reflexivity. Qed.

(** Computations that only read. *)
Lemma fdiv_env {S} (x y : F) (e : S) a e' :
  fdiv x y e = (inr a, e') -> e' = e.
Proof.
  unfold fdiv. destruct (feqb y fzero); [discriminate |].
  now intros [= _ <-].
Qed.

Lemma lambda_int_cm_env m (e : env F) a e' :
  lambda_int_cm m e = (inr a, e') -> e' = e.
Proof.
  unfold lambda_int_cm, dict_lookup, bind, get.
  destruct (dict_get _ m); [| discriminate].
  now intros [= _ <-].
Qed.

Lemma lam_pair_env absorber active (ta tb : F) (e : env F) a e' :
  lam_pair absorber active ta tb e = (inr a, e') -> e' = e.
Proof.
  unfold lam_pair. intros Hl.
  apply bind_inr in Hl as (la & e1 & H1 & Hl).
  apply bind_inr in Hl as (qa & e2 & H2 & Hl).
  apply bind_inr in Hl as (lb & e3 & H3 & Hl).
  apply bind_inr in Hl as (qb & e4 & H4 & Hl).
  injection Hl as _ <-.
  apply fdiv_env in H4, H2. apply lambda_int_cm_env in H3, H1.
  congruence.
Qed.

(** The second builder: its layers and its [total_len_cm]. *)
Lemma v2_layers ecal_pairs (pb_per_pair_cm sc_per_pair_cm : F)
    ecal_absorber ecal_active
    front_pairs fe_front sc_front mid_pairs fe_mid sc_mid
    back_pairs fe_back sc_back absorber active sensitive_active_only
    g ct gd specs e' :
  call (build_pb_scint_ecal_then_graded_fe_scint_hcal_200cm_v2
          ecal_pairs pb_per_pair_cm sc_per_pair_cm ecal_absorber ecal_active
          front_pairs fe_front sc_front mid_pairs fe_mid sc_mid
          back_pairs fe_back sc_back absorber active sensitive_active_only)
       g ct = (inr (gd, specs), e') ->
  G4Calo.layers gd
  = section_layers ecal_absorber ecal_active true
      ecal_pairs pb_per_pair_cm sc_per_pair_cm
    ++ hcal_layers absorber active sensitive_active_only
         front_pairs fe_front sc_front mid_pairs fe_mid sc_mid
         back_pairs fe_back sc_back
  /\ dict_get specs "total_len_cm"%string
     = Some (PyFloat
               (fadd (fmul (of_int ecal_pairs)
                           (fadd pb_per_pair_cm sc_per_pair_cm))
                     (fadd (fadd (fmul (of_int front_pairs)
                                       (fadd fe_front sc_front))
                                 (fmul (of_int mid_pairs)
                                       (fadd fe_mid sc_mid)))
                           (fmul (of_int back_pairs)
                                 (fadd fe_back sc_back))))).
Proof.
  unfold call, build_pb_scint_ecal_then_graded_fe_scint_hcal_200cm_v2.
  intros Hb.
  apply bind_inr in Hb as (u0 & e0 & H0 & Hb).
  apply bind_inr in Hb as (u1 & e1 & H1 & Hb).
  apply bind_inr in Hb as (u2 & e2 & H2 & Hb).
  apply bind_inr in Hb as (u3 & e3 & H3 & Hb).
  apply bind_inr in Hb as (u4 & e4 & H4 & Hb).
  apply bind_inr in Hb as (u5 & e5 & H5 & Hb).
  apply get_inr in H5 as [-> ->].
  injection Hb as <- <- _.
  apply gd_new_layers in H0.
  apply (appends_add_section ecal_absorber ecal_active true) in H1.
  apply appends_add_section in H2, H3, H4.
  split; [| reflexivity].
  rewrite H4, H3, H2, H1, H0. unfold hcal_layers.
  now rewrite <- !app_assoc.
Qed.

(** The first builder: it returns only for a non-zero [ecal_slices]. *)
Lemma v1_layers (total_X0 X0_cm : F) ecal_slices ecal_material
    front_pairs fe_front sc_front mid_pairs fe_mid sc_mid
    back_pairs fe_back sc_back absorber active sensitive_active_only
    g ct gd specs e' :
  call (build_ecal_pbwo4_26X0_then_graded_fe_scint_hcal_200cm_v1
          total_X0 X0_cm ecal_slices ecal_material
          front_pairs fe_front sc_front mid_pairs fe_mid sc_mid
          back_pairs fe_back sc_back absorber active sensitive_active_only)
       g ct = (inr (gd, specs), e') ->
  let ecal_len_cm := fmul total_X0 X0_cm in
  let ecal_slice := fquot ecal_len_cm (of_int ecal_slices) in
  feqb (of_int ecal_slices) fzero = false
  /\ G4Calo.layers gd
     = periods ecal_slices [mk_layer ecal_slice ecal_material true]
       ++ hcal_layers absorber active sensitive_active_only
            front_pairs fe_front sc_front mid_pairs fe_mid sc_mid
            back_pairs fe_back sc_back
  /\ dict_get specs "total_len_cm"%string
     = Some (PyFloat
               (fadd ecal_len_cm
                     (fadd (fadd (fmul (of_int front_pairs)
                                       (fadd fe_front sc_front))
                                 (fmul (of_int mid_pairs)
                                       (fadd fe_mid sc_mid)))
                           (fmul (of_int back_pairs)
                                 (fadd fe_back sc_back))))).
Proof.
  unfold call, build_ecal_pbwo4_26X0_then_graded_fe_scint_hcal_200cm_v1.
  intros Hb. cbv zeta.
  apply bind_inr in Hb as (u0 & e0 & H0 & Hb).
  apply bind_inr in Hb as (ecal_slice & e1 & H1 & Hb).
  unfold fdiv in H1.
  destruct (feqb (of_int ecal_slices) fzero) eqn:Hz; [discriminate |].
  injection H1 as <- <-.
  apply bind_inr in Hb as (u2 & e2 & H2 & Hb).
  apply bind_inr in Hb as (u3 & e3 & H3 & Hb).
  apply bind_inr in Hb as (u4 & e4 & H4 & Hb).
  apply bind_inr in Hb as (u5 & e5 & H5 & Hb).
  apply bind_inr in Hb as (lam_ecal & e6 & H6 & Hb).
  apply bind_inr in Hb as (ecal_lambda & e7 & H7 & Hb).
  apply bind_inr in Hb as (pf & e8 & H8 & Hb).
  apply bind_inr in Hb as (pm & e9 & H9 & Hb).
  apply bind_inr in Hb as (pb & e10 & H10 & Hb).
  apply bind_inr in Hb as (u11 & e11 & H11 & Hb).
  apply get_inr in H11 as [-> ->].
  injection Hb as <- <- _.
  apply lam_pair_env in H10, H9, H8. apply fdiv_env in H7.
  apply lambda_int_cm_env in H6. subst e10 e9 e8 e7 e6.
  split; [reflexivity |]. split; [| reflexivity].
  apply gd_new_layers in H0.
  assert (Hecal : appends
            (for_range ecal_slices
               (bind
                  (gd_addLayer (fquot (fmul total_X0 X0_cm)
                                  (of_int ecal_slices)) ecal_material true)
                  (fun _ =>
                     tracker_add ecal_material
                       (fquot (fmul total_X0 X0_cm) (of_int ecal_slices)))))
            (periods ecal_slices
               [mk_layer (fquot (fmul total_X0 X0_cm) (of_int ecal_slices))
                  ecal_material true])).
  { apply appends_for_range.
    change [mk_layer ?t ?m ?s] with ([mk_layer t m s] ++ []).
    apply appends_bind; [apply appends_gd_addLayer |].
    intros _. apply appends_tracker_add. }
  apply Hecal in H2.
  apply appends_add_section in H3, H4, H5.
  rewrite H5, H4, H3, H2, H0. unfold hcal_layers.
  now rewrite <- !app_assoc.
Qed.

End BuilderLayers.

Section V4_2Layers.
Context {F : Type} `{Arith F}.
Import Design.

(** The third builder before its shim: what it returns and its layers. *)
Lemma v4_2_stack_ok ecal_pairs (pb_cm sc_cm pbwo4_cm : F) add_scint_endcap
    ecal_pb ecal_scint ecal_pbwo4
    trans_pairs fe_trans sc_trans mid_pairs fe_mid sc_mid
    back_pairs fe_back sc_back hcal_absorber hcal_active
    sensitive_active_only e built e1 :
  v4_2_stack ecal_pairs pb_cm sc_cm pbwo4_cm add_scint_endcap
    ecal_pb ecal_scint ecal_pbwo4
    trans_pairs fe_trans sc_trans mid_pairs fe_mid sc_mid
    back_pairs fe_back sc_back hcal_absorber hcal_active
    sensitive_active_only e = (inr built, e1) ->
  built = v4_2_built_len ecal_pairs pb_cm sc_cm pbwo4_cm add_scint_endcap
            trans_pairs fe_trans sc_trans mid_pairs fe_mid sc_mid
            back_pairs fe_back sc_back
  /\ G4Calo.layers (gd e1)
     = v4_2_stack_layers ecal_pairs pb_cm sc_cm pbwo4_cm add_scint_endcap
         ecal_pb ecal_scint ecal_pbwo4
         trans_pairs fe_trans sc_trans mid_pairs fe_mid sc_mid
         back_pairs fe_back sc_back hcal_absorber hcal_active
         sensitive_active_only.
Proof.
  unfold v4_2_stack. intros Hb.
  apply bind_inr in Hb as (u0 & e0 & H0 & Hb).
  apply bind_inr in Hb as (u2 & e2 & H2 & Hb).
  apply bind_inr in Hb as (ecal_len & e3 & H3 & Hb).
  apply bind_inr in Hb as (u4 & e4 & H4 & Hb).
  apply bind_inr in Hb as (u5 & e5 & H5 & Hb).
  apply bind_inr in Hb as (u6 & e6 & H6 & Hb).
  injection Hb as <- <-.
  apply gd_new_layers in H0.
  assert (Hecal : appends
            (for_range ecal_pairs
               (bind (gd_addLayer pb_cm ecal_pb false) (fun _ =>
                bind (gd_addLayer sc_cm ecal_scint true) (fun _ =>
                bind (gd_addLayer pbwo4_cm ecal_pbwo4 false) (fun _ =>
                bind (tracker_add ecal_pb pb_cm) (fun _ =>
                bind (tracker_add ecal_scint sc_cm) (fun _ =>
                tracker_add ecal_pbwo4 pbwo4_cm)))))))
            (periods ecal_pairs
               [ mk_layer pb_cm ecal_pb false; mk_layer sc_cm ecal_scint true;
                 mk_layer pbwo4_cm ecal_pbwo4 false ])).
  { apply appends_for_range.
    change [ mk_layer pb_cm ecal_pb false; mk_layer sc_cm ecal_scint true;
             mk_layer pbwo4_cm ecal_pbwo4 false ]
      with ([mk_layer pb_cm ecal_pb false]
              ++ [mk_layer sc_cm ecal_scint true]
              ++ [mk_layer pbwo4_cm ecal_pbwo4 false] ++ [] ++ [] ++ []).
    repeat (apply appends_bind; [| intros _]);
      auto using appends_gd_addLayer, appends_tracker_add. }
  apply Hecal in H2.
  apply appends_add_section in H4, H5, H6.
  assert (H3' : ecal_len
                = fst (v4_2_built_len ecal_pairs pb_cm sc_cm pbwo4_cm
                         add_scint_endcap trans_pairs fe_trans sc_trans
                         mid_pairs fe_mid sc_mid back_pairs fe_back sc_back)
                /\ G4Calo.layers (gd e3)
                   = G4Calo.layers (gd e2)
                     ++ (if add_scint_endcap
                         then [mk_layer sc_cm ecal_scint true] else [])).
  { unfold v4_2_built_len; cbn [fst]. destruct add_scint_endcap.
    - apply bind_inr in H3 as (v0 & f0 & G0 & H3).
      apply bind_inr in H3 as (v1 & f1 & G1 & H3).
      injection H3 as <- <-.
      apply appends_gd_addLayer in G0. apply appends_tracker_add in G1.
      rewrite G1, G0, app_nil_r. split; reflexivity.
    - injection H3 as <- <-. rewrite app_nil_r. split; reflexivity. }
  destruct H3' as [-> H3'].
  split; [reflexivity |].
  rewrite H6, H5, H4, H3', H2, H0.
  unfold v4_2_stack_layers, hcal_layers. cbn [app].
  now rewrite <- !app_assoc.
Qed.

(** The third builder: the stack, then at most one shim. *)
Lemma v4_2_layers ecal_pairs (pb_cm sc_cm pbwo4_cm : F) add_scint_endcap
    ecal_pb ecal_scint ecal_pbwo4
    trans_pairs fe_trans sc_trans mid_pairs fe_mid sc_mid
    back_pairs fe_back sc_back hcal_absorber hcal_active
    sensitive_active_only target_total_len_cm g ct gd specs e' :
  call (build_triple_ecal_then_fe_scint_hcal_2m_v4_2
          ecal_pairs pb_cm sc_cm pbwo4_cm add_scint_endcap
          ecal_pb ecal_scint ecal_pbwo4
          trans_pairs fe_trans sc_trans mid_pairs fe_mid sc_mid
          back_pairs fe_back sc_back hcal_absorber hcal_active
          sensitive_active_only target_total_len_cm)
       g ct = (inr (gd, specs), e') ->
  let built :=
    snd (v4_2_built_len ecal_pairs pb_cm sc_cm pbwo4_cm add_scint_endcap
           trans_pairs fe_trans sc_trans mid_pairs fe_mid sc_mid
           back_pairs fe_back sc_back) in
  let stack :=
    v4_2_stack_layers ecal_pairs pb_cm sc_cm pbwo4_cm add_scint_endcap
      ecal_pb ecal_scint ecal_pbwo4
      trans_pairs fe_trans sc_trans mid_pairs fe_mid sc_mid
      back_pairs fe_back sc_back hcal_absorber hcal_active
      sensitive_active_only in
  let leftover := fsub target_total_len_cm built in
  if fltb ftol leftover then
    G4Calo.layers gd = stack ++ [mk_layer leftover hcal_absorber false]
    /\ dict_get specs "total_len_cm"%string
       = Some (PyFloat (fadd built leftover))
  else
    G4Calo.layers gd = stack
    /\ dict_get specs "total_len_cm"%string = Some (PyFloat built).
Proof.
  unfold call, build_triple_ecal_then_fe_scint_hcal_2m_v4_2.
  intros Hb. cbv zeta.
  apply bind_inr in Hb as (built & e1 & H1 & Hb).
  apply v4_2_stack_ok in H1 as [-> H1].
  destruct (fltb ftol
              (fsub target_total_len_cm
                 (snd (v4_2_built_len ecal_pairs pb_cm sc_cm pbwo4_cm
                         add_scint_endcap trans_pairs fe_trans sc_trans
                         mid_pairs fe_mid sc_mid back_pairs fe_back sc_back)))).
  - apply bind_inr in Hb as (total_len & e2 & H2 & Hb).
    apply bind_inr in H2 as (v0 & f0 & G0 & H2).
    apply bind_inr in H2 as (v1 & f1 & G1 & H2).
    injection H2 as <- <-.
    apply bind_inr in Hb as (u3 & e3 & H3 & Hb).
    apply get_inr in H3 as [-> ->].
    injection Hb as <- <- _.
    apply appends_gd_addLayer in G0. apply appends_tracker_add in G1.
    rewrite G1, G0, app_nil_r, H1. split; reflexivity.
  - apply bind_inr in Hb as (total_len & e2 & H2 & Hb).
    injection H2 as <- <-.
    apply bind_inr in Hb as (u3 & e3 & H3 & Hb).
    apply get_inr in H3 as [-> ->].
    injection Hb as <- <- _.
    split; [exact H1 | reflexivity].
Qed.

End V4_2Layers.

(** ** A builder without a tracker returns *)

Section Untracked.
Context {F : Type} `{Arith F}.
Import Design.

Lemma untracked_ret {A} (a : A) : returns_untracked (ret a : M (env F) A).
Proof. intros e He. exists a, e. split; [reflexivity | exact He]. Qed.

Lemma untracked_bind {A B} (c : M (env F) A) (k : A -> M (env F) B) :
  returns_untracked c -> (forall a, returns_untracked (k a)) ->
  returns_untracked (bind c k).
Proof.
  intros Hc Hk e He. destruct (Hc e He) as (a & e1 & Ha & He1).
  destruct (Hk a e1 He1) as (b & e2 & Hb & He2).
  exists b, e2. split; [| exact He2].
  unfold bind. rewrite Ha. exact Hb.
Qed.

Lemma untracked_gd_new : returns_untracked (@gd_new F _).
Proof. intros e He. exists tt. eexists. split; [reflexivity | exact He]. Qed.

Lemma untracked_gd_addLayer (t : F) m s :
  returns_untracked (gd_addLayer t m s).
Proof. intros e He. exists tt. eexists. split; [reflexivity | exact He]. Qed.

Lemma untracked_tracker_add m (t : F) : returns_untracked (tracker_add m t).
Proof.
  intros e He. exists tt, e. unfold tracker_add. rewrite He.
  split; reflexivity.
Qed.

Lemma untracked_get : returns_untracked (@get (env F)).
Proof. intros e He. exists e, e. split; [reflexivity | exact He]. Qed.

Lemma untracked_repeatM n (body : M (env F) unit) :
  returns_untracked body -> returns_untracked (repeatM n body).
Proof.
  intros Hb. induction n as [| n IH]; simpl.
  - apply untracked_ret.
  - apply untracked_bind; [exact Hb | intros _; exact IH].
Qed.

Ltac untracked :=
  repeat first
    [ apply untracked_ret
    | apply untracked_gd_new
    | apply untracked_gd_addLayer
    | apply untracked_tracker_add
    | apply untracked_get
    | apply untracked_repeatM
    | apply untracked_bind; [| intros ?] ].

Lemma untracked_add_section absorber active sens n (ta tb : F) :
  returns_untracked (add_section absorber active sens n ta tb).
Proof. unfold add_section, for_range. untracked. Qed.

Lemma untracked_v2 ecal_pairs (pb_per_pair_cm sc_per_pair_cm : F)
    ecal_absorber ecal_active
    front_pairs fe_front sc_front mid_pairs fe_mid sc_mid
    back_pairs fe_back sc_back absorber active sensitive_active_only :
  returns_untracked
    (build_pb_scint_ecal_then_graded_fe_scint_hcal_200cm_v2
       ecal_pairs pb_per_pair_cm sc_per_pair_cm ecal_absorber ecal_active
       front_pairs fe_front sc_front mid_pairs fe_mid sc_mid
       back_pairs fe_back sc_back absorber active sensitive_active_only).
Proof.
  unfold build_pb_scint_ecal_then_graded_fe_scint_hcal_200cm_v2, for_range.
  repeat first [ apply untracked_add_section | progress untracked ].
Qed.

Lemma untracked_v4_2 ecal_pairs (pb_cm sc_cm pbwo4_cm : F) add_scint_endcap
    ecal_pb ecal_scint ecal_pbwo4
    trans_pairs fe_trans sc_trans mid_pairs fe_mid sc_mid
    back_pairs fe_back sc_back hcal_absorber hcal_active
    sensitive_active_only target_total_len_cm :
  returns_untracked
    (build_triple_ecal_then_fe_scint_hcal_2m_v4_2
       ecal_pairs pb_cm sc_cm pbwo4_cm add_scint_endcap
       ecal_pb ecal_scint ecal_pbwo4
       trans_pairs fe_trans sc_trans mid_pairs fe_mid sc_mid
       back_pairs fe_back sc_back hcal_absorber hcal_active
       sensitive_active_only target_total_len_cm).
Proof.
  unfold build_triple_ecal_then_fe_scint_hcal_2m_v4_2, v4_2_stack, for_range.
  repeat first
    [ apply untracked_add_section
    | progress untracked
    | match goal with
      | |- returns_untracked (if ?b then _ else _) => destruct b
      end ].
Qed.

Lemma call_untracked {A} (c : M (env F) A) g :
  returns_untracked c -> exists a e', call c g None = (inr a, e').
Proof.
  intros Hc. unfold call.
  destruct (Hc {| globals := g; cost_tracker := None; gd := G4Calo.new |}
              eq_refl) as (a & e' & Ha & _).
  now exists a, e'.
Qed.

End Untracked.

(** ** Binary64 facts *)

Section Binary64.

Lemma not_positive_not_above (m : positive) (e : Z) (z : spec_float) :
  not_positive z -> SFltb (S754_finite false m e) z = false.
Proof.
  destruct z as [s | s | | s m' e']; simpl; intros Hz; subst;
    try reflexivity; destruct s; reflexivity.
Qed.

Lemma binary_round_aux_sign (m e : Z) (l : location) :
  not_positive (binary_round_aux prec emax true m e l).
Proof.
  unfold binary_round_aux.
  destruct (shr_fexp prec emax m e l) as [mrs' e'].
  destruct (shr_fexp prec emax _ e' loc_Exact) as [mrs'' e''].
  destruct (shr_m mrs''); simpl; auto.
  destruct (e'' <=? 971)%Z; reflexivity.
Qed.

Lemma binary_normalize_sign (m e : Z) :
  (m <= 0)%Z -> not_positive (binary_normalize prec emax m e false).
Proof.
  intros Hm. destruct m as [| p | p]; simpl; auto; [lia |].
  unfold binary_round.
  destruct (shl_align p e _) as [mz ez].
  apply binary_round_aux_sign.
Qed.

Lemma digits2_pos_bounds (m : positive) :
  (2 ^ (Z.pos (digits2_pos m) - 1) <= Z.pos m < 2 ^ Z.pos (digits2_pos m))%Z.
Proof.
  induction m as [m IH | m IH |]; simpl digits2_pos.
  - rewrite Pos2Z.inj_succ.
    replace (Z.succ (Z.pos (digits2_pos m)) - 1)%Z
      with (Z.succ (Z.pos (digits2_pos m) - 1)) by lia.
    rewrite !Z.pow_succ_r by lia. lia.
  - rewrite Pos2Z.inj_succ.
    replace (Z.succ (Z.pos (digits2_pos m)) - 1)%Z
      with (Z.succ (Z.pos (digits2_pos m) - 1)) by lia.
    rewrite !Z.pow_succ_r by lia. lia.
  - simpl. lia.
Qed.

(** A canonical mantissa is below 2^53, and at least 2^52 above the least
    exponent. *)
Lemma canonical_bounds (m : positive) (e : Z) :
  canonical_mantissa prec emax m e = true ->
  (emin <= e /\ Z.pos m < 2 ^ 53
   /\ (emin < e -> 2 ^ 52 <= Z.pos m))%Z.
Proof.
  unfold canonical_mantissa, fexp. intros Hc. apply Z.eqb_eq in Hc.
  pose proof (digits2_pos_bounds m) as [Hlo Hhi].
  unfold prec, emin, emax in *.
  assert (Hd : (Z.pos (digits2_pos m) <= 53)%Z) by lia.
  split; [lia |]. split.
  - eapply Z.lt_le_trans; [exact Hhi |].
    apply Z.pow_le_mono_r; lia.
  - intros He. assert (Z.pos (digits2_pos m) = 53)%Z as Hd' by lia.
    rewrite Hd' in Hlo. exact Hlo.
Qed.

Lemma shl_align_fst (m : positive) (e ez : Z) :
  (ez <= e)%Z ->
  Z.pos (fst (shl_align m e ez)) = (Z.pos m * 2 ^ (e - ez))%Z.
Proof.
  intros He. unfold shl_align.
  destruct (ez - e)%Z as [| d | d] eqn:Hd; try lia.
  - replace (e - ez)%Z with 0%Z by lia. simpl. lia.
  - simpl fst. change (Pos.iter xO m d) with (shift_pos d m).
    rewrite shift_pos_correct, Zpower_pos_nat, Zpower_nat_Z.
    rewrite positive_nat_Z. replace (e - ez)%Z with (Z.pos d) by lia. lia.
Qed.

Lemma SFsub_of_smaller (x y : spec_float) :
  valid_binary x = true -> valid_binary y = true ->
  SFltb x y = true -> not_positive (SFsub prec emax x y).
Proof.
  unfold SFltb.
  destruct x as [sx | sx | | sx mx ex], y as [sy | sy | | sy my ey];
    simpl; try discriminate; intros Vx Vy Hlt;
    try (destruct sx; try discriminate; destruct sy; try discriminate;
         simpl; auto; fail).
  apply andb_prop in Vx as [Cx _]. apply andb_prop in Vy as [Cy _].
  apply canonical_bounds in Cx as (Ex & Mx & Nx).
  apply canonical_bounds in Cy as (Ey & My & Ny).
  apply binary_normalize_sign.
  rewrite !shl_align_fst by lia.
  assert (P2 : forall a b, (a < b -> 2 <= 2 ^ (b - a))%Z).
  { intros a b Hab. change 2%Z with (2 ^ 1)%Z at 1.
    apply Z.pow_le_mono_r; lia. }
  pose proof (Z.le_min_l ex ey) as Hl. pose proof (Z.le_min_r ex ey) as Hr.
  assert (Ha : (0 < 2 ^ (ex - Z.min ex ey))%Z)
    by (apply Z.pow_pos_nonneg; lia).
  assert (Hb : (0 < 2 ^ (ey - Z.min ex ey))%Z)
    by (apply Z.pow_pos_nonneg; lia).
  destruct sx, sy; unfold cond_Zopp; try discriminate.
  - (* both negative *)
    destruct (Z.compare_spec ex ey) as [He | He | He]; try discriminate.
    + subst ey. rewrite Z.min_id, Z.sub_diag, !Z.mul_1_r.
      destruct (Pos.compare_cont Eq mx my) eqn:Hc; try discriminate.
      apply Pos.compare_gt_iff in Hc. lia.
    + rewrite Z.min_r by lia. rewrite Z.sub_diag, Z.mul_1_r.
      specialize (Nx ltac:(lia)). specialize (P2 ey ex He). nia.
  - nia.
  - (* both positive *)
    destruct (Z.compare_spec ex ey) as [He | He | He]; try discriminate.
    + subst ey. rewrite Z.min_id, Z.sub_diag, !Z.mul_1_r.
      destruct (Pos.compare_cont Eq mx my) eqn:Hc; try discriminate.
      change (mx < my)%positive in Hc. lia.
    + rewrite Z.min_l by lia. rewrite Z.sub_diag, Z.mul_1_r.
      specialize (Ny ltac:(lia)). specialize (P2 ex ey He). nia.
Qed.

Lemma sub_of_smaller_not_above_tol (x y : float) :
  (x <? y)%float = true -> (1e-6 <? x - y)%float = false.
Proof.
  rewrite !ltb_spec, sub_spec. intros Hlt.
  apply (not_positive_not_above 4722366482869645 (-72)).
  apply SFsub_of_smaller; auto using Prim2SF_valid.
Qed.

Lemma is_zero_spec (z : float) :
  is_zero z = true <-> exists s, Prim2SF z = S754_zero s.
Proof.
  unfold is_zero. rewrite FloatAxioms.eqb_spec.
  change (Prim2SF zero) with (S754_zero false).
  destruct (Prim2SF z) as [s | s | | s m e]; simpl; split;
    try discriminate; try (intros [s' Hs]; discriminate);
    try (destruct s; discriminate); eauto.
Qed.

Lemma is_nan_spec (x : float) :
  is_nan x = true <-> Prim2SF x = S754_nan.
Proof.
  unfold is_nan. rewrite FloatAxioms.eqb_spec.
  destruct (Prim2SF x) as [s | s | | s m e]; simpl; split;
    try discriminate; try reflexivity.
  - destruct s; discriminate.
  - unfold SFeqb; simpl. rewrite Z.compare_refl, Pcompare_refl.
    destruct s; discriminate.
Qed.

Lemma is_finite_spec (x : float) :
  is_finite x = true ->
  match Prim2SF x with
  | S754_zero _ | S754_finite _ _ _ => True
  | _ => False
  end.
Proof.
  unfold is_finite, is_nan, is_infinity.
  rewrite !FloatAxioms.eqb_spec, abs_spec.
  change (Prim2SF infinity) with (S754_infinity false).
  destruct (Prim2SF x) as [s | s | | s m e]; intros Hx; try exact I.
  - destruct s; discriminate Hx.
  - discriminate Hx.
Qed.

Lemma mul_zero_r (t : float) :
  is_finite t = true -> is_zero (t * 0) = true.
Proof.
  intros Ht. apply is_finite_spec in Ht. apply is_zero_spec.
  rewrite mul_spec. change (Prim2SF 0) with (S754_zero false).
  destruct (Prim2SF t); simpl; try contradiction; eauto.
Qed.

Lemma mul_zero_l (z a : float) :
  is_zero z = true -> is_finite a = true -> is_zero (z * a) = true.
Proof.
  intros Hz Ha. apply is_finite_spec in Ha.
  apply is_zero_spec in Hz as [s Hz]. apply is_zero_spec.
  rewrite mul_spec, Hz.
  destruct (Prim2SF a); simpl; try contradiction; eauto.
Qed.

Lemma div_zero_l (z y : float) :
  is_zero z = true -> (y =? 0)%float = false -> is_nan y = false ->
  is_zero (z / y) = true.
Proof.
  intros Hz Hy Hn. apply is_zero_spec in Hz as [s Hz]. apply is_zero_spec.
  rewrite div_spec, Hz.
  assert (Hn' : Prim2SF y <> S754_nan).
  { intros E. apply is_nan_spec in E. congruence. }
  rewrite FloatAxioms.eqb_spec in Hy.
  change (Prim2SF 0) with (S754_zero false) in Hy.
  destruct (Prim2SF y); simpl in *; try discriminate; try congruence; eauto.
Qed.

Lemma add_zero_r (x z : float) :
  is_zero z = true -> unchanged (x + z) x = true.
Proof.
  intros Hz. apply is_zero_spec in Hz as [s Hz].
  unfold unchanged, is_nan. rewrite !FloatAxioms.eqb_spec, add_spec, Hz.
  destruct (Prim2SF x) as [sx | sx | | sx m e]; simpl; try reflexivity.
  - destruct sx, s; reflexivity.
  - destruct sx; reflexivity.
  - unfold SFeqb; simpl. rewrite Z.compare_refl, Pcompare_refl.
    destruct sx; reflexivity.
Qed.

Lemma zero_add_zero (z : float) :
  is_zero z = true -> (0 + z)%float = 0%float.
Proof.
  intros Hz. apply is_zero_spec in Hz as [s Hz].
  rewrite <- (SF2Prim_Prim2SF (0 + z)), add_spec, Hz.
  change (Prim2SF 0) with (S754_zero false).
  destruct s; reflexivity.
Qed.

End Binary64.

(** ** C2 and C8: the shim of the exact-length variant *)

(** C2, as stated, fails in binary64.  With 4 ECAL triplets, 10 back pairs and
    a target of 250.1 cm (the other parameters at their defaults) the stack is
    74.8 cm long, the shortfall 250.1 - 74.8 = 175.3 is above 1e-6, one shim of
    175.3 cm is appended, and the returned [total_len_cm] is
    74.8 + 175.3 = 250.10000000000002, not the target. *)
Lemma shimmed_length_misses_the_target :
  let r :=
    Design.call
      (Design.build_triple_ecal_then_fe_scint_hcal_2m_v4_2
         4 0.15%float 0.20%float 0.10%float true
         "G4_Pb" "G4_POLYSTYRENE" "G4_PbWO4"
         8 0.30%float 1.20%float 24 1.00%float 0.70%float
         10 1.50%float 0.50%float
         "G4_Fe" "G4_POLYSTYRENE" true 250.1%float)
      Trackers.globals0 None in
  let stack :=
    v4_2_stack_layers 4 0.15%float 0.20%float 0.10%float true
      "G4_Pb" "G4_POLYSTYRENE" "G4_PbWO4"
      8 0.30%float 1.20%float 24 1.00%float 0.70%float
      10 1.50%float 0.50%float "G4_Fe" "G4_POLYSTYRENE" true in
  v4_2_built_len 4 0.15%float 0.20%float 0.10%float true
    8 0.30%float 1.20%float 24 1.00%float 0.70%float 10 1.50%float 0.50%float
  = (1.9999999999999998%float, 74.8%float)
  /\ (250.1 - 74.8)%float = 175.3%float
  /\ PrimFloat.ltb 1e-6 175.3 = true
  /\ option_map (@G4Calo.layers float) (returned_gd r)
     = Some (stack ++ [mk_layer 175.3%float "G4_Fe" false])
  /\ option_map (fun specs => dict_get specs "total_len_cm"%string)
       (returned_specs r)
     = Some (Some (Design.PyFloat 250.10000000000002%float))
  /\ PrimFloat.eqb 250.10000000000002 250.1 = false.
Proof. vm_compute. repeat split. Qed.

(** C2, amended.  When the builder returns, its layers are the stack followed,
    if [leftover = target_total_len_cm - built] is above 1e-6, by one
    non-sensitive layer of [hcal_absorber] of thickness [leftover], and
    [total_len_cm] is then [built + leftover]; otherwise (a [leftover] of at
    most 1e-6, or not a number) there is no shim and [total_len_cm] is the
    built length.  Without a tracker the builder always returns.
    [built + (target - built)] is the target in exact arithmetic, and, in
    binary64, for the defaults (180.0 + 20.0 = 200.0); in general the two
    roundings can leave it beside the target. *)
Theorem shim_of_the_exact_length_variant :
  (forall (F : Type) (A : Arith F)
      ecal_pairs (pb_cm sc_cm pbwo4_cm : F) add_scint_endcap
      ecal_pb ecal_scint ecal_pbwo4
      trans_pairs fe_trans sc_trans mid_pairs fe_mid sc_mid
      back_pairs fe_back sc_back hcal_absorber hcal_active
      sensitive_active_only target_total_len_cm,
      let build :=
        Design.build_triple_ecal_then_fe_scint_hcal_2m_v4_2
          ecal_pairs pb_cm sc_cm pbwo4_cm add_scint_endcap
          ecal_pb ecal_scint ecal_pbwo4
          trans_pairs fe_trans sc_trans mid_pairs fe_mid sc_mid
          back_pairs fe_back sc_back hcal_absorber hcal_active
          sensitive_active_only target_total_len_cm in
      let built :=
        snd (v4_2_built_len ecal_pairs pb_cm sc_cm pbwo4_cm add_scint_endcap
               trans_pairs fe_trans sc_trans mid_pairs fe_mid sc_mid
               back_pairs fe_back sc_back) in
      let stack :=
        v4_2_stack_layers ecal_pairs pb_cm sc_cm pbwo4_cm add_scint_endcap
          ecal_pb ecal_scint ecal_pbwo4
          trans_pairs fe_trans sc_trans mid_pairs fe_mid sc_mid
          back_pairs fe_back sc_back hcal_absorber hcal_active
          sensitive_active_only in
      let leftover := fsub target_total_len_cm built in
      (forall g ct gd specs e',
          Design.call build g ct = (inr (gd, specs), e') ->
          if fltb ftol leftover then
            G4Calo.layers gd = stack ++ [mk_layer leftover hcal_absorber false]
            /\ dict_get specs "total_len_cm"%string
               = Some (Design.PyFloat (fadd built leftover))
          else
            G4Calo.layers gd = stack
            /\ dict_get specs "total_len_cm"%string
               = Some (Design.PyFloat built))
      /\ (forall g, exists r e', Design.call build g None = (inr r, e')))
  /\ (forall built target : Qc, fadd built (fsub target built) = target)
  /\ (forall g,
        let r := Design.call Design.v4_2_defaults g None in
        option_map
          (fun gd => skipn 345 (@G4Calo.layers float gd)) (returned_gd r)
        = Some [mk_layer 20%float "G4_Fe" false]
        /\ option_map (fun specs => dict_get specs "total_len_cm"%string)
             (returned_specs r)
           = Some (Some (Design.PyFloat 200%float))).
Proof.
  split; [| split].
  - intros F A. intros. cbv zeta. split.
    + intros g ct gd specs e' Hb. exact (v4_2_layers _ _ _ _ _ _ _ _ _ _ _ _ _
        _ _ _ _ _ _ _ _ _ _ Hb).
    + intros g. apply call_untracked, untracked_v4_2.
  - intros built target. cbn [fadd fsub rational]. ring.
  - intros g. vm_compute. split; reflexivity.
Qed.

(** The defaults are a call that returns, with its one shim. *)
Lemma shim_of_the_defaults :
  exists gd specs e',
    Design.call Design.v4_2_defaults Trackers.globals0 None
    = (inr (gd, specs), e')
    /\ dict_get specs "total_len_cm"%string = Some (Design.PyFloat 200%float)
    /\ List.length (G4Calo.layers gd) = 346%nat.
Proof.
  destruct shim_of_the_exact_length_variant as (Hg & _ & _).
  destruct (Hg float binary64 60%Z 0.15%float 0.20%float 0.10%float true
              "G4_Pb"%string "G4_POLYSTYRENE"%string "G4_PbWO4"%string
              8%Z 0.30%float 1.20%float 24%Z 1.00%float 0.70%float
              50%Z 1.50%float 0.50%float
              "G4_Fe"%string "G4_POLYSTYRENE"%string true 200.0%float)
    as [Hl Ht].
  destruct (Ht Trackers.globals0) as ([gd specs] & e' & Hr).
  exists gd, specs, e'. split; [exact Hr |].
  specialize (Hl _ _ _ _ _ Hr).
  assert (Hlt : @fltb float binary64 ftol
                  (fsub 200.0%float
                     (snd (v4_2_built_len 60%Z 0.15%float 0.20%float
                             0.10%float true 8%Z 0.30%float 1.20%float
                             24%Z 1.00%float 0.70%float
                             50%Z 1.50%float 0.50%float))) = true)
    by (vm_compute; reflexivity).
  rewrite Hlt in Hl. destruct Hl as [Hl1 Hl2].
  split.
  - rewrite Hl2. vm_compute. reflexivity.
  - rewrite Hl1. vm_compute. reflexivity.
Defined.

(** C8.  In binary64, when [target_total_len_cm] is below the built length,
    [leftover] is not above 1e-6: once the stack is built the builder appends
    nothing, raises nothing and returns, with [total_len_cm] the built length,
    which is above the target; and without a tracker the stack is always
    built. *)
Theorem shorter_target_is_not_an_error
    ecal_pairs (pb_cm sc_cm pbwo4_cm : float) add_scint_endcap
    ecal_pb ecal_scint ecal_pbwo4
    trans_pairs fe_trans sc_trans mid_pairs fe_mid sc_mid
    back_pairs fe_back sc_back hcal_absorber hcal_active
    sensitive_active_only target_total_len_cm :
  let build :=
    Design.build_triple_ecal_then_fe_scint_hcal_2m_v4_2
      ecal_pairs pb_cm sc_cm pbwo4_cm add_scint_endcap
      ecal_pb ecal_scint ecal_pbwo4
      trans_pairs fe_trans sc_trans mid_pairs fe_mid sc_mid
      back_pairs fe_back sc_back hcal_absorber hcal_active
      sensitive_active_only target_total_len_cm in
  let stack :=
    Design.v4_2_stack ecal_pairs pb_cm sc_cm pbwo4_cm add_scint_endcap
      ecal_pb ecal_scint ecal_pbwo4
      trans_pairs fe_trans sc_trans mid_pairs fe_mid sc_mid
      back_pairs fe_back sc_back hcal_absorber hcal_active
      sensitive_active_only in
  let built :=
    snd (v4_2_built_len ecal_pairs pb_cm sc_cm pbwo4_cm add_scint_endcap
           trans_pairs fe_trans sc_trans mid_pairs fe_mid sc_mid
           back_pairs fe_back sc_back) in
  fltb target_total_len_cm built = true ->
  (forall g ct lens e1,
      Design.call stack g ct = (inr lens, e1) ->
      exists specs,
        Design.call build g ct = (inr (Design.gd e1, specs), e1)
        /\ dict_get specs "total_len_cm"%string
           = Some (Design.PyFloat built)
        /\ G4Calo.layers (Design.gd e1)
           = v4_2_stack_layers ecal_pairs pb_cm sc_cm pbwo4_cm
               add_scint_endcap ecal_pb ecal_scint ecal_pbwo4
               trans_pairs fe_trans sc_trans mid_pairs fe_mid sc_mid
               back_pairs fe_back sc_back hcal_absorber hcal_active
               sensitive_active_only)
  /\ (forall g, exists gd specs e',
        Design.call build g None = (inr (gd, specs), e')
        /\ dict_get specs "total_len_cm"%string
           = Some (Design.PyFloat built)).
Proof.
  cbv zeta. intros Hshort.
  assert (Hno : @fltb float binary64 ftol
                  (fsub target_total_len_cm
                     (snd (v4_2_built_len ecal_pairs pb_cm sc_cm pbwo4_cm
                             add_scint_endcap trans_pairs fe_trans sc_trans
                             mid_pairs fe_mid sc_mid
                             back_pairs fe_back sc_back))) = false)
    by (apply sub_of_smaller_not_above_tol, Hshort).
  assert (Hstack : forall g ct lens e1,
             Design.call
               (Design.v4_2_stack ecal_pairs pb_cm sc_cm pbwo4_cm
                  add_scint_endcap ecal_pb ecal_scint ecal_pbwo4
                  trans_pairs fe_trans sc_trans mid_pairs fe_mid sc_mid
                  back_pairs fe_back sc_back hcal_absorber hcal_active
                  sensitive_active_only) g ct = (inr lens, e1) ->
             exists specs,
               Design.call
                 (Design.build_triple_ecal_then_fe_scint_hcal_2m_v4_2
                    ecal_pairs pb_cm sc_cm pbwo4_cm add_scint_endcap
                    ecal_pb ecal_scint ecal_pbwo4
                    trans_pairs fe_trans sc_trans mid_pairs fe_mid sc_mid
                    back_pairs fe_back sc_back hcal_absorber hcal_active
                    sensitive_active_only target_total_len_cm) g ct
               = (inr (Design.gd e1, specs), e1)
               /\ dict_get specs "total_len_cm"%string
                  = Some (Design.PyFloat
                            (snd (v4_2_built_len ecal_pairs pb_cm sc_cm
                                    pbwo4_cm add_scint_endcap
                                    trans_pairs fe_trans sc_trans
                                    mid_pairs fe_mid sc_mid
                                    back_pairs fe_back sc_back)))
               /\ G4Calo.layers (Design.gd e1)
                  = v4_2_stack_layers ecal_pairs pb_cm sc_cm pbwo4_cm
                      add_scint_endcap ecal_pb ecal_scint ecal_pbwo4
                      trans_pairs fe_trans sc_trans mid_pairs fe_mid sc_mid
                      back_pairs fe_back sc_back hcal_absorber hcal_active
                      sensitive_active_only).
  { intros g ct lens e1 Hs. unfold Design.call in *.
    destruct (v4_2_stack_ok _ _ _ _ _ _ _ _ _ _ _ _ _ _ _ _ _ _ _ _ _ Hs)
      as [-> Hl].
    eexists. split; [| split; [| exact Hl]].
    - unfold Design.build_triple_ecal_then_fe_scint_hcal_2m_v4_2.
      erewrite bind_ok by exact Hs. cbv zeta.
      rewrite Hno. reflexivity.
    - reflexivity. }
  split; [exact Hstack |].
  intros g.
  destruct (call_untracked g
              (untracked_v4_2 ecal_pairs pb_cm sc_cm pbwo4_cm add_scint_endcap
                 ecal_pb ecal_scint ecal_pbwo4
                 trans_pairs fe_trans sc_trans mid_pairs fe_mid sc_mid
                 back_pairs fe_back sc_back hcal_absorber hcal_active
                 sensitive_active_only target_total_len_cm))
    as ([gd specs] & e' & Hr).
  exists gd, specs, e'. split; [exact Hr |].
  pose proof (v4_2_layers _ _ _ _ _ _ _ _ _ _ _ _ _ _ _ _ _ _ _ _ _ _ _ Hr)
    as Hl.
  cbv zeta in Hl. rewrite Hno in Hl. apply Hl.
Qed.

(** A target of 150 cm against the 180 cm of the default stack. *)
Lemma shorter_target_witness :
  exists gd specs e',
    Design.call
      (Design.build_triple_ecal_then_fe_scint_hcal_2m_v4_2
         60 0.15%float 0.20%float 0.10%float true
         "G4_Pb" "G4_POLYSTYRENE" "G4_PbWO4"
         8 0.30%float 1.20%float 24 1.00%float 0.70%float
         50 1.50%float 0.50%float
         "G4_Fe" "G4_POLYSTYRENE" true 150.0%float)
      Trackers.globals0 None = (inr (gd, specs), e')
    /\ dict_get specs "total_len_cm"%string
       = Some (Design.PyFloat 180%float).
Proof.
  apply (@shorter_target_is_not_an_error
           60%Z 0.15%float 0.20%float 0.10%float true
           "G4_Pb"%string "G4_POLYSTYRENE"%string "G4_PbWO4"%string
           8%Z 0.30%float 1.20%float 24%Z 1.00%float 0.70%float
           50%Z 1.50%float 0.50%float
           "G4_Fe"%string "G4_POLYSTYRENE"%string true 150.0%float).
  vm_compute. reflexivity.
Defined.

(** ** C4: the closed-form length and the layers *)

(** C4, as stated, fails: a negative count enters the closed form but appends
    no layer.  The second builder with [front_pairs = -1] (the other
    parameters at their defaults) returns [total_len_cm = 170.1] with 276
    layers whose thicknesses sum to 171.60000000000002: 1.5 cm apart. *)
Lemma negative_count_breaks_the_closed_form :
  let r :=
    Design.call
      (Design.build_pb_scint_ecal_then_graded_fe_scint_hcal_200cm_v2
         60 0.20%float 0.20%float "G4_Pb" "G4_POLYSTYRENE"
         (-1) 0.5%float 1.0%float 28 1.0%float 0.7%float
         50 1.5%float 0.5%float "G4_Fe" "G4_POLYSTYRENE" true)
      Trackers.globals0 None in
  option_map (fun specs => dict_get specs "total_len_cm"%string)
    (returned_specs r)
  = Some (Some (Design.PyFloat 170.1%float))
  /\ option_map (@G4Calo.total_len_cm float _) (returned_gd r)
     = Some 171.60000000000002%float
  /\ option_map (fun gd => List.length (G4Calo.layers gd)) (returned_gd r)
     = Some 276%nat
  /\ option_map (PrimFloat.ltb 1) (len_gap r) = Some true.
Proof. vm_compute. repeat split. Qed.

Section RationalLengths.
Local Open Scope Qc_scope.

Lemma layers_sum_nil : layers_sum (@nil (G4Calo.Layer Qc)) = 0.
Proof. reflexivity. Qed.

Lemma layers_sum_app (l1 l2 : list (G4Calo.Layer Qc)) :
  layers_sum (l1 ++ l2) = layers_sum l1 + layers_sum l2.
Proof. unfold layers_sum. now rewrite map_app, py_sum_app. Qed.

Lemma layers_sum_periods (n : Z) (period : list (G4Calo.Layer Qc)) :
  (0 <= n)%Z ->
  layers_sum (periods n period) = of_int n * layers_sum period.
Proof.
  intros Hn. unfold periods.
  rewrite <- (Z2Nat.id n) at 2 by exact Hn.
  induction (Z.to_nat n) as [| k IH].
  - cbn [repeat List.concat]. rewrite layers_sum_nil.
    change (Z.of_nat 0) with 0%Z. rewrite of_int_0. ring.
  - cbn [repeat List.concat]. rewrite layers_sum_app, IH, of_int_succ. ring.
Qed.

Lemma layers_sum_section absorber active sens n (ta tb : Qc) :
  (0 <= n)%Z ->
  layers_sum (section_layers absorber active sens n ta tb)
  = of_int n * (ta + tb).
Proof.
  intros Hn. unfold section_layers. rewrite layers_sum_periods by exact Hn.
  unfold layers_sum; cbn [map G4Calo.thickness_cm mk_layer].
  rewrite !py_sum_cons, py_sum_nil. ring.
Qed.

Lemma layers_sum_hcal absorber active sens
    n1 (a1 b1 : Qc) n2 a2 b2 n3 a3 b3 :
  (0 <= n1)%Z -> (0 <= n2)%Z -> (0 <= n3)%Z ->
  layers_sum (hcal_layers absorber active sens n1 a1 b1 n2 a2 b2 n3 a3 b3)
  = of_int n1 * (a1 + b1) + of_int n2 * (a2 + b2) + of_int n3 * (a3 + b3).
Proof.
  intros H1 H2 H3. unfold hcal_layers.
  rewrite !layers_sum_app, !layers_sum_section by assumption. ring.
Qed.

Lemma of_int_nonzero (n : Z) :
  feqb (@of_int Qc rational n) fzero = false -> @of_int Qc rational n <> 0.
Proof.
  intros Hn E. rewrite E in Hn.
  assert (feqb (0 : Qc) fzero = true) by (now apply feqb_rational).
  congruence.
Qed.

(** C4, amended.  For counts that are not negative, and in exact arithmetic,
    the [total_len_cm] of each builder equals the sum of the thicknesses of
    the layers it returns (the first builder returns only for a positive
    [ecal_slices]); a negative count is outside this statement.  In binary64
    the two are the same sum rounded along different paths: for the default
    parameters of the three builders they differ by less than 1e-12. *)
Theorem total_len_is_the_layer_sum :
  (forall (total_X0 X0_cm : Qc) ecal_slices ecal_material
      front_pairs fe_front sc_front mid_pairs fe_mid sc_mid
      back_pairs fe_back sc_back absorber active sensitive_active_only
      g ct gd specs e',
      (0 <= ecal_slices)%Z -> (0 <= front_pairs)%Z ->
      (0 <= mid_pairs)%Z -> (0 <= back_pairs)%Z ->
      Design.call
        (Design.build_ecal_pbwo4_26X0_then_graded_fe_scint_hcal_200cm_v1
           total_X0 X0_cm ecal_slices ecal_material
           front_pairs fe_front sc_front mid_pairs fe_mid sc_mid
           back_pairs fe_back sc_back absorber active sensitive_active_only)
        g ct = (inr (gd, specs), e') ->
      dict_get specs "total_len_cm"%string
      = Some (Design.PyFloat (G4Calo.total_len_cm gd)))
  /\ (forall ecal_pairs (pb_per_pair_cm sc_per_pair_cm : Qc)
        ecal_absorber ecal_active
        front_pairs fe_front sc_front mid_pairs fe_mid sc_mid
        back_pairs fe_back sc_back absorber active sensitive_active_only
        g ct gd specs e',
        (0 <= ecal_pairs)%Z -> (0 <= front_pairs)%Z ->
        (0 <= mid_pairs)%Z -> (0 <= back_pairs)%Z ->
        Design.call
          (Design.build_pb_scint_ecal_then_graded_fe_scint_hcal_200cm_v2
             ecal_pairs pb_per_pair_cm sc_per_pair_cm
             ecal_absorber ecal_active
             front_pairs fe_front sc_front mid_pairs fe_mid sc_mid
             back_pairs fe_back sc_back absorber active sensitive_active_only)
          g ct = (inr (gd, specs), e') ->
        dict_get specs "total_len_cm"%string
        = Some (Design.PyFloat (G4Calo.total_len_cm gd)))
  /\ (forall ecal_pairs (pb_cm sc_cm pbwo4_cm : Qc) add_scint_endcap
        ecal_pb ecal_scint ecal_pbwo4
        trans_pairs fe_trans sc_trans mid_pairs fe_mid sc_mid
        back_pairs fe_back sc_back hcal_absorber hcal_active
        sensitive_active_only target_total_len_cm
        g ct gd specs e',
        (0 <= ecal_pairs)%Z -> (0 <= trans_pairs)%Z ->
        (0 <= mid_pairs)%Z -> (0 <= back_pairs)%Z ->
        Design.call
          (Design.build_triple_ecal_then_fe_scint_hcal_2m_v4_2
             ecal_pairs pb_cm sc_cm pbwo4_cm add_scint_endcap
             ecal_pb ecal_scint ecal_pbwo4
             trans_pairs fe_trans sc_trans mid_pairs fe_mid sc_mid
             back_pairs fe_back sc_back hcal_absorber hcal_active
             sensitive_active_only target_total_len_cm)
          g ct = (inr (gd, specs), e') ->
        dict_get specs "total_len_cm"%string
        = Some (Design.PyFloat (G4Calo.total_len_cm gd)))
  /\ option_map (fun d => PrimFloat.ltb d 1e-12)
       (len_gap (Design.call Design.v1_defaults Trackers.globals0 None))
     = Some true
  /\ option_map (fun d => PrimFloat.ltb d 1e-12)
       (len_gap (Design.call Design.v2_defaults Trackers.globals0 None))
     = Some true
  /\ option_map (fun d => PrimFloat.ltb d 1e-12)
       (len_gap (Design.call Design.v4_2_defaults Trackers.globals0 None))
     = Some true.
Proof.
  split; [| split; [| split; [| vm_compute; repeat split]]].
  - intros until e'. intros Hs Hf Hm Hb Hr.
    apply v1_layers in Hr. cbv zeta in Hr. destruct Hr as (Hz & Hl & Ht).
    rewrite Ht. do 2 f_equal.
    change (G4Calo.total_len_cm gd) with (layers_sum (G4Calo.layers gd)).
    rewrite Hl, layers_sum_app, layers_sum_periods, layers_sum_hcal
      by assumption.
    unfold layers_sum; cbn [map G4Calo.thickness_cm mk_layer].
    rewrite !py_sum_cons, py_sum_nil.
    apply of_int_nonzero in Hz. rational_ops. field. exact Hz.
  - intros until e'. intros Hs Hf Hm Hb Hr.
    apply v2_layers in Hr. destruct Hr as (Hl & Ht).
    rewrite Ht. do 2 f_equal.
    change (G4Calo.total_len_cm gd) with (layers_sum (G4Calo.layers gd)).
    rewrite Hl, layers_sum_app, layers_sum_section, layers_sum_hcal
      by assumption.
    rational_ops. ring.
  - intros until e'. intros Hs Hf Hm Hb Hr.
    apply v4_2_layers in Hr. cbv zeta in Hr.
    assert (Hstack :
              layers_sum
                (v4_2_stack_layers ecal_pairs pb_cm sc_cm pbwo4_cm
                   add_scint_endcap ecal_pb ecal_scint ecal_pbwo4
                   trans_pairs fe_trans sc_trans mid_pairs fe_mid sc_mid
                   back_pairs fe_back sc_back hcal_absorber hcal_active
                   sensitive_active_only)
              = snd (v4_2_built_len ecal_pairs pb_cm sc_cm pbwo4_cm
                       add_scint_endcap trans_pairs fe_trans sc_trans
                       mid_pairs fe_mid sc_mid back_pairs fe_back sc_back)).
    { unfold v4_2_stack_layers, v4_2_built_len. cbn [snd].
      rewrite !layers_sum_app, layers_sum_periods, layers_sum_hcal
        by assumption.
      destruct add_scint_endcap;
        unfold layers_sum; cbn [map G4Calo.thickness_cm mk_layer];
        rewrite !py_sum_cons, ?py_sum_nil; rational_ops; ring. }
    change (G4Calo.total_len_cm gd) with (layers_sum (G4Calo.layers gd)).
    destruct (fltb ftol _); destruct Hr as (Hl & Ht); rewrite Ht, Hl.
    + rewrite layers_sum_app, Hstack.
      unfold layers_sum; cbn [map G4Calo.thickness_cm mk_layer].
      rewrite !py_sum_cons, ?py_sum_nil. do 2 f_equal. rational_ops. ring.
    + now rewrite Hstack.
Qed.

End RationalLengths.

(** The second builder at its defaults, in exact arithmetic. *)
Lemma total_len_witness :
  exists gd specs e',
    Design.call
      (Design.build_pb_scint_ecal_then_graded_fe_scint_hcal_200cm_v2
         60 (dec 20 100) (dec 20 100) "G4_Pb" "G4_POLYSTYRENE"
         18 (dec 5 10) (dec 1 1) 28 (dec 1 1) (dec 7 10)
         50 (dec 15 10) (dec 5 10) "G4_Fe" "G4_POLYSTYRENE" true)
      globalsQ None = (inr (gd, specs), e')
    /\ dict_get specs "total_len_cm"%string
       = Some (Design.PyFloat (G4Calo.total_len_cm gd))
    /\ dict_get specs "total_len_cm"%string
       = Some (Design.PyFloat (dec 1986 10)).
Proof.
  destruct (call_untracked globalsQ
              (untracked_v2 60 (dec 20 100) (dec 20 100)
                 "G4_Pb" "G4_POLYSTYRENE"
                 18 (dec 5 10) (dec 1 1) 28 (dec 1 1) (dec 7 10)
                 50 (dec 15 10) (dec 5 10) "G4_Fe" "G4_POLYSTYRENE" true))
    as ([gd specs] & e' & Hr).
  exists gd, specs, e'. split; [exact Hr |]. split.
  - destruct total_len_is_the_layer_sum as (_ & H2 & _).
    eapply H2; [| | | | exact Hr]; lia.
  - apply v2_layers in Hr. destruct Hr as [_ ->].
    do 2 f_equal. apply Qc_is_canon. vm_compute. reflexivity.
Defined.

(** ** C10: a count of zero *)

Section ZeroCount.
Import Trackers.

Lemma insert_key_In (k x : string) (l : list string) :
  In x (insert_key k l) <-> x = k \/ In x l.
Proof.
  induction l as [| k' l IH]; simpl.
  - intuition.
  - destruct (String.compare k k') eqn:E; simpl.
    + apply String.compare_eq_iff in E. subst k'. intuition.
    + intuition.
    + rewrite IH. intuition.
Qed.

Lemma sorted_set_In (x : string) (ks : list string) :
  In x (sorted_set ks) <-> In x ks.
Proof.
  unfold sorted_set. induction ks as [| k ks IH]; simpl; [tauto |].
  rewrite insert_key_In, IH. intuition.
Qed.

Lemma dict_keys_set {V} (d : dict V) m v k :
  In k (dict_keys (dict_set d m v)) <-> k = m \/ In k (dict_keys d).
Proof.
  unfold dict_keys. induction d as [| [k' v'] d IH]; simpl.
  - intuition.
  - destruct (String.eqb k' m) eqn:E; simpl.
    + apply String.eqb_eq in E. subst k'. intuition.
    + rewrite IH. intuition.
Qed.

(** One accumulator raised by a zero. *)
Lemma bump_by_zero (d : dict float) (m : string) (z : float) :
  is_zero z = true ->
  let d' := dict_set d m (fadd (dict_get_default d m fzero) z) in
  (exists v, dict_get d' m = Some v
             /\ unchanged v (dict_get_default d m fzero) = true)
  /\ (dict_get d m = None -> d' = d ++ [(m, 0%float)])
  /\ (forall k, k <> m -> dict_get d' k = dict_get d k).
Proof.
  intros Hz. cbv zeta. split; [| split].
  - eexists. split; [apply dict_get_set_same |].
    apply add_zero_r, Hz.
  - intros Hd. rewrite (dict_set_absent _ _ _ Hd).
    unfold dict_get_default. rewrite Hd.
    change (fadd fzero z) with (0 + z)%float.
    now rewrite zero_add_zero by exact Hz.
  - intros k Hk. apply dict_get_set_other. congruence.
Qed.

End ZeroCount.

Section SummaryFacts.
Context {F : Type} `{Arith F}.
Import Trackers.

Lemma summary_row_known (g : Globals F) self m :
  dict_mem (COST_CHF_PER_CM_M2 g) m = true ->
  dict_mem (MATERIAL_PROP g) m = true ->
  exists row,
    summary_row m (g, self) = (inr row, (g, self))
    /\ accumulated row
       = [ Some (dict_get_default (by_material_cm self) m fzero);
           Some (dict_get_default (by_material_X0 self) m fzero);
           Some (dict_get_default (by_material_lambdaI self) m fzero);
           Some (dict_get_default (by_material_chf self) m fzero) ].
Proof.
  unfold dict_mem, summary_row, dict_lookup, bind, get, ret. cbn [fst snd].
  destruct (dict_get (COST_CHF_PER_CM_M2 g) m) as [rate |]; [| discriminate].
  destruct (dict_get (MATERIAL_PROP g) m) as [props |]; [| discriminate].
  intros _ _. eexists. split; reflexivity.
Qed.

Lemma summary_rows_known (g : Globals F) self (mats : list string) :
  (forall k, In k mats ->
             dict_mem (COST_CHF_PER_CM_M2 g) k = true
             /\ dict_mem (MATERIAL_PROP g) k = true) ->
  exists rows,
    summary_rows mats (g, self) = (inr rows, (g, self))
    /\ forall m, In m mats ->
         exists row, dict_get rows m = Some row
                     /\ summary_row m (g, self) = (inr row, (g, self)).
Proof.
  induction mats as [| m0 mats IH]; intros Hk.
  - exists []. split; [reflexivity | intros m []].
  - destruct (Hk m0 (or_introl eq_refl)) as [Hc Hp].
    destruct (summary_row_known g self m0 Hc Hp) as (row0 & Hr0 & _).
    destruct IH as (rows & Hrows & Hget).
    { intros k Hin. apply Hk. now right. }
    exists ((m0, row0) :: rows). split.
    + cbn [summary_rows]. erewrite bind_ok by exact Hr0.
      erewrite bind_ok by exact Hrows. reflexivity.
    + intros m Hin. cbn [dict_get].
      destruct (String.eqb m0 m) eqn:E.
      * apply String.eqb_eq in E. subst m0. exists row0. now split.
      * destruct Hin as [-> | Hin]; [now rewrite String.eqb_refl in E |].
        now apply Hget.
Qed.

Lemma summary_known (g : Globals F) self :
  ledger_known g self = true ->
  exists s,
    summary (g, self) = (inr s, (g, self))
    /\ s_total_length_cm s = total_length_cm self
    /\ s_total_cost_chf s = total_cost_chf self
    /\ s_total_X0 s = total_X0 self
    /\ s_total_lambdaI s = total_lambdaI self
    /\ forall m, In m (ledger_keys self) ->
         exists row, dict_get (s_by_material s) m = Some row
                     /\ summary_row m (g, self) = (inr row, (g, self)).
Proof.
  unfold ledger_known. rewrite forallb_forall. intros Hk.
  destruct (summary_rows_known g self (sorted_set (ledger_keys self)))
    as (rows & Hrows & Hget).
  { intros k Hin. rewrite sorted_set_In in Hin. apply Hk in Hin.
    now apply andb_true_iff in Hin. }
  eexists. split.
  - unfold summary, bind. cbn [get fst snd].
    change (summary_rows _ (g, self))
      with (summary_rows (sorted_set (ledger_keys self)) (g, self)).
    rewrite Hrows. reflexivity.
  - do 4 (split; [reflexivity |]).
    cbn [s_by_material]. intros m Hin. apply Hget, sorted_set_In, Hin.
Qed.

End SummaryFacts.

Section ZeroCountTheorem.
Import Trackers.

(** C10, as stated, fails: being in the catalog is not enough.  After
    [set_material_props("G4_Pb", 0, 0)] the material is still in both tables,
    and [add("G4_Pb", 0.15, 0)] raises [ZeroDivisionError] (0.0 / 0.0) before
    any accumulator is written: no entry is created.  With the tables of the
    import and an infinite thickness, [inf * 0] is not a number: [add] returns
    with the four totals, and the entries of the material, turned into NaN. *)
Lemma a_count_of_zero_can_raise_or_spoil_the_totals :
  (let r :=
     (set_material_props "G4_Pb" 0%float 0%float ;;
      add "G4_Pb" 0.15%float 0) (globals0, Trackers.new 1%float) in
   fst r = inl ZeroDivisionError
   /\ dict_mem (COST_CHF_PER_CM_M2 (fst (snd r))) "G4_Pb" = true
   /\ dict_mem (MATERIAL_PROP (fst (snd r))) "G4_Pb" = true
   /\ accumulators (snd (snd r)) = [[]; []; []; []])
  /\ (let self := Trackers.new 1%float in
      let r := add "G4_Pb" infinity 0 (globals0, self) in
      let self' := snd (snd r) in
      fst r = inr tt
      /\ map is_nan [ total_length_cm self'; total_cost_chf self';
                      total_X0 self'; total_lambdaI self' ]
         = [true; true; true; true]
      /\ unchanged (total_length_cm self') (total_length_cm self) = false
      /\ unchanged (total_cost_chf self') (total_cost_chf self) = false
      /\ unchanged (total_X0 self') (total_X0 self) = false
      /\ unchanged (total_lambdaI self') (total_lambdaI self) = false
      /\ option_map is_nan (dict_get (by_material_cm self') "G4_Pb")
         = Some true).
Proof. vm_compute. repeat split. Qed.

(** C10, amended.  In binary64, for a material that is priced and has lengths
    that are numbers other than zero, a finite thickness, area and price:
    [add] with [count = 0] returns, leaves the tables alone and the four
    totals unchanged ([==], an increment of zero), keeps every accumulator of
    the other materials and the value of those the material already has; for
    a material
    without accumulators yet it appends to each of the four dictionaries the
    entry [material: 0.0], so that [summary()] (of a ledger whose materials
    are all in the tables) has a row for the material with [total_cm],
    [total_X0], [total_lambdaI] and [total_cost_chf] equal to 0.0. *)
Theorem add_with_count_zero
    (g : Globals float) (self : CostTracker float) (material : string)
    (thickness_cm rate : float) (props : MaterialProps float) :
  dict_get (COST_CHF_PER_CM_M2 g) material = Some rate ->
  dict_get (MATERIAL_PROP g) material = Some props ->
  is_finite thickness_cm = true ->
  is_finite (area_m2 self) = true ->
  is_finite rate = true ->
  is_zero (X0_cm props) = false -> is_nan (X0_cm props) = false ->
  is_zero (lambdaI_cm props) = false -> is_nan (lambdaI_cm props) = false ->
  let r := add material thickness_cm 0 (g, self) in
  let self' := snd (snd r) in
  r = (inr tt, (g, self'))
  /\ unchanged (total_length_cm self') (total_length_cm self) = true
  /\ unchanged (total_cost_chf self') (total_cost_chf self) = true
  /\ unchanged (total_X0 self') (total_X0 self) = true
  /\ unchanged (total_lambdaI self') (total_lambdaI self) = true
  /\ Forall2
       (fun d' d =>
          (exists v, dict_get d' material = Some v
                     /\ unchanged v (dict_get_default d material fzero) = true)
          /\ (forall k, k <> material -> dict_get d' k = dict_get d k))
       (accumulators self') (accumulators self)
  /\ (no_entry self material = true ->
      accumulators self'
      = map (fun d => d ++ [(material, 0%float)]) (accumulators self))
  /\ (no_entry self material = true -> ledger_known g self = true ->
      exists s row,
        summary (g, self') = (inr s, (g, self'))
        /\ dict_get (s_by_material s) material = Some row
        /\ accumulated row
           = [Some 0%float; Some 0%float; Some 0%float; Some 0%float]
        /\ unchanged (s_total_length_cm s) (total_length_cm self) = true
        /\ unchanged (s_total_cost_chf s) (total_cost_chf self) = true
        /\ unchanged (s_total_X0 s) (total_X0 self) = true
        /\ unchanged (s_total_lambdaI s) (total_lambdaI self) = true).
Proof.
  intros Hc Hp Ht Ha Hr HX HXn HL HLn. cbv zeta.
  rewrite add_eq. unfold add_outcome. rewrite Hc, Hp.
  change (feqb (X0_cm props) fzero) with (is_zero (X0_cm props)).
  change (feqb (lambdaI_cm props) fzero) with (is_zero (lambdaI_cm props)).
  rewrite HX, HL. cbn [fst snd].
  set (tcm := fmul thickness_cm (of_int 0)).
  set (chf := fmul (fmul tcm (area_m2 self)) rate).
  set (x0 := fquot tcm (X0_cm props)).
  set (li := fquot tcm (lambdaI_cm props)).
  assert (Ztcm : is_zero tcm = true) by (apply mul_zero_r, Ht).
  assert (Zchf : is_zero chf = true)
    by (apply mul_zero_l; [apply mul_zero_l |]; assumption).
  assert (Zx0 : is_zero x0 = true) by (apply div_zero_l; assumption).
  assert (Zli : is_zero li = true) by (apply div_zero_l; assumption).
  pose proof (bump_by_zero (by_material_cm self) material Ztcm) as Bcm.
  pose proof (bump_by_zero (by_material_chf self) material Zchf) as Bchf.
  pose proof (bump_by_zero (by_material_X0 self) material Zx0) as Bx0.
  pose proof (bump_by_zero (by_material_lambdaI self) material Zli) as Bli.
  cbv zeta in Bcm, Bchf, Bx0, Bli.
  destruct Bcm as (Bcm1 & Bcm2 & Bcm3). destruct Bchf as (Bchf1 & Bchf2 & Bchf3).
  destruct Bx0 as (Bx01 & Bx02 & Bx03). destruct Bli as (Bli1 & Bli2 & Bli3).
  assert (Habsent : no_entry self material = true ->
            dict_get (by_material_cm self) material = None
            /\ dict_get (by_material_chf self) material = None
            /\ dict_get (by_material_X0 self) material = None
            /\ dict_get (by_material_lambdaI self) material = None).
  { unfold no_entry, dict_mem. rewrite !andb_true_iff.
    destruct (dict_get (by_material_cm self) material);
      destruct (dict_get (by_material_chf self) material);
      destruct (dict_get (by_material_X0 self) material);
      destruct (dict_get (by_material_lambdaI self) material);
      cbn [negb]; intuition discriminate. }
  split; [reflexivity |].
  split; [apply add_zero_r, Ztcm |].
  split; [apply add_zero_r, Zchf |].
  split; [apply add_zero_r, Zx0 |].
  split; [apply add_zero_r, Zli |].
  split; [| split].
  - unfold accumulators, accumulate;
      cbn [by_material_cm by_material_chf by_material_X0 by_material_lambdaI].
    repeat constructor; assumption.
  - intros Hn. destruct (Habsent Hn) as (N1 & N2 & N3 & N4).
    unfold accumulators, accumulate;
      cbn [by_material_cm by_material_chf by_material_X0 by_material_lambdaI
           map].
    now rewrite (Bcm2 N1), (Bchf2 N2), (Bx02 N3), (Bli2 N4).
  - intros Hn Hk. destruct (Habsent Hn) as (N1 & N2 & N3 & N4).
    set (self' := accumulate self material tcm chf x0 li).
    assert (Hk' : ledger_known g self' = true).
    { unfold ledger_known in *. rewrite forallb_forall in *.
      intros k Hin.
      assert (Hin' : k = material \/ In k (ledger_keys self)).
      { unfold ledger_keys, self', accumulate in *;
          cbn [by_material_cm by_material_chf by_material_X0
               by_material_lambdaI] in *.
        rewrite !in_app_iff, !dict_keys_set in Hin.
        rewrite !in_app_iff. tauto. }
      destruct Hin' as [-> | Hin']; [| now apply Hk].
      unfold dict_mem. now rewrite Hc, Hp. }
    destruct (summary_known g self' Hk')
      as (s & Hs & T1 & T2 & T3 & T4 & Hrows).
    destruct (Hrows material) as (row & Hrow & Hsr).
    { unfold ledger_keys, self', accumulate;
        cbn [by_material_cm by_material_chf by_material_X0
             by_material_lambdaI].
      rewrite !in_app_iff, !dict_keys_set. tauto. }
    exists s, row. split; [exact Hs |]. split; [exact Hrow |].
    split.
    + destruct (summary_row_known g self' material) as (row' & Hsr' & Hacc).
      { unfold dict_mem. now rewrite Hc. }
      { unfold dict_mem. now rewrite Hp. }
      rewrite Hsr in Hsr'. injection Hsr' as <-. rewrite Hacc.
      unfold self', accumulate, dict_get_default;
        cbn [by_material_cm by_material_chf by_material_X0
             by_material_lambdaI].
      rewrite !dict_get_set_same, N1, N2, N3, N4.
      change (@fadd float binary64 fzero) with (PrimFloat.add 0).
      now rewrite !zero_add_zero by assumption.
    + rewrite T1, T2, T3, T4. unfold self', accumulate;
        cbn [total_length_cm total_cost_chf total_X0 total_lambdaI].
      repeat split; apply add_zero_r; assumption.
Qed.

(** Lead, 0.15 cm, zero times, on a fresh tracker of 1 m^2. *)
Lemma add_with_count_zero_witness :
  let r :=
    add "G4_Pb" 0.15%float 0 (globals0, Trackers.new 1%float) in
  r = (inr tt, (globals0, snd (snd r)))
  /\ total_length_cm (snd (snd r)) = 0%float
  /\ by_material_cm (snd (snd r)) = [("G4_Pb"%string, 0%float)]
  /\ exists s row,
       summary (globals0, snd (snd r)) = (inr s, (globals0, snd (snd r)))
       /\ dict_get (s_by_material s) "G4_Pb" = Some row
       /\ accumulated row
          = [Some 0%float; Some 0%float; Some 0%float; Some 0%float].
Proof.
  cbv zeta.
  destruct (@add_with_count_zero globals0 (Trackers.new 1%float) "G4_Pb"
              0.15%float 300%float
              {| X0_cm := 0.56%float; lambdaI_cm := 17.1%float |}
              eq_refl eq_refl eq_refl eq_refl eq_refl
              eq_refl eq_refl eq_refl eq_refl)
    as (Hr & _ & _ & _ & _ & _ & _ & Hs).
  split; [exact Hr |].
  split; [vm_compute; reflexivity |].
  split; [vm_compute; reflexivity |].
  destruct (Hs eq_refl eq_refl) as (s & row & H1 & H2 & H3 & _).
  exists s, row. repeat split; assumption.
Defined.

End ZeroCountTheorem.

(** * Rounding in binary64 *)

Section CeilOfAQuotient.
Local Open Scope Z_scope.

Lemma digits2_pos_unique (m : positive) (d : Z) :
  2 ^ (d - 1) <= Z.pos m < 2 ^ d -> Z.pos (digits2_pos m) = d.
Proof.
  intros [Hlo Hhi]. pose proof (digits2_pos_bounds m) as [Hlo' Hhi'].
  assert (Hd : 0 < d).
  { destruct d as [| d | d]; simpl in Hhi; lia. }
  assert (H1 : Z.pos (digits2_pos m) - 1 < d).
  { apply (Z.pow_lt_mono_r_iff 2); lia. }
  assert (H2 : d - 1 < Z.pos (digits2_pos m)).
  { apply (Z.pow_lt_mono_r_iff 2); lia. }
  lia.
Qed.

Lemma new_location_spec (nb k : Z) :
  0 < nb -> 0 <= k < nb ->
  new_location nb k
  = if k =? 0 then loc_Exact else loc_Inexact (2 * k ?= nb).
Proof.
  intros Hnb Hk. unfold new_location, new_location_even, new_location_odd.
  destruct (Z.even nb) eqn:Ev; destruct (k =? 0); try reflexivity.
  f_equal.
  destruct (Z.compare_spec (2 * k + 1) nb) as [E | E | E];
    destruct (Z.compare_spec (2 * k) nb) as [E' | E' | E'];
    try reflexivity; try lia.
  subst nb. rewrite Z.even_mul in Ev. discriminate.
Qed.

Lemma loc_of_shr_record_of_loc (m : Z) (l : location) :
  loc_of_shr_record (shr_record_of_loc m l) = l.
Proof. destruct l as [| []]; reflexivity. Qed.

Lemma shr_m_of_loc (m : Z) (l : location) :
  shr_m (shr_record_of_loc m l) = m.
Proof. destruct l as [| []]; reflexivity. Qed.

Lemma shr_fexp_stay (m e : Z) (l : location) :
  fexp prec emax (Zdigits2 m + e) - e <= 0 ->
  shr_fexp prec emax m e l = (shr_record_of_loc m l, e).
Proof.
  intros Hle. unfold shr_fexp.
  destruct (fexp prec emax (Zdigits2 m + e) - e); try reflexivity. lia.
Qed.

Lemma shr_fexp_once (m e : Z) (l : location) :
  fexp prec emax (Zdigits2 m + e) - e = 1 ->
  shr_fexp prec emax m e l = (shr_1 (shr_record_of_loc m l), e + 1).
Proof. intros Heq. unfold shr_fexp. rewrite Heq. reflexivity. Qed.

(** The mantissa kept by the first shift of a division, [sh] digits to the
    right, and its rounding: [N = q * nb + r] is the dividend, [D] the divisor
    times [2 ^ sh]. *)
Lemma round_after_shift (q nb r : Z) (sh : bool) :
  0 < nb -> 0 <= r < nb -> 0 < q ->
  let mrs := if sh then shr_1 (shr_record_of_loc q (new_location nb r))
             else shr_record_of_loc q (new_location nb r) in
  let M' := round_nearest_even (shr_m mrs) (loc_of_shr_record mrs) in
  let D := if sh then nb * 2 else nb in
  exists M R,
    q * nb + r = D * M + R /\ 0 <= R < D
    /\ (if sh then 2 * M <= q < 2 * (M + 1) else M = q)
    /\ M <= M' <= M + 1
    /\ (R = 0 -> M' = M)
    /\ (D < 2 * R -> M' = M + 1).
Proof.
  intros Hnb Hr Hq mrs M' D. subst mrs M' D.
  rewrite new_location_spec by lia.
  destruct sh.
  - destruct q as [| pq | pq]; try lia.
    destruct (Z.eqb_spec r 0) as [-> | Hr0];
      [| destruct (Z.compare_spec (2 * r) nb) as [E | E | E]];
      destruct pq as [p | p |];
      cbn [shr_1 shr_record_of_loc shr_m shr_r shr_s loc_of_shr_record
           round_nearest_even orb];
      try destruct (Z.even (Z.pos p));
      try destruct (Z.even 0);
      first [ exists (Z.pos p), (nb + r); repeat split; lia
            | exists (Z.pos p), r; repeat split; lia
            | exists 0, (nb + r); repeat split; lia
            | exists (Z.pos p), nb; repeat split; lia
            | exists (Z.pos p), 0; repeat split; lia
            | exists 0, nb; repeat split; lia ].
  - exists q, r. rewrite loc_of_shr_record_of_loc, shr_m_of_loc.
    destruct (Z.eqb_spec r 0) as [-> | Hr0];
      [| destruct (Z.compare_spec (2 * r) nb) as [E | E | E]];
      cbn [round_nearest_even];
      try destruct (Z.even q); repeat split; lia.
Qed.

(** Rounding to nearest does not move the ceiling of a quotient [n / e] of
    integers below [2 ^ 53]: [M'] is the rounded 53-digit mantissa, in units
    of [1 / G]. *)
Lemma ceil_of_nearest (n e G D N M R M' : Z) :
  1 <= e -> 1 <= n < 2 ^ 53 -> 0 < G -> 0 < D ->
  N * e = n * D * G -> N = D * M + R -> 0 <= R < D ->
  2 ^ 52 <= M -> M <= M' <= M + 1 ->
  (R = 0 -> M' = M) -> (D < 2 * R -> M' = M + 1) ->
  - ((- M') / G) = (n + e - 1) / e.
Proof.
  intros He Hn HG HD HNe HN HR HM HM' Hex Hgt.
  set (c := (n + e - 1) / e).
  pose proof (Z.div_mod (n + e - 1) e ltac:(lia)) as Hdm.
  pose proof (Z.mod_pos_bound (n + e - 1) e ltac:(lia)) as Hmb.
  fold c in Hdm.
  assert (Hk : exists k, c = k + 1 /\ k * e < n /\ n <= (k + 1) * e).
  { exists (c - 1). split; [lia | split; nia]. }
  destruct Hk as (k & Hck & Hk1 & Hk2). clear Hdm Hmb.
  assert (HDG : 0 < D * G) by nia.
  assert (Ha : k * G <= M).
  { assert (k * e * (D * G) < n * (D * G)) by (apply Z.mul_lt_mono_pos_r; lia).
    assert (H1 : (k * G * D) * e < N * e) by nia.
    assert (H2 : k * G * D < N) by (apply (Z.mul_lt_mono_pos_r e); lia).
    assert (H3 : D * (k * G) < D * (M + 1)) by nia.
    apply Z.mul_lt_mono_pos_l in H3; lia. }
  assert (Hc : M <= (k + 1) * G).
  { assert (n * (D * G) <= (k + 1) * e * (D * G))
      by (apply Z.mul_le_mono_nonneg_r; lia).
    assert (H1 : N * e <= ((k + 1) * G * D) * e) by nia.
    assert (H2 : N <= (k + 1) * G * D) by (apply (Z.mul_le_mono_pos_r _ _ e); lia).
    assert (H3 : D * M <= D * ((k + 1) * G)) by nia.
    apply Z.mul_le_mono_pos_l in H3; lia. }
  assert (Hlo : k * G < M').
  { destruct (Z.eq_dec (k * G) M) as [E | E]; [| lia].
    assert (HRe : R * e = D * G * (n - k * e)) by nia.
    assert (HRe' : D * G <= R * e) by nia.
    assert (H0k : 0 <= k) by nia.
    assert (H2G : e < 2 * G).
    { assert (2 ^ 52 * e <= M * e) by (apply Z.mul_le_mono_nonneg_r; lia).
      assert (M * e = G * (k * e)) by nia.
      assert (G * (k * e) < G * 2 ^ 53) by (apply Z.mul_lt_mono_pos_l; lia).
      lia. }
    assert (H4 : D * e < D * (2 * G)) by (apply Z.mul_lt_mono_pos_l; lia).
    assert (H5 : D * e < (2 * R) * e) by nia.
    apply Z.mul_lt_mono_pos_r in H5; [| lia].
    rewrite (Hgt H5). lia. }
  assert (Hhi : M' <= (k + 1) * G).
  { destruct (Z.eq_dec M ((k + 1) * G)) as [E | E]; [| lia].
    assert (HR0 : R = 0).
    { assert (N * e <= (D * M) * e) by nia.
      assert (N <= D * M) by (apply (Z.mul_le_mono_pos_r _ _ e); lia).
      lia. }
    rewrite (Hex HR0). lia. }
  assert (Hq : (- M') / G = - (k + 1)).
  { symmetry. apply (Z.div_unique _ _ _ ((k + 1) * G - M')); [left; lia | ring]. }
  rewrite Hq. lia.
Qed.

End CeilOfAQuotient.

(** ** Products by one and floats of ints *)

Section FloatUnits.
Local Open Scope Z_scope.

Lemma digits2_pos_shift52 (m : positive) :
  Z.pos (digits2_pos (m * 4503599627370496)) = Z.pos (digits2_pos m) + 52.
Proof.
  rewrite Pos.mul_comm. cbn [Pos.mul digits2_pos].
  rewrite !Pos2Z.inj_succ. lia.
Qed.

Lemma shr_52 (m : positive) :
  SpecFloat.iter_pos shr_1 52%positive
    {| shr_m := Z.pos (m * 4503599627370496);
       shr_r := false; shr_s := false |}
  = {| shr_m := Z.pos m; shr_r := false; shr_s := false |}.
Proof. rewrite Pos.mul_comm. reflexivity. Qed.

(** A product by 1.0 is exact. *)
Lemma SFmul_one_r (x : spec_float) :
  valid_binary x = true ->
  SFmul prec emax x (S754_finite false 4503599627370496 (-52)) = x.
Proof.
  unfold valid_binary.
  destruct x as [sx | sx | | sx mx ex]; cbn [SFmul SpecFloat.valid_binary];
    intros Hv; rewrite ?xorb_false_r; try reflexivity.
  apply andb_prop in Hv as [Hc Hb].
  unfold canonical_mantissa in Hc. apply Z.eqb_eq in Hc.
  unfold binary_round_aux.
  assert (H1 : shr_fexp prec emax (Z.pos (mx * 4503599627370496))
                 (ex + -52) loc_Exact
               = ({| shr_m := Z.pos mx; shr_r := false; shr_s := false |},
                  ex)).
  { unfold shr_fexp, Zdigits2. rewrite digits2_pos_shift52.
    replace (Z.pos (digits2_pos mx) + 52 + (ex + -52))
      with (Z.pos (digits2_pos mx) + ex) by lia.
    rewrite Hc. replace (ex - (ex + -52)) with 52 by lia.
    cbn [shr shr_record_of_loc]. rewrite shr_52. f_equal. lia. }
  rewrite H1. cbn [shr_m loc_of_shr_record round_nearest_even].
  rewrite shr_fexp_stay by (unfold Zdigits2; rewrite Hc; lia).
  cbn [shr_record_of_loc shr_m]. rewrite Hb. reflexivity.
Qed.

Lemma mul_one (x : float) : (x * 1)%float = x.
Proof.
  apply Prim2SF_inj. rewrite mul_spec.
  change (Prim2SF 1) with (S754_finite false 4503599627370496 (-52)).
  apply SFmul_one_r. apply Prim2SF_valid.
Qed.

Lemma Z2float_1 : Z2float 1 = 1%float.
Proof. reflexivity. Qed.

End FloatUnits.

Section FloatOfInt.
Local Open Scope Z_scope.

Lemma shr_1_m (mrs : shr_record) :
  0 <= shr_m mrs -> shr_m (shr_1 mrs) = shr_m mrs / 2.
Proof.
  destruct mrs as [m r s]. cbn [shr_m]. intros Hm.
  destruct m as [| [p | p |] | p]; try lia; cbn [shr_1 shr_m].
  - reflexivity.
  - apply Z.div_unique with (r := 1); lia.
  - apply Z.div_unique with (r := 0); lia.
  - reflexivity.
Qed.

Lemma iter_shr_m (k : positive) (mrs : shr_record) :
  0 <= shr_m mrs ->
  shr_m (SpecFloat.iter_pos shr_1 k mrs) = shr_m mrs / 2 ^ Z.pos k.
Proof.
  revert mrs. induction k as [k IH | k IH |]; intros mrs Hm;
    cbn [SpecFloat.iter_pos].
  - assert (H1 : 0 <= shr_m (shr_1 mrs))
      by (rewrite shr_1_m by exact Hm; apply Z.div_pos; lia).
    assert (H2 : 0 <= shr_m (SpecFloat.iter_pos shr_1 k (shr_1 mrs))).
    { rewrite IH by exact H1. apply Z.div_pos; [exact H1 |].
      apply Z.pow_pos_nonneg; lia. }
    rewrite IH by exact H2. rewrite IH by exact H1.
    rewrite shr_1_m by exact Hm.
    assert (Hp : 0 < 2 ^ Z.pos k) by (apply Z.pow_pos_nonneg; lia).
    rewrite !Z.div_div by lia. f_equal.
    assert (E : Z.pos k~1 = 1 + Z.pos k + Z.pos k) by lia.
    rewrite E, !Z.pow_add_r by lia. ring.
  - assert (H2 : 0 <= shr_m (SpecFloat.iter_pos shr_1 k mrs)).
    { rewrite IH by exact Hm. apply Z.div_pos; [exact Hm |].
      apply Z.pow_pos_nonneg; lia. }
    rewrite IH by exact H2. rewrite IH by exact Hm.
    assert (Hp : 0 < 2 ^ Z.pos k) by (apply Z.pow_pos_nonneg; lia).
    rewrite !Z.div_div by lia. f_equal.
    assert (E : Z.pos k~0 = Z.pos k + Z.pos k) by lia.
    rewrite E, !Z.pow_add_r by lia. ring.
  - rewrite shr_1_m by exact Hm. reflexivity.
Qed.

Lemma round_nearest_even_bounds (m : Z) (l : location) :
  m <= round_nearest_even m l <= m + 1.
Proof.
  destruct l as [| []]; cbn [round_nearest_even];
    try destruct (Z.even m); lia.
Qed.

Lemma shl_align_snd (m : positive) (e ez : Z) :
  ez <= e -> snd (shl_align m e ez) = ez.
Proof.
  intros He. unfold shl_align.
  destruct (ez - e) as [| d | d] eqn:Hd; cbn [snd]; lia.
Qed.

(** The second shift of a rounding leaves a mantissa of 53 digits. *)
Lemma second_shift (M' g : Z) :
  2 ^ 52 <= M' <= 2 ^ 53 -> -1074 <= g ->
  exists mf ef,
    shr_fexp prec emax M' g loc_Exact
    = ({| shr_m := Z.pos mf; shr_r := false; shr_s := false |}, ef)
    /\ Z.pos (digits2_pos mf) = 53 /\ g <= ef <= g + 1.
Proof.
  intros HM Hg. destruct M' as [| pm | pm]; try lia.
  destruct (Z.eq_dec (Z.pos pm) (2 ^ 53)) as [E | E].
  - injection E as ->.
    exists 4503599627370496%positive, (g + 1).
    split; [| split; [reflexivity | lia]].
    rewrite shr_fexp_once; [reflexivity |].
    change (Zdigits2 (Z.pos 9007199254740992)) with 54.
    unfold fexp, emin, prec, emax. lia.
  - assert (Hd : Z.pos (digits2_pos pm) = 53)
      by (apply digits2_pos_unique; lia).
    exists pm, g. split; [| split; [exact Hd | lia]].
    rewrite shr_fexp_stay; [reflexivity |].
    unfold Zdigits2. rewrite Hd. unfold fexp, emin, prec, emax. lia.
Qed.

Lemma finite_53_valid (s : bool) (m : positive) (e : Z) :
  Z.pos (digits2_pos m) = 53 -> -1074 <= e <= 971 ->
  valid_binary (S754_finite s m e) = true.
Proof.
  intros Hd He. unfold valid_binary. cbn [SpecFloat.valid_binary].
  unfold bounded, canonical_mantissa. rewrite Hd.
  apply andb_true_intro. split.
  - apply Z.eqb_eq. unfold fexp, emin, prec, emax. lia.
  - apply Z.leb_le. unfold prec, emax. lia.
Qed.

(** Rounding a positive integer gives a float that is not zero. *)
Lemma binary_round_of_int (s : bool) (p : positive) :
  valid_binary (binary_round prec emax s p 0) = true
  /\ match binary_round prec emax s p 0 with
     | S754_infinity _ | S754_finite _ _ _ => True
     | _ => False
     end.
Proof.
  pose proof (digits2_pos_bounds p) as [Hlo Hhi].
  set (d := Z.pos (digits2_pos p)) in *.
  assert (Hd : 1 <= d) by (unfold d; lia).
  unfold binary_round. fold d.
  destruct (Z.le_gt_cases d 53) as [Hsmall | Hbig].
  - assert (Hf : fexp prec emax (d + 0) = d - 53)
      by (unfold fexp, emin, prec, emax; lia).
    rewrite Hf.
    pose proof (@shl_align_fst p 0 (d - 53) ltac:(lia)) as Hm.
    pose proof (@shl_align_snd p 0 (d - 53) ltac:(lia)) as He.
    destruct (shl_align p 0 (d - 53)) as [mz ez]. cbn [fst snd] in Hm, He.
    subst ez.
    assert (Hdz : Z.pos (digits2_pos mz) = 53).
    { apply digits2_pos_unique. rewrite Hm.
      set (t := 0 - (d - 53)).
      assert (Ht : 0 < 2 ^ t) by (apply Z.pow_pos_nonneg; unfold t; lia).
      assert (E1 : 2 ^ (53 - 1) = 2 ^ (d - 1) * 2 ^ t).
      { rewrite <- Z.pow_add_r by (unfold t; lia). f_equal. unfold t. lia. }
      assert (E2 : 2 ^ 53 = 2 ^ d * 2 ^ t).
      { rewrite <- Z.pow_add_r by (unfold t; lia). f_equal. unfold t. lia. }
      rewrite E1, E2. nia. }
    assert (Hr : binary_round_aux prec emax s (Z.pos mz) (d - 53) loc_Exact
                 = S754_finite s mz (d - 53)).
    { unfold binary_round_aux.
      rewrite shr_fexp_stay
        by (unfold Zdigits2; rewrite Hdz; unfold fexp, emin, prec, emax; lia).
      cbn [shr_record_of_loc shr_m loc_of_shr_record round_nearest_even].
      rewrite shr_fexp_stay
        by (unfold Zdigits2; rewrite Hdz; unfold fexp, emin, prec, emax; lia).
      cbn [shr_record_of_loc shr_m].
      replace (d - 53 <=? emax - prec) with true
        by (symmetry; apply Z.leb_le; unfold emax, prec; lia).
      reflexivity. }
    rewrite Hr. split; [apply finite_53_valid; [exact Hdz | lia] | exact I].
  - assert (Hf : fexp prec emax (d + 0) = d - 53)
      by (unfold fexp, emin, prec, emax; lia).
    rewrite Hf.
    assert (Ha : shl_align p 0 (d - 53) = (p, 0)).
    { unfold shl_align. destruct (d - 53 - 0) eqn:E; try reflexivity. lia. }
    rewrite Ha. unfold binary_round_aux.
    destruct (d - 53) as [| k | k] eqn:Hk; try lia.
    assert (H1 : shr_fexp prec emax (Z.pos p) 0 loc_Exact
                 = (SpecFloat.iter_pos shr_1 k
                      {| shr_m := Z.pos p; shr_r := false; shr_s := false |},
                    Z.pos k)).
    { unfold shr_fexp, Zdigits2. fold d. rewrite Hf.
      replace (Z.pos k - 0) with (Z.pos k) by lia. reflexivity. }
    rewrite H1.
    set (mrs := SpecFloat.iter_pos shr_1 k _).
    assert (HM : 2 ^ 52 <= shr_m mrs < 2 ^ 53).
    { unfold mrs. rewrite iter_shr_m by (cbn; lia). cbn [shr_m].
      assert (Hp : 0 < 2 ^ Z.pos k) by (apply Z.pow_pos_nonneg; lia).
      replace (d - 1) with (52 + Z.pos k) in Hlo by lia.
      replace d with (53 + Z.pos k) in Hhi by lia.
      rewrite Z.pow_add_r in Hlo, Hhi by lia.
      split.
      - apply Z.div_le_lower_bound; lia.
      - apply Z.div_lt_upper_bound; lia. }
    pose proof (round_nearest_even_bounds (shr_m mrs)
                  (loc_of_shr_record mrs)) as HM'.
    destruct (@second_shift (round_nearest_even (shr_m mrs)
                               (loc_of_shr_record mrs)) (Z.pos k))
      as (mf & ef & H2 & Hdf & Hef); try lia.
    rewrite H2. cbn [shr_m].
    destruct (Z.leb_spec ef (emax - prec)) as [Hle | Hgt].
    + split; [| exact I]. apply finite_53_valid; [exact Hdf |].
      unfold emax, prec in Hle. lia.
    + split; [reflexivity | exact I].
Qed.

(** [float(n)] is zero for [n = 0] only. *)
Lemma Z2float_eq0 (n : Z) : (Z2float n =? 0)%float = true <-> n = 0.
Proof.
  unfold Z2float. rewrite FloatAxioms.eqb_spec.
  change (Prim2SF 0) with (S754_zero false).
  destruct n as [| p | p]; cbn [binary_normalize].
  - split; reflexivity.
  - destruct (binary_round_of_int false p) as [Hv Hr].
    rewrite Prim2SF_SF2Prim by exact Hv.
    destruct (binary_round prec emax false p 0) as [s | s | | s m e];
      try contradiction; split; try discriminate; destruct s; discriminate.
  - destruct (binary_round_of_int true p) as [Hv Hr].
    rewrite Prim2SF_SF2Prim by exact Hv.
    destruct (binary_round prec emax true p 0) as [s | s | | s m e];
      try contradiction; split; try discriminate; destruct s; discriminate.
Qed.

End FloatOfInt.

Lemma of_int_eq0 (n : Z) :
  feqb (@of_int Qc rational n) fzero = true <-> n = 0%Z.
Proof.
  rewrite feqb_rational. rational_ops. split.
  - intros E. apply Q2Qc_eq_iff in E. unfold Qeq in E. cbn in E. lia.
  - intros ->. reflexivity.
Qed.

(** ** Products, and the transverse areas *)

Section FloatProducts.

Lemma binary_round_aux_cases (s : bool) (m e : Z) (l : location) :
  match binary_round_aux prec emax s m e l with
  | S754_nan => True
  | S754_zero s' | S754_infinity s' | S754_finite s' _ _ => s' = s
  end.
Proof.
  unfold binary_round_aux.
  destruct (shr_fexp prec emax m e l) as [mrs' e'].
  destruct (shr_fexp prec emax _ e' loc_Exact) as [mrs'' e''].
  destruct (shr_m mrs''); try reflexivity; try exact I.
  destruct (e'' <=? emax - prec)%Z; reflexivity.
Qed.

Lemma binary_round_aux_opp (s : bool) (m e : Z) (l : location) :
  binary_round_aux prec emax (negb s) m e l
  = SFopp (binary_round_aux prec emax s m e l).
Proof.
  unfold binary_round_aux.
  destruct (shr_fexp prec emax m e l) as [mrs' e'].
  destruct (shr_fexp prec emax _ e' loc_Exact) as [mrs'' e''].
  destruct (shr_m mrs''); try reflexivity.
  destruct (e'' <=? emax - prec)%Z; reflexivity.
Qed.

Lemma SFmul_comm (x y : spec_float) :
  SFmul prec emax x y = SFmul prec emax y x.
Proof.
  destruct x as [sx | sx | | sx mx ex], y as [sy | sy | | sy my ey];
    cbn [SFmul]; rewrite ?(xorb_comm sx sy); try reflexivity.
  now rewrite Pos.mul_comm, Z.add_comm.
Qed.

Lemma SFmul_opp_l (x y : spec_float) :
  SFmul prec emax (SFopp x) y = SFopp (SFmul prec emax x y).
Proof.
  destruct x as [sx | sx | | sx mx ex], y as [sy | sy | | sy my ey];
    cbn [SFmul SFopp]; rewrite <- ?negb_xorb_l; try reflexivity.
  apply binary_round_aux_opp.
Qed.

Lemma SFopp_involutive (x : spec_float) : SFopp (SFopp x) = x.
Proof. destruct x; cbn; now rewrite ?negb_involutive. Qed.

Lemma mul_comm (x y : float) : (x * y)%float = (y * x)%float.
Proof. apply Prim2SF_inj. rewrite !mul_spec. apply SFmul_comm. Qed.

Lemma mul_opp_l (x y : float) : (- x * y)%float = (- (x * y))%float.
Proof.
  apply Prim2SF_inj. rewrite mul_spec, !opp_spec, mul_spec.
  apply SFmul_opp_l.
Qed.

Lemma mul_opp_opp (x y : float) : (- x * - y)%float = (x * y)%float.
Proof.
  rewrite mul_opp_l, (mul_comm x (- y)), mul_opp_l, (mul_comm y x).
  apply Prim2SF_inj. rewrite !opp_spec. apply SFopp_involutive.
Qed.

(** The sign of [(p * x) * x] for a positive finite [p]. *)
Lemma sign_clear_square (m : positive) (e : Z) (x : spec_float) :
  sign_clear
    (SFmul prec emax (SFmul prec emax (S754_finite false m e) x) x).
Proof.
  destruct x as [sx | sx | | sx mx ex]; cbn [SFmul xorb sign_clear].
  - now destruct sx.
  - now destruct sx.
  - exact I.
  - pose proof (binary_round_aux_cases sx
                  (Z.pos (m * mx)) (e + ex) loc_Exact) as Hc.
    destruct (binary_round_aux prec emax sx _ _ _)
      as [s | s | | s m' e']; cbn [SFmul sign_clear]; try exact I;
      subst s; try apply xorb_nilpotent.
    pose proof (binary_round_aux_cases (xorb sx sx)
                  (Z.pos (m' * mx)) (e' + ex) loc_Exact) as Hc'.
    destruct (binary_round_aux prec emax (xorb sx sx) _ _ _)
      as [s | s | | s m'' e'']; cbn [sign_clear]; try exact I;
      subst s; apply xorb_nilpotent.
Qed.

Lemma sign_clear_leb (z : float) :
  sign_clear (Prim2SF z) -> is_nan z = true \/ (0 <=? z)%float = true.
Proof.
  intros Hz. rewrite leb_spec. change (Prim2SF 0) with (S754_zero false).
  destruct (Prim2SF z) as [s | s | | s m e] eqn:E; cbn in Hz; subst;
    try (right; reflexivity).
  left. now apply is_nan_spec.
Qed.

End FloatProducts.

(** X1.  The transverse area helpers in binary64.  [area_rect_m2] does not
    depend on the order of the width and the height, and gives [0.25] for the
    50 x 50 cm slab of its docstring.  [area_cyl_m2] gives the same area for a
    radius and for its opposite, and never a negative one: the result is a NaN
    or its sign bit is clear, so that [0 <= area] holds unless it is a NaN. *)
Theorem areas_in_binary64 :
  (forall w h : float,
      Trackers.area_rect_m2 w h = Trackers.area_rect_m2 h w)
  /\ Trackers.area_rect_m2 50%float 50%float = 0.25%float
  /\ (forall r : float,
        Trackers.area_cyl_m2 (- r)%float = Trackers.area_cyl_m2 r)
  /\ (forall r : float,
        sign_clear (Prim2SF (Trackers.area_cyl_m2 r))
        /\ (is_nan (Trackers.area_cyl_m2 r) = true
            \/ (0 <=? Trackers.area_cyl_m2 r)%float = true)).
Proof.
  split; [| split; [| split]].
  - intros w h. unfold Trackers.area_rect_m2.
    cbn [fmul binary64]. now rewrite (mul_comm w h).
  - reflexivity.
  - intros r. unfold Trackers.area_cyl_m2.
    cbn [fmul binary64 f_pi f_1e_2 binary64_literals].
    rewrite mul_opp_l. set (x := (r * 1e-2)%float).
    set (p := 3.141592653589793%float).
    rewrite (mul_comm p (- x)), mul_opp_l, mul_opp_opp.
    now rewrite (mul_comm x p).
  - intros r.
    assert (Hs : sign_clear (Prim2SF (Trackers.area_cyl_m2 r))).
    { unfold Trackers.area_cyl_m2.
      cbn [fmul binary64 f_pi f_1e_2 binary64_literals].
      rewrite !mul_spec.
      change (Prim2SF 3.141592653589793)
        with (S754_finite false 7074237752028440 (-51)).
      apply sign_clear_square. }
    split; [exact Hs | now apply sign_clear_leb].
Qed.

(** * Further properties of the geometry descriptor *)

Section AsSpecsRoundTrip.
Context {F : Type} `{Arith F}.
Import G4Calo.

Lemma addLayer_of_spec_fold (specs : list (LayerSpec F))
    (gd : GeometryDescriptor F) :
  fold_left (fun g s => addLayer g (ls_thickness_cm s) (ls_material s)
                          (ls_sensitive s)) specs gd
  = {| area_m2 := area_m2 gd;
       layers := layers gd
                 ++ map (fun s => {| thickness_cm := ls_thickness_cm s;
                                     material := ls_material s;
                                     sensitive := ls_sensitive s |}) specs |}.
Proof.
  revert gd. induction specs as [| s specs IH]; intros gd.
  - cbn. rewrite app_nil_r. now destruct gd.
  - cbn [fold_left map]. rewrite IH. unfold addLayer. cbn [area_m2 layers].
    now rewrite <- app_assoc.
Qed.

Lemma layers_of_as_specs (gd : GeometryDescriptor F) :
  map (fun s => {| thickness_cm := ls_thickness_cm s;
                   material := ls_material s;
                   sensitive := ls_sensitive s |})
      (as_layers (as_specs gd))
  = layers gd.
Proof.
  unfold as_specs. cbn [as_layers]. rewrite map_map. cbn.
  rewrite <- (map_id (layers gd)) at 2. apply map_ext.
  now intros [t m s].
Qed.

End AsSpecsRoundTrip.

(** X2.  [as_specs()] records the layers and nothing else of a geometry.
    Feeding its [layers] entries back to [addLayer], in order, on a fresh
    [GeometryDescriptor()] rebuilds the layer list of the geometry, with the
    default area [1.0] in place of the geometry's own; two geometries with the
    same layers have the same [as_specs()] whatever their areas; and
    [total_lambda] is [None] for every geometry.  In exact arithmetic one more
    [addLayer] raises [total_len_cm] by the thickness added. *)
Theorem as_specs_keeps_the_layers_only :
  (forall (F : Type) (A : Arith F) (gd : G4Calo.GeometryDescriptor F),
      let rebuilt :=
        fold_left
          (fun g s => G4Calo.addLayer g (G4Calo.ls_thickness_cm s)
                        (G4Calo.ls_material s) (G4Calo.ls_sensitive s))
          (G4Calo.as_layers (G4Calo.as_specs gd)) G4Calo.new in
      G4Calo.layers rebuilt = G4Calo.layers gd
      /\ G4Calo.area_m2 rebuilt = of_int 1
      /\ G4Calo.as_specs rebuilt = G4Calo.as_specs gd
      /\ G4Calo.as_total_lambda (G4Calo.as_specs gd) = None
      /\ List.length (G4Calo.as_layers (G4Calo.as_specs gd))
         = List.length (G4Calo.layers gd))
  /\ (forall (gd : G4Calo.GeometryDescriptor Qc) t material sensitive,
        G4Calo.as_total_len_cm
          (G4Calo.as_specs (G4Calo.addLayer gd t material sensitive))
        = (G4Calo.as_total_len_cm (G4Calo.as_specs gd) + t)%Qc).
Proof.
  split.
  - intros F A gd rebuilt.
    assert (Hl : G4Calo.layers rebuilt = G4Calo.layers gd).
    { unfold rebuilt. rewrite addLayer_of_spec_fold. cbn [G4Calo.layers].
      change (G4Calo.layers G4Calo.new) with (@nil (G4Calo.Layer F)).
      cbn [app]. apply layers_of_as_specs. }
    split; [exact Hl |]. split.
    { unfold rebuilt. rewrite addLayer_of_spec_fold. reflexivity. }
    split; [unfold G4Calo.as_specs; now rewrite Hl |].
    split; [reflexivity |].
    unfold G4Calo.as_specs. cbn [G4Calo.as_layers]. apply length_map.
  - intros gd t material sensitive.
    unfold G4Calo.as_specs, G4Calo.addLayer.
    cbn [G4Calo.as_total_len_cm G4Calo.layers].
    rewrite map_app, py_sum_app. cbn [map G4Calo.thickness_cm].
    rewrite py_sum_cons, py_sum_nil. ring.
Qed.

(** * Further properties of the ledger *)

Section Preserves.
Context {S : Type} (P : S -> Prop).

Lemma preserves_ret {A} (a : A) : preserves P (ret a : M S A).
Proof. intros s Hs. exact Hs. Qed.

Lemma preserves_bind {A B} (c : M S A) (k : A -> M S B) :
  preserves P c -> (forall a, preserves P (k a)) -> preserves P (bind c k).
Proof.
  intros Hc Hk s Hs. unfold bind. specialize (Hc s Hs).
  destruct (c s) as [[e | a] s1]; simpl in *.
  - exact Hc.
  - apply Hk. exact Hc.
Qed.

Lemma preserves_repeatM n (body : M S unit) :
  preserves P body -> preserves P (repeatM n body).
Proof.
  intros Hb. induction n as [| n IH]; simpl.
  - apply preserves_ret.
  - apply preserves_bind; auto.
Qed.

Lemma preserves_for_each {A} (xs : list A) (body : A -> M S unit) :
  (forall x, preserves P (body x)) -> preserves P (for_each xs body).
Proof.
  intros Hb. induction xs as [| x xs IH]; simpl.
  - apply preserves_ret.
  - apply preserves_bind; auto.
Qed.

End Preserves.

Lemma bind_inl {S A B} (c : M S A) (k : A -> M S B) s x s1 :
  c s = (inl x, s1) -> bind c k s = (inl x, s1).
Proof. intros Hc. unfold bind. now rewrite Hc. Qed.

Lemma dict_keys_set_same {V W} (d1 : dict V) (d2 : dict W) m v w :
  dict_keys d1 = dict_keys d2 ->
  dict_keys (dict_set d1 m v) = dict_keys (dict_set d2 m w).
Proof.
  revert d2. induction d1 as [| [k x] d1 IH]; intros [| [k' y] d2] Hk;
    simpl in *; try discriminate; try reflexivity.
  injection Hk as -> Hk.
  destruct (String.eqb k' m); simpl; f_equal; auto.
Qed.

Lemma dict_mem_set {V} (d : dict V) m v k :
  dict_mem d k = true -> dict_mem (dict_set d m v) k = true.
Proof.
  unfold dict_mem. induction d as [| [k' x] d IH]; simpl.
  - discriminate.
  - destruct (String.eqb k' m) eqn:Em; simpl;
      destruct (String.eqb k' k) eqn:Ek; auto.
Qed.

Lemma dict_mem_set_same {V} (d : dict V) m v :
  dict_mem (dict_set d m v) m = true.
Proof. unfold dict_mem. now rewrite dict_get_set_same. Qed.

Lemma dict_mem_keys {V} (d : dict V) k :
  dict_mem d k = true <-> In k (dict_keys d).
Proof.
  unfold dict_mem. induction d as [| [k' v] d IH]; simpl.
  - split; [discriminate | intros []].
  - destruct (String.eqb k' k) eqn:Ek.
    + apply String.eqb_eq in Ek. split; auto.
    + apply String.eqb_neq in Ek. rewrite IH. split; [auto |].
      intros [Hk | Hk]; [contradiction | exact Hk].
Qed.

Lemma dict_get_mem_false {V} (d : dict V) k :
  dict_mem d k = false -> dict_get d k = None.
Proof.
  unfold dict_mem. destruct (dict_get d k); [discriminate | reflexivity].
Qed.

Section Catalogued.
Context {F : Type} `{Arith F}.
Import Trackers.

Lemma catalogued_add material (thickness_cm : F) count :
  preserves catalogued (add material thickness_cm count).
Proof.
  intros [g self] [(Hc & Hx & Hl) Hk]. rewrite add_eq. unfold add_outcome.
  destruct (dict_get (COST_CHF_PER_CM_M2 g) material) as [rate |] eqn:Er;
    [| split; [repeat split |]; assumption].
  destruct (dict_get (MATERIAL_PROP g) material) as [props |] eqn:Ep;
    [| split; [repeat split |]; assumption].
  destruct (feqb (X0_cm props) fzero); [split; [repeat split |]; assumption |].
  destruct (feqb (lambdaI_cm props) fzero);
    [split; [repeat split |]; assumption |].
  simpl in *. split.
  - repeat split; simpl; apply dict_keys_set_same; assumption.
  - simpl. intros k Hin. apply dict_keys_set in Hin as [-> | Hin].
    + unfold dict_mem. now rewrite Er, Ep.
    + auto.
Qed.

Lemma catalogued_set_price material (p : F) :
  preserves catalogued (set_price material p).
Proof.
  intros [g self] [Hs Hk]. split; [exact Hs |]. simpl in *.
  intros k Hin. destruct (Hk k Hin) as [H1 H2]. split; [| exact H2].
  now apply dict_mem_set.
Qed.

Lemma catalogued_set_material_props material (x l : F) :
  preserves catalogued (set_material_props material x l).
Proof.
  intros [g self] [Hs Hk]. split; [exact Hs |]. simpl in *.
  intros k Hin. destruct (Hk k Hin) as [H1 H2]. split; [exact H1 |].
  now apply dict_mem_set.
Qed.

Lemma catalogued_run_call (c : ledger_call) : preserves catalogued (run_call c).
Proof.
  destruct c as [m t n | [[[m1 t1] m2] t2] n | spec n | m p | m x l]; simpl.
  - apply catalogued_add.
  - apply preserves_bind; [apply catalogued_add |].
    intros _. apply catalogued_add.
  - apply preserves_repeatM, preserves_for_each.
    intros x. apply catalogued_add.
  - apply catalogued_set_price.
  - apply catalogued_set_material_props.
Qed.

Lemma catalogued_new (g : Globals F) area : catalogued (g, new area).
Proof. split; [repeat split | intros k []]. Qed.

Lemma catalogued_after_calls (g : Globals F) area (calls : list ledger_call) :
  catalogued (snd (run_calls calls (g, new area))).
Proof.
  exact (@preserves_for_each _ catalogued _ calls run_call
           catalogued_run_call (g, new area) (catalogued_new g area)).
Qed.

End Catalogued.

(** X3.  After any calls of [add], [add_pair], [add_period], [set_price] and
    [set_material_props] on a new tracker, whether they returned or raised,
    the four per-material accumulators hold the same materials in the same
    order, and each of these materials is in the price list and in the
    property table. *)
Theorem accumulators_share_their_materials
    (F : Type) (A : Arith F) (g : Trackers.Globals F) (area : F)
    (calls : list (@ledger_call F)) :
  let st := snd (run_calls calls (g, Trackers.new area)) in
  let self := snd st in
  dict_keys (Trackers.by_material_chf self)
  = dict_keys (Trackers.by_material_cm self)
  /\ dict_keys (Trackers.by_material_X0 self)
     = dict_keys (Trackers.by_material_cm self)
  /\ dict_keys (Trackers.by_material_lambdaI self)
     = dict_keys (Trackers.by_material_cm self)
  /\ forall k,
       In k (dict_keys (Trackers.by_material_cm self)) ->
       dict_mem (Trackers.COST_CHF_PER_CM_M2 (fst st)) k = true
       /\ dict_mem (Trackers.MATERIAL_PROP (fst st)) k = true.
Proof.
  intros st self.
  destruct (catalogued_after_calls g area calls) as [(Hc & Hx & Hl) Hk].
  repeat split; try assumption; apply Hk; assumption.
Qed.

Section Ascending.
Import Trackers.

Lemma compare_lt_trans a b c :
  String.compare a b = Lt -> String.compare b c = Lt -> String.compare a c = Lt.
Proof.
  intros H1 H2.
  apply OrderedTypeEx.String_as_OT.cmp_lt in H1, H2.
  apply OrderedTypeEx.String_as_OT.cmp_lt.
  exact (@OrderedTypeEx.String_as_OT.lt_trans a b c H1 H2).
Qed.

Lemma compare_refl a : String.compare a a = Eq.
Proof. now apply OrderedTypeEx.String_as_OT.cmp_eq. Qed.

Lemma compare_gt_lt a b : String.compare a b = Gt -> String.compare b a = Lt.
Proof. intros Hg. rewrite String.compare_antisym, Hg. reflexivity. Qed.

Lemma insert_key_ascending k l : ascending l -> ascending (insert_key k l).
Proof.
  unfold ascending. induction 1 as [| k' l' Hs IH Hall]; simpl.
  - repeat constructor.
  - destruct (String.compare k k') eqn:Ec.
    + now constructor.
    + constructor; [now constructor |]. constructor; [exact Ec |].
      eapply Forall_impl; [| exact Hall]. intros b Hb.
      eapply compare_lt_trans; [exact Ec | exact Hb].
    + constructor; [exact IH |].
      apply Forall_forall. intros x Hx. apply insert_key_In in Hx as [-> | Hx].
      * now apply compare_gt_lt.
      * rewrite Forall_forall in Hall. now apply Hall.
Qed.

Lemma sorted_set_ascending ks : ascending (sorted_set ks).
Proof.
  induction ks as [| k ks IH]; simpl.
  - constructor.
  - now apply insert_key_ascending.
Qed.

Lemma insert_key_absorb k l : ascending l -> In k l -> insert_key k l = l.
Proof.
  unfold ascending. induction 1 as [| k' l' Hs IH Hall]; simpl; [intros [] |].
  intros Hin. rewrite Forall_forall in Hall.
  destruct (String.compare k k') eqn:Ec; [reflexivity | |].
  - exfalso. destruct Hin as [-> | Hin].
    + rewrite compare_refl in Ec. discriminate.
    + assert (String.compare k k = Lt) as Hkk
        by (eapply compare_lt_trans; [exact Ec | exact (Hall _ Hin)]).
      rewrite compare_refl in Hkk. discriminate.
  - f_equal. apply IH. destruct Hin as [-> | Hin]; [| exact Hin].
    rewrite compare_refl in Ec. discriminate.
Qed.

Lemma sorted_set_absorb ks l :
  (forall k, In k ks -> In k l) -> sorted_set (ks ++ l) = sorted_set l.
Proof.
  unfold sorted_set. rewrite fold_right_app.
  induction ks as [| k ks IH]; intros Hin; simpl; [reflexivity |].
  rewrite IH by (intros; apply Hin; now right).
  apply insert_key_absorb; [apply sorted_set_ascending |].
  apply sorted_set_In, Hin. now left.
Qed.

End Ascending.

Section SummaryTotal.
Context {F : Type} `{Arith F}.
Import Trackers.

Lemma summary_rows_keys (mats : list string) : forall (s : @state F) rows s',
  summary_rows mats s = (inr rows, s') -> dict_keys rows = mats.
Proof.
  induction mats as [| m mats IH]; simpl; intros s rows s' Hr.
  - injection Hr as <- _. reflexivity.
  - apply bind_inr in Hr as (row & s1 & Hrow & Hr).
    apply bind_inr in Hr as (rows' & s2 & Hrows & Hr).
    injection Hr as <- _. simpl. f_equal. eapply IH. exact Hrows.
Qed.

Lemma ledger_keys_same (self : CostTracker F) :
  same_keys self ->
  sorted_set (ledger_keys self) = sorted_set (dict_keys (by_material_cm self)).
Proof.
  intros (Hc & Hx & Hl). unfold ledger_keys. rewrite Hc, Hx, Hl.
  rewrite !sorted_set_absorb; auto.
  - intros k Hk. apply in_or_app. now left.
  - intros k Hk. apply in_or_app. now left.
Qed.

Lemma catalogued_known (s : @state F) :
  catalogued s -> ledger_known (fst s) (snd s) = true.
Proof.
  intros [(Hc & Hx & Hl) Hk]. unfold ledger_known, ledger_keys.
  rewrite Hc, Hx, Hl. apply forallb_forall. intros k Hin.
  assert (In k (dict_keys (by_material_cm (snd s)))) as Hin'.
  { repeat (apply in_app_or in Hin as [Hin | Hin]; [exact Hin |]). exact Hin. }
  destruct (Hk k Hin') as [-> ->]. reflexivity.
Qed.

Lemma summary_of_catalogued (s : @state F) :
  catalogued s ->
  exists r,
    summary s = (inr r, s)
    /\ dict_keys (s_by_material r)
       = sorted_set (dict_keys (by_material_cm (snd s))).
Proof.
  intros Hcat. destruct s as [g self].
  destruct (summary_known g self (catalogued_known Hcat))
    as (r & Hr & _).
  exists r. split; [exact Hr |].
  rewrite <- ledger_keys_same by apply Hcat.
  unfold summary in Hr. apply bind_inr in Hr as (s0 & s1 & Hg & Hr).
  apply get_inr in Hg as [-> ->].
  apply bind_inr in Hr as (rows & s2 & Hrows & Hr).
  injection Hr as <- _. simpl.
  apply summary_rows_keys in Hrows. exact Hrows.
Qed.

End SummaryTotal.

(** X4.  [summary()] of a tracker that was created empty never raises,
    whatever calls were made on it before, and changes nothing; its
    ["by_material"] has one row for each material of the ledger and no other,
    in strictly ascending order of the names. *)
Theorem summary_after_any_calls
    (F : Type) (A : Arith F) (g : Trackers.Globals F) (area : F)
    (calls : list (@ledger_call F)) :
  let st := snd (run_calls calls (g, Trackers.new area)) in
  exists s,
    Trackers.summary st = (inr s, st)
    /\ dict_keys (Trackers.s_by_material s)
       = Trackers.sorted_set (dict_keys (Trackers.by_material_cm (snd st)))
    /\ ascending (dict_keys (Trackers.s_by_material s))
    /\ forall m,
         In m (dict_keys (Trackers.s_by_material s))
         <-> dict_mem (Trackers.by_material_cm (snd st)) m = true.
Proof.
  intros st.
  destruct (summary_of_catalogued (catalogued_after_calls g area calls))
    as (s & Hs & Hk).
  exists s. split; [exact Hs |]. split; [exact Hk |]. rewrite Hk. split.
  - apply sorted_set_ascending.
  - intros m. rewrite sorted_set_In. symmetry. apply dict_mem_keys.
Qed.

Section Partial.
Context {F : Type} `{Arith F}.
Import Trackers.

Lemma add_unknown g (self : CostTracker F) material thickness_cm count :
  dict_mem (COST_CHF_PER_CM_M2 g) material = false
  \/ dict_mem (MATERIAL_PROP g) material = false ->
  exists msg,
    add material thickness_cm count (g, self) = (inl (KeyError msg), (g, self)).
Proof.
  intros Hm. rewrite add_eq. unfold add_outcome, dict_mem in *.
  destruct (dict_get (COST_CHF_PER_CM_M2 g) material);
    [| eexists; reflexivity].
  destruct (dict_get (MATERIAL_PROP g) material);
    [| eexists; reflexivity].
  destruct Hm; discriminate.
Qed.

(** What a returning [add] leaves, written out. *)
Lemma add_result_valid g (self : CostTracker F) m t n :
  valid_material g m = true ->
  exists rate props,
    dict_get (COST_CHF_PER_CM_M2 g) m = Some rate
    /\ dict_get (MATERIAL_PROP g) m = Some props
    /\ add_result g self m t n
       = accumulate self m (fmul t (of_int n))
           (fmul (fmul (fmul t (of_int n)) (area_m2 self)) rate)
           (fquot (fmul t (of_int n)) (X0_cm props))
           (fquot (fmul t (of_int n)) (lambdaI_cm props)).
Proof.
  intros Hv. unfold add_result, add_outcome, valid_material in *.
  destruct (dict_get (COST_CHF_PER_CM_M2 g) m) as [rate |]; [| discriminate].
  destruct (dict_get (MATERIAL_PROP g) m) as [props |]; [| discriminate].
  apply andb_prop in Hv as [Hx Hl]. apply negb_true_iff in Hx, Hl.
  rewrite Hx, Hl. exists rate, props. repeat split.
Qed.

Lemma add_pair_returns g (self : CostTracker F) m1 t1 m2 t2 n :
  valid_material g m1 = true -> valid_material g m2 = true ->
  add_pair (m1, t1, m2, t2) n (g, self)
  = (inr tt, (g, add_result g (add_result g self m1 t1 n) m2 t2 n)).
Proof.
  intros H1 H2. unfold add_pair.
  erewrite bind_ok by (apply add_valid; exact H1).
  apply add_valid. exact H2.
Qed.

(** X5.  [add_pair] is not all-or-nothing: when its first material is valid
    and its second is missing from a table, it raises [KeyError] after the
    first layer has been accumulated, and the tracker keeps it. *)
Theorem add_pair_keeps_its_first_layer
    (g : Globals F) (self : CostTracker F)
    (m1 : string) (t1 : F) (m2 : string) (t2 : F) (count : Z) :
  valid_material g m1 = true ->
  dict_mem (COST_CHF_PER_CM_M2 g) m2 = false
  \/ dict_mem (MATERIAL_PROP g) m2 = false ->
  let self' := add_result g self m1 t1 count in
  (exists msg,
      add_pair (m1, t1, m2, t2) count (g, self)
      = (inl (KeyError msg), (g, self')))
  /\ total_length_cm self'
     = fadd (total_length_cm self) (fmul t1 (of_int count))
  /\ dict_get (by_material_cm self') m1
     = Some (fadd (dict_get_default (by_material_cm self) m1 fzero)
                  (fmul t1 (of_int count)))
  /\ dict_get (by_material_cm self') m2 = dict_get (by_material_cm self) m2.
Proof.
  intros Hv Hm self'.
  assert (m1 <> m2) as Hne.
  { intros ->. unfold valid_material, dict_mem in *.
    destruct (dict_get (COST_CHF_PER_CM_M2 g) m2); [| discriminate].
    destruct (dict_get (MATERIAL_PROP g) m2); [| discriminate].
    destruct Hm; discriminate. }
  destruct (add_result_valid g self m1 t1 count Hv) as (rate & props & _ & _ & Hs).
  fold self' in Hs.
  split; [| rewrite Hs; simpl; repeat split].
  - destruct (add_unknown g self' m2 t2 count Hm) as (msg & Hadd).
    exists msg. unfold add_pair.
    erewrite bind_ok by (apply add_valid; exact Hv).
    exact Hadd.
  - apply dict_get_set_same.
  - now rewrite dict_get_set_other.
Qed.

(** X6.  A count that is not positive: [add_period] makes no pass, so it
    returns with the tracker and the tables untouched whatever its materials
    are, known or not; [add_pair] still calls [add] twice, which checks the
    materials and enters both in the accumulators with [t * count]. *)
Theorem counts_below_one
    (g : Globals F) (self : CostTracker F)
    (m1 : string) (t1 : F) (m2 : string) (t2 : F) (count : Z) :
  (count <= 0)%Z ->
  add_period [(m1, t1); (m2, t2)] count (g, self) = (inr tt, (g, self))
  /\ (dict_mem (COST_CHF_PER_CM_M2 g) m1 = false ->
      exists msg,
        add_pair (m1, t1, m2, t2) count (g, self)
        = (inl (KeyError msg), (g, self)))
  /\ (valid_material g m1 = true -> valid_material g m2 = true ->
      let r := add_pair (m1, t1, m2, t2) count (g, self) in
      fst r = inr tt
      /\ dict_mem (by_material_cm (snd (snd r))) m1 = true
      /\ dict_mem (by_material_cm (snd (snd r))) m2 = true
      /\ total_length_cm (snd (snd r))
         = fadd (fadd (total_length_cm self) (fmul t1 (of_int count)))
                (fmul t2 (of_int count))).
Proof.
  intros Hc. split; [| split].
  - unfold add_period, for_range.
    replace (Z.to_nat count) with 0%nat by lia. reflexivity.
  - intros Hm.
    destruct (add_unknown g self m1 t1 count (or_introl Hm)) as (msg & Hadd).
    exists msg. unfold add_pair. apply bind_inl. exact Hadd.
  - intros H1 H2 r.
    assert (r = (inr tt, (g, add_result g (add_result g self m1 t1 count)
                               m2 t2 count))) as ->
      by (apply add_pair_returns; assumption).
    simpl. split; [reflexivity |].
    destruct (add_result_valid g self m1 t1 count H1) as (r1 & p1 & _ & _ & Hs1).
    destruct (add_result_valid g (add_result g self m1 t1 count) m2 t2 count H2)
      as (r2 & p2 & _ & _ & Hs2).
    rewrite Hs2, Hs1. simpl. repeat split.
    + apply dict_mem_set, dict_mem_set_same.
    + apply dict_mem_set_same.
Qed.

Lemma set_price_eq (g : Globals F) (self : CostTracker F) m p :
  set_price m p (g, self)
  = (inr tt,
     ({| COST_CHF_PER_CM_M2 := dict_set (COST_CHF_PER_CM_M2 g) m p;
         MATERIAL_PROP := MATERIAL_PROP g;
         X0_CM := X0_CM g;
         LAMBDA_INT_CM := LAMBDA_INT_CM g |}, self)).
Proof. reflexivity. Qed.

Lemma set_material_props_eq (g : Globals F) (self : CostTracker F) m x l :
  set_material_props m x l (g, self)
  = (inr tt,
     ({| COST_CHF_PER_CM_M2 := COST_CHF_PER_CM_M2 g;
         MATERIAL_PROP :=
           dict_set (MATERIAL_PROP g) m {| X0_cm := x; lambdaI_cm := l |};
         X0_CM := X0_CM g;
         LAMBDA_INT_CM := LAMBDA_INT_CM g |}, self)).
Proof. reflexivity. Qed.

(** X7.  A material that neither table has is made usable by the two
    overrides together and by neither alone: after [set_price] only, [add]
    raises the [KeyError] of the property table; after [set_material_props]
    only, that of the price list; after both, with lengths that are not zero,
    [add] accumulates with the given price and lengths.  [X0_CM] and
    [LAMBDA_INT_CM] still do not have the material. *)
Theorem a_new_material_needs_both_overrides
    (g : Globals F) (self : CostTracker F) (material : string)
    (price X0 lambdaI thickness_cm : F) (count : Z) :
  dict_mem (COST_CHF_PER_CM_M2 g) material = false ->
  dict_mem (MATERIAL_PROP g) material = false ->
  let priced := fst (snd (set_price material price (g, self))) in
  let propped :=
    fst (snd (set_material_props material X0 lambdaI (g, self))) in
  let both :=
    fst (snd ((set_price material price ;;
               set_material_props material X0 lambdaI) (g, self))) in
  let tcm := fmul thickness_cm (of_int count) in
  (set_price material price ;; add material thickness_cm count) (g, self)
  = (inl (KeyError ("Missing MATERIAL_PROP entry for: " ++ material)),
     (priced, self))
  /\ (set_material_props material X0 lambdaI ;;
      add material thickness_cm count) (g, self)
     = (inl (KeyError ("Unknown material for cost model: " ++ material)),
        (propped, self))
  /\ (feqb X0 fzero = false -> feqb lambdaI fzero = false ->
      (set_price material price ;;
       set_material_props material X0 lambdaI ;;
       add material thickness_cm count) (g, self)
      = (inr tt,
         (both,
          accumulate self material tcm
            (fmul (fmul tcm (area_m2 self)) price)
            (fquot tcm X0) (fquot tcm lambdaI))))
  /\ dict_mem (X0_CM both) material = dict_mem (X0_CM g) material
  /\ dict_mem (LAMBDA_INT_CM both) material
     = dict_mem (LAMBDA_INT_CM g) material.
Proof.
  intros Hc Hp priced propped both tcm.
  apply dict_get_mem_false in Hc, Hp.
  split; [| split; [| split; [| split; reflexivity]]].
  - erewrite bind_ok by apply set_price_eq.
    rewrite add_eq. unfold add_outcome. simpl.
    rewrite dict_get_set_same, Hp. reflexivity.
  - erewrite bind_ok by apply set_material_props_eq.
    rewrite add_eq. unfold add_outcome. simpl.
    rewrite Hc. reflexivity.
  - intros Hx Hl.
    erewrite bind_ok by apply set_price_eq.
    erewrite bind_ok by apply set_material_props_eq.
    rewrite add_eq. unfold add_outcome. simpl.
    rewrite !dict_get_set_same. simpl. rewrite Hx, Hl. reflexivity.
Qed.

End Partial.

Lemma add_pair_keeps_its_first_layer_witness :
  exists msg,
    Trackers.add_pair ("G4_Pb", 0.15, "G4_Si", 0.03)%float%string 96
      (Trackers.globals0, Trackers.new 1%float)
    = (inl (KeyError msg),
       (Trackers.globals0,
        add_result Trackers.globals0 (Trackers.new 1%float)
          "G4_Pb" 0.15%float 96))
    /\ Trackers.total_length_cm
         (add_result Trackers.globals0 (Trackers.new 1%float)
            "G4_Pb" 0.15%float 96)
       = (0 + 0.15 * 96)%float.
Proof.
  pose proof (@add_pair_keeps_its_first_layer float binary64
                Trackers.globals0 (Trackers.new 1%float)
                "G4_Pb" 0.15%float "G4_Si" 0.03%float 96
                eq_refl (or_introl eq_refl)) as Hw.
  cbv zeta in Hw. destruct Hw as ((msg & Hr) & Ht & _).
  exists msg. split; [exact Hr | exact Ht].
Defined.

Lemma counts_below_one_witness :
  Trackers.add_period [("G4_Pb", 0.15); ("G4_Si", 0.03)]%float%string 0
    (Trackers.globals0, Trackers.new 1%float)
  = (inr tt, (Trackers.globals0, Trackers.new 1%float)).
Proof.
  pose proof (@counts_below_one float binary64
                Trackers.globals0 (Trackers.new 1%float)
                "G4_Pb" 0.15%float "G4_Si" 0.03%float 0
                (Z.le_refl 0)) as Hw.
  destruct Hw as (Hr & _). exact Hr.
Defined.

Lemma a_new_material_needs_both_overrides_witness :
  bind (Trackers.set_price "G4_Si" 1200%float)
    (fun _ => Trackers.add "G4_Si" 0.03%float 1)
    (Trackers.globals0, Trackers.new 1%float)
  = (inl (KeyError "Missing MATERIAL_PROP entry for: G4_Si"),
     (fst (snd (Trackers.set_price "G4_Si" 1200%float
                  (Trackers.globals0, Trackers.new 1%float))),
      Trackers.new 1%float)).
Proof.
  pose proof (@a_new_material_needs_both_overrides float binary64
                Trackers.globals0 (Trackers.new 1%float) "G4_Si"
                1200%float 9.37%float 46.5%float 0.03%float 1
                eq_refl eq_refl) as Hw.
  cbv zeta in Hw. destruct Hw as (Hr & _). exact Hr.
Defined.

(** ** One layer, and counts that add up *)

(** X8.  In binary64, an [add] with the default [count] of 1 charges the
    layer exactly: when it returns, the tables are as they were, the tracker's
    total length and the length under the material have each grown by the
    thickness in one float addition (the product [thickness * 1] is exact),
    and the total cost by [(thickness * area) * price]. *)
Theorem one_layer_is_charged_exactly
    (g g' : Trackers.Globals float) (self self' : Trackers.CostTracker float)
    (material : string) (thickness_cm : float) :
  Trackers.add material thickness_cm 1 (g, self) = (inr tt, (g', self')) ->
  g' = g
  /\ Trackers.area_m2 self' = Trackers.area_m2 self
  /\ Trackers.total_length_cm self'
     = (Trackers.total_length_cm self + thickness_cm)%float
  /\ dict_get (Trackers.by_material_cm self') material
     = Some (dict_get_default (Trackers.by_material_cm self) material 0
             + thickness_cm)%float
  /\ exists rate,
       dict_get (Trackers.COST_CHF_PER_CM_M2 g) material = Some rate
       /\ Trackers.total_cost_chf self'
          = (Trackers.total_cost_chf self
             + thickness_cm * Trackers.area_m2 self * rate)%float.
Proof.
  rewrite add_eq. unfold add_outcome.
  destruct (dict_get (Trackers.COST_CHF_PER_CM_M2 g) material) as [rate |];
    [| discriminate].
  destruct (dict_get (Trackers.MATERIAL_PROP g) material) as [props |];
    [| discriminate].
  destruct (feqb (Trackers.X0_cm props) fzero); [discriminate |].
  destruct (feqb (Trackers.lambdaI_cm props) fzero); [discriminate |].
  intros Heq. injection Heq as <- <-.
  cbn [fmul fadd of_int fzero binary64]. rewrite Z2float_1, mul_one.
  unfold Trackers.accumulate.
  cbn [Trackers.area_m2 Trackers.total_length_cm Trackers.by_material_cm
       Trackers.total_cost_chf fadd fmul fzero binary64].
  split; [reflexivity |]. split; [reflexivity |]. split; [reflexivity |].
  split; [apply dict_get_set_same |].
  exists rate. split; reflexivity.
Qed.

Lemma one_layer_is_charged_exactly_witness :
  exists g' self',
    Trackers.add "G4_Pb" 0.5%float 1
      (Trackers.globals0, Trackers.new 0.25%float) = (inr tt, (g', self'))
    /\ Trackers.total_length_cm self' = (0 + 0.5)%float
    /\ dict_get (Trackers.by_material_cm self') "G4_Pb"%string
       = Some (0 + 0.5)%float.
Proof.
  destruct (Trackers.add "G4_Pb" 0.5%float 1
              (Trackers.globals0, Trackers.new 0.25%float))
    as [[x | []] [g' self']] eqn:Hr; [vm_compute in Hr; discriminate |].
  exists g', self'. split; [reflexivity |].
  destruct (@one_layer_is_charged_exactly _ _ _ _ _ _ Hr)
    as (_ & _ & Hl & Hm & _).
  split; [exact Hl | exact Hm].
Defined.

Section CountsAddUp.
Import Trackers.
Local Open Scope Qc_scope.

Lemma of_int_add (n k : Z) :
  @of_int Qc rational (n + k) = @of_int Qc rational n + @of_int Qc rational k.
Proof.
  rational_ops. unfold Qcplus. apply Q2Qc_eq_iff. cbn [this Q2Qc].
  rewrite !Qred_correct, inject_Z_plus. reflexivity.
Qed.

Lemma add_result_twice (g : Globals Qc) (self : CostTracker Qc) m t n k :
  valid_material g m = true ->
  add_result g (add_result g self m t n) m t k
  = add_result g self m t (n + k).
Proof.
  unfold add_result, add_outcome, valid_material.
  destruct (dict_get (COST_CHF_PER_CM_M2 g) m) as [rate |]; [| discriminate].
  destruct (dict_get (MATERIAL_PROP g) m) as [props |]; [| discriminate].
  destruct (feqb (X0_cm props) fzero); [discriminate |].
  destruct (feqb (lambdaI_cm props) fzero); [discriminate |].
  intros _. cbn [fst snd]. rewrite !accumulate_bumps.
  cbn [area_m2 by_material_cm by_material_chf by_material_X0
       by_material_lambdaI total_length_cm total_cost_chf total_X0
       total_lambdaI].
  rewrite !bump_same, of_int_add. rational_ops. unfold Qcdiv.
  f_equal; [f_equal | f_equal | f_equal | f_equal | ..]; ring.
Qed.

End CountsAddUp.

(** X9.  In exact arithmetic the counts of [add] add up: for a material that
    [add] accepts, [add(m, t, n)] followed by [add(m, t, k)] leaves the tables
    and the tracker as one [add(m, t, n + k)] does, for all ints [n] and [k],
    negative ones included.  So [add(m, t, -n)] takes back what
    [add(m, t, n)] charged, leaving the tracker as [add(m, t, 0)] does. *)
Theorem counts_of_add_add_up
    (g : Trackers.Globals Qc) (self : Trackers.CostTracker Qc)
    (m : string) (t : Qc) (n k : Z) :
  valid_material g m = true ->
  (Trackers.add m t n ;; Trackers.add m t k) (g, self)
  = Trackers.add m t (n + k) (g, self)
  /\ (Trackers.add m t n ;; Trackers.add m t (- n)) (g, self)
     = Trackers.add m t 0 (g, self).
Proof.
  intros Hv.
  assert (Hsum : forall k',
             (Trackers.add m t n ;; Trackers.add m t k') (g, self)
             = Trackers.add m t (n + k') (g, self)).
  { intros k'. erewrite bind_ok by (apply add_valid; exact Hv).
    rewrite !add_valid by exact Hv.
    now rewrite add_result_twice by exact Hv. }
  split; [apply Hsum |].
  rewrite Hsum. now replace (n + - n)%Z with 0%Z by lia.
Qed.

Lemma counts_of_add_add_up_witness :
  (Trackers.add "G4_Fe" (dec 5 10) 18 ;; Trackers.add "G4_Fe" (dec 5 10) 28)
    (globalsQ, Trackers.new (dec 1 4))
  = Trackers.add "G4_Fe" (dec 5 10) 46 (globalsQ, Trackers.new (dec 1 4))
  /\ (Trackers.add "G4_Fe" (dec 5 10) 18
      ;; Trackers.add "G4_Fe" (dec 5 10) (- 18))
       (globalsQ, Trackers.new (dec 1 4))
     = Trackers.add "G4_Fe" (dec 5 10) 0 (globalsQ, Trackers.new (dec 1 4)).
Proof.
  apply (@counts_of_add_add_up globalsQ (Trackers.new (dec 1 4))
           "G4_Fe" (dec 5 10) 18 28).
  reflexivity.
Defined.

(** ** The cost and the area *)

Section CostAndArea.
Import Trackers.
Local Open Scope Qc_scope.
Variable c : Qc.

Local Notation "'scale' d" :=
  (map (fun kv : string * Qc => (fst kv, c * snd kv)) d)
  (at level 10, d at level 9).

Lemma scale_get (d : dict Qc) k :
  dict_get_default (scale d) k 0 = c * dict_get_default d k 0.
Proof.
  unfold dict_get_default.
  induction d as [| [k0 v0] d IH]; cbn [map dict_get fst snd].
  - ring.
  - destruct (String.eqb k0 k); [reflexivity | exact IH].
Qed.

Lemma scale_set (d : dict Qc) k v :
  dict_set (scale d) k (c * v) = scale (dict_set d k v).
Proof.
  induction d as [| [k0 v0] d IH]; cbn [map dict_set fst snd].
  - reflexivity.
  - destruct (String.eqb k0 k); cbn [map fst snd]; [reflexivity |].
    now rewrite IH.
Qed.

Lemma keeps_scaled_ret : keeps_scaled c (ret tt).
Proof. intros g s1 s2 Hs. cbn. auto. Qed.

Lemma keeps_scaled_bind (m : M state unit) (k : unit -> M state unit) :
  keeps_scaled c m -> (forall u, keeps_scaled c (k u)) ->
  keeps_scaled c (bind m k).
Proof.
  intros Hm Hk g s1 s2 Hs. specialize (Hm g s1 s2 Hs). unfold bind.
  destruct (m (g, s1)) as [[x1 | u1] [g1 t1]],
           (m (g, s2)) as [[x2 | u2] [g2 t2]];
    cbn [fst snd] in *; destruct Hm as (Ho & Hg & Ht);
    try discriminate; subst.
  - auto.
  - destruct u1, u2. exact (Hk tt g2 t1 t2 Ht).
Qed.

Lemma keeps_scaled_repeatM n (body : M state unit) :
  keeps_scaled c body -> keeps_scaled c (repeatM n body).
Proof.
  intros Hb. induction n as [| n IH]; cbn [repeatM].
  - apply keeps_scaled_ret.
  - apply keeps_scaled_bind; auto.
Qed.

Lemma keeps_scaled_for_each {A} (xs : list A) (body : A -> M state unit) :
  (forall x, keeps_scaled c (body x)) -> keeps_scaled c (for_each xs body).
Proof.
  intros Hb. induction xs as [| x xs IH]; cbn [for_each].
  - apply keeps_scaled_ret.
  - apply keeps_scaled_bind; auto.
Qed.

Lemma keeps_scaled_add m t n : keeps_scaled c (add m t n).
Proof.
  intros g s1 s2 Hs. rewrite !add_eq. unfold add_outcome.
  destruct (dict_get (COST_CHF_PER_CM_M2 g) m) as [rate |];
    [| cbn; auto].
  destruct (dict_get (MATERIAL_PROP g) m) as [props |]; [| cbn; auto].
  destruct (feqb (X0_cm props) fzero); [cbn; auto |].
  destruct (feqb (lambdaI_cm props) fzero); [cbn; auto |].
  cbn [fst snd]. split; [reflexivity |]. split; [reflexivity |].
  destruct Hs as (Ha & Hcm & Hchf & Hx & Hl & Htl & Htc & Htx & Htli).
  unfold scaled_costs, accumulate.
  cbn [area_m2 by_material_cm by_material_chf by_material_X0
       by_material_lambdaI total_length_cm total_cost_chf total_X0
       total_lambdaI].
  rewrite Ha, Hcm, Hchf, Hx, Hl, Htl, Htc, Htx, Htli. rational_ops.
  repeat split; try reflexivity; try ring.
  rewrite scale_get, <- scale_set. f_equal. ring.
Qed.

Lemma keeps_scaled_set_price m p : keeps_scaled c (set_price m p).
Proof. intros g s1 s2 Hs. cbn. auto. Qed.

Lemma keeps_scaled_set_material_props m x l :
  keeps_scaled c (set_material_props m x l).
Proof. intros g s1 s2 Hs. cbn. auto. Qed.

Lemma keeps_scaled_run_call (call : @ledger_call Qc) :
  keeps_scaled c (run_call call).
Proof.
  destruct call as [m t n | [[[m1 t1] m2] t2] n | spec n | m p | m x l];
    cbn [run_call].
  - apply keeps_scaled_add.
  - unfold add_pair. apply keeps_scaled_bind; [apply keeps_scaled_add |].
    intros _. apply keeps_scaled_add.
  - unfold add_period, for_range. apply keeps_scaled_repeatM.
    apply keeps_scaled_for_each. intros mt. apply keeps_scaled_add.
  - apply keeps_scaled_set_price.
  - apply keeps_scaled_set_material_props.
Qed.

Lemma scaled_costs_new (area : Qc) :
  scaled_costs c (new area) (new (c * area)).
Proof.
  unfold scaled_costs, new. cbn. rational_ops. repeat split; ring.
Qed.

End CostAndArea.

(** X10.  In exact arithmetic the cost a tracker accumulates is proportional
    to its area and nothing else is: the same calls of [add], [add_pair],
    [add_period], [set_price] and [set_material_props] on [CostTracker(area)]
    and on [CostTracker(c * area)] raise or return alike and leave the same
    tables, lengths, X0 and lambda_I figures, while the total cost and the
    cost of every material of the second are [c] times those of the
    first. *)
Theorem the_cost_is_proportional_to_the_area
    (g : Trackers.Globals Qc) (area c : Qc) (calls : list (@ledger_call Qc)) :
  let r1 := run_calls calls (g, Trackers.new area) in
  let r2 := run_calls calls (g, Trackers.new (c * area)%Qc) in
  fst r1 = fst r2
  /\ fst (snd r1) = fst (snd r2)
  /\ scaled_costs c (snd (snd r1)) (snd (snd r2))
  /\ Trackers.total_cost_chf (snd (snd r2))
     = (c * Trackers.total_cost_chf (snd (snd r1)))%Qc
  /\ Trackers.total_length_cm (snd (snd r2))
     = Trackers.total_length_cm (snd (snd r1))
  /\ forall m,
       dict_get_default (Trackers.by_material_chf (snd (snd r2))) m 0%Qc
       = (c * dict_get_default (Trackers.by_material_chf (snd (snd r1))) m
                0%Qc)%Qc.
Proof.
  intros r1 r2.
  destruct (@keeps_scaled_for_each c _ calls run_call
              (@keeps_scaled_run_call c) g _ _ (@scaled_costs_new c area))
    as (Ho & Hg & Hs).
  fold (run_calls calls) in Ho, Hg, Hs. fold r1 r2 in Ho, Hg, Hs.
  split; [exact Ho |]. split; [exact Hg |]. split; [exact Hs |].
  destruct Hs as (_ & _ & Hchf & _ & _ & Htl & Htc & _).
  split; [exact Htc |]. split; [exact Htl |].
  intros m. rewrite Hchf. apply scale_get.
Qed.

(** * Further properties of the builders *)

Section BuilderSteps.
Context {F : Type} `{Arith F}.
Import Design.

Lemma fdiv_zero {S} (x y : F) (s : S) :
  feqb y fzero = true -> fdiv x y s = (inl ZeroDivisionError, s).
Proof. intros Hy. unfold fdiv. now rewrite Hy. Qed.

Lemma fdiv_nonzero {S} (x y : F) (s : S) :
  feqb y fzero = false -> fdiv x y s = (inr (fquot x y), s).
Proof. intros Hy. unfold fdiv. now rewrite Hy. Qed.

Lemma fdiv_value {S} (x y : F) (e : S) a e' :
  fdiv x y e = (inr a, e') -> a = fquot x y /\ feqb y fzero = false.
Proof.
  unfold fdiv. destruct (feqb y fzero); [discriminate |].
  intros Heq. injection Heq as <-. split; reflexivity.
Qed.

Lemma lambda_div {A} m (x : F) (k : F -> M (env F) A) (e : env F) :
  (l <- lambda_int_cm m ;; q <- fdiv x l ;; k q) e
  = match lambda_lookup (globals e) m with
    | inl ex => (inl ex, e)
    | inr l => k (fquot x l) e
    end.
Proof.
  unfold lambda_lookup, lambda_int_cm, dict_lookup, fdiv, bind, get.
  destruct (dict_get (Trackers.LAMBDA_INT_CM (globals e)) m) as [l |];
    [| reflexivity].
  unfold ret at 1. destruct (feqb l fzero); reflexivity.
Qed.

Lemma lam_pair_bind {A} absorber active (ta tb : F)
    (k : F -> M (env F) A) (e : env F) :
  bind (lam_pair absorber active ta tb) k e
  = match lambda_lookup (globals e) absorber with
    | inl ex => (inl ex, e)
    | inr la =>
        match lambda_lookup (globals e) active with
        | inl ex => (inl ex, e)
        | inr lb => k (fadd (fquot ta la) (fquot tb lb)) e
        end
    end.
Proof.
  unfold lam_pair.
  transitivity
    ((la <- lambda_int_cm absorber ;; qa <- fdiv ta la ;;
      lb <- lambda_int_cm active ;; qb <- fdiv tb lb ;;
      k (fadd qa qb)) e).
  { unfold bind.
    destruct (lambda_int_cm absorber e) as [[x | la] e1]; [reflexivity |].
    destruct (fdiv ta la e1) as [[x | qa] e2]; [reflexivity |].
    destruct (lambda_int_cm active e2) as [[x | lb] e3]; [reflexivity |].
    destruct (fdiv tb lb e3) as [[x | qb] e4]; reflexivity. }
  rewrite lambda_div.
  destruct (lambda_lookup (globals e) absorber) as [x | la]; [reflexivity |].
  rewrite lambda_div. reflexivity.
Qed.

Lemma v1_unfold (total_X0 X0_cm : F) ecal_slices ecal_material
    front_pairs fe_front sc_front mid_pairs fe_mid sc_mid
    back_pairs fe_back sc_back absorber active sensitive_active_only :
  build_ecal_pbwo4_26X0_then_graded_fe_scint_hcal_200cm_v1
    total_X0 X0_cm ecal_slices ecal_material
    front_pairs fe_front sc_front mid_pairs fe_mid sc_mid
    back_pairs fe_back sc_back absorber active sensitive_active_only
  = (gd_new ;;
     ecal_slice <- fdiv (fmul total_X0 X0_cm) (of_int ecal_slices) ;;
     v1_loops_then ecal_slices ecal_material
       front_pairs fe_front sc_front mid_pairs fe_mid sc_mid
       back_pairs fe_back sc_back absorber active sensitive_active_only
       ecal_slice
       (v1_accounting total_X0 X0_cm ecal_material
          front_pairs fe_front sc_front mid_pairs fe_mid sc_mid
          back_pairs fe_back sc_back absorber active ecal_slice)).
Proof. reflexivity. Qed.

Lemma v1_accounting_outcome (total_X0 X0_cm : F) ecal_material
    front_pairs fe_front sc_front mid_pairs fe_mid sc_mid
    back_pairs fe_back sc_back absorber active ecal_slice (e : env F) :
  match first_failure (globals e) ecal_material absorber active with
  | Some x =>
      v1_accounting total_X0 X0_cm ecal_material
        front_pairs fe_front sc_front mid_pairs fe_mid sc_mid
        back_pairs fe_back sc_back absorber active ecal_slice e = (inl x, e)
  | None =>
      exists specs,
        v1_accounting total_X0 X0_cm ecal_material
          front_pairs fe_front sc_front mid_pairs fe_mid sc_mid
          back_pairs fe_back sc_back absorber active ecal_slice e
        = (inr (gd e, specs), e)
  end.
Proof.
  unfold v1_accounting, first_failure. cbv zeta.
  rewrite lambda_div.
  destruct (lambda_lookup (globals e) ecal_material) as [x | le];
    [reflexivity |].
  rewrite lam_pair_bind.
  destruct (lambda_lookup (globals e) absorber) as [x | la] eqn:Ea;
    [reflexivity |].
  destruct (lambda_lookup (globals e) active) as [x | lb] eqn:Eb;
    [reflexivity |].
  rewrite lam_pair_bind, Ea, Eb. rewrite lam_pair_bind, Ea, Eb.
  eexists. reflexivity.
Qed.

Lemma v1_loops_then_split {A} ecal_slices ecal_material
    front_pairs (fe_front sc_front : F) mid_pairs fe_mid sc_mid
    back_pairs fe_back sc_back absorber active sensitive_active_only
    ecal_slice (k : M (env F) A) (e : env F) :
  v1_loops_then ecal_slices ecal_material
    front_pairs fe_front sc_front mid_pairs fe_mid sc_mid
    back_pairs fe_back sc_back absorber active sensitive_active_only
    ecal_slice k e
  = bind (v1_loops_then ecal_slices ecal_material
            front_pairs fe_front sc_front mid_pairs fe_mid sc_mid
            back_pairs fe_back sc_back absorber active sensitive_active_only
            ecal_slice (ret tt))
         (fun _ => k) e.
Proof.
  unfold v1_loops_then, bind.
  destruct (for_range _ _ e) as [[x | []] e1]; [reflexivity |].
  destruct (add_section _ _ _ front_pairs _ _ e1) as [[x | []] e2];
    [reflexivity |].
  destruct (add_section _ _ _ mid_pairs _ _ e2) as [[x | []] e3];
    [reflexivity |].
  destruct (add_section _ _ _ back_pairs _ _ e3) as [[x | []] e4];
    reflexivity.
Qed.

End BuilderSteps.

(** ** Without tracker *)

Section Builds.
Context {F : Type} `{Arith F}.
Import Design.

Lemma with_layers_nil (e : env F) :
  cost_tracker e = None -> with_layers e [] = e.
Proof.
  intros He. destruct e as [g ct [a ls]]. simpl in He. subst ct.
  unfold with_layers. simpl. now rewrite app_nil_r.
Qed.

Lemma with_layers_app (e : env F) l1 l2 :
  with_layers (with_layers e l1) l2 = with_layers e (l1 ++ l2).
Proof. unfold with_layers. simpl. now rewrite app_assoc. Qed.

Lemma builds_ret {A} (a : A) : builds (ret a : M (env F) A) [].
Proof. intros e He. exists a. now rewrite with_layers_nil. Qed.

Lemma builds_bind {A B} (c : M (env F) A) (k : A -> M (env F) B) l1 l2 :
  builds c l1 -> (forall a, builds (k a) l2) -> builds (bind c k) (l1 ++ l2).
Proof.
  intros Hc Hk e He. destruct (Hc e He) as (a & Ha).
  destruct (Hk a (with_layers e l1) eq_refl) as (b & Hb).
  exists b. unfold bind. rewrite Ha, Hb. now rewrite with_layers_app.
Qed.

Lemma builds_gd_addLayer (t : F) m s :
  builds (gd_addLayer t m s) [mk_layer t m s].
Proof.
  intros e He. exists tt. unfold gd_addLayer, bind, get, put, with_layers.
  rewrite He. reflexivity.
Qed.

Lemma builds_tracker_add m (t : F) : builds (tracker_add m t) [].
Proof.
  intros e He. exists tt. unfold tracker_add. rewrite He.
  now rewrite with_layers_nil.
Qed.

Lemma builds_returned {A} (a : A) :
  builds (e <- get ;; ret (gd e, a) : M (env F) _) [].
Proof.
  intros e He. eexists. unfold bind, get, ret. now rewrite with_layers_nil.
Qed.

Lemma builds_repeatM (n : nat) (body : M (env F) unit) l :
  builds body l -> builds (repeatM n body) (List.concat (repeat l n)).
Proof.
  intros Hb. induction n as [| n IH]; simpl.
  - apply builds_ret.
  - apply builds_bind; [exact Hb | intros _; exact IH].
Qed.

Lemma builds_for_range n (body : M (env F) unit) l :
  builds body l -> builds (for_range n body) (periods n l).
Proof. intros Hb. apply builds_repeatM. exact Hb. Qed.

Lemma builds_add_section absorber active sens n (ta tb : F) :
  builds (add_section absorber active sens n ta tb)
    (section_layers absorber active sens n ta tb).
Proof.
  apply builds_for_range.
  change [mk_layer ta absorber false; mk_layer tb active sens]
    with ([mk_layer ta absorber false] ++ [mk_layer tb active sens] ++ [] ++ []).
  repeat (apply builds_bind; [| intros _]).
  - apply builds_gd_addLayer.
  - apply builds_gd_addLayer.
  - apply builds_tracker_add.
  - apply builds_tracker_add.
Qed.

Lemma builds_hcal absorber active sens
    n1 (a1 b1 : F) n2 a2 b2 n3 a3 b3 {A} (k : M (env F) A) l :
  builds k l ->
  builds (add_section absorber active sens n1 a1 b1 ;;
          add_section absorber active sens n2 a2 b2 ;;
          add_section absorber active sens n3 a3 b3 ;; k)
    (hcal_layers absorber active sens n1 a1 b1 n2 a2 b2 n3 a3 b3 ++ l).
Proof.
  intros Hk. unfold hcal_layers. rewrite <- !app_assoc.
  repeat (apply builds_bind; [apply builds_add_section | intros _]).
  exact Hk.
Qed.

Lemma builds_v1_loops ecal_slices ecal_material
    front_pairs (fe_front sc_front : F) mid_pairs fe_mid sc_mid
    back_pairs fe_back sc_back absorber active sensitive_active_only
    ecal_slice :
  builds
    (v1_loops_then ecal_slices ecal_material
       front_pairs fe_front sc_front mid_pairs fe_mid sc_mid
       back_pairs fe_back sc_back absorber active sensitive_active_only
       ecal_slice (ret tt))
    (periods ecal_slices [mk_layer ecal_slice ecal_material true]
     ++ hcal_layers absorber active sensitive_active_only
          front_pairs fe_front sc_front mid_pairs fe_mid sc_mid
          back_pairs fe_back sc_back).
Proof.
  unfold v1_loops_then. apply builds_bind.
  - apply builds_for_range.
    change [mk_layer ecal_slice ecal_material true]
      with ([mk_layer ecal_slice ecal_material true] ++ []).
    apply builds_bind; [apply builds_gd_addLayer |].
    intros _. apply builds_tracker_add.
  - intros _.
    rewrite <- (app_nil_r (hcal_layers _ _ _ _ _ _ _ _ _ _ _ _)).
    apply builds_hcal. apply builds_ret.
Qed.

End Builds.

(** X11.  The first builder without tracker.  With [ecal_slices = 0] it raises
    [ZeroDivisionError] before any layer is appended: the test is
    [float(ecal_slices) == 0.0], which holds for 0 and for no other int, in
    binary64 as in exact arithmetic.  Otherwise it appends all its layers and
    then looks up the interaction lengths of the ECAL material, the absorber
    and the active material, in this order, dividing by each: it raises
    [KeyError] at the first that [LAMBDA_INT_CM] does not have and
    [ZeroDivisionError] at the first that is zero, and returns when none
    is. *)
Theorem v1_without_a_tracker
    (F : Type) (A : Arith F)
    (total_X0 X0_cm : F) (ecal_slices : Z) (ecal_material : string)
    (front_pairs : Z) (fe_front sc_front : F)
    (mid_pairs : Z) (fe_mid sc_mid : F)
    (back_pairs : Z) (fe_back sc_back : F)
    (absorber active : string) (sensitive_active_only : bool)
    (g : Trackers.Globals F) :
  let r :=
    Design.call
      (Design.build_ecal_pbwo4_26X0_then_graded_fe_scint_hcal_200cm_v1
         total_X0 X0_cm ecal_slices ecal_material
         front_pairs fe_front sc_front mid_pairs fe_mid sc_mid
         back_pairs fe_back sc_back absorber active sensitive_active_only)
      g None in
  let e0 :=
    {| Design.globals := g; Design.cost_tracker := None;
       Design.gd := G4Calo.new |} in
  let built :=
    with_layers e0
      (v1_stack_layers total_X0 X0_cm ecal_slices ecal_material
         front_pairs fe_front sc_front mid_pairs fe_mid sc_mid
         back_pairs fe_back sc_back absorber active sensitive_active_only) in
  (if feqb (of_int ecal_slices) fzero then r = (inl ZeroDivisionError, e0)
   else
     match first_failure g ecal_material absorber active with
     | Some x => r = (inl x, built)
     | None => exists specs, r = (inr (Design.gd built, specs), built)
     end)
  /\ (forall n : Z, feqb (@of_int float binary64 n) fzero = true <-> n = 0%Z)
  /\ (forall n : Z, feqb (@of_int Qc rational n) fzero = true <-> n = 0%Z).
Proof.
  intros r e0 built.
  split; [| split; [exact Z2float_eq0 | exact of_int_eq0]].
  unfold r, Design.call. rewrite v1_unfold. fold e0.
  erewrite bind_ok by reflexivity.
  change {| Design.globals := Design.globals e0;
            Design.cost_tracker := Design.cost_tracker e0;
            Design.gd := G4Calo.new |} with e0.
  destruct (feqb (of_int ecal_slices) fzero) eqn:Es.
  { erewrite bind_inl by (apply fdiv_zero; exact Es). reflexivity. }
  erewrite bind_ok by (apply fdiv_nonzero; exact Es).
  rewrite v1_loops_then_split.
  destruct (builds_v1_loops ecal_slices ecal_material
              front_pairs fe_front sc_front mid_pairs fe_mid sc_mid
              back_pairs fe_back sc_back absorber active sensitive_active_only
              (fquot (fmul total_X0 X0_cm) (of_int ecal_slices)) e0 eq_refl)
    as ([] & Hrun).
  erewrite bind_ok by exact Hrun.
  fold (v1_stack_layers total_X0 X0_cm ecal_slices ecal_material
          front_pairs fe_front sc_front mid_pairs fe_mid sc_mid
          back_pairs fe_back sc_back absorber active sensitive_active_only).
  fold built.
  exact (v1_accounting_outcome total_X0 X0_cm ecal_material
           front_pairs fe_front sc_front mid_pairs fe_mid sc_mid
           back_pairs fe_back sc_back absorber active
           (fquot (fmul total_X0 X0_cm) (of_int ecal_slices)) built).
Qed.

(** ** What a builder reads of the tables *)

Section ReadsLambdaOnly.
Context {F : Type} `{Arith F}.
Import Design.

Lemma rlo_ret {A} (a : A) : reads_lambda_only (ret a : M (env F) A).
Proof. intros e1 e2 He. split; [reflexivity | exact He]. Qed.

Lemma rlo_bind {A B} (c : M (env F) A) (k : A -> M (env F) B) :
  reads_lambda_only c -> (forall a, reads_lambda_only (k a)) ->
  reads_lambda_only (bind c k).
Proof.
  intros Hc Hk e1 e2 He. unfold bind. destruct (Hc e1 e2 He) as [Hf Hs].
  destruct (c e1) as [[x1 | a1] s1], (c e2) as [[x2 | a2] s2];
    simpl in *; try discriminate.
  - split; [congruence | exact Hs].
  - injection Hf as ->. apply Hk. exact Hs.
Qed.

Lemma rlo_gd_new : reads_lambda_only (@gd_new F _).
Proof.
  intros e1 e2 (Hg & H1 & H2 & Hl). split; [reflexivity |].
  repeat split; assumption.
Qed.

Lemma rlo_gd_addLayer (t : F) m s : reads_lambda_only (gd_addLayer t m s).
Proof.
  intros e1 e2 (Hg & H1 & H2 & Hl). split; [reflexivity |].
  repeat split; try assumption. simpl. now rewrite Hg.
Qed.

Lemma rlo_tracker_add m (t : F) : reads_lambda_only (tracker_add m t).
Proof.
  intros e1 e2 (Hg & H1 & H2 & Hl). unfold tracker_add. rewrite H1, H2.
  split; [reflexivity |]. repeat split; assumption.
Qed.

Lemma rlo_lambda_int_cm m : reads_lambda_only (@lambda_int_cm F m).
Proof.
  intros e1 e2 (Hg & H1 & H2 & Hl).
  unfold lambda_int_cm, dict_lookup, bind, get. rewrite Hl.
  destruct (dict_get (Trackers.LAMBDA_INT_CM (globals e2)) m);
    (split; [reflexivity |]); repeat split; assumption.
Qed.

Lemma rlo_fdiv (x y : F) : reads_lambda_only (fdiv x y : M (env F) F).
Proof.
  intros e1 e2 He. unfold fdiv.
  destruct (feqb y fzero); (split; [reflexivity | exact He]).
Qed.

Lemma rlo_returned {A} (a : A) :
  reads_lambda_only (e <- get ;; ret (gd e, a) : M (env F) _).
Proof.
  intros e1 e2 He. unfold bind, get, ret. simpl.
  split; [| exact He]. destruct He as (-> & _). reflexivity.
Qed.

Lemma rlo_repeatM n (body : M (env F) unit) :
  reads_lambda_only body -> reads_lambda_only (repeatM n body).
Proof.
  intros Hb. induction n as [| n IH]; simpl.
  - apply rlo_ret.
  - apply rlo_bind; [exact Hb | intros _; exact IH].
Qed.

Ltac rlo :=
  repeat first
    [ apply rlo_ret
    | apply rlo_returned
    | apply rlo_gd_new
    | apply rlo_gd_addLayer
    | apply rlo_tracker_add
    | apply rlo_lambda_int_cm
    | apply rlo_fdiv
    | apply rlo_repeatM
    | apply rlo_bind; [| intros ?]
    | match goal with
      | |- reads_lambda_only (if ?b then _ else _) => destruct b
      end ].

Lemma rlo_v1 (total_X0 X0_cm : F) ecal_slices ecal_material
    front_pairs fe_front sc_front mid_pairs fe_mid sc_mid
    back_pairs fe_back sc_back absorber active sensitive_active_only :
  reads_lambda_only
    (build_ecal_pbwo4_26X0_then_graded_fe_scint_hcal_200cm_v1
       total_X0 X0_cm ecal_slices ecal_material
       front_pairs fe_front sc_front mid_pairs fe_mid sc_mid
       back_pairs fe_back sc_back absorber active sensitive_active_only).
Proof.
  unfold build_ecal_pbwo4_26X0_then_graded_fe_scint_hcal_200cm_v1,
    add_section, lam_pair, for_range.
  rlo.
Qed.

Lemma rlo_v2 ecal_pairs (pb_per_pair_cm sc_per_pair_cm : F)
    ecal_absorber ecal_active
    front_pairs fe_front sc_front mid_pairs fe_mid sc_mid
    back_pairs fe_back sc_back absorber active sensitive_active_only :
  reads_lambda_only
    (build_pb_scint_ecal_then_graded_fe_scint_hcal_200cm_v2
       ecal_pairs pb_per_pair_cm sc_per_pair_cm ecal_absorber ecal_active
       front_pairs fe_front sc_front mid_pairs fe_mid sc_mid
       back_pairs fe_back sc_back absorber active sensitive_active_only).
Proof.
  unfold build_pb_scint_ecal_then_graded_fe_scint_hcal_200cm_v2,
    add_section, for_range.
  rlo.
Qed.

Lemma rlo_v4_2 ecal_pairs (pb_cm sc_cm pbwo4_cm : F) add_scint_endcap
    ecal_pb ecal_scint ecal_pbwo4
    trans_pairs fe_trans sc_trans mid_pairs fe_mid sc_mid
    back_pairs fe_back sc_back hcal_absorber hcal_active
    sensitive_active_only target_total_len_cm :
  reads_lambda_only
    (build_triple_ecal_then_fe_scint_hcal_2m_v4_2
       ecal_pairs pb_cm sc_cm pbwo4_cm add_scint_endcap
       ecal_pb ecal_scint ecal_pbwo4
       trans_pairs fe_trans sc_trans mid_pairs fe_mid sc_mid
       back_pairs fe_back sc_back hcal_absorber hcal_active
       sensitive_active_only target_total_len_cm).
Proof.
  unfold build_triple_ecal_then_fe_scint_hcal_2m_v4_2, v4_2_stack,
    add_section, for_range.
  rlo.
Qed.

Lemma rlo_call {A} (c : M (env F) A) g g' :
  reads_lambda_only c ->
  Trackers.LAMBDA_INT_CM g' = Trackers.LAMBDA_INT_CM g ->
  fst (call c g' None) = fst (call c g None).
Proof.
  intros Hc Hl. apply Hc. repeat split. exact Hl.
Qed.

Lemma lookups_run_call x0 lam (c : ledger_call) :
  preserves (lookups_are x0 lam) (run_call c).
Proof.
  assert (forall m (t : F) n, preserves (lookups_are x0 lam) (Trackers.add m t n))
    as Hadd.
  { intros m t n [g self] Hs. rewrite add_eq. unfold add_outcome.
    destruct (dict_get _ m); [| exact Hs].
    destruct (dict_get _ m) as [props |]; [| exact Hs].
    destruct (feqb (Trackers.X0_cm props) fzero); [exact Hs |].
    destruct (feqb (Trackers.lambdaI_cm props) fzero); exact Hs. }
  destruct c as [m t n | [[[m1 t1] m2] t2] n | spec n | m p | m x l]; simpl.
  - apply Hadd.
  - apply preserves_bind; [apply Hadd | intros _; apply Hadd].
  - apply preserves_repeatM, preserves_for_each. intros x. apply Hadd.
  - intros [g self] Hs. exact Hs.
  - intros [g self] Hs. exact Hs.
Qed.

Lemma lookups_after_calls (g : Trackers.Globals F) self
    (calls : list ledger_call) :
  let g' := fst (snd (run_calls calls (g, self))) in
  Trackers.X0_CM g' = Trackers.X0_CM g
  /\ Trackers.LAMBDA_INT_CM g' = Trackers.LAMBDA_INT_CM g.
Proof.
  exact (@preserves_for_each _
           (lookups_are (Trackers.X0_CM g) (Trackers.LAMBDA_INT_CM g))
           _ calls run_call
           (@lookups_run_call (Trackers.X0_CM g) (Trackers.LAMBDA_INT_CM g))
           (g, self) (conj eq_refl eq_refl)).
Qed.

End ReadsLambdaOnly.

(** X12.  The builders read the tables as the import left them: no call on a
    tracker ([add], [add_pair], [add_period], [set_price],
    [set_material_props]) changes [X0_CM] or [LAMBDA_INT_CM], and what a
    builder without tracker raises or returns, the lambda_I figures of the
    first builder included, is the same after such calls as before. *)
Theorem overrides_do_not_reach_the_builders
    (F : Type) (A : Arith F) (g : Trackers.Globals F)
    (self : Trackers.CostTracker F) (calls : list (@ledger_call F)) :
  let g' := fst (snd (run_calls calls (g, self))) in
  Trackers.X0_CM g' = Trackers.X0_CM g
  /\ Trackers.LAMBDA_INT_CM g' = Trackers.LAMBDA_INT_CM g
  /\ (forall total_X0 X0_cm ecal_slices ecal_material
        front_pairs fe_front sc_front mid_pairs fe_mid sc_mid
        back_pairs fe_back sc_back absorber active sensitive_active_only,
        let build :=
          Design.build_ecal_pbwo4_26X0_then_graded_fe_scint_hcal_200cm_v1
            total_X0 X0_cm ecal_slices ecal_material
            front_pairs fe_front sc_front mid_pairs fe_mid sc_mid
            back_pairs fe_back sc_back absorber active sensitive_active_only in
        fst (Design.call build g' None) = fst (Design.call build g None))
  /\ (forall ecal_pairs pb_per_pair_cm sc_per_pair_cm
        ecal_absorber ecal_active
        front_pairs fe_front sc_front mid_pairs fe_mid sc_mid
        back_pairs fe_back sc_back absorber active sensitive_active_only,
        let build :=
          Design.build_pb_scint_ecal_then_graded_fe_scint_hcal_200cm_v2
            ecal_pairs pb_per_pair_cm sc_per_pair_cm
            ecal_absorber ecal_active
            front_pairs fe_front sc_front mid_pairs fe_mid sc_mid
            back_pairs fe_back sc_back absorber active sensitive_active_only in
        fst (Design.call build g' None) = fst (Design.call build g None))
  /\ (forall ecal_pairs pb_cm sc_cm pbwo4_cm add_scint_endcap
        ecal_pb ecal_scint ecal_pbwo4
        trans_pairs fe_trans sc_trans mid_pairs fe_mid sc_mid
        back_pairs fe_back sc_back hcal_absorber hcal_active
        sensitive_active_only target_total_len_cm,
        let build :=
          Design.build_triple_ecal_then_fe_scint_hcal_2m_v4_2
            ecal_pairs pb_cm sc_cm pbwo4_cm add_scint_endcap
            ecal_pb ecal_scint ecal_pbwo4
            trans_pairs fe_trans sc_trans mid_pairs fe_mid sc_mid
            back_pairs fe_back sc_back hcal_absorber hcal_active
            sensitive_active_only target_total_len_cm in
        fst (Design.call build g' None) = fst (Design.call build g None)).
Proof.
  intros g'. destruct (lookups_after_calls g self calls) as [Hx Hl].
  fold g' in Hx, Hl.
  split; [exact Hx |]. split; [exact Hl |]. split; [| split]; intros.
  - apply rlo_call; [apply rlo_v1 | exact Hl].
  - apply rlo_call; [apply rlo_v2 | exact Hl].
  - apply rlo_call; [apply rlo_v4_2 | exact Hl].
Qed.

(** ** With a tracker *)

Section Tracks.
Context {F : Type} `{Arith F}.
Import Design.

Lemma all_valid_app (g : Trackers.Globals F) l1 l2 :
  all_valid g (l1 ++ l2) = all_valid g l1 && all_valid g l2.
Proof. apply forallb_app. Qed.

Lemma charged_app (g : Trackers.Globals F) ct l1 l2 :
  charged g ct (l1 ++ l2) = charged g (charged g ct l1) l2.
Proof. apply fold_left_app. Qed.

Lemma add_outcome_returns (g : Trackers.Globals F) ct m (t : F) n st :
  add_outcome g ct m t n = (inr tt, st) ->
  valid_material g m = true /\ fst st = g.
Proof.
  unfold add_outcome, valid_material.
  destruct (dict_get (Trackers.COST_CHF_PER_CM_M2 g) m); [| discriminate].
  destruct (dict_get (Trackers.MATERIAL_PROP g) m) as [props |];
    [| discriminate].
  destruct (feqb (Trackers.X0_cm props) fzero); [discriminate |].
  destruct (feqb (Trackers.lambdaI_cm props) fzero); [discriminate |].
  intros Heq. injection Heq as <-. split; reflexivity.
Qed.

Lemma tracks_ret {A} (a : A) : tracks (ret a : M (env F) A) [].
Proof.
  intros e ct a' e' He Hr. injection Hr as <- <-.
  split; [reflexivity | split; [exact He | reflexivity]].
Qed.

Lemma tracks_bind {A B} (c : M (env F) A) (k : A -> M (env F) B) l1 l2 :
  tracks c l1 -> (forall a, tracks (k a) l2) -> tracks (bind c k) (l1 ++ l2).
Proof.
  intros Hc Hk e ct b e' He Hr.
  apply bind_inr in Hr as (a & e1 & Ha & Hb).
  destruct (Hc e ct a e1 He Ha) as (Hg1 & Hc1 & Hv1).
  destruct (Hk a e1 _ b e' Hc1 Hb) as (Hg2 & Hc2 & Hv2).
  split; [congruence |]. split.
  - rewrite Hc2, Hg1. now rewrite charged_app.
  - rewrite all_valid_app, Hv1. now rewrite <- Hg1.
Qed.

Lemma tracks_bind_value {A B} (c : M (env F) A) (k : A -> M (env F) B)
    l1 l2 (v : A) :
  tracks c l1 ->
  (forall e a e', c e = (inr a, e') -> a = v) ->
  tracks (k v) l2 ->
  tracks (bind c k) (l1 ++ l2).
Proof.
  intros Hc Hv Hk e ct b e' He Hr.
  apply bind_inr in Hr as (a & e1 & Ha & Hb).
  pose proof (Hv _ _ _ Ha) as ->.
  destruct (Hc e ct v e1 He Ha) as (Hg1 & Hc1 & Hv1).
  destruct (Hk e1 _ b e' Hc1 Hb) as (Hg2 & Hc2 & Hv2).
  split; [congruence |]. split.
  - rewrite Hc2, Hg1. now rewrite charged_app.
  - rewrite all_valid_app, Hv1. now rewrite <- Hg1.
Qed.

Lemma tracks_gd_new : tracks (@gd_new F _) [].
Proof.
  intros e ct a e' He Hr. injection Hr as <- <-.
  split; [reflexivity | split; [exact He | reflexivity]].
Qed.

Lemma tracks_gd_addLayer (t : F) m s : tracks (gd_addLayer t m s) [].
Proof.
  intros e ct a e' He Hr. injection Hr as <- <-.
  split; [reflexivity | split; [exact He | reflexivity]].
Qed.

Lemma tracks_tracker_add m (t : F) s :
  tracks (tracker_add m t) [mk_layer t m s].
Proof.
  intros e ct a e' He Hr. unfold tracker_add in Hr. rewrite He in Hr.
  rewrite add_eq in Hr.
  destruct (add_outcome (globals e) ct m t 1) as [[x | []] [g' ct']] eqn:Eo;
    [discriminate |].
  injection Hr as Hr. subst e'. simpl.
  destruct (add_outcome_returns _ _ _ _ _ Eo) as [Hv Hg]. simpl in Hg.
  subst g'. split; [reflexivity |]. split.
  - unfold charged, charge, add_result. simpl. now rewrite Eo.
  - unfold all_valid. simpl. now rewrite Hv.
Qed.

Lemma tracks_fdiv (x y : F) : tracks (fdiv x y : M (env F) F) [].
Proof.
  intros e ct a e' He Hr. apply fdiv_env in Hr as ->.
  split; [reflexivity | split; [exact He | reflexivity]].
Qed.

Lemma tracks_lambda_int_cm m : tracks (@lambda_int_cm F m) [].
Proof.
  intros e ct a e' He Hr. apply lambda_int_cm_env in Hr as ->.
  split; [reflexivity | split; [exact He | reflexivity]].
Qed.

Lemma tracks_get : tracks (@get (env F)) [].
Proof.
  intros e ct a e' He Hr. injection Hr as _ <-.
  split; [reflexivity | split; [exact He | reflexivity]].
Qed.

Lemma tracks_repeatM (n : nat) (body : M (env F) unit) l :
  tracks body l -> tracks (repeatM n body) (List.concat (repeat l n)).
Proof.
  intros Hb. induction n as [| n IH]; simpl.
  - apply tracks_ret.
  - apply tracks_bind; [exact Hb | intros _; exact IH].
Qed.

Lemma tracks_for_range n (body : M (env F) unit) l :
  tracks body l -> tracks (for_range n body) (periods n l).
Proof. intros Hb. apply tracks_repeatM. exact Hb. Qed.

Lemma tracks_add_section absorber active sens n (ta tb : F) :
  tracks (add_section absorber active sens n ta tb)
    (section_layers absorber active sens n ta tb).
Proof.
  apply tracks_for_range.
  change [mk_layer ta absorber false; mk_layer tb active sens]
    with ([] ++ [] ++ [mk_layer ta absorber false] ++ [mk_layer tb active sens]).
  repeat (apply tracks_bind; [| intros _]).
  - apply tracks_gd_addLayer.
  - apply tracks_gd_addLayer.
  - apply tracks_tracker_add.
  - apply tracks_tracker_add.
Qed.

Lemma tracks_hcal absorber active sens
    n1 (a1 b1 : F) n2 a2 b2 n3 a3 b3 {A} (k : M (env F) A) l :
  tracks k l ->
  tracks (add_section absorber active sens n1 a1 b1 ;;
          add_section absorber active sens n2 a2 b2 ;;
          add_section absorber active sens n3 a3 b3 ;; k)
    (hcal_layers absorber active sens n1 a1 b1 n2 a2 b2 n3 a3 b3 ++ l).
Proof.
  intros Hk. unfold hcal_layers. rewrite <- !app_assoc.
  repeat (apply tracks_bind; [apply tracks_add_section | intros _]).
  exact Hk.
Qed.

Ltac tracks_nil :=
  repeat first
    [ apply tracks_ret
    | apply tracks_get
    | apply tracks_fdiv
    | apply tracks_lambda_int_cm
    | match goal with
      | |- tracks (bind _ _) [] =>
          change (@nil (G4Calo.Layer F)) with (@nil (G4Calo.Layer F) ++ []);
          apply tracks_bind; [| intros ?]
      end ].

Lemma tracks_v2 ecal_pairs (pb_per_pair_cm sc_per_pair_cm : F)
    ecal_absorber ecal_active
    front_pairs fe_front sc_front mid_pairs fe_mid sc_mid
    back_pairs fe_back sc_back absorber active sensitive_active_only :
  tracks
    (build_pb_scint_ecal_then_graded_fe_scint_hcal_200cm_v2
       ecal_pairs pb_per_pair_cm sc_per_pair_cm ecal_absorber ecal_active
       front_pairs fe_front sc_front mid_pairs fe_mid sc_mid
       back_pairs fe_back sc_back absorber active sensitive_active_only)
    (v2_stack_layers ecal_pairs pb_per_pair_cm sc_per_pair_cm
       ecal_absorber ecal_active
       front_pairs fe_front sc_front mid_pairs fe_mid sc_mid
       back_pairs fe_back sc_back absorber active sensitive_active_only).
Proof.
  unfold build_pb_scint_ecal_then_graded_fe_scint_hcal_200cm_v2,
    v2_stack_layers.
  change (section_layers ?a ?b ?c ?d ?e ?f ++ ?l)
    with ([] ++ section_layers a b c d e f ++ l).
  apply tracks_bind; [apply tracks_gd_new | intros _].
  apply tracks_bind; [apply (tracks_add_section _ _ true) | intros _].
  rewrite <- (app_nil_r (hcal_layers _ _ _ _ _ _ _ _ _ _ _ _)).
  apply tracks_hcal. tracks_nil.
Qed.

Lemma tracks_v1 (total_X0 X0_cm : F) ecal_slices ecal_material
    front_pairs fe_front sc_front mid_pairs fe_mid sc_mid
    back_pairs fe_back sc_back absorber active sensitive_active_only :
  tracks
    (build_ecal_pbwo4_26X0_then_graded_fe_scint_hcal_200cm_v1
       total_X0 X0_cm ecal_slices ecal_material
       front_pairs fe_front sc_front mid_pairs fe_mid sc_mid
       back_pairs fe_back sc_back absorber active sensitive_active_only)
    (v1_stack_layers total_X0 X0_cm ecal_slices ecal_material
       front_pairs fe_front sc_front mid_pairs fe_mid sc_mid
       back_pairs fe_back sc_back absorber active sensitive_active_only).
Proof.
  unfold build_ecal_pbwo4_26X0_then_graded_fe_scint_hcal_200cm_v1,
    v1_stack_layers.
  change (periods ?n ?p ++ ?l) with ([] ++ [] ++ periods n p ++ l).
  apply tracks_bind; [apply tracks_gd_new | intros _].
  apply tracks_bind_value
    with (v := fquot (fmul total_X0 X0_cm) (of_int ecal_slices));
    [apply tracks_fdiv | intros e a e' Hr; apply (fdiv_value _ _ _ Hr) |].
  apply tracks_bind.
  - apply tracks_for_range.
    change [mk_layer ?t ?m ?s] with ([] ++ [mk_layer t m s]).
    apply tracks_bind; [apply tracks_gd_addLayer | intros _].
    apply tracks_tracker_add.
  - intros _.
    rewrite <- (app_nil_r (hcal_layers _ _ _ _ _ _ _ _ _ _ _ _)).
    apply tracks_hcal. unfold lam_pair. tracks_nil.
Qed.

Lemma tracks_v4_2_stack ecal_pairs (pb_cm sc_cm pbwo4_cm : F) add_scint_endcap
    ecal_pb ecal_scint ecal_pbwo4
    trans_pairs fe_trans sc_trans mid_pairs fe_mid sc_mid
    back_pairs fe_back sc_back hcal_absorber hcal_active
    sensitive_active_only :
  tracks
    (v4_2_stack ecal_pairs pb_cm sc_cm pbwo4_cm add_scint_endcap
       ecal_pb ecal_scint ecal_pbwo4
       trans_pairs fe_trans sc_trans mid_pairs fe_mid sc_mid
       back_pairs fe_back sc_back hcal_absorber hcal_active
       sensitive_active_only)
    (v4_2_stack_layers ecal_pairs pb_cm sc_cm pbwo4_cm add_scint_endcap
       ecal_pb ecal_scint ecal_pbwo4
       trans_pairs fe_trans sc_trans mid_pairs fe_mid sc_mid
       back_pairs fe_back sc_back hcal_absorber hcal_active
       sensitive_active_only).
Proof.
  unfold v4_2_stack, v4_2_stack_layers.
  change (periods ?n ?p ++ ?l) with ([] ++ periods n p ++ l).
  apply tracks_bind; [apply tracks_gd_new | intros _].
  apply tracks_bind.
  - apply tracks_for_range.
    change [mk_layer ?t1 ?m1 ?s1; mk_layer ?t2 ?m2 ?s2; mk_layer ?t3 ?m3 ?s3]
      with ([] ++ [] ++ [] ++ [mk_layer t1 m1 s1] ++ [mk_layer t2 m2 s2]
            ++ [mk_layer t3 m3 s3]).
    repeat (apply tracks_bind; [| intros _]);
      first [apply tracks_gd_addLayer | apply tracks_tracker_add].
  - intros _. apply tracks_bind.
    + destruct add_scint_endcap.
      * change [mk_layer ?t ?m ?s] with ([] ++ [mk_layer t m s] ++ []).
        apply tracks_bind; [apply tracks_gd_addLayer | intros _].
        apply tracks_bind; [apply tracks_tracker_add | intros _].
        apply tracks_ret.
      * apply tracks_ret.
    + intros ecal_len.
      rewrite <- (app_nil_r (hcal_layers _ _ _ _ _ _ _ _ _ _ _ _)).
      apply tracks_hcal. apply tracks_ret.
Qed.

Lemma tracks_v4_2 ecal_pairs (pb_cm sc_cm pbwo4_cm : F) add_scint_endcap
    ecal_pb ecal_scint ecal_pbwo4
    trans_pairs fe_trans sc_trans mid_pairs fe_mid sc_mid
    back_pairs fe_back sc_back hcal_absorber hcal_active
    sensitive_active_only target_total_len_cm :
  tracks
    (build_triple_ecal_then_fe_scint_hcal_2m_v4_2
       ecal_pairs pb_cm sc_cm pbwo4_cm add_scint_endcap
       ecal_pb ecal_scint ecal_pbwo4
       trans_pairs fe_trans sc_trans mid_pairs fe_mid sc_mid
       back_pairs fe_back sc_back hcal_absorber hcal_active
       sensitive_active_only target_total_len_cm)
    (v4_2_layers_of ecal_pairs pb_cm sc_cm pbwo4_cm add_scint_endcap
       ecal_pb ecal_scint ecal_pbwo4
       trans_pairs fe_trans sc_trans mid_pairs fe_mid sc_mid
       back_pairs fe_back sc_back hcal_absorber hcal_active
       sensitive_active_only target_total_len_cm).
Proof.
  unfold build_triple_ecal_then_fe_scint_hcal_2m_v4_2, v4_2_layers_of.
  eapply tracks_bind_value;
    [apply tracks_v4_2_stack
    | intros e a e' Hr; apply v4_2_stack_ok in Hr as [Hv _]; exact Hv |].
  cbv zeta.
  set (leftover := fsub target_total_len_cm _).
  rewrite <- (app_nil_r (if fltb ftol leftover then _ else _)).
  apply tracks_bind; [| intros total_len; tracks_nil].
  destruct (fltb ftol leftover).
  - change [mk_layer ?t ?m ?s] with ([] ++ [mk_layer t m s] ++ []).
    apply tracks_bind; [apply tracks_gd_addLayer | intros _].
    apply tracks_bind; [apply tracks_tracker_add | intros _].
    apply tracks_ret.
  - apply tracks_ret.
Qed.

Lemma tracks_call {A} (c : M (env F) A) ls g ct a e' :
  call c g (Some ct) = (inr a, e') ->
  tracks c ls ->
  globals e' = g
  /\ cost_tracker e' = Some (charged g ct ls)
  /\ all_valid g ls = true.
Proof.
  intros Hr Hc.
  exact (Hc {| globals := g; cost_tracker := Some ct; gd := G4Calo.new |}
            ct a e' eq_refl Hr).
Qed.

End Tracks.

Section Runs.
Context {F : Type} `{Arith F}.
Import Design.

Lemma with_tracked_nil (e : env F) ct :
  cost_tracker e = Some ct -> with_tracked e ct [] [] = e.
Proof.
  intros He. destruct e as [g c [a ls]]. simpl in He. subst c.
  unfold with_tracked. simpl. now rewrite app_nil_r.
Qed.

Lemma with_tracked_app (e : env F) ct la1 lc1 la2 lc2 :
  with_tracked (with_tracked e ct la1 lc1) (charged (globals e) ct lc1) la2 lc2
  = with_tracked e ct (la1 ++ la2) (lc1 ++ lc2).
Proof.
  unfold with_tracked. simpl. now rewrite app_assoc, charged_app.
Qed.

Lemma runs_ret {A} (a : A) : runs (ret a : M (env F) A) [] [].
Proof. intros e ct He _. exists a. now rewrite with_tracked_nil. Qed.

Lemma runs_bind {A B} (c : M (env F) A) (k : A -> M (env F) B)
    la1 lc1 la2 lc2 :
  runs c la1 lc1 -> (forall a, runs (k a) la2 lc2) ->
  runs (bind c k) (la1 ++ la2) (lc1 ++ lc2).
Proof.
  intros Hc Hk e ct He Hv. rewrite all_valid_app in Hv.
  apply andb_prop in Hv as [Hv1 Hv2].
  destruct (Hc e ct He Hv1) as (a & Ha).
  destruct (Hk a (with_tracked e ct la1 lc1) _ eq_refl Hv2) as (b & Hb).
  exists b. unfold bind. rewrite Ha, Hb. now rewrite with_tracked_app.
Qed.

Lemma runs_bind_value {A B} (c : M (env F) A) (k : A -> M (env F) B)
    la1 lc1 la2 lc2 (v : A) :
  runs c la1 lc1 ->
  (forall e a e', c e = (inr a, e') -> a = v) ->
  runs (k v) la2 lc2 ->
  runs (bind c k) (la1 ++ la2) (lc1 ++ lc2).
Proof.
  intros Hc Hval Hk e ct He Hv. rewrite all_valid_app in Hv.
  apply andb_prop in Hv as [Hv1 Hv2].
  destruct (Hc e ct He Hv1) as (a & Ha).
  pose proof (Hval _ _ _ Ha) as ->.
  destruct (Hk (with_tracked e ct la1 lc1) _ eq_refl Hv2) as (b & Hb).
  exists b. unfold bind. rewrite Ha, Hb. now rewrite with_tracked_app.
Qed.

Lemma runs_gd_addLayer (t : F) m s :
  runs (gd_addLayer t m s) [mk_layer t m s] [].
Proof.
  intros e ct He _. exists tt.
  unfold gd_addLayer, bind, get, put, with_tracked. rewrite He. reflexivity.
Qed.

Lemma runs_tracker_add m (t : F) s :
  runs (tracker_add m t) [] [mk_layer t m s].
Proof.
  intros e ct He Hv. exists tt. unfold tracker_add. rewrite He.
  unfold all_valid in Hv. simpl in Hv. rewrite andb_true_r in Hv.
  rewrite add_valid by exact Hv.
  destruct e as [g c [a ls]]. unfold with_tracked, charged, charge. simpl.
  now rewrite app_nil_r.
Qed.

Lemma runs_returned {A} (a : A) :
  runs (e <- get ;; ret (gd e, a) : M (env F) _) [] [].
Proof.
  intros e ct He _. eexists. unfold bind, get, ret.
  now rewrite with_tracked_nil.
Qed.

Lemma runs_repeatM (n : nat) (body : M (env F) unit) la lc :
  runs body la lc ->
  runs (repeatM n body) (List.concat (repeat la n)) (List.concat (repeat lc n)).
Proof.
  intros Hb. induction n as [| n IH]; simpl.
  - apply runs_ret.
  - apply runs_bind; [exact Hb | intros _; exact IH].
Qed.

Lemma runs_for_range n (body : M (env F) unit) la lc :
  runs body la lc -> runs (for_range n body) (periods n la) (periods n lc).
Proof. intros Hb. apply runs_repeatM. exact Hb. Qed.

Lemma runs_add_section absorber active sens n (ta tb : F) :
  runs (add_section absorber active sens n ta tb)
    (section_layers absorber active sens n ta tb)
    (section_layers absorber active sens n ta tb).
Proof.
  apply runs_for_range.
  change (runs
            (gd_addLayer ta absorber false ;;
             gd_addLayer tb active sens ;;
             tracker_add absorber ta ;; tracker_add active tb)
            ([mk_layer ta absorber false] ++ [mk_layer tb active sens]
             ++ [] ++ [])
            ([] ++ [] ++ [mk_layer ta absorber false]
             ++ [mk_layer tb active sens])).
  repeat (apply runs_bind; [| intros _]).
  - apply runs_gd_addLayer.
  - apply runs_gd_addLayer.
  - apply runs_tracker_add.
  - apply runs_tracker_add.
Qed.

Lemma runs_hcal absorber active sens
    n1 (a1 b1 : F) n2 a2 b2 n3 a3 b3 {A} (k : M (env F) A) la lc :
  runs k la lc ->
  runs (add_section absorber active sens n1 a1 b1 ;;
        add_section absorber active sens n2 a2 b2 ;;
        add_section absorber active sens n3 a3 b3 ;; k)
    (hcal_layers absorber active sens n1 a1 b1 n2 a2 b2 n3 a3 b3 ++ la)
    (hcal_layers absorber active sens n1 a1 b1 n2 a2 b2 n3 a3 b3 ++ lc).
Proof.
  intros Hk. unfold hcal_layers. rewrite <- !app_assoc.
  repeat (apply runs_bind; [apply runs_add_section | intros _]).
  exact Hk.
Qed.

Lemma runs_call {A} (c : M (env F) A) la lc g ct :
  runs c la lc -> all_valid g lc = true ->
  exists a,
    call (gd_new ;; c) g (Some ct)
    = (inr a,
       with_tracked
         {| globals := g; cost_tracker := Some ct; gd := G4Calo.new |}
         ct la lc).
Proof.
  intros Hc Hv. unfold call. erewrite bind_ok by reflexivity.
  apply (Hc {| globals := g; cost_tracker := Some ct; gd := G4Calo.new |} ct);
    [reflexivity | exact Hv].
Qed.

Lemma runs_v2 ecal_pairs (pb_per_pair_cm sc_per_pair_cm : F)
    ecal_absorber ecal_active
    front_pairs fe_front sc_front mid_pairs fe_mid sc_mid
    back_pairs fe_back sc_back absorber active sensitive_active_only g ct :
  let ls :=
    v2_stack_layers ecal_pairs pb_per_pair_cm sc_per_pair_cm
      ecal_absorber ecal_active
      front_pairs fe_front sc_front mid_pairs fe_mid sc_mid
      back_pairs fe_back sc_back absorber active sensitive_active_only in
  all_valid g ls = true ->
  exists r,
    call (build_pb_scint_ecal_then_graded_fe_scint_hcal_200cm_v2
            ecal_pairs pb_per_pair_cm sc_per_pair_cm
            ecal_absorber ecal_active
            front_pairs fe_front sc_front mid_pairs fe_mid sc_mid
            back_pairs fe_back sc_back absorber active
            sensitive_active_only) g (Some ct)
    = (inr r,
       with_tracked
         {| globals := g; cost_tracker := Some ct; gd := G4Calo.new |}
         ct ls ls).
Proof.
  intros ls Hv.
  unfold build_pb_scint_ecal_then_graded_fe_scint_hcal_200cm_v2.
  apply runs_call; [| exact Hv].
  apply runs_bind; [apply (runs_add_section _ _ true) | intros _].
  rewrite <- (app_nil_r (hcal_layers _ _ _ _ _ _ _ _ _ _ _ _)).
  apply runs_hcal. apply runs_returned.
Qed.

Lemma runs_v4_2_stack ecal_pairs (pb_cm sc_cm pbwo4_cm : F) add_scint_endcap
    ecal_pb ecal_scint ecal_pbwo4
    trans_pairs fe_trans sc_trans mid_pairs fe_mid sc_mid
    back_pairs fe_back sc_back hcal_absorber hcal_active
    sensitive_active_only g ct :
  let ls :=
    v4_2_stack_layers ecal_pairs pb_cm sc_cm pbwo4_cm add_scint_endcap
      ecal_pb ecal_scint ecal_pbwo4
      trans_pairs fe_trans sc_trans mid_pairs fe_mid sc_mid
      back_pairs fe_back sc_back hcal_absorber hcal_active
      sensitive_active_only in
  all_valid g ls = true ->
  exists r,
    call (v4_2_stack ecal_pairs pb_cm sc_cm pbwo4_cm add_scint_endcap
            ecal_pb ecal_scint ecal_pbwo4
            trans_pairs fe_trans sc_trans mid_pairs fe_mid sc_mid
            back_pairs fe_back sc_back hcal_absorber hcal_active
            sensitive_active_only) g (Some ct)
    = (inr r,
       with_tracked
         {| globals := g; cost_tracker := Some ct; gd := G4Calo.new |}
         ct ls ls).
Proof.
  intros ls Hv. unfold v4_2_stack.
  apply runs_call; [| exact Hv]. unfold ls, v4_2_stack_layers.
  apply runs_bind.
  - apply runs_for_range.
    change (runs ?c [?a; ?b; ?d] [?a; ?b; ?d])
      with (runs c ([a] ++ [b] ++ [d] ++ [] ++ [] ++ [])
                   ([] ++ [] ++ [] ++ [a] ++ [b] ++ [d])).
    repeat (apply runs_bind; [| intros _]);
      first [apply runs_gd_addLayer | apply runs_tracker_add].
  - intros _. apply runs_bind.
    + destruct add_scint_endcap.
      * change (runs ?c [?a] [?a]) with (runs c ([a] ++ [] ++ []) ([] ++ [a] ++ [])).
        apply runs_bind; [apply runs_gd_addLayer | intros _].
        apply runs_bind; [apply runs_tracker_add | intros _].
        apply runs_ret.
      * apply runs_ret.
    + intros ecal_len.
      rewrite <- (app_nil_r (hcal_layers _ _ _ _ _ _ _ _ _ _ _ _)).
      apply runs_hcal. apply runs_ret.
Qed.

Lemma runs_shim {A} (leftover : F) hcal_absorber (t0 : F)
    (k : F -> M (env F) A) :
  (forall x, runs (k x) [] []) ->
  runs (total_len <-
          (if fltb ftol leftover then
             gd_addLayer leftover hcal_absorber false ;;
             tracker_add hcal_absorber leftover ;;
             ret (fadd t0 leftover)
           else ret t0) ;;
        k total_len)
    (if fltb ftol leftover then [mk_layer leftover hcal_absorber false] else [])
    (if fltb ftol leftover then [mk_layer leftover hcal_absorber false] else []).
Proof.
  intros Hk.
  rewrite <- (app_nil_r (if fltb ftol leftover then _ else _)).
  apply runs_bind; [| exact Hk].
  destruct (fltb ftol leftover).
  - change (runs ?c [?a] [?a])
      with (runs c ([a] ++ [] ++ []) ([] ++ [a] ++ [])).
    apply runs_bind; [apply runs_gd_addLayer | intros _].
    apply runs_bind; [apply runs_tracker_add | intros _].
    apply runs_ret.
  - apply runs_ret.
Qed.

Lemma runs_v4_2 ecal_pairs (pb_cm sc_cm pbwo4_cm : F) add_scint_endcap
    ecal_pb ecal_scint ecal_pbwo4
    trans_pairs fe_trans sc_trans mid_pairs fe_mid sc_mid
    back_pairs fe_back sc_back hcal_absorber hcal_active
    sensitive_active_only target_total_len_cm g ct :
  let ls :=
    v4_2_layers_of ecal_pairs pb_cm sc_cm pbwo4_cm add_scint_endcap
      ecal_pb ecal_scint ecal_pbwo4
      trans_pairs fe_trans sc_trans mid_pairs fe_mid sc_mid
      back_pairs fe_back sc_back hcal_absorber hcal_active
      sensitive_active_only target_total_len_cm in
  all_valid g ls = true ->
  exists r,
    call (build_triple_ecal_then_fe_scint_hcal_2m_v4_2
            ecal_pairs pb_cm sc_cm pbwo4_cm add_scint_endcap
            ecal_pb ecal_scint ecal_pbwo4
            trans_pairs fe_trans sc_trans mid_pairs fe_mid sc_mid
            back_pairs fe_back sc_back hcal_absorber hcal_active
            sensitive_active_only target_total_len_cm) g (Some ct)
    = (inr r,
       with_tracked
         {| globals := g; cost_tracker := Some ct; gd := G4Calo.new |}
         ct ls ls).
Proof.
  intros ls Hv. unfold ls, v4_2_layers_of in *. cbv zeta in *.
  set (leftover := fsub target_total_len_cm _) in *.
  rewrite all_valid_app in Hv. apply andb_prop in Hv as [Hv1 Hv2].
  destruct (runs_v4_2_stack ecal_pairs pb_cm sc_cm pbwo4_cm add_scint_endcap
              ecal_pb ecal_scint ecal_pbwo4
              trans_pairs fe_trans sc_trans mid_pairs fe_mid sc_mid
              back_pairs fe_back sc_back hcal_absorber hcal_active
              sensitive_active_only g ct Hv1) as (built & Hs).
  pose proof Hs as Hb. apply v4_2_stack_ok in Hb as [Hb _].
  unfold call in *.
  unfold build_triple_ecal_then_fe_scint_hcal_2m_v4_2.
  erewrite bind_ok by exact Hs. rewrite Hb. cbv zeta. fold leftover.
  rewrite <- with_tracked_app.
  eapply (runs_shim leftover hcal_absorber); [| reflexivity | exact Hv2].
  intros x. apply runs_returned.
Qed.

End Runs.

Section RunsV1.
Context {F : Type} `{Arith F}.
Import Design.

Lemma runs_v1_loops ecal_slices ecal_material
    front_pairs (fe_front sc_front : F) mid_pairs fe_mid sc_mid
    back_pairs fe_back sc_back absorber active sensitive_active_only
    ecal_slice :
  let ls :=
    periods ecal_slices [mk_layer ecal_slice ecal_material true]
    ++ hcal_layers absorber active sensitive_active_only
         front_pairs fe_front sc_front mid_pairs fe_mid sc_mid
         back_pairs fe_back sc_back in
  runs
    (v1_loops_then ecal_slices ecal_material
       front_pairs fe_front sc_front mid_pairs fe_mid sc_mid
       back_pairs fe_back sc_back absorber active sensitive_active_only
       ecal_slice (ret tt))
    ls ls.
Proof.
  intros ls. unfold ls, v1_loops_then. apply runs_bind.
  - apply runs_for_range.
    change (runs ?c [?a] [?a]) with (runs c ([a] ++ []) ([] ++ [a])).
    apply runs_bind; [apply runs_gd_addLayer | intros _].
    apply runs_tracker_add.
  - intros _.
    rewrite <- (app_nil_r (hcal_layers _ _ _ _ _ _ _ _ _ _ _ _)).
    apply runs_hcal. apply runs_ret.
Qed.

Lemma run_v1 (total_X0 X0_cm : F) ecal_slices ecal_material
    front_pairs fe_front sc_front mid_pairs fe_mid sc_mid
    back_pairs fe_back sc_back absorber active sensitive_active_only g ct :
  let ls :=
    v1_stack_layers total_X0 X0_cm ecal_slices ecal_material
      front_pairs fe_front sc_front mid_pairs fe_mid sc_mid
      back_pairs fe_back sc_back absorber active sensitive_active_only in
  let r :=
    call (build_ecal_pbwo4_26X0_then_graded_fe_scint_hcal_200cm_v1
            total_X0 X0_cm ecal_slices ecal_material
            front_pairs fe_front sc_front mid_pairs fe_mid sc_mid
            back_pairs fe_back sc_back absorber active sensitive_active_only)
         g (Some ct) in
  let built :=
    with_tracked {| globals := g; cost_tracker := Some ct; gd := G4Calo.new |}
      ct ls ls in
  feqb (of_int ecal_slices) fzero = false ->
  all_valid g ls = true ->
  match first_failure g ecal_material absorber active with
  | Some x => r = (inl x, built)
  | None => exists specs, r = (inr (gd built, specs), built)
  end.
Proof.
  intros ls r built Es Hv. unfold r, call. rewrite v1_unfold.
  erewrite bind_ok by reflexivity.
  erewrite bind_ok by (apply fdiv_nonzero; exact Es).
  rewrite v1_loops_then_split.
  pose proof (runs_v1_loops ecal_slices ecal_material
                front_pairs fe_front sc_front mid_pairs fe_mid sc_mid
                back_pairs fe_back sc_back absorber active
                sensitive_active_only
                (fquot (fmul total_X0 X0_cm) (of_int ecal_slices))) as Hl.
  cbv zeta in Hl.
  destruct (Hl {| globals := g; cost_tracker := Some ct; gd := G4Calo.new |}
              ct eq_refl Hv) as ([] & Hrun).
  erewrite bind_ok by exact Hrun.
  exact (v1_accounting_outcome total_X0 X0_cm ecal_material
           front_pairs fe_front sc_front mid_pairs fe_mid sc_mid
           back_pairs fe_back sc_back absorber active
           (fquot (fmul total_X0 X0_cm) (of_int ecal_slices)) built).
Qed.

End RunsV1.

Section ReturnsItsGd.
Context {F : Type} `{Arith F}.
Import Design.

Lemma rig_bind {A B} (c : M (env F) A)
    (k : A -> M (env F) (G4Calo.GeometryDescriptor F * B)) :
  (forall a, returns_its_gd (k a)) -> returns_its_gd (bind c k).
Proof.
  intros Hk e gd b e' Hr. apply bind_inr in Hr as (a & e1 & _ & Hr).
  exact (Hk a e1 gd b e' Hr).
Qed.

Lemma rig_returned {A} (a : A) :
  returns_its_gd (e <- get ;; ret (gd e, a) : M (env F) _).
Proof. intros e gd b e' Hr. now injection Hr as <- _ <-. Qed.

Ltac rig := repeat first [apply rig_returned | apply rig_bind; intros ?].

Lemma rig_v1 (total_X0 X0_cm : F) ecal_slices ecal_material
    front_pairs fe_front sc_front mid_pairs fe_mid sc_mid
    back_pairs fe_back sc_back absorber active sensitive_active_only :
  returns_its_gd
    (build_ecal_pbwo4_26X0_then_graded_fe_scint_hcal_200cm_v1
       total_X0 X0_cm ecal_slices ecal_material
       front_pairs fe_front sc_front mid_pairs fe_mid sc_mid
       back_pairs fe_back sc_back absorber active sensitive_active_only).
Proof.
  unfold build_ecal_pbwo4_26X0_then_graded_fe_scint_hcal_200cm_v1. rig.
Qed.

Lemma rig_v2 ecal_pairs (pb_per_pair_cm sc_per_pair_cm : F)
    ecal_absorber ecal_active
    front_pairs fe_front sc_front mid_pairs fe_mid sc_mid
    back_pairs fe_back sc_back absorber active sensitive_active_only :
  returns_its_gd
    (build_pb_scint_ecal_then_graded_fe_scint_hcal_200cm_v2
       ecal_pairs pb_per_pair_cm sc_per_pair_cm ecal_absorber ecal_active
       front_pairs fe_front sc_front mid_pairs fe_mid sc_mid
       back_pairs fe_back sc_back absorber active sensitive_active_only).
Proof.
  unfold build_pb_scint_ecal_then_graded_fe_scint_hcal_200cm_v2. rig.
Qed.

Lemma rig_v4_2 ecal_pairs (pb_cm sc_cm pbwo4_cm : F) add_scint_endcap
    ecal_pb ecal_scint ecal_pbwo4
    trans_pairs fe_trans sc_trans mid_pairs fe_mid sc_mid
    back_pairs fe_back sc_back hcal_absorber hcal_active
    sensitive_active_only target_total_len_cm :
  returns_its_gd
    (build_triple_ecal_then_fe_scint_hcal_2m_v4_2
       ecal_pairs pb_cm sc_cm pbwo4_cm add_scint_endcap
       ecal_pb ecal_scint ecal_pbwo4
       trans_pairs fe_trans sc_trans mid_pairs fe_mid sc_mid
       back_pairs fe_back sc_back hcal_absorber hcal_active
       sensitive_active_only target_total_len_cm).
Proof.
  unfold build_triple_ecal_then_fe_scint_hcal_2m_v4_2. rig.
Qed.

Lemma rig_call {A} (c : M (env F) (G4Calo.GeometryDescriptor F * A))
    g ct out e' :
  call c g ct = (inr out, e') ->
  returns_its_gd c ->
  exists a, out = (gd e', a).
Proof.
  intros Hr Hc. destruct out as [gd0 a]. exists a.
  now rewrite (Hc _ _ _ _ Hr).
Qed.

End ReturnsItsGd.

(** X13.  A builder that is given a tracker returns exactly when [add]
    accepts the material of every layer it appends (and, for the first
    builder, [ecal_slices] is not 0 and the three lookups of
    [LAMBDA_INT_CM] succeed); it then has added each layer of the returned
    geometry to the tracker once, in the order of the layers, and changed no
    table.  The first builder adds all its layers to the caller's tracker
    before it raises for a missing or zero interaction length. *)
Theorem a_build_with_a_tracker (F : Type) (A : Arith F) :
  (forall total_X0 X0_cm ecal_slices ecal_material
      front_pairs fe_front sc_front mid_pairs fe_mid sc_mid
      back_pairs fe_back sc_back absorber active sensitive_active_only
      (g : Trackers.Globals F) ct,
      let ls :=
        v1_stack_layers total_X0 X0_cm ecal_slices ecal_material
          front_pairs fe_front sc_front mid_pairs fe_mid sc_mid
          back_pairs fe_back sc_back absorber active sensitive_active_only in
      let r :=
        Design.call
          (Design.build_ecal_pbwo4_26X0_then_graded_fe_scint_hcal_200cm_v1
             total_X0 X0_cm ecal_slices ecal_material
             front_pairs fe_front sc_front mid_pairs fe_mid sc_mid
             back_pairs fe_back sc_back absorber active sensitive_active_only)
          g (Some ct) in
      let e0 :=
        {| Design.globals := g; Design.cost_tracker := Some ct;
           Design.gd := G4Calo.new |} in
      let built := with_tracked e0 ct ls ls in
      if feqb (of_int ecal_slices) fzero then r = (inl ZeroDivisionError, e0)
      else if all_valid g ls then
        match first_failure g ecal_material absorber active with
        | Some x => r = (inl x, built)
        | None => exists specs, r = (inr (Design.gd built, specs), built)
        end
      else exists x e', r = (inl x, e'))
  /\ (forall ecal_pairs pb_per_pair_cm sc_per_pair_cm
        ecal_absorber ecal_active
        front_pairs fe_front sc_front mid_pairs fe_mid sc_mid
        back_pairs fe_back sc_back absorber active sensitive_active_only
        (g : Trackers.Globals F) ct,
        let ls :=
          v2_stack_layers ecal_pairs pb_per_pair_cm sc_per_pair_cm
            ecal_absorber ecal_active
            front_pairs fe_front sc_front mid_pairs fe_mid sc_mid
            back_pairs fe_back sc_back absorber active sensitive_active_only in
        let r :=
          Design.call
            (Design.build_pb_scint_ecal_then_graded_fe_scint_hcal_200cm_v2
               ecal_pairs pb_per_pair_cm sc_per_pair_cm
               ecal_absorber ecal_active
               front_pairs fe_front sc_front mid_pairs fe_mid sc_mid
               back_pairs fe_back sc_back absorber active
               sensitive_active_only)
            g (Some ct) in
        let built :=
          with_tracked
            {| Design.globals := g; Design.cost_tracker := Some ct;
               Design.gd := G4Calo.new |} ct ls ls in
        if all_valid g ls then
          exists specs, r = (inr (Design.gd built, specs), built)
        else exists x e', r = (inl x, e'))
  /\ (forall ecal_pairs pb_cm sc_cm pbwo4_cm add_scint_endcap
        ecal_pb ecal_scint ecal_pbwo4
        trans_pairs fe_trans sc_trans mid_pairs fe_mid sc_mid
        back_pairs fe_back sc_back hcal_absorber hcal_active
        sensitive_active_only target_total_len_cm
        (g : Trackers.Globals F) ct,
        let ls :=
          v4_2_layers_of ecal_pairs pb_cm sc_cm pbwo4_cm add_scint_endcap
            ecal_pb ecal_scint ecal_pbwo4
            trans_pairs fe_trans sc_trans mid_pairs fe_mid sc_mid
            back_pairs fe_back sc_back hcal_absorber hcal_active
            sensitive_active_only target_total_len_cm in
        let r :=
          Design.call
            (Design.build_triple_ecal_then_fe_scint_hcal_2m_v4_2
               ecal_pairs pb_cm sc_cm pbwo4_cm add_scint_endcap
               ecal_pb ecal_scint ecal_pbwo4
               trans_pairs fe_trans sc_trans mid_pairs fe_mid sc_mid
               back_pairs fe_back sc_back hcal_absorber hcal_active
               sensitive_active_only target_total_len_cm)
            g (Some ct) in
        let built :=
          with_tracked
            {| Design.globals := g; Design.cost_tracker := Some ct;
               Design.gd := G4Calo.new |} ct ls ls in
        if all_valid g ls then
          exists specs, r = (inr (Design.gd built, specs), built)
        else exists x e', r = (inl x, e')).
Proof.
  split; [| split].
  - intros. destruct (feqb (of_int ecal_slices) fzero) eqn:Es.
    { unfold r, Design.call. rewrite v1_unfold.
      erewrite bind_ok by reflexivity.
      erewrite bind_inl by (apply fdiv_zero; exact Es). reflexivity. }
    destruct (all_valid g ls) eqn:Hv.
    + apply run_v1; assumption.
    + destruct r as [[x | out] e'] eqn:Er; [eauto |].
      eapply tracks_call in Er; [| apply tracks_v1].
      destruct Er as (_ & _ & Hv'). fold ls in Hv'. congruence.
  - intros. destruct (all_valid g ls) eqn:Hv.
    + destruct (runs_v2 ecal_pairs pb_per_pair_cm sc_per_pair_cm
                  ecal_absorber ecal_active
                  front_pairs fe_front sc_front mid_pairs fe_mid sc_mid
                  back_pairs fe_back sc_back absorber active
                  sensitive_active_only g ct Hv) as (out & Hr).
      fold ls r built in Hr.
      pose proof Hr as Hg. eapply rig_call in Hg; [| apply rig_v2].
      destruct Hg as (specs & ->).
      exists specs. exact Hr.
    + destruct r as [[x | out] e'] eqn:Er; [eauto |].
      eapply tracks_call in Er; [| apply tracks_v2].
      destruct Er as (_ & _ & Hv'). fold ls in Hv'. congruence.
  - intros. destruct (all_valid g ls) eqn:Hv.
    + destruct (runs_v4_2 ecal_pairs pb_cm sc_cm pbwo4_cm add_scint_endcap
                  ecal_pb ecal_scint ecal_pbwo4
                  trans_pairs fe_trans sc_trans mid_pairs fe_mid sc_mid
                  back_pairs fe_back sc_back hcal_absorber hcal_active
                  sensitive_active_only target_total_len_cm g ct Hv)
        as (out & Hr).
      fold ls r built in Hr.
      pose proof Hr as Hg. eapply rig_call in Hg; [| apply rig_v4_2].
      destruct Hg as (specs & ->).
      exists specs. exact Hr.
    + destruct r as [[x | out] e'] eqn:Er; [eauto |].
      eapply tracks_call in Er; [| apply tracks_v4_2].
      destruct Er as (_ & _ & Hv'). fold ls in Hv'. congruence.
Qed.

(** ** The second and third builders without tracker *)

Section BuildsWithoutTracker.
Context {F : Type} `{Arith F}.
Import Design.

Lemma builds_call {A} (c : M (env F) A) ls g :
  builds c ls ->
  exists a,
    call (gd_new ;; c) g None
    = (inr a,
       with_layers
         {| globals := g; cost_tracker := None; gd := G4Calo.new |} ls).
Proof.
  intros Hc. unfold call. erewrite bind_ok by reflexivity.
  apply (Hc {| globals := g; cost_tracker := None; gd := G4Calo.new |}).
  reflexivity.
Qed.

Lemma builds_v2 ecal_pairs (pb_per_pair_cm sc_per_pair_cm : F)
    ecal_absorber ecal_active
    front_pairs fe_front sc_front mid_pairs fe_mid sc_mid
    back_pairs fe_back sc_back absorber active sensitive_active_only g :
  exists r,
    call (build_pb_scint_ecal_then_graded_fe_scint_hcal_200cm_v2
            ecal_pairs pb_per_pair_cm sc_per_pair_cm
            ecal_absorber ecal_active
            front_pairs fe_front sc_front mid_pairs fe_mid sc_mid
            back_pairs fe_back sc_back absorber active
            sensitive_active_only) g None
    = (inr r,
       with_layers
         {| globals := g; cost_tracker := None; gd := G4Calo.new |}
         (v2_stack_layers ecal_pairs pb_per_pair_cm sc_per_pair_cm
            ecal_absorber ecal_active
            front_pairs fe_front sc_front mid_pairs fe_mid sc_mid
            back_pairs fe_back sc_back absorber active
            sensitive_active_only)).
Proof.
  unfold build_pb_scint_ecal_then_graded_fe_scint_hcal_200cm_v2.
  apply builds_call. unfold v2_stack_layers.
  apply builds_bind; [apply (builds_add_section _ _ true) | intros _].
  rewrite <- (app_nil_r (hcal_layers _ _ _ _ _ _ _ _ _ _ _ _)).
  apply builds_hcal. apply builds_returned.
Qed.

Lemma builds_v4_2_stack ecal_pairs (pb_cm sc_cm pbwo4_cm : F)
    add_scint_endcap ecal_pb ecal_scint ecal_pbwo4
    trans_pairs fe_trans sc_trans mid_pairs fe_mid sc_mid
    back_pairs fe_back sc_back hcal_absorber hcal_active
    sensitive_active_only g :
  exists r,
    call (v4_2_stack ecal_pairs pb_cm sc_cm pbwo4_cm add_scint_endcap
            ecal_pb ecal_scint ecal_pbwo4
            trans_pairs fe_trans sc_trans mid_pairs fe_mid sc_mid
            back_pairs fe_back sc_back hcal_absorber hcal_active
            sensitive_active_only) g None
    = (inr r,
       with_layers
         {| globals := g; cost_tracker := None; gd := G4Calo.new |}
         (v4_2_stack_layers ecal_pairs pb_cm sc_cm pbwo4_cm add_scint_endcap
            ecal_pb ecal_scint ecal_pbwo4
            trans_pairs fe_trans sc_trans mid_pairs fe_mid sc_mid
            back_pairs fe_back sc_back hcal_absorber hcal_active
            sensitive_active_only)).
Proof.
  unfold v4_2_stack. apply builds_call. unfold v4_2_stack_layers.
  apply builds_bind.
  - apply builds_for_range.
    change (builds ?c [?a; ?b; ?d])
      with (builds c ([a] ++ [b] ++ [d] ++ [] ++ [] ++ [])).
    repeat (apply builds_bind; [| intros _]);
      first [apply builds_gd_addLayer | apply builds_tracker_add].
  - intros _. apply builds_bind.
    + destruct add_scint_endcap.
      * change (builds ?c [?a]) with (builds c ([a] ++ [] ++ [])).
        apply builds_bind; [apply builds_gd_addLayer | intros _].
        apply builds_bind; [apply builds_tracker_add | intros _].
        apply builds_ret.
      * apply builds_ret.
    + intros ecal_len.
      rewrite <- (app_nil_r (hcal_layers _ _ _ _ _ _ _ _ _ _ _ _)).
      apply builds_hcal. apply builds_ret.
Qed.

Lemma builds_shim {A} (leftover : F) hcal_absorber (t0 : F)
    (k : F -> M (env F) A) :
  (forall x, builds (k x) []) ->
  builds (total_len <-
            (if fltb ftol leftover then
               gd_addLayer leftover hcal_absorber false ;;
               tracker_add hcal_absorber leftover ;;
               ret (fadd t0 leftover)
             else ret t0) ;;
          k total_len)
    (if fltb ftol leftover then [mk_layer leftover hcal_absorber false]
     else []).
Proof.
  intros Hk.
  rewrite <- (app_nil_r (if fltb ftol leftover then _ else _)).
  apply builds_bind; [| exact Hk].
  destruct (fltb ftol leftover).
  - change (builds ?c [?a]) with (builds c ([a] ++ [] ++ [])).
    apply builds_bind; [apply builds_gd_addLayer | intros _].
    apply builds_bind; [apply builds_tracker_add | intros _].
    apply builds_ret.
  - apply builds_ret.
Qed.

Lemma builds_v4_2 ecal_pairs (pb_cm sc_cm pbwo4_cm : F) add_scint_endcap
    ecal_pb ecal_scint ecal_pbwo4
    trans_pairs fe_trans sc_trans mid_pairs fe_mid sc_mid
    back_pairs fe_back sc_back hcal_absorber hcal_active
    sensitive_active_only target_total_len_cm g :
  exists r,
    call (build_triple_ecal_then_fe_scint_hcal_2m_v4_2
            ecal_pairs pb_cm sc_cm pbwo4_cm add_scint_endcap
            ecal_pb ecal_scint ecal_pbwo4
            trans_pairs fe_trans sc_trans mid_pairs fe_mid sc_mid
            back_pairs fe_back sc_back hcal_absorber hcal_active
            sensitive_active_only target_total_len_cm) g None
    = (inr r,
       with_layers
         {| globals := g; cost_tracker := None; gd := G4Calo.new |}
         (v4_2_layers_of ecal_pairs pb_cm sc_cm pbwo4_cm add_scint_endcap
            ecal_pb ecal_scint ecal_pbwo4
            trans_pairs fe_trans sc_trans mid_pairs fe_mid sc_mid
            back_pairs fe_back sc_back hcal_absorber hcal_active
            sensitive_active_only target_total_len_cm)).
Proof.
  unfold v4_2_layers_of. cbv zeta.
  set (leftover := fsub target_total_len_cm _).
  destruct (builds_v4_2_stack ecal_pairs pb_cm sc_cm pbwo4_cm add_scint_endcap
              ecal_pb ecal_scint ecal_pbwo4
              trans_pairs fe_trans sc_trans mid_pairs fe_mid sc_mid
              back_pairs fe_back sc_back hcal_absorber hcal_active
              sensitive_active_only g) as (built & Hs).
  pose proof Hs as Hb. apply v4_2_stack_ok in Hb as [Hb _].
  unfold call in *.
  unfold build_triple_ecal_then_fe_scint_hcal_2m_v4_2.
  erewrite bind_ok by exact Hs. rewrite Hb. cbv zeta. fold leftover.
  rewrite <- with_layers_app.
  eapply (builds_shim leftover hcal_absorber); [| reflexivity].
  intros x. apply builds_returned.
Qed.

End BuildsWithoutTracker.

(** X14.  Without a tracker the second and the third builder check nothing
    and never raise: for all arguments, whatever the material names, the
    counts and the thicknesses, and whatever the tables hold, they return the
    geometry with their layers (none for a count that is not positive) and
    leave the tables as they were.  Materials are checked only through the
    tracker's [add]. *)
Theorem builders_without_tracker_check_nothing (F : Type) (A : Arith F) :
  (forall ecal_pairs pb_per_pair_cm sc_per_pair_cm
      ecal_absorber ecal_active
      front_pairs fe_front sc_front mid_pairs fe_mid sc_mid
      back_pairs fe_back sc_back absorber active sensitive_active_only
      (g : Trackers.Globals F),
      let built :=
        with_layers
          {| Design.globals := g; Design.cost_tracker := None;
             Design.gd := G4Calo.new |}
          (v2_stack_layers ecal_pairs pb_per_pair_cm sc_per_pair_cm
             ecal_absorber ecal_active
             front_pairs fe_front sc_front mid_pairs fe_mid sc_mid
             back_pairs fe_back sc_back absorber active
             sensitive_active_only) in
      exists specs,
        Design.call
          (Design.build_pb_scint_ecal_then_graded_fe_scint_hcal_200cm_v2
             ecal_pairs pb_per_pair_cm sc_per_pair_cm
             ecal_absorber ecal_active
             front_pairs fe_front sc_front mid_pairs fe_mid sc_mid
             back_pairs fe_back sc_back absorber active
             sensitive_active_only) g None
        = (inr (Design.gd built, specs), built))
  /\ (forall ecal_pairs pb_cm sc_cm pbwo4_cm add_scint_endcap
        ecal_pb ecal_scint ecal_pbwo4
        trans_pairs fe_trans sc_trans mid_pairs fe_mid sc_mid
        back_pairs fe_back sc_back hcal_absorber hcal_active
        sensitive_active_only target_total_len_cm
        (g : Trackers.Globals F),
        let built :=
          with_layers
            {| Design.globals := g; Design.cost_tracker := None;
               Design.gd := G4Calo.new |}
            (v4_2_layers_of ecal_pairs pb_cm sc_cm pbwo4_cm add_scint_endcap
               ecal_pb ecal_scint ecal_pbwo4
               trans_pairs fe_trans sc_trans mid_pairs fe_mid sc_mid
               back_pairs fe_back sc_back hcal_absorber hcal_active
               sensitive_active_only target_total_len_cm) in
        exists specs,
          Design.call
            (Design.build_triple_ecal_then_fe_scint_hcal_2m_v4_2
               ecal_pairs pb_cm sc_cm pbwo4_cm add_scint_endcap
               ecal_pb ecal_scint ecal_pbwo4
               trans_pairs fe_trans sc_trans mid_pairs fe_mid sc_mid
               back_pairs fe_back sc_back hcal_absorber hcal_active
               sensitive_active_only target_total_len_cm) g None
          = (inr (Design.gd built, specs), built)).
Proof.
  split; intros.
  - destruct (builds_v2 ecal_pairs pb_per_pair_cm sc_per_pair_cm
                ecal_absorber ecal_active
                front_pairs fe_front sc_front mid_pairs fe_mid sc_mid
                back_pairs fe_back sc_back absorber active
                sensitive_active_only g) as (out & Hr).
    fold built in Hr.
    pose proof Hr as Hg. eapply rig_call in Hg; [| apply rig_v2].
    destruct Hg as (specs & ->). exists specs. exact Hr.
  - destruct (builds_v4_2 ecal_pairs pb_cm sc_cm pbwo4_cm add_scint_endcap
                ecal_pb ecal_scint ecal_pbwo4
                trans_pairs fe_trans sc_trans mid_pairs fe_mid sc_mid
                back_pairs fe_back sc_back hcal_absorber hcal_active
                sensitive_active_only target_total_len_cm g) as (out & Hr).
    fold built in Hr.
    pose proof Hr as Hg. eapply rig_call in Hg; [| apply rig_v4_2].
    destruct Hg as (specs & ->). exists specs. exact Hr.
Qed.

Section Lengths.
Context {F : Type} `{Arith F}.
Import Design.

Lemma charged_totals (g : Trackers.Globals F) ls : forall ct,
  all_valid g ls = true ->
  Trackers.total_length_cm (charged g ct ls)
  = length_after (Trackers.total_length_cm ct) ls
  /\ Trackers.area_m2 (charged g ct ls) = Trackers.area_m2 ct.
Proof.
  induction ls as [| L ls IH]; intros ct Hv; [split; reflexivity |].
  unfold all_valid in Hv. simpl in Hv. apply andb_prop in Hv as [HL Hv].
  destruct (add_result_valid g ct (G4Calo.material L)
              (G4Calo.thickness_cm L) 1 HL) as (rate & props & _ & _ & Hs).
  unfold charged, length_after. simpl. fold (charged g (charge g ct L) ls).
  destruct (IH (charge g ct L) Hv) as [Ht Ha]. rewrite Ht, Ha.
  unfold charge. rewrite Hs. split; reflexivity.
Qed.

Lemma periods_length (n : Z) (l : list (G4Calo.Layer F)) :
  List.length (periods n l) = (Z.to_nat n * List.length l)%nat.
Proof.
  unfold periods. induction (Z.to_nat n) as [| k IH]; simpl; [reflexivity |].
  now rewrite length_app, IH.
Qed.

Lemma sensitive_count_app (l1 l2 : list (G4Calo.Layer F)) :
  sensitive_count (l1 ++ l2) = (sensitive_count l1 + sensitive_count l2)%nat.
Proof. unfold sensitive_count. now rewrite filter_app, length_app. Qed.

Lemma periods_sensitive (n : Z) (l : list (G4Calo.Layer F)) :
  sensitive_count (periods n l) = (Z.to_nat n * sensitive_count l)%nat.
Proof.
  unfold periods. induction (Z.to_nat n) as [| k IH]; simpl; [reflexivity |].
  now rewrite sensitive_count_app, IH.
Qed.

Lemma hcal_length absorber active sens n1 (a1 b1 : F) n2 a2 b2 n3 a3 b3 :
  List.length (hcal_layers absorber active sens n1 a1 b1 n2 a2 b2 n3 a3 b3)
  = (2 * (Z.to_nat n1 + Z.to_nat n2 + Z.to_nat n3))%nat.
Proof.
  unfold hcal_layers, section_layers.
  rewrite !length_app, !periods_length. simpl. lia.
Qed.

Lemma hcal_sensitive absorber active sens n1 (a1 b1 : F) n2 a2 b2 n3 a3 b3 :
  sensitive_count
    (hcal_layers absorber active sens n1 a1 b1 n2 a2 b2 n3 a3 b3)
  = if sens then (Z.to_nat n1 + Z.to_nat n2 + Z.to_nat n3)%nat else 0%nat.
Proof.
  unfold hcal_layers, section_layers.
  rewrite !sensitive_count_app, !periods_sensitive.
  unfold sensitive_count. destruct sens; simpl; lia.
Qed.

Lemma unit_area_gd_new : preserves unit_area (@gd_new F _).
Proof. intros e _. reflexivity. Qed.

Lemma unit_area_gd_addLayer (t : F) m s :
  preserves unit_area (gd_addLayer t m s).
Proof. intros e He. exact He. Qed.

Lemma unit_area_tracker_add m (t : F) : preserves unit_area (tracker_add m t).
Proof.
  intros e He. unfold tracker_add. destruct (cost_tracker e) as [ct |];
    [| exact He].
  destruct (Trackers.add m t 1 (globals e, ct)) as [r [g' ct']]. exact He.
Qed.

Lemma unit_area_fdiv (x y : F) : preserves unit_area (fdiv x y : M (env F) F).
Proof. intros e He. unfold fdiv. destruct (feqb y fzero); exact He. Qed.

Lemma unit_area_lambda_int_cm m : preserves unit_area (@lambda_int_cm F m).
Proof.
  intros e He. unfold lambda_int_cm, dict_lookup, bind, get.
  destruct (dict_get _ m); exact He.
Qed.

Lemma unit_area_get : preserves unit_area (@get (env F)).
Proof. intros e He. exact He. Qed.

Ltac unit_area :=
  repeat first
    [ apply preserves_ret
    | apply unit_area_gd_new
    | apply unit_area_gd_addLayer
    | apply unit_area_tracker_add
    | apply unit_area_fdiv
    | apply unit_area_lambda_int_cm
    | apply unit_area_get
    | apply preserves_repeatM
    | apply preserves_bind; [| intros ?]
    | match goal with
      | |- preserves _ (if ?b then _ else _) => destruct b
      end ].

Lemma unit_area_v1 (total_X0 X0_cm : F) ecal_slices ecal_material
    front_pairs fe_front sc_front mid_pairs fe_mid sc_mid
    back_pairs fe_back sc_back absorber active sensitive_active_only :
  preserves unit_area
    (build_ecal_pbwo4_26X0_then_graded_fe_scint_hcal_200cm_v1
       total_X0 X0_cm ecal_slices ecal_material
       front_pairs fe_front sc_front mid_pairs fe_mid sc_mid
       back_pairs fe_back sc_back absorber active sensitive_active_only).
Proof.
  unfold build_ecal_pbwo4_26X0_then_graded_fe_scint_hcal_200cm_v1,
    add_section, lam_pair, for_range.
  unit_area.
Qed.

Lemma unit_area_v2 ecal_pairs (pb_per_pair_cm sc_per_pair_cm : F)
    ecal_absorber ecal_active
    front_pairs fe_front sc_front mid_pairs fe_mid sc_mid
    back_pairs fe_back sc_back absorber active sensitive_active_only :
  preserves unit_area
    (build_pb_scint_ecal_then_graded_fe_scint_hcal_200cm_v2
       ecal_pairs pb_per_pair_cm sc_per_pair_cm ecal_absorber ecal_active
       front_pairs fe_front sc_front mid_pairs fe_mid sc_mid
       back_pairs fe_back sc_back absorber active sensitive_active_only).
Proof.
  unfold build_pb_scint_ecal_then_graded_fe_scint_hcal_200cm_v2,
    add_section, for_range.
  unit_area.
Qed.

Lemma unit_area_v4_2 ecal_pairs (pb_cm sc_cm pbwo4_cm : F) add_scint_endcap
    ecal_pb ecal_scint ecal_pbwo4
    trans_pairs fe_trans sc_trans mid_pairs fe_mid sc_mid
    back_pairs fe_back sc_back hcal_absorber hcal_active
    sensitive_active_only target_total_len_cm :
  preserves unit_area
    (build_triple_ecal_then_fe_scint_hcal_2m_v4_2
       ecal_pairs pb_cm sc_cm pbwo4_cm add_scint_endcap
       ecal_pb ecal_scint ecal_pbwo4
       trans_pairs fe_trans sc_trans mid_pairs fe_mid sc_mid
       back_pairs fe_back sc_back hcal_absorber hcal_active
       sensitive_active_only target_total_len_cm).
Proof.
  unfold build_triple_ecal_then_fe_scint_hcal_2m_v4_2, v4_2_stack,
    add_section, for_range.
  unit_area.
Qed.

(** The geometry a call returns: its area, and that it is the [gd] built. *)
Lemma returned_area {A} (c : M (env F) (G4Calo.GeometryDescriptor F * A))
    g ct gd a e' :
  call c g ct = (inr (gd, a), e') ->
  returns_its_gd c -> preserves unit_area c ->
  G4Calo.area_m2 gd = of_int 1.
Proof.
  intros Hr Hg Ha. rewrite (Hg _ _ _ _ Hr).
  specialize (Ha {| globals := g; cost_tracker := ct; gd := G4Calo.new |}
                 eq_refl).
  unfold call in Hr. rewrite Hr in Ha. exact Ha.
Qed.

End Lengths.

(** X15.  The geometry a builder returns, with or without tracker: its number
    of layers and of sensitive layers as functions of the counts (a negative
    count is no pass), and its area, which is 1.0 whatever the area of the
    tracker.  The third builder has one layer more when its shim is added,
    which is not sensitive, and one sensitive layer more with the scintillator
    end-cap. *)
Theorem layers_of_the_builders (F : Type) (A : Arith F) :
  (forall total_X0 X0_cm ecal_slices ecal_material
      front_pairs fe_front sc_front mid_pairs fe_mid sc_mid
      back_pairs fe_back sc_back absorber active sensitive_active_only
      (g : Trackers.Globals F) ct gd specs e',
      Design.call
        (Design.build_ecal_pbwo4_26X0_then_graded_fe_scint_hcal_200cm_v1
           total_X0 X0_cm ecal_slices ecal_material
           front_pairs fe_front sc_front mid_pairs fe_mid sc_mid
           back_pairs fe_back sc_back absorber active sensitive_active_only)
        g ct = (inr (gd, specs), e') ->
      let pairs :=
        (Z.to_nat front_pairs + Z.to_nat mid_pairs + Z.to_nat back_pairs)%nat in
      List.length (G4Calo.layers gd) = (Z.to_nat ecal_slices + 2 * pairs)%nat
      /\ sensitive_count (G4Calo.layers gd)
         = (Z.to_nat ecal_slices
            + if sensitive_active_only then pairs else 0)%nat
      /\ G4Calo.area_m2 gd = of_int 1)
  /\ (forall ecal_pairs pb_per_pair_cm sc_per_pair_cm
        ecal_absorber ecal_active
        front_pairs fe_front sc_front mid_pairs fe_mid sc_mid
        back_pairs fe_back sc_back absorber active sensitive_active_only
        (g : Trackers.Globals F) ct gd specs e',
        Design.call
          (Design.build_pb_scint_ecal_then_graded_fe_scint_hcal_200cm_v2
             ecal_pairs pb_per_pair_cm sc_per_pair_cm
             ecal_absorber ecal_active
             front_pairs fe_front sc_front mid_pairs fe_mid sc_mid
             back_pairs fe_back sc_back absorber active sensitive_active_only)
          g ct = (inr (gd, specs), e') ->
        let pairs :=
          (Z.to_nat front_pairs + Z.to_nat mid_pairs
           + Z.to_nat back_pairs)%nat in
        List.length (G4Calo.layers gd)
        = (2 * Z.to_nat ecal_pairs + 2 * pairs)%nat
        /\ sensitive_count (G4Calo.layers gd)
           = (Z.to_nat ecal_pairs
              + if sensitive_active_only then pairs else 0)%nat
        /\ G4Calo.area_m2 gd = of_int 1)
  /\ (forall ecal_pairs pb_cm sc_cm pbwo4_cm add_scint_endcap
        ecal_pb ecal_scint ecal_pbwo4
        trans_pairs fe_trans sc_trans mid_pairs fe_mid sc_mid
        back_pairs fe_back sc_back hcal_absorber hcal_active
        sensitive_active_only target_total_len_cm
        (g : Trackers.Globals F) ct gd specs e',
        Design.call
          (Design.build_triple_ecal_then_fe_scint_hcal_2m_v4_2
             ecal_pairs pb_cm sc_cm pbwo4_cm add_scint_endcap
             ecal_pb ecal_scint ecal_pbwo4
             trans_pairs fe_trans sc_trans mid_pairs fe_mid sc_mid
             back_pairs fe_back sc_back hcal_absorber hcal_active
             sensitive_active_only target_total_len_cm)
          g ct = (inr (gd, specs), e') ->
        let pairs :=
          (Z.to_nat trans_pairs + Z.to_nat mid_pairs
           + Z.to_nat back_pairs)%nat in
        let leftover :=
          fsub target_total_len_cm
            (snd (v4_2_built_len ecal_pairs pb_cm sc_cm pbwo4_cm
                    add_scint_endcap trans_pairs fe_trans sc_trans
                    mid_pairs fe_mid sc_mid back_pairs fe_back sc_back)) in
        List.length (G4Calo.layers gd)
        = (3 * Z.to_nat ecal_pairs + (if add_scint_endcap then 1 else 0)
           + 2 * pairs + (if fltb ftol leftover then 1 else 0))%nat
        /\ sensitive_count (G4Calo.layers gd)
           = (Z.to_nat ecal_pairs + (if add_scint_endcap then 1 else 0)
              + if sensitive_active_only then pairs else 0)%nat
        /\ G4Calo.area_m2 gd = of_int 1).
Proof.
  split; [| split]; intros;
    match goal with Hc : Design.call _ _ _ = _ |- _ => rename Hc into H end;
    subst pairs.
  - split; [| split].
    + apply v1_layers in H as (_ & -> & _).
      rewrite length_app, periods_length, hcal_length. simpl. lia.
    + apply v1_layers in H as (_ & -> & _).
      rewrite sensitive_count_app, periods_sensitive, hcal_sensitive.
      unfold sensitive_count. simpl. lia.
    + eapply returned_area; [exact H | apply rig_v1 | apply unit_area_v1].
  - split; [| split].
    + apply v2_layers in H as (-> & _). unfold section_layers.
      rewrite length_app, periods_length, hcal_length. simpl. lia.
    + apply v2_layers in H as (-> & _). unfold section_layers.
      rewrite sensitive_count_app, periods_sensitive, hcal_sensitive.
      unfold sensitive_count. simpl. lia.
    + eapply returned_area; [exact H | apply rig_v2 | apply unit_area_v2].
  - split; [| split].
    + apply v4_2_layers in H. cbv zeta in H. fold leftover in H.
      destruct (fltb ftol leftover); destruct H as [-> _];
        unfold v4_2_stack_layers;
        rewrite ?length_app, periods_length, hcal_length;
        destruct add_scint_endcap; simpl; lia.
    + apply v4_2_layers in H. cbv zeta in H. fold leftover in H.
      destruct (fltb ftol leftover); destruct H as [-> _];
        unfold v4_2_stack_layers;
        rewrite ?sensitive_count_app, periods_sensitive, hcal_sensitive;
        unfold sensitive_count;
        destruct add_scint_endcap; simpl; lia.
    + eapply returned_area; [exact H | apply rig_v4_2 | apply unit_area_v4_2].
Qed.

Lemma layers_of_the_builders_witness :
  exists gd specs e',
    Design.call Design.v4_2_defaults Trackers.globals0
      (Some (Trackers.new 0.25%float)) = (inr (gd, specs), e')
    /\ List.length (G4Calo.layers gd) = 346%nat
    /\ sensitive_count (G4Calo.layers gd) = 143%nat
    /\ G4Calo.area_m2 gd = 1%float.
Proof.
  destruct (Design.call Design.v4_2_defaults Trackers.globals0
              (Some (Trackers.new 0.25%float)))
    as [[x | [gd specs]] e'] eqn:Hr; [vm_compute in Hr; discriminate |].
  exists gd, specs, e'. split; [reflexivity |].
  destruct (layers_of_the_builders binary64) as (_ & _ & Hb).
  specialize (Hb _ _ _ _ _ _ _ _ _ _ _ _ _ _ _ _ _ _ _ _ _ _ _ _ _ _ Hr).
  cbv zeta in Hb. destruct Hb as (Hl & Hs & Ha).
  split; [| split]; [rewrite Hl | rewrite Hs | exact Ha]; reflexivity.
Defined.

Section TrackerLength.
Context {F : Type} `{Arith F}.
Import Design.

Lemma tracked_length {A} (c : M (env F) (G4Calo.GeometryDescriptor F * A))
    ls g ct gd a e' :
  call c g (Some ct) = (inr (gd, a), e') ->
  tracks c ls -> G4Calo.layers gd = ls ->
  exists ct',
    cost_tracker e' = Some ct'
    /\ Trackers.total_length_cm ct'
       = length_after (Trackers.total_length_cm ct) (G4Calo.layers gd)
    /\ Trackers.area_m2 ct' = Trackers.area_m2 ct.
Proof.
  intros Hr Ht Hl. eapply tracks_call in Hr; [| exact Ht].
  destruct Hr as (_ & Hc & Hv). exists (charged g ct ls).
  rewrite Hl. split; [exact Hc |]. apply charged_totals. exact Hv.
Qed.

End TrackerLength.

Lemma length_after_exact (total : Qc) (ls : list (G4Calo.Layer Qc)) :
  length_after total ls = (total + layers_sum ls)%Qc.
Proof.
  revert total. induction ls as [| L ls IH]; intros total.
  - rewrite layers_sum_nil. unfold length_after. simpl. ring.
  - change (length_after total (L :: ls))
      with (length_after
              (fadd total (fmul (G4Calo.thickness_cm L) (of_int 1))) ls).
    rewrite IH. rewrite of_int_1.
    change (layers_sum (L :: ls))
      with (py_sum (G4Calo.thickness_cm L
                    :: map (@G4Calo.thickness_cm Qc) ls)).
    rewrite py_sum_cons. fold (layers_sum ls).
    rational_ops. ring.
Qed.

Lemma length_after_binary64 (total : float)
    (ls : list (G4Calo.Layer float)) :
  length_after total ls
  = fold_left PrimFloat.add (map (@G4Calo.thickness_cm float) ls) total.
Proof.
  revert total. induction ls as [| L ls IH]; intros total; [reflexivity |].
  change (length_after total (L :: ls))
    with (length_after
            (fadd total (fmul (G4Calo.thickness_cm L) (of_int 1))) ls).
  rewrite IH. cbn [fadd fmul of_int binary64 map fold_left].
  now rewrite Z2float_1, mul_one.
Qed.

(** X16.  A build that returns leaves the caller's tracker with its area
    unchanged and with a total length raised by the thickness of every layer
    of the returned geometry, added one by one in the order of the layers
    ([total += t * 1]).  In binary64 the product by 1 is exact, so that the
    new total is the old one with the thicknesses added to it from the first
    layer to the last; in exact arithmetic it is the total the tracker had
    plus the geometry's [as_specs()] total length. *)
Theorem the_tracker_grows_by_the_geometry :
  (forall (F : Type) (A : Arith F),
      (forall total_X0 X0_cm ecal_slices ecal_material
          front_pairs fe_front sc_front mid_pairs fe_mid sc_mid
          back_pairs fe_back sc_back absorber active sensitive_active_only
          (g : Trackers.Globals F) ct gd specs e',
          Design.call
            (Design.build_ecal_pbwo4_26X0_then_graded_fe_scint_hcal_200cm_v1
               total_X0 X0_cm ecal_slices ecal_material
               front_pairs fe_front sc_front mid_pairs fe_mid sc_mid
               back_pairs fe_back sc_back absorber active
               sensitive_active_only)
            g (Some ct) = (inr (gd, specs), e') ->
          exists ct',
            Design.cost_tracker e' = Some ct'
            /\ Trackers.total_length_cm ct'
               = length_after (Trackers.total_length_cm ct)
                   (G4Calo.layers gd)
            /\ Trackers.area_m2 ct' = Trackers.area_m2 ct)
      /\ (forall ecal_pairs pb_per_pair_cm sc_per_pair_cm
            ecal_absorber ecal_active
            front_pairs fe_front sc_front mid_pairs fe_mid sc_mid
            back_pairs fe_back sc_back absorber active sensitive_active_only
            (g : Trackers.Globals F) ct gd specs e',
            Design.call
              (Design.build_pb_scint_ecal_then_graded_fe_scint_hcal_200cm_v2
                 ecal_pairs pb_per_pair_cm sc_per_pair_cm
                 ecal_absorber ecal_active
                 front_pairs fe_front sc_front mid_pairs fe_mid sc_mid
                 back_pairs fe_back sc_back absorber active
                 sensitive_active_only)
              g (Some ct) = (inr (gd, specs), e') ->
            exists ct',
              Design.cost_tracker e' = Some ct'
              /\ Trackers.total_length_cm ct'
                 = length_after (Trackers.total_length_cm ct)
                     (G4Calo.layers gd)
              /\ Trackers.area_m2 ct' = Trackers.area_m2 ct)
      /\ (forall ecal_pairs pb_cm sc_cm pbwo4_cm add_scint_endcap
            ecal_pb ecal_scint ecal_pbwo4
            trans_pairs fe_trans sc_trans mid_pairs fe_mid sc_mid
            back_pairs fe_back sc_back hcal_absorber hcal_active
            sensitive_active_only target_total_len_cm
            (g : Trackers.Globals F) ct gd specs e',
            Design.call
              (Design.build_triple_ecal_then_fe_scint_hcal_2m_v4_2
                 ecal_pairs pb_cm sc_cm pbwo4_cm add_scint_endcap
                 ecal_pb ecal_scint ecal_pbwo4
                 trans_pairs fe_trans sc_trans mid_pairs fe_mid sc_mid
                 back_pairs fe_back sc_back hcal_absorber hcal_active
                 sensitive_active_only target_total_len_cm)
              g (Some ct) = (inr (gd, specs), e') ->
            exists ct',
              Design.cost_tracker e' = Some ct'
              /\ Trackers.total_length_cm ct'
                 = length_after (Trackers.total_length_cm ct)
                     (G4Calo.layers gd)
              /\ Trackers.area_m2 ct' = Trackers.area_m2 ct))
  /\ (forall (total : float) (gd : G4Calo.GeometryDescriptor float),
        length_after total (G4Calo.layers gd)
        = fold_left PrimFloat.add
            (map (@G4Calo.thickness_cm float) (G4Calo.layers gd)) total)
  /\ (forall (total : Qc) (gd : G4Calo.GeometryDescriptor Qc),
        length_after total (G4Calo.layers gd)
        = (total + G4Calo.total_len_cm gd)%Qc).
Proof.
  split; [intros F A; split; [| split]; intros | split].
  - eapply tracked_length; [eassumption | apply tracks_v1 |].
    match goal with Hc : Design.call _ _ _ = _ |- _ =>
      apply v1_layers in Hc as (_ & Hl & _); exact Hl end.
  - eapply tracked_length; [eassumption | apply tracks_v2 |].
    match goal with Hc : Design.call _ _ _ = _ |- _ =>
      apply v2_layers in Hc as (Hl & _); exact Hl end.
  - eapply tracked_length; [eassumption | apply tracks_v4_2 |].
    match goal with Hc : Design.call _ _ _ = _ |- _ =>
      apply v4_2_layers in Hc; cbv zeta in Hc end.
    unfold v4_2_layers_of.
    match goal with Hc : if fltb ftol ?l then _ else _ |- _ =>
      destruct (fltb ftol l); destruct Hc as [Hl _]; rewrite Hl end.
    + reflexivity.
    + now rewrite app_nil_r.
  - intros total gd. apply length_after_binary64.
  - intros total gd. apply length_after_exact.
Qed.

Lemma the_tracker_grows_by_the_geometry_witness :
  exists gd specs e' ct',
    Design.call
      (Design.build_pb_scint_ecal_then_graded_fe_scint_hcal_200cm_v2
         60 (dec 20 100) (dec 20 100) "G4_Pb" "G4_POLYSTYRENE"
         18 (dec 5 10) (dec 1 1) 28 (dec 1 1) (dec 7 10)
         50 (dec 15 10) (dec 5 10) "G4_Fe" "G4_POLYSTYRENE" true)
      globalsQ (Some (Trackers.new (dec 1 4))) = (inr (gd, specs), e')
    /\ Design.cost_tracker e' = Some ct'
    /\ Trackers.total_length_cm ct' = (dec 0 1 + G4Calo.total_len_cm gd)%Qc
    /\ Trackers.total_length_cm ct' = dec 1986 10
    /\ Trackers.area_m2 ct' = dec 1 4.
Proof.
  destruct (Design.call
              (Design.build_pb_scint_ecal_then_graded_fe_scint_hcal_200cm_v2
                 60 (dec 20 100) (dec 20 100) "G4_Pb" "G4_POLYSTYRENE"
                 18 (dec 5 10) (dec 1 1) 28 (dec 1 1) (dec 7 10)
                 50 (dec 15 10) (dec 5 10) "G4_Fe" "G4_POLYSTYRENE" true)
              globalsQ (Some (Trackers.new (dec 1 4))))
    as [[x | [gd specs]] e'] eqn:Hr; [vm_compute in Hr; discriminate |].
  destruct the_tracker_grows_by_the_geometry as (Hb & _ & Hq).
  destruct (Hb Qc rational) as (_ & Hb2 & _).
  destruct (Hb2 _ _ _ _ _ _ _ _ _ _ _ _ _ _ _ _ _ _ _ _ _ _ Hr)
    as (ct' & Hc & Hl & Ha).
  exists gd, specs, e', ct'. split; [reflexivity |]. split; [exact Hc |].
  rewrite Hq in Hl. split; [exact Hl |]. split; [| exact Ha].
  vm_compute in Hr. injection Hr as <- _ <-. injection Hc as <-.
  apply Qc_is_canon. reflexivity.
Defined.

(** * The event display *)

Section LayerEdges.
Context {F : Type} `{Arith F} `{Literals F}.
Import viz_event.

(** What the loop of [_layer_edges_mm] has built after the layers [ls]. *)
Lemma edges_loop (ls : list (G4Calo.Layer F)) :
  exists z edges,
    fold_left edges_step ls (fzero, [fzero], [])
    = (z, edges,
       map (fun L => (fmul (G4Calo.thickness_cm L) f_10,
                      G4Calo.material L, G4Calo.sensitive L)) ls)
    /\ List.length edges = S (List.length ls)
    /\ nth 0 edges fzero = fzero
    /\ nth (List.length ls) edges fzero = z
    /\ (forall i L, nth_error ls i = Some L ->
          nth (S i) edges fzero
          = fadd (nth i edges fzero) (fmul (G4Calo.thickness_cm L) f_10)).
Proof.
  induction ls as [| L ls IH] using rev_ind.
  - exists fzero, [fzero]. cbn. repeat split; try reflexivity.
    intros [| i] L; discriminate.
  - destruct IH as (z & edges & Hfold & Hlen & H0' & Hz & Hstep).
    rewrite fold_left_app, Hfold. cbn [fold_left edges_step].
    eexists _, _. split; [| split; [| split; [| split]]].
    + rewrite map_app. reflexivity.
    + rewrite !length_app, Hlen. cbn. lia.
    + rewrite app_nth1 by lia. exact H0'.
    + rewrite length_app. cbn [List.length].
      rewrite app_nth2 by lia.
      replace (List.length ls + 1 - List.length edges)%nat with 0%nat by lia.
      reflexivity.
    + intros i L' Hi.
      destruct (Nat.lt_ge_cases i (List.length ls)) as [Hlt | Hge].
      * rewrite nth_error_app1 in Hi by exact Hlt.
        rewrite !app_nth1 by lia. now apply Hstep.
      * assert (Hi' : i = List.length ls).
        { assert (Hlt : (i < List.length (ls ++ [L]))%nat)
            by (apply nth_error_Some; congruence).
          rewrite length_app in Hlt. cbn in Hlt. lia. }
        subst i. rewrite nth_error_app2, Nat.sub_diag in Hi by lia.
        injection Hi as <-.
        rewrite app_nth2 by lia.
        replace (S (List.length ls) - List.length edges)%nat with 0%nat by lia.
        rewrite app_nth1 by lia. rewrite Hz. reflexivity.
Qed.

Lemma last_is_nth {A} (l : list A) (d : A) :
  last l d = nth (List.length l - 1) l d.
Proof.
  induction l as [| x [| y l] IH]; try reflexivity.
  change (last (x :: y :: l) d) with (last (y :: l) d). rewrite IH.
  cbn [List.length]. replace (S (S (List.length l)) - 1)%nat
    with (S (S (List.length l) - 1)) by lia. reflexivity.
Qed.

(** What [_layer_edges_mm] returns, and the [total_z] read from it. *)
Lemma layer_edges_unfold (gd : G4Calo.GeometryDescriptor F) :
  exists edges,
    _layer_edges_mm gd
    = (edges,
       map (fun i => fmul (fadd (nth i edges fzero) (nth (S i) edges fzero))
                          f_half)
           (seq 0 (List.length edges - 1)),
       map (fun L => (fmul (G4Calo.thickness_cm L) f_10,
                      G4Calo.material L, G4Calo.sensitive L))
           (G4Calo.layers gd))
    /\ total_z gd = nth (List.length (G4Calo.layers gd)) edges fzero
    /\ List.length edges = S (List.length (G4Calo.layers gd))
    /\ nth 0 edges fzero = fzero
    /\ (forall i L, nth_error (G4Calo.layers gd) i = Some L ->
          nth (S i) edges fzero
          = fadd (nth i edges fzero) (fmul (G4Calo.thickness_cm L) f_10)).
Proof.
  unfold total_z, _layer_edges_mm.
  destruct (edges_loop (G4Calo.layers gd))
    as (z & edges & Hfold & Hlen & H0' & Hz & Hstep).
  rewrite Hfold. exists edges. split; [reflexivity |].
  split; [| split; [exact Hlen | split; [exact H0' | exact Hstep]]].
  destruct edges as [| e0 edges']; [discriminate |].
  rewrite last_is_nth, Hlen. f_equal. lia.
Qed.

Lemma centers_nth (edges : list F) (i : nat) :
  (i < List.length edges - 1)%nat ->
  nth i (map (fun i => fmul (fadd (nth i edges fzero)
                               (nth (S i) edges fzero)) f_half)
             (seq 0 (List.length edges - 1))) fzero
  = fmul (fadd (nth i edges fzero) (nth (S i) edges fzero)) f_half.
Proof.
  intros Hlt.
  rewrite nth_indep with (d' := fmul (fadd (nth 0 edges fzero)
                                        (nth 1 edges fzero)) f_half)
    by (rewrite length_map, length_seq; exact Hlt).
  change (fmul (fadd (nth 0 edges fzero) (nth 1 edges fzero)) f_half)
    with ((fun i => fmul (fadd (nth i edges fzero)
                            (nth (S i) edges fzero)) f_half) 0%nat).
  rewrite map_nth. rewrite seq_nth by exact Hlt. reflexivity.
Qed.

End LayerEdges.

(** X17.  [_layer_edges_mm] returns one edge more than the geometry has
    layers, and one centre and one info entry per layer.  The first edge is
    [0.0]; each further edge is the edge before it plus ten times the
    thickness of the layer between them (the [t_mm] of its info entry); a
    centre is half the sum of the two edges of its layer.  The [total_z] that
    [display_event] reads is the last edge: its fallback [0.0] for an empty
    list of edges is never taken. *)
Theorem layer_edges_follow_the_layers :
  forall (F : Type) (A : Arith F) (Lt : Literals F)
         (gd : G4Calo.GeometryDescriptor F),
    let '(edges, centers, info) := viz_event._layer_edges_mm gd in
    let n := List.length (G4Calo.layers gd) in
    List.length edges = S n
    /\ List.length centers = n
    /\ info = map (fun L => (fmul (G4Calo.thickness_cm L) f_10,
                             G4Calo.material L, G4Calo.sensitive L))
                  (G4Calo.layers gd)
    /\ nth 0 edges fzero = fzero
    /\ (forall i L, nth_error (G4Calo.layers gd) i = Some L ->
          nth (S i) edges fzero
          = fadd (nth i edges fzero) (fmul (G4Calo.thickness_cm L) f_10)
          /\ nth i centers fzero
             = fmul (fadd (nth i edges fzero) (nth (S i) edges fzero))
                    f_half)
    /\ viz_event.total_z gd = nth n edges fzero.
Proof.
  intros F A Lt gd.
  destruct (layer_edges_unfold gd) as (edges & Hv & Htot & Hlen & H0 & Hstep).
  rewrite Hv. cbv zeta.
  split; [exact Hlen |]. split; [rewrite length_map, length_seq; lia |].
  split; [reflexivity |]. split; [exact H0 |]. split; [| exact Htot].
  intros i L Hi. split; [now apply Hstep |].
  apply centers_nth.
  assert (i < List.length (G4Calo.layers gd))%nat
    by (apply nth_error_Some; congruence).
  lia.
Qed.

Section DrawnLength.
Local Open Scope Qc_scope.
Import viz_event.

Lemma half_twice : @f_half Qc _ + @f_half Qc _ = 1.
Proof. apply Qc_is_canon. reflexivity. Qed.

Lemma ten_halves : @f_10 Qc _ * @f_half Qc _ = dec 5 1.
Proof. apply Qc_is_canon. reflexivity. Qed.

Lemma py_sum_firstn_S (ts : list Qc) (i : nat) (t : Qc) :
  nth_error ts i = Some t ->
  py_sum (firstn (S i) ts) = py_sum (firstn i ts) + t.
Proof.
  revert i. induction ts as [| x ts IH]; intros [| i] Hi; try discriminate.
  - injection Hi as ->. cbn [firstn]. rewrite py_sum_cons, !py_sum_nil. ring.
  - cbn [nth_error] in Hi. change (firstn (S (S i)) (x :: ts))
      with (x :: firstn (S i) ts).
    change (firstn (S i) (x :: ts)) with (x :: firstn i ts).
    rewrite !py_sum_cons, (IH i Hi). ring.
Qed.

Lemma edges_closed_form (ls : list (G4Calo.Layer Qc)) (edges : list Qc) :
  nth 0 edges 0 = 0 ->
  (forall i L, nth_error ls i = Some L ->
     nth (S i) edges 0 = nth i edges 0 + G4Calo.thickness_cm L * f_10) ->
  forall i, (i <= List.length ls)%nat ->
    nth i edges 0
    = f_10 * py_sum (firstn i (map (@G4Calo.thickness_cm Qc) ls)).
Proof.
  intros H0 Hstep i. induction i as [| i IH]; intros Hi.
  - rewrite H0. cbn [firstn]. rewrite py_sum_nil. ring.
  - destruct (nth_error ls i) as [L |] eqn:EL;
      [| apply nth_error_None in EL; lia].
    rewrite (Hstep i L EL), IH by lia.
    rewrite (@py_sum_firstn_S _ i (G4Calo.thickness_cm L))
      by (rewrite nth_error_map, EL; reflexivity).
    ring.
Qed.

End DrawnLength.

(** X18.  In exact arithmetic the edges of [_layer_edges_mm] are ten times
    the running sums of the layer thicknesses: edge [i] is ten times the sum
    of the first [i] thicknesses, so that the drawn length [total_z] is the
    [as_specs()] total length in millimetres; the centre of a layer is its
    lower edge plus five times its thickness; and with no negative thickness
    the edges never decrease. *)
Theorem the_drawn_length_is_the_total_length :
  forall gd : G4Calo.GeometryDescriptor Qc,
    let '(edges, centers, info) := viz_event._layer_edges_mm gd in
    let ts := map (@G4Calo.thickness_cm Qc) (G4Calo.layers gd) in
    (forall i, (i <= List.length (G4Calo.layers gd))%nat ->
       nth i edges 0%Qc = (dec 10 1 * py_sum (firstn i ts))%Qc)
    /\ viz_event.total_z gd
       = (dec 10 1 * G4Calo.as_total_len_cm (G4Calo.as_specs gd))%Qc
    /\ (forall i L, nth_error (G4Calo.layers gd) i = Some L ->
          nth i centers 0%Qc
          = (nth i edges 0%Qc + dec 5 1 * G4Calo.thickness_cm L)%Qc)
    /\ (Forall (fun L => (0 <= G4Calo.thickness_cm L)%Qc) (G4Calo.layers gd) ->
        forall i, (i < List.length (G4Calo.layers gd))%nat ->
          (nth i edges 0%Qc <= nth (S i) edges 0%Qc)%Qc).
Proof.
  intros gd.
  destruct (@layer_edges_unfold Qc rational rational_literals gd)
    as (edges & Hv & Htot & Hlen & H0 & Hstep).
  rewrite Hv. cbv zeta.
  assert (Hclosed := @edges_closed_form (G4Calo.layers gd) edges H0 Hstep).
  split; [exact Hclosed |]. split; [| split].
  - rewrite Htot, Hclosed by lia. rewrite firstn_map, firstn_all.
    reflexivity.
  - intros i L Hi. pose proof (Hstep i L Hi) as He.
    assert (Hlt : (i < List.length edges - 1)%nat).
    { assert (i < List.length (G4Calo.layers gd))%nat
        by (apply nth_error_Some; congruence).
      lia. }
    pose proof (@centers_nth Qc rational rational_literals edges i Hlt) as Hc.
    rational_ops. rewrite Hc, He.
    rewrite <- ten_halves.
    transitivity (nth i edges 0 * (f_half + f_half)
                  + G4Calo.thickness_cm L * (f_10 * f_half))%Qc; [ring |].
    rewrite half_twice. ring.
  - intros Hpos i Hi.
    destruct (nth_error (G4Calo.layers gd) i) as [L |] eqn:EL;
      [| apply nth_error_None in EL; lia].
    pose proof (Hstep i L EL) as He. rational_ops. rewrite He.
    rewrite Forall_forall in Hpos.
    assert (HL : (0 <= G4Calo.thickness_cm L)%Qc)
      by (apply Hpos; eapply nth_error_In; exact EL).
    rewrite <- (Qcplus_0_r (nth i edges 0%Qc)) at 1.
    apply Qcplus_le_compat; [apply Qcle_refl |].
    assert (Hm := @Qcmult_le_compat_r 0 (G4Calo.thickness_cm L) (Q2Qc 10) HL
                    ltac:(discriminate)).
    rewrite Qcmult_0_l in Hm. exact Hm.
Qed.

Section Legend.
Context {F : Type}.
Import viz_event.

Local Notation "'entries' keys" :=
  (map (fun k : seen_key =>
          (k, (dict_get_default MAT_COLOR (fst k) "#cccccc"%string, snd k)))
       keys) (at level 10, keys at level 9).

Lemma seen_key_eqb_eq (k1 k2 : seen_key) :
  seen_key_eqb k1 k2 = true <-> k1 = k2.
Proof.
  destruct k1 as [m1 s1], k2 as [m2 s2]. unfold seen_key_eqb. cbn [fst snd].
  rewrite andb_true_iff, String.eqb_eq, Bool.eqb_true_iff.
  split; [intros [-> ->]; reflexivity | intros [= -> ->]; auto].
Qed.

Lemma seen_mem_In {V} (seen : list (seen_key * V)) (key : seen_key) :
  seen_mem seen key = true <-> In key (map fst seen).
Proof.
  unfold seen_mem. rewrite existsb_exists, in_map_iff.
  split; intros (kv & H1 & H2).
  - exists kv. apply seen_key_eqb_eq in H2. auto.
  - exists kv. split; [exact H2 |]. apply seen_key_eqb_eq. exact H1.
Qed.

Lemma entries_keys (keys : list seen_key) : map fst (entries keys) = keys.
Proof. rewrite map_map. cbn [fst]. apply map_id. Qed.

(** The loop that fills [seen], started on the entries of [keys0]. *)
Lemma seen_loop (info : list (layer_info F)) (keys0 : list seen_key) :
  NoDup keys0 ->
  exists keys,
    fold_left
      (fun seen (i : layer_info F) =>
         let '(_, mat, sens) := i in
         if seen_mem seen (mat, sens) then seen
         else (seen ++ [((mat, sens),
                         (dict_get_default MAT_COLOR mat "#cccccc"%string,
                          sens))])%list)
      info (entries keys0)
    = entries keys
    /\ NoDup keys
    /\ (forall k, In k keys
                  <-> In k keys0
                      \/ In k (map (fun i : layer_info F =>
                                      (snd (fst i), snd i)) info)).
Proof.
  revert keys0. induction info as [| [[t mat] sens] info IH]; intros keys0 Hnd.
  - exists keys0. cbn. intuition.
  - cbn [fold_left].
    destruct (seen_mem (entries keys0) (mat, sens)) eqn:Hmem.
    + apply seen_mem_In in Hmem. rewrite entries_keys in Hmem.
      destruct (IH keys0 Hnd) as (keys & Hfold & Hnd' & Hin).
      exists keys. split; [exact Hfold |]. split; [exact Hnd' |].
      intros k. rewrite Hin. cbn [map fst snd In].
      intuition (subst; auto).
    + assert (Hnot : ~ In (mat, sens) keys0).
      { intros Hin. rewrite <- (entries_keys keys0) in Hin.
        apply seen_mem_In in Hin. congruence. }
      destruct (IH (keys0 ++ [(mat, sens)]))
        as (keys & Hfold & Hnd' & Hin).
      { apply NoDup_app; [exact Hnd | repeat constructor; intros [] |].
        intros k Hk [<- | []]. contradiction. }
      exists keys. rewrite map_app in Hfold. split; [exact Hfold |].
      split; [exact Hnd' |].
      intros k. rewrite Hin, in_app_iff. cbn [map fst snd In].
      intuition.
Qed.

End Legend.

(** X19.  The legend of [display_event] has one handle and one label for each
    distinct pair of a material and a sensitivity among the layers, and no
    other: a material that occurs both sensitive and passive is listed twice,
    the sensitive entry hatched and labelled [(sensitive)].  A handle takes
    the colour of its material in [MAT_COLOR], and [#cccccc] for a material
    that is not in it. *)
Theorem the_legend_lists_each_kind_once :
  forall (F : Type) (A : Arith F) (Lt : Literals F)
         (gd : G4Calo.GeometryDescriptor F),
    let '(_, _, info) := viz_event._layer_edges_mm gd in
    exists keys : list viz_event.seen_key,
      NoDup keys
      /\ (forall mat sens,
            In (mat, sens) keys
            <-> exists L, In L (G4Calo.layers gd)
                          /\ G4Calo.material L = mat
                          /\ G4Calo.sensitive L = sens)
      /\ viz_event.display_event_legend info
         = (map (fun k : viz_event.seen_key =>
                   {| viz_event.facecolor :=
                        dict_get_default viz_event.MAT_COLOR (fst k)
                          "#cccccc"%string;
                      viz_event.hatch :=
                        if snd k then Some "////"%string else None |}) keys,
            map (fun k : viz_event.seen_key =>
                   (fst k ++ (if snd k then " (sensitive)" else ""))%string)
                keys).
Proof.
  intros F A Lt gd.
  destruct (@layer_edges_unfold F A Lt gd) as (edges & Hv & _).
  rewrite Hv.
  set (info := map _ (G4Calo.layers gd)).
  assert (Hinfo : info = map (fun L => (fmul (G4Calo.thickness_cm L) f_10,
                                         G4Calo.material L,
                                         G4Calo.sensitive L))
                             (G4Calo.layers gd)) by reflexivity.
  clearbody info.
  destruct (@seen_loop F info [] (NoDup_nil _)) as (keys & Hfold & Hnd & Hin).
  exists keys. split; [exact Hnd |]. split.
  - intros mat sens. rewrite Hin, Hinfo, map_map. cbn [fst snd In].
    rewrite in_map_iff. split.
    + intros [[] | (L & [= <- <-] & HL)]. exists L. auto.
    + intros (L & HL & <- & <-). right. exists L. auto.
  - unfold viz_event.display_event_legend, viz_event.display_event_seen.
    cbn [map] in Hfold. rewrite Hfold, !map_map.
    f_equal; apply map_ext; intros [mat sens]; reflexivity.
Qed.

(** * The call plan of a parametric sample *)

Section TrueDivision.
Local Open Scope Z_scope.
Import Simulations.

(** The second shift of a rounding, on a mantissa of 53 digits or on
    [2 ^ 53], and the ceiling of the float it leaves. *)
Lemma ceil_after_rounding (M' g : Z) :
  2 ^ 52 <= M' <= 2 ^ 53 -> -1073 <= g <= 0 ->
  exists mf ef,
    shr_fexp prec emax M' g loc_Exact
    = ({| shr_m := Z.pos mf; shr_r := false; shr_s := false |}, ef)
    /\ ef <= 971
    /\ ceil (S754_finite false mf ef) = inr (- ((- M') / 2 ^ (- g))).
Proof.
  intros HM Hg. destruct M' as [| pm | pm]; try lia.
  destruct (Z.eq_dec (Z.pos pm) (2 ^ 53)) as [E | E].
  - injection E as ->.
    exists 4503599627370496%positive, (g + 1).
    split; [| split; [lia |]].
    + rewrite shr_fexp_once; [reflexivity |].
      change (Zdigits2 (Z.pos 9007199254740992)) with 54.
      unfold fexp, emin, prec, emax. lia.
    + unfold ceil. f_equal.
      destruct (Z.leb_spec 0 (g + 1)) as [Hg1 | Hg1].
      * assert (Hg' : g = 0 \/ g = -1) by lia.
        destruct Hg' as [-> | ->]; reflexivity.
      * replace (- g) with (Z.succ (- (g + 1))) by lia.
        rewrite Z.pow_succ_r by lia.
        change (- Z.pos 9007199254740992)
          with (- Z.pos 4503599627370496 * 2).
        rewrite (Z.mul_comm 2 (2 ^ _)).
        rewrite Z.div_mul_cancel_r; [reflexivity | | lia].
        apply Z.pow_nonzero; lia.
  - exists pm, g. split; [| split; [lia |]].
    + rewrite shr_fexp_stay; [reflexivity |].
      unfold Zdigits2. rewrite (@digits2_pos_unique pm 53) by lia.
      unfold fexp, emin, prec, emax. lia.
    + unfold ceil. f_equal.
      destruct (Z.leb_spec 0 g) as [Hg1 | Hg1]; [| reflexivity].
      replace g with 0 by lia. change (2 ^ (- 0)) with 1.
      rewrite Z.div_1_r. lia.
Qed.

Lemma truediv_ceil (n e : Z) :
  1 <= n < 2 ^ 53 -> 1 <= e < 2 ^ 1021 ->
  exists q, truediv n e = inr q /\ ceil q = inr ((n + e - 1) / e).
Proof.
  intros Hn He.
  destruct n as [| pn | pn]; try lia. destruct e as [| pe | pe]; try lia.
  unfold truediv. change (Z.pos pe =? 0) with false. cbv iota.
  unfold of_int, SFdiv, SFdiv_core_binary, Zdigits2.
  pose proof (digits2_pos_bounds pn) as [Hn1 Hn2].
  pose proof (digits2_pos_bounds pe) as [He1 He2].
  set (d1 := Z.pos (digits2_pos pn)) in *.
  set (d2 := Z.pos (digits2_pos pe)) in *.
  assert (Hd1 : 1 <= d1 <= 53).
  { split; [unfold d1; lia |].
    assert (d1 - 1 < 53) by (apply (Z.pow_lt_mono_r_iff 2); lia). lia. }
  assert (Hd2 : 1 <= d2 <= 1021).
  { split; [unfold d2; lia |].
    assert (d2 - 1 < 1021) by (apply (Z.pow_lt_mono_r_iff 2); lia). lia. }
  replace (Z.min (fexp prec emax (d1 + 0 - (d2 + 0))) (0 - 0))
    with (d1 - d2 - 53) by (unfold fexp, emin, prec, emax; lia).
  replace (0 - 0 - (d1 - d2 - 53)) with (53 + d2 - d1) by lia.
  destruct (53 + d2 - d1) as [| ps | ps] eqn:Hs; try lia.
  rewrite Z.shiftl_mul_pow2 by lia.
  set (S := 2 ^ Z.pos ps).
  set (P := 2 ^ (d2 - 1)) in *. set (A := 2 ^ (d1 - 1)) in *.
  assert (HP : 0 < P) by (apply Z.pow_pos_nonneg; lia).
  assert (HA : 0 < A) by (apply Z.pow_pos_nonneg; lia).
  assert (HS : 0 < S) by (apply Z.pow_pos_nonneg; lia).
  assert (HP2 : 2 ^ d2 = 2 * P).
  { unfold P. rewrite <- (Z.pow_succ_r 2 (d2 - 1)) by lia. f_equal. lia. }
  assert (HA2 : 2 ^ d1 = 2 * A).
  { unfold A. rewrite <- (Z.pow_succ_r 2 (d1 - 1)) by lia. f_equal. lia. }
  assert (HSA : S * A = 2 ^ 53 * P).
  { unfold S, A, P. rewrite <- !Z.pow_add_r by lia. f_equal. lia. }
  rewrite HP2 in He2. rewrite HA2 in Hn2.
  pose proof (Z_div_mod (Z.pos pn * S) (Z.pos pe) eq_refl) as Hdm.
  destruct (Z.div_eucl (Z.pos pn * S) (Z.pos pe)) as [q r] eqn:Hqr.
  destruct Hdm as [Hdm Hr].
  assert (Hqlo : 2 ^ 52 <= q).
  { assert (2 ^ 53 * P <= Z.pos pn * S) by nia.
    assert (Z.pos pe * q + r < Z.pos pe * (q + 1)) by lia.
    assert (Z.pos pe * 2 ^ 52 < Z.pos pe * (q + 1)) by nia.
    apply Z.mul_lt_mono_pos_l in H1; lia. }
  assert (Hqhi : q < 2 ^ 54).
  { assert (Z.pos pn * S < 2 ^ 54 * P) by nia.
    assert (Z.pos pe * q < Z.pos pe * 2 ^ 54) by nia.
    apply Z.mul_lt_mono_pos_l in H0; lia. }
  set (e' := d1 - d2 - 53).
  assert (Hsh : exists sh : bool,
             shr_fexp prec emax q e' (new_location (Z.pos pe) r)
             = ((if sh then shr_1 (shr_record_of_loc q
                                     (new_location (Z.pos pe) r))
                 else shr_record_of_loc q (new_location (Z.pos pe) r)),
                if sh then e' + 1 else e')
             /\ (if sh then 2 ^ 53 <= q else q < 2 ^ 53)).
  { destruct q as [| pq | pq]; try lia.
    destruct (Z.ltb_spec (Z.pos pq) (2 ^ 53)) as [Hlt | Hge].
    - exists false. split; [| exact Hlt].
      apply shr_fexp_stay. unfold Zdigits2.
      rewrite (@digits2_pos_unique pq 53) by lia.
      unfold fexp, emin, prec, emax, e'. lia.
    - exists true. split; [| exact Hge].
      apply shr_fexp_once. unfold Zdigits2.
      rewrite (@digits2_pos_unique pq 54) by lia.
      unfold fexp, emin, prec, emax, e'. lia. }
  destruct Hsh as (sh & Hshift & Hq).
  unfold binary_round_aux. rewrite Hshift.
  destruct (@round_after_shift q (Z.pos pe) r sh)
    as (M & R & HN & HR & HMq & HM' & Hex & Hgt); try lia.
  set (M' := round_nearest_even _ _) in *.
  set (g := if sh then e' + 1 else e').
  set (D := if sh then Z.pos pe * 2 else Z.pos pe) in *.
  assert (HM : 2 ^ 52 <= M < 2 ^ 53) by (destruct sh; lia).
  assert (Hg : -1073 <= g <= 0) by (unfold g, e'; destruct sh; lia).
  destruct (@ceil_after_rounding M' g) as (mf & ef & Hsh2 & Hef & Hceil);
    try lia.
  rewrite Hsh2. cbn [shr_m].
  replace (ef <=? emax - prec) with true
    by (symmetry; apply Z.leb_le; unfold emax, prec; lia).
  cbv beta iota. change (xorb false false) with false.
  eexists. split; [reflexivity |].
  rewrite Hceil. f_equal.
  assert (HG : 0 < 2 ^ (- g)) by (apply Z.pow_pos_nonneg; lia).
  assert (HD : 0 < D) by (unfold D; destruct sh; lia).
  assert (HSG : S = 2 ^ (- g) * (if sh then 2 else 1)).
  { unfold S, g, e'. destruct sh.
    - replace (Z.pos ps) with (Z.succ (- (d1 - d2 - 53 + 1))) by lia.
      rewrite Z.pow_succ_r by lia. ring.
    - replace (- (d1 - d2 - 53)) with (Z.pos ps) by lia. ring. }
  assert (Hid : Z.pos pn * S * Z.pos pe = Z.pos pn * D * 2 ^ (- g)).
  { rewrite HSG. unfold D. destruct sh; ring. }
  assert (HN' : Z.pos pn * S = D * M + R).
  { rewrite Hdm. rewrite <- HN. ring. }
  apply ceil_of_nearest with (D := D) (N := Z.pos pn * S) (M := M) (R := R);
    solve [assumption | lia].
Qed.

End TrueDivision.

Section CallPlan.
Local Open Scope Z_scope.
Import Simulations.

Lemma sum_app (xs ys : list Z) :
  fold_right Z.add 0 (xs ++ ys)
  = fold_right Z.add 0 xs + fold_right Z.add 0 ys.
Proof. induction xs as [| x xs IH]; simpl; lia. Qed.

Lemma range_length (n : Z) : List.length (range n) = Z.to_nat n.
Proof. unfold range. now rewrite length_map, length_seq. Qed.

Lemma range_bounds (n i : Z) : In i (range n) -> 0 <= i < n.
Proof.
  unfold range. rewrite in_map_iff. intros (k & <- & Hk).
  apply in_seq in Hk. lia.
Qed.

(** The shares of [c] calls, [rem] of them one event above [base]. *)
Lemma plan_sum (base rem : Z) (c : nat) :
  0 <= rem ->
  fold_right Z.add 0
    (map (fun i => base + (if i <? rem then 1 else 0))
         (map Z.of_nat (seq 0 c)))
  = Z.of_nat c * base + Z.min rem (Z.of_nat c).
Proof.
  intros Hrem. induction c as [| c IH].
  - simpl. lia.
  - rewrite seq_S, !map_app, sum_app, IH. cbn [map fold_right Nat.add].
    destruct (Z.ltb_spec (Z.of_nat c) rem); lia.
Qed.

Lemma map_constant {A B} (f : A -> B) (v : B) (l : list A) :
  (forall x, In x l -> f x = v) -> map f l = repeat v (List.length l).
Proof.
  induction l as [| x l IH]; intros Hf; [reflexivity |].
  cbn [map List.length repeat]. rewrite (Hf x) by (left; reflexivity).
  f_equal. apply IH. intros y Hy. apply Hf. right. exact Hy.
Qed.

(** The plan: [rem] shares of [base + 1], then shares of [base]. *)
Lemma plan_shape (base rem n_calls : Z) :
  0 <= rem <= n_calls ->
  map (fun i => base + (if i <? rem then 1 else 0)) (range n_calls)
  = repeat (base + 1) (Z.to_nat rem)
    ++ repeat base (Z.to_nat (n_calls - rem)).
Proof.
  intros Hr. unfold range.
  replace (Z.to_nat n_calls)
    with (Z.to_nat rem + Z.to_nat (n_calls - rem))%nat by lia.
  rewrite seq_app, !map_app. f_equal.
  - rewrite map_map.
    rewrite (@map_constant _ _ _ (base + 1)).
    + now rewrite length_seq.
    + intros k Hk. apply in_seq in Hk.
      destruct (Z.ltb_spec (Z.of_nat k) rem); lia.
  - rewrite map_map.
    rewrite (@map_constant _ _ _ base).
    + now rewrite length_seq.
    + intros k Hk. apply in_seq in Hk.
      destruct (Z.ltb_spec (Z.of_nat k) rem); lia.
Qed.

Lemma plan_of_calls (n_events n_calls : Z) :
  1 <= n_calls <= n_events ->
  let plan :=
    map (fun i => n_events / n_calls
                  + (if i <? n_events mod n_calls then 1 else 0))
        (range n_calls) in
  Z.of_nat (List.length plan) = n_calls
  /\ fold_right Z.add 0 plan = n_events
  /\ Forall (fun nev => 1 <= nev
                        /\ (nev = n_events / n_calls
                            \/ nev = n_events / n_calls + 1)) plan
  /\ filter (fun nev => negb (nev <=? 0)) plan = plan.
Proof.
  intros Hc plan.
  pose proof (Z.div_mod n_events n_calls ltac:(lia)) as Hdm.
  pose proof (Z.mod_pos_bound n_events n_calls ltac:(lia)) as Hmb.
  assert (Hbase : 1 <= n_events / n_calls).
  { apply Z.div_le_lower_bound; lia. }
  assert (Hall : Forall (fun nev => 1 <= nev
                        /\ (nev = n_events / n_calls
                            \/ nev = n_events / n_calls + 1)) plan).
  { apply Forall_forall. intros nev Hin. unfold plan in Hin.
    apply in_map_iff in Hin as (i & <- & _).
    destruct (i <? n_events mod n_calls); lia. }
  split; [| split; [| split]].
  - unfold plan. rewrite length_map, range_length. lia.
  - unfold plan, range. rewrite plan_sum by lia.
    rewrite Z2Nat.id by lia. nia.
  - exact Hall.
  - apply forallb_filter_id. apply forallb_forall. intros nev Hin.
    rewrite Forall_forall in Hall. apply Hall in Hin.
    apply negb_true_iff, Z.leb_gt. lia.
Qed.

Lemma call_plan_value (n_events max_chunks events_per_call : Z) :
  1 <= n_events < 2 ^ 53 -> events_per_call < 2 ^ 1021 ->
  call_plan n_events max_chunks events_per_call
  = let per_call := Z.max 1 events_per_call in
    let n_calls :=
      Z.min ((n_events + per_call - 1) / per_call) max_chunks in
    if n_calls =? 0 then inl ZeroDivisionError
    else inr (map (fun i => n_events / n_calls
                            + (if i <? n_events mod n_calls then 1 else 0))
                  (range n_calls)).
Proof.
  intros Hn He. unfold call_plan.
  destruct (@truediv_ceil n_events (Z.max 1 events_per_call))
    as (q & Hq & Hc); try lia.
  cbv zeta. rewrite Hq, Hc. reflexivity.
Qed.

Lemma calls_needed (n e : Z) :
  1 <= n -> 1 <= e ->
  let c := (n + e - 1) / e in
  1 <= c <= n /\ (c - 1) * e < n <= c * e.
Proof.
  intros Hn He c.
  pose proof (Z.div_mod (n + e - 1) e ltac:(lia)) as Hdm.
  pose proof (Z.mod_pos_bound (n + e - 1) e ltac:(lia)) as Hmb.
  fold c in Hdm. nia.
Qed.

End CallPlan.

(** X20.  [run_parametric_sample_from_gd], asked for [n_events] from 1 to
    below [2 ^ 53] with [max_chunks >= 1] (and [events_per_call] below
    [2 ^ 1021]), makes
    [min(ceil(n_events / max(1, events_per_call)), max_chunks)] calls of the
    simulation (the ceiling is the exact one: rounding the quotient to a float
    does not move it); the first [n_events % n_calls] calls ask for one event
    more than the floor of [n_events / n_calls], the others for the floor;
    every call asks for at least one event, and together they ask for exactly
    [n_events].  [events_per_call] bounds what one call asks for exactly when
    [max_chunks] does not cut the number of calls. *)
Theorem the_calls_share_the_events
    (n_events max_chunks events_per_call : Z) :
  (1 <= n_events < 2 ^ 53)%Z -> (1 <= max_chunks)%Z ->
  (events_per_call < 2 ^ 1021)%Z ->
  let per_call := Z.max 1 events_per_call in
  let needed := ((n_events + per_call - 1) / per_call)%Z in
  let n_calls := Z.min needed max_chunks in
  exists plan,
    Simulations.run_parametric_sample_from_gd
      n_events max_chunks events_per_call = inr plan
    /\ plan = repeat (n_events / n_calls + 1)%Z
                      (Z.to_nat (n_events mod n_calls))
              ++ repeat (n_events / n_calls)%Z
                   (Z.to_nat (n_calls - n_events mod n_calls))
    /\ Z.of_nat (List.length plan) = n_calls
    /\ fold_right Z.add 0%Z plan = n_events
    /\ Forall (fun nev => (1 <= nev)%Z
                          /\ (nev = (n_events / n_calls)%Z
                              \/ nev = (n_events / n_calls + 1)%Z)) plan
    /\ (Forall (fun nev => (nev <= per_call)%Z) plan
        <-> (needed <= max_chunks)%Z).
Proof.
  intros Hn Hmc He per_call needed n_calls.
  destruct (@calls_needed n_events per_call) as (Hc1 & Hc2);
    [lia | unfold per_call; lia |]. fold needed in Hc1, Hc2.
  assert (Hcalls : (1 <= n_calls <= n_events)%Z) by (unfold n_calls; lia).
  destruct (@plan_of_calls n_events n_calls Hcalls)
    as (Hlen & Hsum & Hall & Hfilter).
  set (plan := map _ (Simulations.range n_calls)) in *.
  exists plan.
  assert (Hrun : Simulations.run_parametric_sample_from_gd
                   n_events max_chunks events_per_call = inr plan).
  { unfold Simulations.run_parametric_sample_from_gd.
    replace (n_events <=? 0)%Z with false by (symmetry; apply Z.leb_gt; lia).
    rewrite call_plan_value by lia. cbv zeta.
    fold per_call. fold needed. fold n_calls.
    replace (n_calls =? 0)%Z with false by (symmetry; apply Z.eqb_neq; lia).
    fold plan. now rewrite Hfilter. }
  pose proof (Z.div_mod n_events n_calls ltac:(lia)) as Hdm.
  pose proof (Z.mod_pos_bound n_events n_calls ltac:(lia)) as Hmb.
  split; [exact Hrun |].
  split; [unfold plan; apply plan_shape; lia |].
  split; [exact Hlen |]. split; [exact Hsum |].
  split; [exact Hall |].
  split.
  - intros Hle.
    destruct (Z.le_gt_cases needed max_chunks) as [Hok | Hcut]; [exact Hok |].
    exfalso.
    assert (Hnc : n_calls = max_chunks) by (unfold n_calls; lia).
    assert (Hbig : (max_chunks * per_call < n_events)%Z) by nia.
    assert (Hin : In (n_events / n_calls
                      + (if 0 <? n_events mod n_calls then 1 else 0))%Z plan).
    { unfold plan. apply in_map_iff. exists 0%Z. split; [reflexivity |].
      unfold Simulations.range. apply in_map_iff. exists 0%nat.
      split; [reflexivity |]. apply in_seq. lia. }
    rewrite Forall_forall in Hle. apply Hle in Hin.
    rewrite Hnc in *.
    destruct (Z.ltb_spec 0 (n_events mod max_chunks)); nia.
  - intros Hok.
    assert (Hnc : n_calls = needed) by (unfold n_calls; lia).
    apply Forall_forall. intros nev Hin. unfold plan in Hin.
    apply in_map_iff in Hin as (i & <- & Hi).
    apply range_bounds in Hi.
    rewrite Hnc in *.
    destruct (Z.ltb_spec i (n_events mod needed)); nia.
Qed.

Lemma the_calls_share_the_events_witness :
  exists plan,
    Simulations.run_parametric_sample_from_gd 5000 10 100 = inr plan
    /\ plan = repeat 501%Z 0 ++ repeat 500%Z 10
    /\ Z.of_nat (List.length plan) = 10%Z
    /\ fold_right Z.add 0%Z plan = 5000%Z
    /\ Forall (fun nev => (1 <= nev)%Z
                          /\ (nev = 500 \/ nev = 501)%Z) plan
    /\ (Forall (fun nev => (nev <= 100)%Z) plan <-> (50 <= 10)%Z).
Proof.
  apply (@the_calls_share_the_events 5000 10 100); vm_compute;
    intuition discriminate.
Defined.

(** X21.  The edges of the call plan.  With [n_events <= 0] no call is made
    and nothing is raised, whatever the other arguments.  With
    [1 <= n_events < 2 ^ 53], [max_chunks = 0] raises [ZeroDivisionError]
    (at [n_events // n_calls]), and a negative [max_chunks] makes no call at
    all and raises nothing: the events asked for are dropped silently. *)
Theorem no_chunks_no_calls :
  (forall n_events max_chunks events_per_call : Z,
      (n_events <= 0)%Z ->
      Simulations.run_parametric_sample_from_gd
        n_events max_chunks events_per_call = inr [])
  /\ (forall n_events max_chunks events_per_call : Z,
        (1 <= n_events < 2 ^ 53)%Z -> (events_per_call < 2 ^ 1021)%Z ->
        (max_chunks <= 0)%Z ->
        Simulations.run_parametric_sample_from_gd
          n_events max_chunks events_per_call
        = if (max_chunks =? 0)%Z then inl Simulations.ZeroDivisionError
          else inr []).
Proof.
  split.
  - intros n_events max_chunks events_per_call Hn.
    unfold Simulations.run_parametric_sample_from_gd.
    now replace (n_events <=? 0)%Z with true by (symmetry; apply Z.leb_le; lia).
  - intros n_events max_chunks events_per_call Hn He Hmc.
    unfold Simulations.run_parametric_sample_from_gd.
    replace (n_events <=? 0)%Z with false by (symmetry; apply Z.leb_gt; lia).
    rewrite call_plan_value by lia. cbv zeta.
    destruct (@calls_needed n_events (Z.max 1 events_per_call))
      as (Hc1 & _); [lia | lia |].
    rewrite Z.min_r by lia.
    destruct (Z.eqb_spec max_chunks 0) as [E | E]; [reflexivity |].
    unfold Simulations.range.
    replace (Z.to_nat max_chunks) with 0%nat by lia. reflexivity.
Qed.

Lemma no_chunks_no_calls_witness :
  Simulations.run_parametric_sample_from_gd 0 10 100 = inr []
  /\ Simulations.run_parametric_sample_from_gd 300 0 100
     = inl Simulations.ZeroDivisionError
  /\ Simulations.run_parametric_sample_from_gd 300 (-1) 100 = inr [].
Proof.
  destruct no_chunks_no_calls as (H0 & H1).
  split; [apply H0; lia |].
  split; [apply (H1 300 0 100)%Z | apply (H1 300 (-1) 100)%Z];
    vm_compute; intuition discriminate.
Defined.
